(** * Marco-DeepResearch / Table-as-Search: governance and scheduling core

    A shallow embedding of the resource governors, the call governor, the
    context compactor, the isolated invocation of managed agents, the batch
    scheduler's timeout and resume logic and [run_inference], followed by the
    properties proved about them.

    Python integers are unbounded and are modelled by [Z]. Text is modelled
    by [string] (the UTF-8 bytes of the Python text). Every governor method
    runs under [with self._lock], so each call is one indivisible step; the
    model is the sequence of those steps. *)

From Stdlib Require Import ZArith Lia Bool Ascii String List.
From stdpp Require Import base option list strings gmap pretty.

Set Warnings "-register-all".

Local Open Scope Z_scope.

(* ===================================================================== *)
(** * 1. Resource governors                                               *)
(* ===================================================================== *)

(** The three counter classes ([GlobalSearchCounter] in
    tools/google_search_tool.py, [GlobalVisitCounter] in tools/jina_visit.py,
    [GlobalCreateTableCounter] in tools/db_table_code_v2.py) have the same
    instance attributes: [limit], [count] and the lock. *)
Record Counter : Type := MkCounter { limit : Z; count : Z }.

Module GlobalSearchCounter.
Definition default_limit : Z := 100.

Definition __init__ (limit : Z) : Counter :=
  {| limit := limit; count := 0 |}.

Definition try_increment (self : Counter) : bool * Counter :=
  if self.(count) >=? self.(limit) then (false, self)
  else (true, {| limit := self.(limit); count := self.(count) + 1 |}).

Definition get_count (self : Counter) : Z := self.(count).

Definition get_remaining (self : Counter) : Z :=
  Z.max 0 (self.(limit) - self.(count)).

Definition reset (self : Counter) : Counter :=
  {| limit := self.(limit); count := 0 |}.
End GlobalSearchCounter.

Module GlobalVisitCounter.
Definition default_limit : Z := 100.

Definition __init__ (limit : Z) : Counter :=
  {| limit := limit; count := 0 |}.

Definition try_increment (self : Counter) : bool * Counter :=
  if self.(count) >=? self.(limit) then (false, self)
  else (true, {| limit := self.(limit); count := self.(count) + 1 |}).

Definition get_count (self : Counter) : Z := self.(count).

Definition get_remaining (self : Counter) : Z :=
  Z.max 0 (self.(limit) - self.(count)).

Definition reset (self : Counter) : Counter :=
  {| limit := self.(limit); count := 0 |}.
End GlobalVisitCounter.

Module GlobalCreateTableCounter.
Definition default_limit : Z := 1.

Definition __init__ (limit : Z) : Counter :=
  {| limit := limit; count := 0 |}.

Definition try_increment (self : Counter) : bool * Counter :=
  if self.(count) >=? self.(limit) then (false, self)
  else (true, {| limit := self.(limit); count := self.(count) + 1 |}).

Definition get_count (self : Counter) : Z := self.(count).

Definition get_remaining (self : Counter) : Z :=
  Z.max 0 (self.(limit) - self.(count)).

Definition reset (self : Counter) : Counter :=
  {| limit := self.(limit); count := 0 |}.
End GlobalCreateTableCounter.

(** The governed resource kinds and the dispatch to the class of each. *)
Inductive GovernorKind : Type := SearchGovernor | VisitGovernor | CreateTableGovernor.

Module ResourceGovernor.
Definition __init__ (k : GovernorKind) : Z -> Counter :=
  match k with
  | SearchGovernor => GlobalSearchCounter.__init__
  | VisitGovernor => GlobalVisitCounter.__init__
  | CreateTableGovernor => GlobalCreateTableCounter.__init__
  end.

Definition try_increment (k : GovernorKind) : Counter -> bool * Counter :=
  match k with
  | SearchGovernor => GlobalSearchCounter.try_increment
  | VisitGovernor => GlobalVisitCounter.try_increment
  | CreateTableGovernor => GlobalCreateTableCounter.try_increment
  end.

Definition get_count (k : GovernorKind) : Counter -> Z :=
  match k with
  | SearchGovernor => GlobalSearchCounter.get_count
  | VisitGovernor => GlobalVisitCounter.get_count
  | CreateTableGovernor => GlobalCreateTableCounter.get_count
  end.

Definition get_remaining (k : GovernorKind) : Counter -> Z :=
  match k with
  | SearchGovernor => GlobalSearchCounter.get_remaining
  | VisitGovernor => GlobalVisitCounter.get_remaining
  | CreateTableGovernor => GlobalCreateTableCounter.get_remaining
  end.

Definition reset (k : GovernorKind) : Counter -> Counter :=
  match k with
  | SearchGovernor => GlobalSearchCounter.reset
  | VisitGovernor => GlobalVisitCounter.reset
  | CreateTableGovernor => GlobalCreateTableCounter.reset
  end.

(** One call on a governor, and what it returns to its caller. *)
Inductive Op : Type := TryIncrement | GetCount | GetRemaining | Reset.
Inductive Ret : Type := RetBool (b : bool) | RetInt (z : Z) | RetNone.

Definition call (k : GovernorKind) (o : Op) (g : Counter) : Ret * Counter :=
  match o with
  | TryIncrement => let '(b, g') := try_increment k g in (RetBool b, g')
  | GetCount => (RetInt (get_count k g), g)
  | GetRemaining => (RetInt (get_remaining k g), g)
  | Reset => (RetNone, reset k g)
  end.

(** A sequence of calls on one shared governor, in the order in which the
    lock serialises them: the returned values and the final state. *)
Fixpoint run (k : GovernorKind) (ops : list Op) (g : Counter) : list Ret * Counter :=
  match ops with
  | [] => ([], g)
  | o :: ops' =>
      let '(r, g') := call k o g in
      let '(rs, g'') := run k ops' g' in
      (r :: rs, g'')
  end.

(** [n] consecutive [try_increment] calls: their results, in order. *)
Fixpoint try_many (k : GovernorKind) (n : nat) (g : Counter) : list bool * Counter :=
  match n with
  | O => ([], g)
  | S n' =>
      let '(b, g') := try_increment k g in
      let '(bs, g'') := try_many k n' g' in
      (b :: bs, g'')
  end.

Definition successes (bs : list bool) : Z :=
  Z.of_nat (length (filter (fun b => b = true) bs)).

(** The number of calls of a run that returned true. *)
Definition is_granted (r : Ret) : bool :=
  match r with RetBool true => true | _ => false end.

Definition granted (rs : list Ret) : Z :=
  Z.of_nat (length (filter (fun r => is_granted r = true) rs)).
End ResourceGovernor.

(** [vars(self)]: the instance attributes that [__init__] creates. No
    method of the three classes creates another one. *)
Inductive AttrValue : Type :=
| AInt (z : Z)
| ALock
| AList (entries : list (Z * string)).

Definition Counter_vars (g : Counter) : list (string * AttrValue) :=
  [("limit", AInt g.(limit)); ("count", AInt g.(count)); ("_lock", ALock)]%string.

Fixpoint assoc {V : Type} (k : string) (d : list (string * V)) : option V :=
  match d with
  | [] => None
  | (k', v) :: d' => if String.eqb k' k then Some v else assoc k d'
  end.

(** [getattr(self, name)], [None] standing for [AttributeError]. *)
Definition Counter_getattr (g : Counter) (name : string) : option AttrValue :=
  assoc name (Counter_vars g).

(* ===================================================================== *)
(** * 2. Python values, exceptions and dictionaries                       *)
(* ===================================================================== *)

(** Object identities. *)
Definition loc : Type := nat.

(** The Python values the program handles. A float is kept as the two
    things the program observes of it: whether it is non-zero (truth value)
    and its text. [PRef] is a reference to an object. *)
Inductive pyval : Type :=
| PNone
| PBool (b : bool)
| PInt (z : Z)
| PFloat (nonzero : bool) (text : string)
| PStr (s : string)
| PList (items : list pyval)
| PDict (items : list (string * pyval))
| PRef (l : loc).

(** [bool(v)] *)
Definition truthy (v : pyval) : bool :=
  match v with
  | PNone => false
  | PBool b => b
  | PInt z => negb (z =? 0)
  | PFloat nz _ => nz
  | PStr s => negb (String.eqb s "")
  | PList l => match l with [] => false | _ => true end
  | PDict d => match d with [] => false | _ => true end
  | PRef _ => true
  end.

(** A raised exception: its class name, whether the class derives from
    [Exception] (what [except Exception] catches; [KeyboardInterrupt],
    [SystemExit] and [GeneratorExit] do not), and [str(e)]. *)
Record PyExc : Type := MkExc {
  exc_type : string;
  exc_is_Exception : bool;
  exc_str : string
}.

Definition KeyError (key : string) : PyExc :=
  {| exc_type := "KeyError"; exc_is_Exception := true;
     exc_str := "'" +:+ key +:+ "'" |}.

Definition AttributeError (msg : string) : PyExc :=
  {| exc_type := "AttributeError"; exc_is_Exception := true; exc_str := msg |}.

Definition TypeError (msg : string) : PyExc :=
  {| exc_type := "TypeError"; exc_is_Exception := true; exc_str := msg |}.

(** The outcome of a call: a value, or an exception that propagates. *)
Inductive result (A : Type) : Type :=
| Ok (a : A)
| Raise (e : PyExc).
Arguments Ok {A} a.
Arguments Raise {A} e.

Global Instance result_ret : MRet result := fun A a => Ok a.
Global Instance result_bind : MBind result := fun A B k c =>
  match c with
  | Ok a => k a
  | Raise e => Raise e
  end.

Fixpoint mapM {A B : Type} (f : A -> result B) (l : list A) : result (list B) :=
  match l with
  | [] => Ok []
  | a :: l' => b ← f a; bs ← mapM f l'; Ok (b :: bs)
  end.

(** A Python [dict] with string keys: the items in insertion order, every
    key at most once. *)
Module PyDict.
Definition get {V : Type} (d : list (string * V)) (k : string) : option V :=
  assoc k d.

(** [k in d] *)
Definition contains {V : Type} (d : list (string * V)) (k : string) : bool :=
  match get d k with Some _ => true | None => false end.

(** [d[k]] *)
Definition getitem {V : Type} (d : list (string * V)) (k : string) : result V :=
  match get d k with Some v => Ok v | None => Raise (KeyError k) end.

(** [d[k] = v]: a present key keeps its position, a new key goes last. *)
Fixpoint set {V : Type} (d : list (string * V)) (k : string) (v : V)
  : list (string * V) :=
  match d with
  | [] => [(k, v)]
  | (k', v') :: d' =>
      if String.eqb k' k then (k', v) :: d' else (k', v') :: set d' k v
  end.

Definition keys {V : Type} (d : list (string * V)) : list string := map fst d.

(** [{k: f(k) for k in ks}] *)
Definition comprehension {V : Type} (ks : list string) (f : string -> V)
  : list (string * V) :=
  fold_left (fun d k => set d k (f k)) ks [].

(** The representation invariant. *)
Definition wf {V : Type} (d : list (string * V)) : Prop := NoDup (keys d).
End PyDict.

(** [sep.join(parts)] *)
Fixpoint join (sep : string) (parts : list string) : string :=
  match parts with
  | [] => ""
  | [p] => p
  | p :: rest => p +:+ sep +:+ join sep rest
  end.

(** [sub in s] as a proposition. *)
Definition occurs_in (sub s : string) : Prop :=
  exists pre post, s = pre +:+ sub +:+ post.

(** [str(n)] / [f"{n}"] of an [int]. *)
Definition str_int (z : Z) : string := pretty z.

(* ===================================================================== *)
(** * 3. Call governor (run_widesearch_inference.py)                      *)
(* ===================================================================== *)

(** An integer or [float('inf')]. *)
Inductive Bound : Type := Finite (z : Z) | Infinity.

Definition str_bound (b : Bound) : string :=
  match b with Finite z => str_int z | Infinity => "inf" end.

Record CallEntry : Type := MkCallEntry { call_number : Z; timestamp : string }.

Record AgentStatus : Type := MkStatus {
  status_count : Z; status_limit : Z; status_remaining : Z
}.

Module GlobalManagedAgentCounter.
Record t : Type := Mk {
  limits : list (string * Z);
  counts : list (string * Z);
  call_history : list (string * list CallEntry)
}.

(** [limits or {}] shares the caller's dictionary; [counts] and
    [call_history] get one entry per key of it. *)
Definition __init__ (limits : option (list (string * Z))) : t :=
  let limits := match limits with
                | Some ((_ :: _) as d) => d
                | _ => []
                end in
  {| limits := limits;
     counts := PyDict.comprehension (PyDict.keys limits) (fun _ => 0);
     call_history := PyDict.comprehension (PyDict.keys limits) (fun _ => []) |}.

(** [now] is [datetime.now().isoformat()] at the time of the call. *)
Definition try_increment (self : t) (agent_name : string) (now : string)
  : result (bool * t) :=
  if negb (PyDict.contains self.(limits) agent_name) then Ok (true, self)
  else
    c ← PyDict.getitem self.(counts) agent_name;
    l ← PyDict.getitem self.(limits) agent_name;
    if c >=? l then Ok (false, self)
    else
      c0 ← PyDict.getitem self.(counts) agent_name;
      let counts' := PyDict.set self.(counts) agent_name (c0 + 1) in
      h ← PyDict.getitem self.(call_history) agent_name;
      c1 ← PyDict.getitem counts' agent_name;
      let entry := {| call_number := c1; timestamp := now |} in
      Ok (true,
          {| limits := self.(limits);
             counts := counts';
             call_history := PyDict.set self.(call_history) agent_name (h ++ [entry]) |}).

Definition get_count (self : t) (agent_name : string) : Z :=
  default 0 (PyDict.get self.(counts) agent_name).

Definition get_limit (self : t) (agent_name : string) : Bound :=
  match PyDict.get self.(limits) agent_name with
  | Some l => Finite l
  | None => Infinity
  end.

Definition get_remaining (self : t) (agent_name : string) : result Bound :=
  if negb (PyDict.contains self.(limits) agent_name) then Ok Infinity
  else
    l ← PyDict.getitem self.(limits) agent_name;
    c ← PyDict.getitem self.(counts) agent_name;
    Ok (Finite (Z.max 0 (l - c))).

Definition get_all_status (self : t) : result (list (string * AgentStatus)) :=
  mapM (fun agent_name =>
          c ← PyDict.getitem self.(counts) agent_name;
          l ← PyDict.getitem self.(limits) agent_name;
          l1 ← PyDict.getitem self.(limits) agent_name;
          c1 ← PyDict.getitem self.(counts) agent_name;
          Ok (agent_name,
              {| status_count := c; status_limit := l;
                 status_remaining := Z.max 0 (l1 - c1) |}))
       (PyDict.keys self.(limits)).

(** [get_statistics]: copies of the three dictionaries. *)
Definition get_statistics (self : t) : pyval :=
  PDict
    [ ("limits", PDict (map (fun '(k, v) => (k, PInt v)) self.(limits)));
      ("counts", PDict (map (fun '(k, v) => (k, PInt v)) self.(counts)));
      ("call_history",
       PDict (map (fun '(k, h) =>
                     (k, PList (map (fun e => PDict
                                       [ ("call_number", PInt e.(call_number));
                                         ("timestamp", PStr e.(timestamp)) ]%string)
                                    h)))
                  self.(call_history))) ]%string.

Definition reset_all (self : t) : t :=
  {| limits := self.(limits);
     counts := map (fun '(k, _) => (k, 0)) self.(counts);
     call_history :=
       fold_left (fun h k => PyDict.set h k []) (PyDict.keys self.(counts))
         self.(call_history) |}.

Definition reset (self : t) (agent_name : option string) : t :=
  match agent_name with
  | Some name =>
      if negb (String.eqb name "") then
        if PyDict.contains self.(counts) name then
          {| limits := self.(limits);
             counts := PyDict.set self.(counts) name 0;
             call_history := PyDict.set self.(call_history) name [] |}
        else self
      else reset_all self
  | None => reset_all self
  end.

(** Sequential [try_increment] calls, each given as the agent name and the
    time of the call: the results in order, or the first exception. *)
Fixpoint try_seq (self : t) (calls : list (string * string))
  : result (list bool * t) :=
  match calls with
  | [] => Ok ([], self)
  | (agent_name, now) :: calls' =>
      '(b, self') ← try_increment self agent_name now;
      '(bs, self'') ← try_seq self' calls';
      Ok (b :: bs, self'')
  end.

(** The number of calls for [agent_name] among the first [i] of [calls]. *)
Definition earlier_calls (calls : list (string * string)) (i : nat)
    (agent_name : string) : Z :=
  Z.of_nat (length (filter (fun c => c.1 = agent_name) (take i calls))).

(** The entries of a history are numbered 1, 2, ..., [c]. *)
Definition numbered (h : list CallEntry) (c : Z) : Prop :=
  map call_number h = map Z.of_nat (seq 1 (Z.to_nat c)).

(** What holds of every governor built from the limits [m]: the limits
    are [m], and each governed name has a count within its limit and a
    history with one numbered entry per counted call. *)
Definition invariant (m : list (string * Z)) (g : t) : Prop :=
  g.(limits) = m /\
  forall agent_name k, assoc agent_name m = Some k ->
    exists c h,
      assoc agent_name g.(counts) = Some c /\ 0 <= c <= k /\
      assoc agent_name g.(call_history) = Some h /\ numbered h c.

(** Calls that change or query the governor, in the order in which the
    lock serialises them. *)
Inductive Op : Type :=
| TryIncrement (agent_name now : string)
| Reset (agent_name : option string)
| GetCount (agent_name : string)
| GetLimit (agent_name : string)
| GetRemaining (agent_name : string)
| GetAllStatus.

Definition call (o : Op) (self : t) : result t :=
  match o with
  | TryIncrement agent_name now =>
      '(_, self') ← try_increment self agent_name now; Ok self'
  | Reset agent_name => Ok (reset self agent_name)
  | GetCount _ | GetLimit _ => Ok self
  | GetRemaining agent_name => _ ← get_remaining self agent_name; Ok self
  | GetAllStatus => _ ← get_all_status self; Ok self
  end.

Fixpoint run (ops : list Op) (self : t) : result t :=
  match ops with
  | [] => Ok self
  | o :: ops' => self' ← call o self; run ops' self'
  end.
End GlobalManagedAgentCounter.

(* ===================================================================== *)
(** * 4. Execution context (smolagents.memory) and agents                 *)
(* ===================================================================== *)

Record TokenUsage : Type := MkTokenUsage { input_tokens : Z; output_tokens : Z }.

(** A tool call of an action step; [tc_arguments] is [str(tc.arguments)]. *)
Record ToolCall : Type := MkToolCall { tc_name : string; tc_arguments : string }.

(** The steps of a memory. [ActionStep], [PlanningStep] and [TaskStep] are
    the library's, [SummaryStep] is declared in
    tools/context_summary_toolcalling_agent.py; [OtherStep] stands for the
    library's remaining step classes (final answer, system prompt). *)
Inductive Step : Type :=
| TaskStep (task : string)
| PlanningStep (plan : string) (token_usage : option TokenUsage)
| ActionStep (step_number : Z) (model_output : option string)
    (tool_calls : option (list ToolCall)) (observations : option string)
    (error : option string) (token_usage : option TokenUsage)
| SummaryStep (original_task : string) (summary : string)
    (summarized_steps_count : Z) (tokens_before_summary : Z)
| OtherStep.

(** [AgentMemory]: the system prompt step and the step log. *)
Record AgentMemory : Type := MkMemory { mem_system_prompt : string; steps : list Step }.

Module Memory.
(** [AgentMemory(system_prompt)] *)
Definition __init__ (system_prompt : string) : AgentMemory :=
  {| mem_system_prompt := system_prompt; steps := [] |}.

(** [memory.reset()] *)
Definition reset (m : AgentMemory) : AgentMemory :=
  {| mem_system_prompt := m.(mem_system_prompt); steps := [] |}.

(** [memory.steps.append(step)] *)
Definition append (m : AgentMemory) (s : Step) : AgentMemory :=
  {| mem_system_prompt := m.(mem_system_prompt); steps := m.(steps) ++ [s] |}.
End Memory.

(** An agent object. The attributes that
    [_create_agent_copy_for_call] reads without a guard are fields; those it
    reads under [hasattr] live in [optional_attrs], present or not. Tools,
    model, prompt templates, logger and managed agents are references. *)
Module Agent.
Record t : Type := Mk {
  class : string;
  tools : list (string * loc);
  model : loc;
  prompt_templates : loc;
  max_steps : Z;
  planning_interval : option Z;
  name : option string;
  description : option string;
  provide_run_summary : bool;
  logger : loc;
  managed_agents : option (list (string * loc));
  system_prompt : string;
  optional_attrs : gmap string pyval;
  memory : loc;
  step_number : Z;
  state : loc;
  inputs : option pyval;
  output_type : option pyval
}.
End Agent.

(** The objects of the heap. *)
Inductive Obj : Type :=
| OAgent (a : Agent.t)
| OMemory (m : AgentMemory)
| ODict (d : list (string * pyval))
| OOpaque.

(** Allocation of a new object: an identity no live object has. *)
Definition alloc (h : gmap loc Obj) (o : Obj) : loc * gmap loc Obj :=
  let l := fresh (dom h) in (l, <[l := o]> h).

(** The keyword arguments that [_create_agent_copy_for_call] passes to the
    class of the template. *)
Record InitKwargs : Type := MkKwargs {
  kw_tools : list (string * loc);
  kw_model : loc;
  kw_prompt_templates : loc;
  kw_max_steps : Z;
  kw_planning_interval : option Z;
  kw_name : option string;
  kw_description : option string;
  kw_provide_run_summary : bool;
  kw_logger : loc;
  kw_managed_agents : option (list (string * loc));
  kw_optional : gmap string pyval
}.

(** The state that [execute_tool_call] of the coordinating agent works on:
    the heap, the coordinator's [managed_agents] dictionary and its
    [managed_agent_counter] ([None]: the attribute is missing or is None). *)
Record World : Type := MkWorld {
  heap : gmap loc Obj;
  self_managed_agents : list (string * loc);
  self_managed_agent_counter : option GlobalManagedAgentCounter.t
}.

(** What the program takes from the smolagents library: whether the
    constructor of an agent class rejects the keyword arguments, and
    [ToolCallingAgent.execute_tool_call], which resolves the name in
    [self.tools] and [self.managed_agents] and calls what it finds. *)
Record Library : Type := MkLibrary {
  constructor_raises : string -> InitKwargs -> option PyExc;
  super_execute_tool_call : World -> string -> pyval -> result pyval * World
}.

Module MemoryManagedToolCallingAgent.
(** The attributes copied only when the template has them. *)
Definition guarded_attrs : list string :=
  [ "instructions"; "final_answer_checks"; "return_full_result";
    "stream_outputs"; "max_tool_threads"; "tool_response_retention_budget";
    "context_token_threshold"; "summary_model_name"; "summary_system_prompt";
    "summary_user_template"; "min_steps_before_summary"; "summary_timeout";
    "summary_temperature"; "summary_max_retries" ]%string.

Definition init_kwargs (original_agent : Agent.t) : InitKwargs :=
  {| kw_tools := original_agent.(Agent.tools);
     kw_model := original_agent.(Agent.model);
     kw_prompt_templates := original_agent.(Agent.prompt_templates);
     kw_max_steps := original_agent.(Agent.max_steps);
     kw_planning_interval := original_agent.(Agent.planning_interval);
     kw_name := original_agent.(Agent.name);
     kw_description := original_agent.(Agent.description);
     kw_provide_run_summary := original_agent.(Agent.provide_run_summary);
     kw_logger := original_agent.(Agent.logger);
     kw_managed_agents :=
       match original_agent.(Agent.managed_agents) with
       | Some ((_ :: _) as d) => Some d
       | _ => None
       end;
     kw_optional :=
       filter (fun kv => kv.1 ∈ guarded_attrs) original_agent.(Agent.optional_attrs) |}.

(** The instantiation of the template's class with the keyword
    arguments [init_kwargs]: the library constructor keeps
    the references it is given and creates a memory, a step counter and a
    state of its own. *)
Definition construct (lib : Library) (class : string) (system_prompt : string)
    (kw : InitKwargs) (h : gmap loc Obj) : result (loc * gmap loc Obj) :=
  match lib.(constructor_raises) class kw with
  | Some e => Raise e
  | None =>
      let '(m, h1) := alloc h (OMemory (Memory.__init__ system_prompt)) in
      let '(d, h2) := alloc h1 (ODict []) in
      Ok (alloc h2 (OAgent
            {| Agent.class := class;
               Agent.tools := kw.(kw_tools);
               Agent.model := kw.(kw_model);
               Agent.prompt_templates := kw.(kw_prompt_templates);
               Agent.max_steps := kw.(kw_max_steps);
               Agent.planning_interval := kw.(kw_planning_interval);
               Agent.name := kw.(kw_name);
               Agent.description := kw.(kw_description);
               Agent.provide_run_summary := kw.(kw_provide_run_summary);
               Agent.logger := kw.(kw_logger);
               Agent.managed_agents := Some (default [] kw.(kw_managed_agents));
               Agent.system_prompt := system_prompt;
               Agent.optional_attrs := kw.(kw_optional);
               Agent.memory := m;
               Agent.step_number := 0;
               Agent.state := d;
               Agent.inputs := None;
               Agent.output_type := None |}))
  end.

(** Attribute assignments on the agent object at [l]. *)
Definition update_agent (l : loc) (f : Agent.t -> Agent.t) (h : gmap loc Obj)
  : gmap loc Obj :=
  match h !! l with
  | Some (OAgent a) => <[l := OAgent (f a)]> h
  | _ => h
  end.

Definition set_memory (m : loc) (a : Agent.t) : Agent.t :=
  {| Agent.class := a.(Agent.class); Agent.tools := a.(Agent.tools);
     Agent.model := a.(Agent.model);
     Agent.prompt_templates := a.(Agent.prompt_templates);
     Agent.max_steps := a.(Agent.max_steps);
     Agent.planning_interval := a.(Agent.planning_interval);
     Agent.name := a.(Agent.name); Agent.description := a.(Agent.description);
     Agent.provide_run_summary := a.(Agent.provide_run_summary);
     Agent.logger := a.(Agent.logger);
     Agent.managed_agents := a.(Agent.managed_agents);
     Agent.system_prompt := a.(Agent.system_prompt);
     Agent.optional_attrs := a.(Agent.optional_attrs);
     Agent.memory := m;
     Agent.step_number := a.(Agent.step_number);
     Agent.state := a.(Agent.state);
     Agent.inputs := a.(Agent.inputs);
     Agent.output_type := a.(Agent.output_type) |}.

Definition set_step_number (n : Z) (a : Agent.t) : Agent.t :=
  {| Agent.class := a.(Agent.class); Agent.tools := a.(Agent.tools);
     Agent.model := a.(Agent.model);
     Agent.prompt_templates := a.(Agent.prompt_templates);
     Agent.max_steps := a.(Agent.max_steps);
     Agent.planning_interval := a.(Agent.planning_interval);
     Agent.name := a.(Agent.name); Agent.description := a.(Agent.description);
     Agent.provide_run_summary := a.(Agent.provide_run_summary);
     Agent.logger := a.(Agent.logger);
     Agent.managed_agents := a.(Agent.managed_agents);
     Agent.system_prompt := a.(Agent.system_prompt);
     Agent.optional_attrs := a.(Agent.optional_attrs);
     Agent.memory := a.(Agent.memory);
     Agent.step_number := n;
     Agent.state := a.(Agent.state);
     Agent.inputs := a.(Agent.inputs);
     Agent.output_type := a.(Agent.output_type) |}.

Definition set_state (d : loc) (a : Agent.t) : Agent.t :=
  {| Agent.class := a.(Agent.class); Agent.tools := a.(Agent.tools);
     Agent.model := a.(Agent.model);
     Agent.prompt_templates := a.(Agent.prompt_templates);
     Agent.max_steps := a.(Agent.max_steps);
     Agent.planning_interval := a.(Agent.planning_interval);
     Agent.name := a.(Agent.name); Agent.description := a.(Agent.description);
     Agent.provide_run_summary := a.(Agent.provide_run_summary);
     Agent.logger := a.(Agent.logger);
     Agent.managed_agents := a.(Agent.managed_agents);
     Agent.system_prompt := a.(Agent.system_prompt);
     Agent.optional_attrs := a.(Agent.optional_attrs);
     Agent.memory := a.(Agent.memory);
     Agent.step_number := a.(Agent.step_number);
     Agent.state := d;
     Agent.inputs := a.(Agent.inputs);
     Agent.output_type := a.(Agent.output_type) |}.

Definition set_inputs (i o : option pyval) (a : Agent.t) : Agent.t :=
  {| Agent.class := a.(Agent.class); Agent.tools := a.(Agent.tools);
     Agent.model := a.(Agent.model);
     Agent.prompt_templates := a.(Agent.prompt_templates);
     Agent.max_steps := a.(Agent.max_steps);
     Agent.planning_interval := a.(Agent.planning_interval);
     Agent.name := a.(Agent.name); Agent.description := a.(Agent.description);
     Agent.provide_run_summary := a.(Agent.provide_run_summary);
     Agent.logger := a.(Agent.logger);
     Agent.managed_agents := a.(Agent.managed_agents);
     Agent.system_prompt := a.(Agent.system_prompt);
     Agent.optional_attrs := a.(Agent.optional_attrs);
     Agent.memory := a.(Agent.memory);
     Agent.step_number := a.(Agent.step_number);
     Agent.state := a.(Agent.state);
     Agent.inputs := match i with Some v => Some v | None => a.(Agent.inputs) end;
     Agent.output_type :=
       match o with Some v => Some v | None => a.(Agent.output_type) end |}.

Definition _create_agent_copy_for_call (lib : Library) (original_agent : Agent.t)
    (h : gmap loc Obj) : result (loc * gmap loc Obj) :=
  '(agent_copy, h) ← construct lib original_agent.(Agent.class)
                        original_agent.(Agent.system_prompt)
                        (init_kwargs original_agent) h;
  (* agent_copy.memory = AgentMemory(original_agent.system_prompt) *)
  let '(m, h) := alloc h (OMemory (Memory.__init__ original_agent.(Agent.system_prompt))) in
  let h := update_agent agent_copy (set_memory m) h in
  (* agent_copy.step_number = 0 *)
  let h := update_agent agent_copy (set_step_number 0) h in
  (* agent_copy.state = {} *)
  let '(d, h) := alloc h (ODict []) in
  let h := update_agent agent_copy (set_state d) h in
  (* inputs and output_type, when the template has them *)
  let h := update_agent agent_copy
             (set_inputs original_agent.(Agent.inputs) original_agent.(Agent.output_type)) h in
  Ok (agent_copy, h).

Definition with_heap (w : World) (h : gmap loc Obj) : World :=
  {| heap := h; self_managed_agents := w.(self_managed_agents);
     self_managed_agent_counter := w.(self_managed_agent_counter) |}.

Definition with_counter (w : World) (c : GlobalManagedAgentCounter.t) : World :=
  {| heap := w.(heap); self_managed_agents := w.(self_managed_agents);
     self_managed_agent_counter := Some c |}.

(** [self.managed_agents[tool_name] = ref] *)
Definition bind_managed_agent (w : World) (tool_name : string) (ref : loc) : World :=
  {| heap := w.(heap);
     self_managed_agents := PyDict.set w.(self_managed_agents) tool_name ref;
     self_managed_agent_counter := w.(self_managed_agent_counter) |}.

(** One line of the status report: the f-string
    "  - {agent_name}: {count}/{limit} calls used, {remaining} remaining". *)
Definition status_line (agent_name : string) (used limit remaining : Z) : string :=
  "  - " +:+ agent_name +:+ ": " +:+ str_int used +:+ "/" +:+ str_int limit
    +:+ " calls used, " +:+ str_int remaining +:+ " remaining".

(** The message returned when the call governor denies the delegation. *)
Definition limit_reached_message (tool_name : string) (limit : Bound)
    (all_status : list (string * AgentStatus)) : string :=
  let status_lines :=
    map (fun '(agent_name, status) =>
           status_line agent_name status.(status_count) status.(status_limit)
             status.(status_remaining))
        all_status in
  let available_agents :=
    map fst (filter (fun kv => 0 < kv.2.(status_remaining)) all_status) in
  let status_msg := join (String (ascii_of_nat 10) "") status_lines in
  let nl := String (ascii_of_nat 10) "" in
  let error_msg :=
    "Error: Managed agent '" +:+ tool_name +:+ "' call limit reached." +:+ nl
    +:+ "You have used all " +:+ str_bound limit +:+ " allowed calls to '"
    +:+ tool_name +:+ "'." +:+ nl +:+ nl
    +:+ "Current managed agent call status:" +:+ nl +:+ status_msg +:+ nl +:+ nl in
  let error_msg :=
    match available_agents with
    | _ :: _ =>
        error_msg +:+ "You can still call these managed agents: "
          +:+ join ", " available_agents +:+ nl
          +:+ "Please use them to gather additional information if needed."
          +:+ nl +:+ nl
    | [] =>
        error_msg +:+ "All managed agents have reached their call limits." +:+ nl
          +:+ "You can no longer delegate tasks to sub-agents." +:+ nl +:+ nl
    end in
  error_msg
    +:+ "IMPORTANT: You must now complete the task using:" +:+ nl
    +:+ "1. The information you have already collected" +:+ nl
    +:+ "2. Your own reasoning and analysis capabilities" +:+ nl
    +:+ "3. Any available tools (search, visit_webpage, database operations)"
    +:+ nl +:+ nl
    +:+ "Please proceed to synthesize the information and provide a final answer.".

(** The governor check at the head of [execute_tool_call]: [inl msg] when
    the call is denied, [inr w'] (the counter advanced) when it goes on. *)
Definition check_call_limit (w : World) (tool_name : string) (now : string)
  : result (string + World) :=
  match w.(self_managed_agent_counter) with
  | None => Ok (inr w)
  | Some counter =>
      '(ok, counter') ← GlobalManagedAgentCounter.try_increment counter tool_name now;
      if negb ok then
        let current := GlobalManagedAgentCounter.get_count counter' tool_name in
        let limit := GlobalManagedAgentCounter.get_limit counter' tool_name in
        remaining ← GlobalManagedAgentCounter.get_remaining counter' tool_name;
        all_status ← GlobalManagedAgentCounter.get_all_status counter';
        Ok (inl (limit_reached_message tool_name limit all_status))
      else Ok (inr (with_counter w counter'))
  end.

(** [execute_tool_call] as one thread runs it when no other thread of
    the coordinator works between its steps: the outcome for the caller
    and the state left behind. The [finally] clause runs on both outcomes
    of the library call. The method holds no lock; [Dispatch] below gives
    its steps one by one, for dispatches that run side by side. *)
Definition execute_tool_call (lib : Library) (w : World) (tool_name : string)
    (arguments : pyval) (now : string) : result pyval * World :=
  if PyDict.contains w.(self_managed_agents) tool_name then
    match check_call_limit w tool_name now with
    | Raise e => (Raise e, w)
    | Ok (inl error_msg) => (Ok (PStr error_msg), w)
    | Ok (inr w) =>
        match PyDict.getitem w.(self_managed_agents) tool_name with
        | Raise e => (Raise e, w)
        | Ok original_ref =>
            match w.(heap) !! original_ref with
            | Some (OAgent original_agent) =>
                match _create_agent_copy_for_call lib original_agent w.(heap) with
                | Raise e => (Raise e, w)
                | Ok (agent_copy, h) =>
                    let w := bind_managed_agent (with_heap w h) tool_name agent_copy in
                    let '(r, w) := lib.(super_execute_tool_call) w tool_name arguments in
                    (r, bind_managed_agent w tool_name original_ref)
                end
            | _ =>
                (Raise (AttributeError "managed agent is not an agent object"), w)
            end
        end
    end
  else lib.(super_execute_tool_call) w tool_name arguments.
End MemoryManagedToolCallingAgent.

(** [execute_tool_call] step by step. The coordinator runs the tool calls
    of one step in parallel threads, and the method takes no lock: between
    two accesses of a thread to [self.managed_agents] and the heap, another
    thread may do some of its own. A stage says how far a thread has come. *)
Module Dispatch.
Import MemoryManagedToolCallingAgent.

Inductive Stage : Type :=
| AtEntry
  (* the name is a managed agent and the call governor let the call through *)
| LetThrough
  (* original_agent = self.managed_agents[tool_name] *)
| HasOriginal (original_agent : loc)
  (* agent_copy = self._create_agent_copy_for_call(original_agent) *)
| HasCopy (agent_copy : loc)
  (* original_ref = self.managed_agents[tool_name] *)
| HasRef (agent_copy original_ref : loc)
  (* self.managed_agents[tool_name] = agent_copy *)
| Swapped (original_ref : loc)
  (* super().execute_tool_call(tool_name, arguments) has ended *)
| Returned (original_ref : loc) (outcome : result pyval)
  (* the finally clause has run, or the method ended before the swap *)
| Finished (outcome : result pyval).

(** The arguments of one call of [execute_tool_call], with the time at
    which the call governor sees it. *)
Record Call : Type := MkCall {
  tool_name : string;
  arguments : pyval;
  now : string
}.

(** The next step of a thread. *)
Definition step (lib : Library) (c : Call) (s : Stage) (w : World) : Stage * World :=
  match s with
  | AtEntry =>
      if PyDict.contains w.(self_managed_agents) c.(tool_name) then
        match check_call_limit w c.(tool_name) c.(now) with
        | Raise e => (Finished (Raise e), w)
        | Ok (inl error_msg) => (Finished (Ok (PStr error_msg)), w)
        | Ok (inr w) => (LetThrough, w)
        end
      else
        let '(r, w) := lib.(super_execute_tool_call) w c.(tool_name) c.(arguments) in
        (Finished r, w)
  | LetThrough =>
      match PyDict.getitem w.(self_managed_agents) c.(tool_name) with
      | Raise e => (Finished (Raise e), w)
      | Ok original_agent => (HasOriginal original_agent, w)
      end
  | HasOriginal original_agent =>
      match w.(heap) !! original_agent with
      | Some (OAgent a) =>
          match _create_agent_copy_for_call lib a w.(heap) with
          | Raise e => (Finished (Raise e), w)
          | Ok (agent_copy, h) => (HasCopy agent_copy, with_heap w h)
          end
      | _ =>
          (Finished (Raise (AttributeError "managed agent is not an agent object")), w)
      end
  | HasCopy agent_copy =>
      match PyDict.getitem w.(self_managed_agents) c.(tool_name) with
      | Raise e => (Finished (Raise e), w)
      | Ok original_ref => (HasRef agent_copy original_ref, w)
      end
  | HasRef agent_copy original_ref =>
      (Swapped original_ref, bind_managed_agent w c.(tool_name) agent_copy)
  | Swapped original_ref =>
      let '(r, w) := lib.(super_execute_tool_call) w c.(tool_name) c.(arguments) in
      (Returned original_ref r, w)
  | Returned original_ref r =>
      (Finished r, bind_managed_agent w c.(tool_name) original_ref)
  | Finished r => (Finished r, w)
  end.

(** [n] steps of one thread, with no other thread in between. *)
Fixpoint run (lib : Library) (c : Call) (n : nat) (s : Stage) (w : World)
  : Stage * World :=
  match n with
  | O => (s, w)
  | S n' => let '(s, w) := step lib c s w in run lib c n' s w
  end.


End Dispatch.

(* ===================================================================== *)
(** * 4a. Text by characters                                              *)
(* ===================================================================== *)

(** Python measures and slices a text by characters. In the UTF-8 bytes of
    a text a character starts at every byte that is not a continuation
    byte (10xxxxxx), so both can be read off the bytes. *)
Module Text.
Definition is_continuation (c : ascii) : bool :=
  let n := nat_of_ascii c in ((128 <=? n) && (n <? 192))%nat.

(** [len(s)] *)
Fixpoint len (s : string) : nat :=
  match s with
  | EmptyString => O
  | String c s' => if is_continuation c then len s' else S (len s')
  end.

(** [s[:n]] for [n >= 0] *)
Fixpoint take (n : nat) (s : string) : string :=
  match s with
  | EmptyString => EmptyString
  | String c s' =>
      if is_continuation c then String c (take n s')
      else match n with
           | O => EmptyString
           | S n' => String c (take n' s')
           end
  end.

(** [s.replace(old, new)] for an [old] of one ASCII character *)
Fixpoint replace_char (old : ascii) (new : string) (s : string) : string :=
  match s with
  | EmptyString => EmptyString
  | String c s' =>
      if Ascii.eqb c old then new +:+ replace_char old new s'
      else String c (replace_char old new s')
  end.

(** [sub in s] *)
Fixpoint contains (sub s : string) : bool :=
  String.prefix sub s ||
  match s with
  | String _ s' => contains sub s'
  | EmptyString => false
  end.

(** [s[len(p):]] for an [s] that starts with [p] *)
Fixpoint after_prefix (p s : string) : string :=
  match p, s with
  | String _ p', String _ s' => after_prefix p' s'
  | _, _ => s
  end.

(** The last [n] bytes of a file. *)
Definition last_bytes (n : nat) (bytes : string) : string :=
  substring (String.length bytes - n) n bytes.

Definition in_range (c : ascii) (lo hi : nat) : bool :=
  let n := nat_of_ascii c in ((lo <=? n) && (n <=? hi))%nat.

(** The bytes decode as UTF-8 (the strict decoder of [open(...,
    encoding='utf-8')]: no overlong forms, no surrogates, nothing above
    U+10FFFF, no sequence cut short). *)
Fixpoint utf8_valid (s : string) : bool :=
  match s with
  | EmptyString => true
  | String c0 s1 =>
      let b0 := nat_of_ascii c0 in
      if (b0 <? 128)%nat then utf8_valid s1
      else if in_range c0 194 223 then
        match s1 with
        | String c1 s2 => in_range c1 128 191 && utf8_valid s2
        | _ => false
        end
      else if in_range c0 224 239 then
        match s1 with
        | String c1 (String c2 s3) =>
            (if (b0 =? 224)%nat then in_range c1 160 191
             else if (b0 =? 237)%nat then in_range c1 128 159
             else in_range c1 128 191)
            && in_range c2 128 191 && utf8_valid s3
        | _ => false
        end
      else if in_range c0 240 244 then
        match s1 with
        | String c1 (String c2 (String c3 s4)) =>
            (if (b0 =? 240)%nat then in_range c1 144 191
             else if (b0 =? 244)%nat then in_range c1 128 143
             else in_range c1 128 191)
            && in_range c2 128 191 && in_range c3 128 191 && utf8_valid s4
        | _ => false
        end
      else false
  end.

(** ASCII letters to lower case, the other bytes as they are. *)
Definition lower_char (c : ascii) : ascii :=
  let n := nat_of_ascii c in
  if ((65 <=? n) && (n <=? 90))%nat then ascii_of_nat (n + 32) else c.

Fixpoint lower (s : string) : string :=
  match s with
  | EmptyString => EmptyString
  | String c s' => String (lower_char c) (lower s')
  end.
End Text.

(** [s * n] *)
Fixpoint str_mul (s : string) (n : nat) : string :=
  match n with
  | O => ""
  | S n' => s +:+ str_mul s n'
  end.

(* ===================================================================== *)
(** * 5. Context compaction (tools/context_summary_toolcalling_agent.py)  *)
(* ===================================================================== *)

(** The newline character. *)
Definition nl : string := String (ascii_of_nat 10) "".

(** Dynamic operations of Python on the values of an API response. *)
Module Py.
(** [key in v] *)
Definition contains (key : string) (v : pyval) : result bool :=
  match v with
  | PDict d => Ok (PyDict.contains d key)
  | PList l =>
      Ok (existsb (fun x => match x with PStr s => String.eqb s key | _ => false end) l)
  | PStr s => Ok (match String.index 0 key s with Some _ => true | None => false end)
  | _ => Raise (TypeError "argument is not iterable")
  end.

(** [len(v)] *)
Definition len (v : pyval) : result Z :=
  match v with
  | PStr s => Ok (Z.of_nat (Text.len s))
  | PList l => Ok (Z.of_nat (length l))
  | PDict d => Ok (Z.of_nat (length d))
  | _ => Raise (TypeError "object has no len()")
  end.

(** [v[key]] for a string key *)
Definition getitem (v : pyval) (key : string) : result pyval :=
  match v with
  | PDict d => PyDict.getitem d key
  | _ => Raise (TypeError "indices must be integers")
  end.

(** [v[0]] *)
Definition first (v : pyval) : result pyval :=
  match v with
  | PList (x :: _) => Ok x
  | PList [] => Raise (MkExc "IndexError" true "list index out of range")
  | PStr (String c s) => Ok (PStr (Text.take 1 (String c s)))
  | PStr EmptyString => Raise (MkExc "IndexError" true "string index out of range")
  | PDict _ => Raise (MkExc "KeyError" true "0")
  | _ => Raise (TypeError "object is not subscriptable")
  end.

(** The white space of [str.isspace], which [str.strip] removes and
    [\s] matches, in the UTF-8 bytes of a text: one byte for the ASCII
    characters 9-13 and 28-32, two or three bytes for the others. *)
Definition is_space (c : ascii) : bool :=
  let n := nat_of_ascii c in
  ((9 <=? n) && (n <=? 13) || (28 <=? n) && (n <=? 32))%nat.

(** The UTF-8 bytes of the white space outside ASCII: U+0085, U+00A0,
    U+1680, U+2000 to U+200A, U+2028, U+2029, U+202F, U+205F, U+3000. *)
Definition wide_spaces : list (list nat) :=
  [ [194; 133]; [194; 160]; [225; 154; 128];
    [226; 128; 128]; [226; 128; 129]; [226; 128; 130]; [226; 128; 131];
    [226; 128; 132]; [226; 128; 133]; [226; 128; 134]; [226; 128; 135];
    [226; 128; 136]; [226; 128; 137]; [226; 128; 138];
    [226; 128; 168]; [226; 128; 169]; [226; 128; 175];
    [226; 129; 159]; [227; 128; 128] ]%nat.

Fixpoint same_bytes (cs : list ascii) (bs : list nat) : bool :=
  match cs, bs with
  | [], [] => true
  | c :: cs', b :: bs' => (nat_of_ascii c =? b)%nat && same_bytes cs' bs'
  | _, _ => false
  end.

(** The bytes are those of one white-space character outside ASCII. *)
Definition is_wide_space (cs : list ascii) : bool :=
  existsb (same_bytes cs) wide_spaces.

(** [s.lstrip()] *)
Fixpoint lstrip (s : string) : string :=
  match s with
  | String c0 s1 =>
      if is_space c0 then lstrip s1
      else
        match s1 with
        | String c1 s2 =>
            if is_wide_space [c0; c1] then lstrip s2
            else
              match s2 with
              | String c2 s3 => if is_wide_space [c0; c1; c2] then lstrip s3 else s
              | EmptyString => s
              end
        | EmptyString => s
        end
  | EmptyString => EmptyString
  end.

(** [s.isspace()] or [s] is empty *)
Definition only_space (s : string) : bool :=
  match lstrip s with
  | EmptyString => true
  | _ => false
  end.

(** [s.rstrip()]: the text up to its last character that is not white
    space. *)
Fixpoint rstrip (s : string) : string :=
  match s with
  | String c s' => if only_space s then EmptyString else String c (rstrip s')
  | EmptyString => EmptyString
  end.

(** [v.strip()] *)
Definition strip (v : pyval) : result string :=
  match v with
  | PStr s => Ok (rstrip (lstrip s))
  | _ => Raise (AttributeError "object has no attribute 'strip'")
  end.

(** [v.get] exists: [v] is a dictionary. *)
Definition require_dict (v : pyval) : result unit :=
  match v with
  | PDict _ => Ok tt
  | _ => Raise (AttributeError "object has no attribute 'get'")
  end.

(** [usage.get(key, default) if usage else default] *)
Definition get_or (usage : option pyval) (key : string) (default : pyval)
  : result pyval :=
  match usage with
  | None => Ok default
  | Some v =>
      if truthy v then
        match v with
        | PDict d => Ok (match PyDict.get d key with Some x => x | None => default end)
        | _ => Raise (AttributeError "object has no attribute 'get'")
        end
      else Ok default
  end.

(** The format specification [:,] accepts numbers only. *)
Definition format_thousands (v : pyval) : result unit :=
  match v with
  | PInt _ | PBool _ | PFloat _ _ => Ok tt
  | PStr _ => Raise (MkExc "ValueError" true "Cannot specify ',' with 's'.")
  | _ => Raise (TypeError "unsupported format string")
  end.
End Py.

(** Two white-space characters outside ASCII: the no-break space U+00A0
    and the ideographic space U+3000. *)
Definition nbsp : string := String (ascii_of_nat 194) (String (ascii_of_nat 160) "").
Definition ideographic_space : string :=
  String (ascii_of_nat 227) (String (ascii_of_nat 128) (String (ascii_of_nat 128) "")).

(** What the summarisation call does to the outside: the requests it sends
    and the pauses between them. *)
Inductive Event : Type :=
| ApiCall (system_prompt user_prompt : string)
| Sleep (seconds : Z).

(** What [request_api_detail] does on one call: it raises, or it returns a
    response (a JSON value or None) and a status code. *)
Inductive ApiOutcome : Type :=
| ApiRaises (e : PyExc)
| ApiReturns (response : pyval) (status_code : Z).

(** The collaborators of the compactor. [request_api_detail] is [None] when
    the import of my_utils failed; otherwise it answers the [n]-th request
    of the run (counted from 0). [str_format template task history] is
    [template.format(task=task, history=history)]. *)
Record SummaryEnv : Type := MkEnv {
  request_api_detail : option (nat -> string -> string -> ApiOutcome);
  str_format : string -> string -> string -> result string
}.

Module ContextSummarizationMixin.
(** The agent, as far as the mixin reads and writes it. *)
Record t : Type := Mk {
  context_token_threshold : Z;
  summary_model_name : string;
  summary_system_prompt : string;
  summary_user_template : string;
  min_steps_before_summary : Z;
  summary_max_retries : Z;
  task : string;
  memory : AgentMemory;
  _summarization_count : Z;
  _total_tokens_saved : Z;
  events : list Event
}.

Definition with_events (self : t) (ev : list Event) : t :=
  {| context_token_threshold := self.(context_token_threshold);
     summary_model_name := self.(summary_model_name);
     summary_system_prompt := self.(summary_system_prompt);
     summary_user_template := self.(summary_user_template);
     min_steps_before_summary := self.(min_steps_before_summary);
     summary_max_retries := self.(summary_max_retries);
     task := self.(task);
     memory := self.(memory);
     _summarization_count := self.(_summarization_count);
     _total_tokens_saved := self.(_total_tokens_saved);
     events := ev |}.

Definition with_memory (self : t) (mem : AgentMemory) : t :=
  {| context_token_threshold := self.(context_token_threshold);
     summary_model_name := self.(summary_model_name);
     summary_system_prompt := self.(summary_system_prompt);
     summary_user_template := self.(summary_user_template);
     min_steps_before_summary := self.(min_steps_before_summary);
     summary_max_retries := self.(summary_max_retries);
     task := self.(task);
     memory := mem;
     _summarization_count := self.(_summarization_count);
     _total_tokens_saved := self.(_total_tokens_saved);
     events := self.(events) |}.

Definition with_stats (self : t) (n saved : Z) : t :=
  {| context_token_threshold := self.(context_token_threshold);
     summary_model_name := self.(summary_model_name);
     summary_system_prompt := self.(summary_system_prompt);
     summary_user_template := self.(summary_user_template);
     min_steps_before_summary := self.(min_steps_before_summary);
     summary_max_retries := self.(summary_max_retries);
     task := self.(task);
     memory := self.(memory);
     _summarization_count := n;
     _total_tokens_saved := saved;
     events := self.(events) |}.

(** The input tokens of a step that is an [ActionStep] or a
    [PlanningStep] and has a token usage. *)
Definition measured (s : Step) : option Z :=
  match s with
  | ActionStep _ _ _ _ _ (Some u) => Some u.(input_tokens)
  | PlanningStep _ (Some u) => Some u.(input_tokens)
  | _ => None
  end.

(** The loop over [reversed(self.memory.steps)]. *)
Fixpoint scan_back (rev_steps : list Step) : Z :=
  match rev_steps with
  | [] => 0
  | s :: rest =>
      match measured s with
      | Some n => n
      | None => scan_back rest
      end
  end.

Definition _get_last_input_tokens (self : t) : Z :=
  scan_back (rev self.(memory).(steps)).

Definition is_action_step (s : Step) : bool :=
  match s with ActionStep _ _ _ _ _ _ => true | _ => false end.

Definition _count_action_steps (self : t) : Z :=
  fold_left (fun n s => if is_action_step s then n + 1 else n) self.(memory).(steps) 0.

Definition _should_summarize (self : t) : bool :=
  let last_input_tokens := _get_last_input_tokens self in
  let action_step_count := _count_action_steps self in
  (self.(context_token_threshold) <? last_input_tokens)
  && (action_step_count >=? self.(min_steps_before_summary)).

(** [text[:n] + "... (已截断)"] when [len(text) > n]. *)
Definition truncated (n : nat) (text : string) : string :=
  if (n <? Text.len text)%nat then Text.take n text +:+ "... (已截断)"
  else text.

Definition nonempty (o : option string) : option string :=
  match o with
  | Some s => if String.eqb s "" then None else Some s
  | None => None
  end.

Definition render_step (s : Step) : option string :=
  match s with
  | TaskStep task => Some ("[任务] " +:+ task)
  | SummaryStep _ summary _ _ => Some ("[之前的摘要] " +:+ summary)
  | PlanningStep plan _ => Some ("[计划] " +:+ plan)
  | ActionStep step_number model_output tool_calls observations error _ =>
      let parts := ["[步骤 " +:+ str_int step_number +:+ "]"] in
      let parts :=
        match nonempty model_output with
        | Some output => parts ++ ["Agent 思考: " +:+ truncated 2000 output]
        | None => parts
        end in
      let parts :=
        match tool_calls with
        | Some tcs =>
            parts ++ map (fun tc => "工具调用: " +:+ tc.(tc_name) +:+ "("
                                      +:+ truncated 500 tc.(tc_arguments) +:+ ")") tcs
        | None => parts
        end in
      let parts :=
        match nonempty observations with
        | Some obs => parts ++ ["观察结果: " +:+ truncated 3000 obs]
        | None => parts
        end in
      let parts :=
        match error with
        | Some e => parts ++ ["错误: " +:+ e]
        | None => parts
        end in
      Some (join nl parts)
  | OtherStep => None
  end.

Definition _history_to_text (self : t) : string :=
  join (nl +:+ nl +:+ "---" +:+ nl +:+ nl) (omap render_step self.(memory).(steps)).

(** The body of [_extract_api_response] inside its [try]. *)
Definition extract_body (response : pyval) : result (option string * option pyval) :=
  has_choices ← Py.contains "choices" response;
  content ←
    (if (has_choices : bool) then
       choices ← Py.getitem response "choices";
       n ← Py.len choices;
       if 0 <? n then
         choices ← Py.getitem response "choices";
         choice ← Py.first choices;
         has_message ← Py.contains "message" choice;
         if (has_message : bool) then
           message ← Py.getitem choice "message";
           has_content ← Py.contains "content" message;
           if (has_content : bool) then
             message ← Py.getitem choice "message";
             content ← Py.getitem message "content";
             stripped ← Py.strip content;
             Ok (Some stripped)
           else Ok None
         else Ok None
       else Ok None
     else Ok None);
  has_usage ← Py.contains "usage" response;
  usage ←
    (if (has_usage : bool) then
       usage ← Py.getitem response "usage";
       Py.require_dict usage;;
       Ok (Some usage)
     else Ok None);
  Ok (content, usage).

Definition _extract_api_response (response : pyval) : option string * option pyval :=
  match extract_body response with
  | Ok (content, usage) =>
      match nonempty content with
      | Some c => (Some c, usage)
      | None => (None, None)
      end
  | Raise _ => (None, None)
  end.

(** The number of requests sent so far. *)
Definition is_api_call (e : Event) : bool :=
  match e with ApiCall _ _ => true | Sleep _ => false end.

Definition requests (ev : list Event) : nat :=
  length (List.filter is_api_call ev).

(** One call of the summarisation model: the summary text, the error
    message and the usage, and the events so far. An exception of the
    call that is not an [Exception] passes through. *)
Definition _call_summary_api_once (env : SummaryEnv) (self : t) (prompt : string)
  : result (option string * option string * option pyval) * t :=
  match env.(request_api_detail) with
  | None => (Ok (None, Some "request_api_detail 不可用"%string, None), self)
  | Some api =>
      let outcome := api (requests self.(events)) self.(summary_system_prompt) prompt in
      let self := with_events self
                    (self.(events) ++ [ApiCall self.(summary_system_prompt) prompt]) in
      match outcome with
      | ApiRaises e =>
          if e.(exc_is_Exception) then
            (Ok (None, Some ("API 调用异常: " +:+ e.(exc_str)), None), self)
          else (Raise e, self)
      | ApiReturns response status_code =>
          if negb (status_code =? 200)
             || match response with PNone => true | _ => false end then
            (Ok (None, Some ("API 返回错误 (status_code=" +:+ str_int status_code +:+ ")"),
                 None), self)
          else
            match _extract_api_response response with
            | (Some summary_content, usage) => (Ok (Some summary_content, None, usage), self)
            | (None, _) => (Ok (None, Some "无法从响应中提取内容"%string, None), self)
            end
      end
  end.

(** The [for attempt in range(1, self.summary_max_retries + 1)] loop, from
    [attempt] on, with [remaining] iterations to go. *)
Fixpoint retry_loop (env : SummaryEnv) (self : t) (prompt : string)
    (attempt : Z) (remaining : nat) : result (option string * option pyval) * t :=
  match remaining with
  | O => (Ok (None, None), self)
  | S remaining' =>
      match _call_summary_api_once env self prompt with
      | (Raise e, self) => (Raise e, self)
      | (Ok (summary_text, error_msg, usage), self) =>
          match nonempty summary_text with
          | Some text => (Ok (Some text, usage), self)
          | None =>
              let self :=
                if attempt <? self.(summary_max_retries) then
                  with_events self (self.(events) ++ [Sleep (Z.min (5 * attempt) 30)])
                else self in
              retry_loop env self prompt (attempt + 1) remaining'
          end
      end
  end.

Definition _call_summary_api_with_retry (env : SummaryEnv) (self : t) (prompt : string)
  : result (option string * option pyval) * t :=
  retry_loop env self prompt 1 (Z.to_nat self.(summary_max_retries)).

(** The summary that stands in when every attempt has failed. *)
Definition degraded_summary (self : t) : string :=
  "[摘要生成失败: 经过 " +:+ str_int self.(summary_max_retries)
    +:+ " 次重试后仍然失败]" +:+ nl +:+ nl
    +:+ "请检查网络连接和 API 服务状态。" +:+ nl +:+ nl
    +:+ "原始任务: " +:+ self.(task).

(** The summary that stands in when [request_api_detail] is missing. *)
Definition unavailable_summary (self : t) : string :=
  "[摘要生成失败: request_api_detail 不可用]" +:+ nl +:+ nl
    +:+ "请确保 my_utils 模块正确安装并且 request_api_detail 函数可用。" +:+ nl +:+ nl
    +:+ "原始任务: " +:+ self.(task).

Definition _generate_context_summary (env : SummaryEnv) (self : t)
  : result (string * option pyval) * t :=
  match env.(request_api_detail) with
  | None => (Ok (unavailable_summary self, None), self)
  | Some _ =>
      let history_text := _history_to_text self in
      match env.(str_format) self.(summary_user_template)
              (if String.eqb self.(task) "" then "未知任务" else self.(task))
              history_text with
      | Raise e => (Raise e, self)
      | Ok user_prompt =>
          match _call_summary_api_with_retry env self user_prompt with
          | (Raise e, self) => (Raise e, self)
          | (Ok (Some summary_text, usage), self) => (Ok (summary_text, usage), self)
          | (Ok (None, _), self) => (Ok (degraded_summary self, None), self)
          end
      end
  end.

(** [_perform_context_summarization]. The closing log line formats the
    token counts of the usage with [:,], which raises on a value that is
    not a number; the memory has been replaced by then. *)
Definition _perform_context_summarization (env : SummaryEnv) (self : t)
  : result unit * t :=
  let tokens_before := _get_last_input_tokens self in
  let steps_count := Z.of_nat (length self.(memory).(steps)) in
  let original_task := self.(task) in
  match _generate_context_summary env self with
  | (Raise e, self) => (Raise e, self)
  | (Ok (summary, usage), self) =>
      match Py.get_or usage "completion_tokens" (PInt 0),
            Py.get_or usage "prompt_tokens" (PInt 0),
            Py.get_or usage "total_tokens" (PInt 0) with
      | Ok summary_completion_tokens, Ok summary_prompt_tokens, Ok summary_total_tokens =>
          let mem := Memory.reset self.(memory) in
          let summary_step :=
            SummaryStep original_task summary steps_count tokens_before in
          let mem := Memory.append mem summary_step in
          let mem := Memory.append mem (TaskStep self.(task)) in
          let self := with_memory self mem in
          let self := with_stats self (self.(_summarization_count) + 1)
                        (self.(_total_tokens_saved) + tokens_before) in
          (Py.format_thousands summary_completion_tokens;;
           Py.format_thousands summary_completion_tokens;;
           Py.format_thousands summary_prompt_tokens;;
           Py.format_thousands summary_completion_tokens;;
           Py.format_thousands summary_total_tokens;;
           Ok tt, self)
      | Raise e, _, _ | _, Raise e, _ | _, _, Raise e => (Raise e, self)
      end
  end.

(** [_step_stream]: the check and, if it holds, the compaction, then the
    step of the parent class. *)
Definition _step_stream (env : SummaryEnv)
    (super_step_stream : t -> result pyval * t) (self : t) : result pyval * t :=
  if _should_summarize self then
    match _perform_context_summarization env self with
    | (Raise e, self) => (Raise e, self)
    | (Ok _, self) => super_step_stream self
    end
  else super_step_stream self.

(** [steps] read from the newest to the oldest: [s] is the most recent
    step with a recorded token usage, and it recorded [n] input tokens. *)
Definition last_measured (steps : list Step) (n : Z) : Prop :=
  exists older s newer,
    steps = older ++ s :: newer /\ measured s = Some n /\
    Forall (fun s' => measured s' = None) newer.

(** The attempt with outcome [o] fails: a status other than 200 or no
    response, no content in the response, or an exception. *)
Definition attempt_fails (o : ApiOutcome) : Prop :=
  match o with
  | ApiRaises e => e.(exc_is_Exception) = true
  | ApiReturns response status_code =>
      status_code <> 200 \/ response = PNone \/
      (_extract_api_response response).1 = None
  end.

(** The usage that comes with a summary is absent or a dictionary. *)
Definition usage_ok (usage : option pyval) : Prop :=
  usage = None \/ exists d, usage = Some (PDict d).

(** Two states of the agent that differ in the recorded events only. *)
Definition same_but_events (a b : t) : Prop :=
  a.(context_token_threshold) = b.(context_token_threshold) /\
  a.(summary_system_prompt) = b.(summary_system_prompt) /\
  a.(summary_user_template) = b.(summary_user_template) /\
  a.(min_steps_before_summary) = b.(min_steps_before_summary) /\
  a.(summary_max_retries) = b.(summary_max_retries) /\
  a.(task) = b.(task) /\
  a.(memory) = b.(memory) /\
  a.(_summarization_count) = b.(_summarization_count) /\
  a.(_total_tokens_saved) = b.(_total_tokens_saved).

(** The default of the [summary_max_retries] argument. *)
Definition default_summary_max_retries : Z := 5.

(** The events of [count] failed attempts numbered from [first]: each
    sends the request, and each but attempt number [max_retries] is
    followed by a pause of [min(5 * attempt, 30)]. *)
Definition failed_attempt_events (system_prompt user_prompt : string)
    (max_retries : Z) (first : Z) (count : nat) : list Event :=
  flat_map
    (fun i : nat =>
       let attempt := first + Z.of_nat i in
       ApiCall system_prompt user_prompt ::
       if attempt <? max_retries then [Sleep (Z.min (5 * attempt) 30)] else [])
    (seq 0 count).
End ContextSummarizationMixin.

(* ===================================================================== *)
(** * 6. Regular expressions of [contains_tool_tags]                      *)
(* ===================================================================== *)

(** The fragment of Python's [re] syntax that the tool patterns use, matched
    under [re.IGNORECASE]: literal characters, [\s], a negated single
    character class and [*], in sequence. A text is the string of its UTF-8
    bytes and the atoms of a pattern consume one byte each: [RChar a] a
    byte that equals [a] up to the case of ASCII letters, [RSpace] one
    byte of ASCII white space, [RNot a] a byte other than the ASCII
    character [a]. A character of several bytes is matched by the sequence
    of its bytes; this is how [Re.space] and [Re.letter] below take in the
    characters outside ASCII that [\s] and a letter under [re.IGNORECASE]
    match on a Python [str]. In a valid text the matches of a pattern made
    of these begin and end between characters: the patterns begin and end
    with whole characters, and [RNot a] under [*] is followed by the ASCII
    character [a] or by the end of the pattern. *)
Inductive regex : Type :=
| RVoid
| REps
| RChar (c : ascii)
| RSpace
| RNot (c : ascii)
| RStar (r : regex)
| RSeq (r1 r2 : regex)
| RAlt (r1 r2 : regex).

Module Re.
Definition lower (c : ascii) : ascii :=
  let n := nat_of_ascii c in
  if ((65 <=? n) && (n <=? 90))%nat then ascii_of_nat (n + 32) else c.

(** One byte of the text against one atom of the pattern. *)
Definition char_matches (r : regex) (c : ascii) : bool :=
  match r with
  | RChar a => Ascii.eqb (lower a) (lower c)
  | RSpace => Py.is_space c
  | RNot a => negb (Ascii.eqb a c)
  | _ => false
  end.

(** The texts a pattern matches in full. *)
Inductive matches : regex -> string -> Prop :=
| MEps : matches REps ""
| MChar a c : char_matches (RChar a) c = true -> matches (RChar a) (String c "")
| MSpace c : char_matches RSpace c = true -> matches RSpace (String c "")
| MNot a c : char_matches (RNot a) c = true -> matches (RNot a) (String c "")
| MStarNil r : matches (RStar r) ""
| MStarApp r s1 s2 :
    matches r s1 -> matches (RStar r) s2 -> matches (RStar r) (s1 +:+ s2)
| MSeq r1 r2 s1 s2 :
    matches r1 s1 -> matches r2 s2 -> matches (RSeq r1 r2) (s1 +:+ s2)
| MAltL r1 r2 s : matches r1 s -> matches (RAlt r1 r2) s
| MAltR r1 r2 s : matches r2 s -> matches (RAlt r1 r2) s.

(** [re.search(pattern, text)] finds a match: some part of the text
    matches the pattern. *)
Definition found (r : regex) (text : string) : Prop :=
  exists pre m post, text = pre +:+ m +:+ post /\ matches r m.

(** The matcher: Brzozowski derivatives. *)
Fixpoint nullable (r : regex) : bool :=
  match r with
  | REps | RStar _ => true
  | RSeq r1 r2 => nullable r1 && nullable r2
  | RAlt r1 r2 => nullable r1 || nullable r2
  | _ => false
  end.

Fixpoint deriv (c : ascii) (r : regex) : regex :=
  match r with
  | RVoid | REps => RVoid
  | RChar _ | RSpace | RNot _ => if char_matches r c then REps else RVoid
  | RStar r1 => RSeq (deriv c r1) (RStar r1)
  | RSeq r1 r2 =>
      if nullable r1 then RAlt (RSeq (deriv c r1) r2) (deriv c r2)
      else RSeq (deriv c r1) r2
  | RAlt r1 r2 => RAlt (deriv c r1) (deriv c r2)
  end.

(** Some prefix of the text matches. *)
Fixpoint match_prefix (r : regex) (text : string) : bool :=
  nullable r ||
  match text with
  | String c rest => match_prefix (deriv c r) rest
  | EmptyString => false
  end.

(** [re.search(pattern, text, re.IGNORECASE | re.MULTILINE)] is not None *)
Fixpoint search (r : regex) (text : string) : bool :=
  match_prefix r text ||
  match text with
  | String _ rest => search r rest
  | EmptyString => false
  end.

Fixpoint seq (rs : list regex) : regex :=
  match rs with
  | [] => REps
  | [r] => r
  | r :: rest => RSeq r (seq rest)
  end.

Fixpoint alt (rs : list regex) : regex :=
  match rs with
  | [] => RVoid
  | [r] => r
  | r :: rest => RAlt r (alt rest)
  end.

(** The character whose UTF-8 bytes are given (all of them 128 or more,
    so that [RChar] matches each as it is). *)
Definition bytes (bs : list nat) : regex :=
  seq (map (fun b => RChar (ascii_of_nat b)) bs).

(** [\s] on a [str]: one character of [str.isspace]. *)
Definition space : regex := alt (RSpace :: map bytes Py.wide_spaces).

(** The characters outside ASCII that match an ASCII letter under
    [re.IGNORECASE]: U+0130 and U+0131 match i, U+017F matches s and
    U+212A matches k; no other letter has any. *)
Definition wide_letters (c : ascii) : list (list nat) :=
  let n := nat_of_ascii (lower c) in
  if (n =? 105)%nat then [[196; 176]; [196; 177]]%nat
  else if (n =? 115)%nat then [[197; 191]]%nat
  else if (n =? 107)%nat then [[226; 132; 170]]%nat
  else [].

(** One literal character of a pattern under [re.IGNORECASE]. *)
Definition letter (c : ascii) : regex :=
  alt (RChar c :: map bytes (wide_letters c)).

(** A literal piece of a pattern. *)
Fixpoint lit (s : string) : regex :=
  match s with
  | EmptyString => REps
  | String c EmptyString => letter c
  | String c rest => RSeq (letter c) (lit rest)
  end.
End Re.

(** The double and the single quote. *)
Definition dq : string := String (ascii_of_nat 34) "".
Definition sq : string := String (ascii_of_nat 39) "".
Definition dq_char : ascii := ascii_of_nat 34.
Definition sq_char : ascii := ascii_of_nat 39.

(* ===================================================================== *)
(** * 7. Batch scheduler (run_widesearch_batch_inference.py)              *)
(* ===================================================================== *)

(** What the program takes from the Python runtime: [json.load] on the text
    of a file, [str(v)] of a value that is not a string, [json.dump], and
    the rendering of times. Times are clock readings in microseconds. *)
Record PyRuntime : Type := MkRuntime {
  json_loads : string -> result pyval;
  repr : pyval -> string;
  json_dumps : pyval -> string;
  isoformat : Z -> string;
  seconds_repr : Z -> string;
  seconds_1f : Z -> string
}.

(** [str(v)] *)
Definition py_str (rt : PyRuntime) (v : pyval) : string :=
  match v with
  | PStr s => s
  | _ => rt.(repr) v
  end.

(** [(end - start).total_seconds()] *)
Definition total_seconds (rt : PyRuntime) (start_time end_time : Z) : pyval :=
  PFloat (negb (end_time - start_time =? 0)) (rt.(seconds_repr) (end_time - start_time)).

(** A path of the file system: a file with its text, or something that
    exists and cannot be opened for reading. *)
Inductive Entry : Type := File (content : string) | Unreadable.

(** One task of the input file. *)
Record Example : Type := MkExample {
  instance_id : string;
  task_id : option string;
  query : string
}.

(** The three model identifiers handed through to the result records. *)
Record ModelIds : Type := MkModelIds {
  main_model_id : string;
  tabular_model_id : string;
  deep_model_id : string
}.

Module Batch.
(** [\s*] *)
Definition ws : regex := RStar Re.space.

Definition tool_patterns : list regex :=
  [ Re.lit "```json";
    Re.seq [Re.lit "```"; ws; Re.lit "{"];
    Re.seq [Re.lit "Action:"; ws];
    Re.seq [Re.lit "Thought:"; ws];
    Re.seq [Re.lit (dq +:+ "name" +:+ dq +:+ ":"); ws; Re.lit dq;
            RStar (RNot dq_char); Re.lit dq];
    Re.seq [Re.lit (sq +:+ "name" +:+ sq +:+ ":"); ws; Re.lit sq;
            RStar (RNot sq_char); Re.lit sq];
    Re.seq [Re.lit (sq +:+ "arguments" +:+ sq +:+ ":"); ws; Re.lit "{"];
    Re.seq [Re.lit (dq +:+ "arguments" +:+ dq +:+ ":"); ws; Re.lit "{"];
    Re.lit "Calling tools" ].

Definition contains_tool_tags (rt : PyRuntime) (text : pyval) : bool :=
  if negb (truthy text) then false
  else
    let text_str := py_str rt text in
    existsb (fun pattern => Re.search pattern text_str) tool_patterns.

(** [d.get(key)] *)
Definition dict_get (v : pyval) (key : string) : result pyval :=
  match v with
  | PDict d => Ok (match PyDict.get d key with Some x => x | None => PNone end)
  | _ => Raise (AttributeError "object has no attribute 'get'")
  end.

Definition result_path (output_dir instance_id : string) : string :=
  output_dir +:+ "/" +:+ instance_id +:+ ".json".

(** [open(path)] and [json.load] *)
Definition load_json (rt : PyRuntime) (fs : gmap string Entry) (path : string)
  : result pyval :=
  match fs !! path with
  | Some (File content) => rt.(json_loads) content
  | Some Unreadable => Raise (MkExc "OSError" true "cannot open")
  | None => Raise (MkExc "FileNotFoundError" true "no such file")
  end.

(** [result.get("answer") or result.get("response")] *)
Definition answer_of (loaded : pyval) : result pyval :=
  a ← dict_get loaded "answer";
  if truthy a then Ok a else dict_get loaded "response".

(** The body of the [try] of [is_task_completed]: [Some b] when it
    returns [b], [None] when it falls through. *)
Definition completed_body (rt : PyRuntime) (fs : gmap string Entry)
    (result_file : string) : result (option bool) :=
  loaded ← load_json rt fs result_file;
  answer ← answer_of loaded;
  if truthy answer then
    if String.prefix "Error:" (py_str rt answer) then Ok (Some false)
    else if contains_tool_tags rt answer then Ok (Some false)
    else Ok (Some true)
  else Ok None.

Definition is_task_completed (rt : PyRuntime) (fs : gmap string Entry)
    (instance_id output_dir : string) : bool :=
  let result_file := result_path output_dir instance_id in
  match fs !! result_file with
  | Some _ =>
      match completed_body rt fs result_file with
      | Ok (Some b) => b
      | Ok None => false
      | Raise _ => false
      end
  | None => false
  end.

(** The tasks that [run_widesearch_batch] goes on to run. *)
Definition tasks_to_run (rt : PyRuntime) (fs : gmap string Entry)
    (output_path : string) (skip_completed : bool) (examples : list Example)
  : list Example :=
  if skip_completed then
    List.filter (fun ex => negb (is_task_completed rt fs ex.(instance_id) output_path))
      examples
  else examples.

(** What the parent does to the child process. *)
Inductive ProcessOp : Type :=
| ProcStart
| ProcJoin (timeout : Z)
| ProcTerminate
| ProcKill.

(** What the child left in the result queue. *)
Inductive QueueState : Type :=
| QueueEmpty
| QueueItem (result : pyval)
| QueueBroken (e : PyExc).

(** What the parent observes of one task: the two answers of
    [process.is_alive()], the queue, the file system, the clock. *)
Record TaskWorld : Type := MkTaskWorld {
  alive_after_timeout : bool;
  alive_after_terminate : bool;
  queue : QueueState;
  files : gmap string Entry;
  start_time : Z;
  end_time : Z
}.

(** The record that the scheduler builds itself. *)
Definition task_record (rt : PyRuntime) (ex : Example) (ids : ModelIds)
    (error : pyval) (timeout : bool) (start_time end_time : Z) : pyval :=
  PDict
    [ ("instance_id", PStr ex.(instance_id));
      ("task_id", PStr (default ex.(instance_id) ex.(task_id)));
      ("query", PStr ex.(query));
      ("question", PStr ex.(query));
      ("answer", PNone);
      ("response", PNone);
      ("error", error);
      ("timeout", PBool timeout);
      ("start_time", PStr (rt.(isoformat) start_time));
      ("end_time", PStr (rt.(isoformat) end_time));
      ("duration_seconds", total_seconds rt start_time end_time);
      ("main_model_id", PStr ids.(main_model_id));
      ("tabular_model_id", PStr ids.(tabular_model_id));
      ("deep_model_id", PStr ids.(deep_model_id)) ]%string.

Definition timeout_error (rt : PyRuntime) (timeout_seconds : Z)
    (start_time end_time : Z) : string :=
  "Task timeout after " +:+ str_int timeout_seconds
    +:+ " seconds (actual duration: " +:+ rt.(seconds_1f) (end_time - start_time)
    +:+ "s)".

(** The fallback to the result file when the queue is empty: the file's
    dictionary with [query] and [timeout] set, or nothing. *)
Definition result_from_file (rt : PyRuntime) (fs : gmap string Entry)
    (output_dir : string) (ex : Example) : option pyval :=
  let result_file := result_path output_dir ex.(instance_id) in
  match fs !! result_file with
  | Some _ =>
      match load_json rt fs result_file with
      | Ok (PDict d) =>
          let d := PyDict.set d "query" (PStr ex.(query)) in
          let d := PyDict.set d "timeout" (PBool false) in
          Some (PDict d)
      | _ => None
      end
  | None => None
  end.

(** [run_single_task_with_timeout]: what it returns and what it did to the
    process. *)
Definition run_single_task_with_timeout (rt : PyRuntime) (w : TaskWorld)
    (ex : Example) (ids : ModelIds) (output_dir : string) (timeout_seconds : Z)
  : result pyval * list ProcessOp :=
  let ops := [ProcStart; ProcJoin timeout_seconds] in
  if w.(alive_after_timeout) then
    let ops := ops ++ [ProcTerminate; ProcJoin 10] in
    let ops := if w.(alive_after_terminate) then ops ++ [ProcKill; ProcJoin 5]
               else ops in
    (Ok (task_record rt ex ids
           (PStr (timeout_error rt timeout_seconds w.(start_time) w.(end_time)))
           true w.(start_time) w.(end_time)),
     ops)
  else
    match w.(queue) with
    | QueueItem result => (Ok result, ops)
    | QueueBroken e =>
        if e.(exc_is_Exception) then
          (Ok (task_record rt ex ids (PStr ("Error getting result: " +:+ e.(exc_str)))
                 false w.(start_time) w.(end_time)),
           ops)
        else (Raise e, ops)
    | QueueEmpty =>
        match result_from_file rt w.(files) output_dir ex with
        | Some result => (Ok result, ops)
        | None =>
            (Ok (task_record rt ex ids (PStr "Process completed but returned no result")
                   false w.(start_time) w.(end_time)),
             ops)
        end
    end.
End Batch.

(* ===================================================================== *)
(** * 8. One inference run (run_widesearch_inference.py)                  *)
(* ===================================================================== *)

Module Inference.
(** What [run_inference] is called with beyond the question, the model
    identifiers, the output directory and the instance id, and what it
    meets on its way:
    - [use_out_key], [use_summary_tool]: the arguments of these names;
    - [api_key]: the API key that the environment holds under the names
      chosen by [use_out_key];
    - [console_print text]: the exception that [console.print(text)]
      raises, if any. The console is rich's: it reads the text as markup
      and raises a MarkupError on a closing tag such as [/x] that closes
      nothing, and the texts printed hold the question, the identifiers,
      the messages of exceptions and the answer;
    - [create_model_instances]: the exception, if any, of the three calls
      of [create_model_instance];
    - [clear_database_tables]: the exception that leaves
      [clear_database_tables(db_name)], if [clear_db] is set and there is
      one (a batch calls [run_inference] with [clear_db] off);
    - [create_agent_team]: the outcome of that call (the call governor it
      returns, if one was made);
    - [agent_run]: the outcome of [agent.run] on a question;
    - [task_logger_close]: the exception of [task_logger.close()], if a
      logger was made and closing it raises;
    - the two clock readings.
    Directories are not part of the model; creating them, writing the
    result file and [traceback.print_exc] are taken to succeed. *)
Record Env : Type := MkEnv {
  use_out_key : bool;
  use_summary_tool : bool;
  api_key : option string;
  console_print : string -> option PyExc;
  create_model_instances : option PyExc;
  clear_database_tables : option PyExc;
  create_agent_team : result (option GlobalManagedAgentCounter.t);
  agent_run : string -> result pyval;
  task_logger_close : option PyExc;
  start_time : Z;
  end_time : Z
}.

Definition option_str (o : option string) : pyval :=
  match o with Some s => PStr s | None => PNone end.

(** The truth value of an optional string. *)
Definition given (o : option string) : bool :=
  match o with Some (String _ _) => true | _ => false end.

Definition augmented_question (question : string) : string :=
  "You have a question that needs to be answered. This question requires you to search and find the answer."
    +:+ nl +:+ nl +:+ "Question: " +:+ question +:+ nl.

Definition output_file (output_dir : string) (instance_id : option string) : string :=
  if given instance_id then
    output_dir +:+ "/" +:+ default "" instance_id +:+ ".json"
  else
    output_dir +:+ "/result_"
      +:+ match instance_id with Some s => s | None => "None" end +:+ ".json".

(** The dictionary written to the result file. *)
Definition result_record (rt : PyRuntime) (env : Env) (question : string)
    (ids : ModelIds) (instance_id : option string) (output : pyval)
    (global_managed_agent_counter : option GlobalManagedAgentCounter.t) : pyval :=
  let task_id := instance_id in
  let result :=
    [ ("task_id", option_str task_id);
      ("question", PStr question);
      ("answer", if truthy output then PStr (py_str rt output) else PNone);
      ("start_time", PStr (rt.(isoformat) env.(start_time)));
      ("end_time", PStr (rt.(isoformat) env.(end_time)));
      ("duration_seconds", total_seconds rt env.(start_time) env.(end_time));
      ("main_model_id", PStr ids.(main_model_id));
      ("tabular_model_id", PStr ids.(tabular_model_id));
      ("deep_model_id", PStr ids.(deep_model_id)) ]%string in
  let result :=
    match global_managed_agent_counter with
    | Some counter =>
        PyDict.set result "managed_agent_statistics"
          (GlobalManagedAgentCounter.get_statistics counter)
    | None => result
    end in
  let result :=
    if given instance_id then PyDict.set result "instance_id" (option_str instance_id)
    else result in
  PDict result.

(** The condition under which the result file is written. *)
Definition saves (rt : PyRuntime) (output : pyval) : bool :=
  let output_str := if truthy output then py_str rt output else ""%string in
  truthy output && negb (String.prefix "Error:" output_str).

(** *** The texts printed *)

(** [{task_id}] in a printed text *)
Definition task_text (instance_id : option string) : string :=
  match instance_id with Some s => s | None => "None" end.

Definition banner : string := "[bold green]" +:+ str_mul "=" 80 +:+ "[/bold green]".

Definition opening_texts (question : string) (instance_id : option string)
  : list string :=
  [ nl +:+ banner;
    "[bold green]🚀 Starting inference: " +:+ task_text instance_id +:+ "[/bold green]";
    "[bold green]Question: " +:+ Text.take 100 question +:+ "...[/bold green]";
    banner +:+ nl ].

Definition key_name (env : Env) : string :=
  if env.(use_out_key) then "OUT_API_KEY" else "OPENAI_API_KEY".

Definition no_key_text (env : Env) : string :=
  "[bold red]❌ Error: " +:+ key_name env
    +:+ " not found in environment variables[/bold red]".

Definition model_texts (env : Env) (ids : ModelIds) (instance_id : option string)
  : list string :=
  [ "[" +:+ task_text instance_id +:+ "] Creating model instances...";
    "  Main Agent Model: " +:+ ids.(main_model_id);
    "  Tabular Search Agent Model: " +:+ ids.(tabular_model_id);
    "  Deep Search Agent Model: " +:+ ids.(deep_model_id);
    "  Using API Key: " +:+ key_name env ].

Definition models_created_text (instance_id : option string) : string :=
  "[" +:+ task_text instance_id +:+ "] ✓ Model instances created successfully".

Definition models_error_text (e : PyExc) : string :=
  "[bold red]❌ Error creating model instances: " +:+ e.(exc_str) +:+ "[/bold red]".

Definition team_texts (env : Env) (instance_id : option string) : list string :=
  ("[" +:+ task_text instance_id +:+ "] Creating agent team...")
  :: (if env.(use_summary_tool) then
        [ "[" +:+ task_text instance_id
            +:+ "] Using webpage summary tool (with targeted information extraction)" ]
      else []).

Definition team_error_text (instance_id : option string) (e : PyExc) : string :=
  "[bold red][" +:+ task_text instance_id +:+ "] Error creating agent team: "
    +:+ e.(exc_str) +:+ "[/bold red]".

Definition team_created_text (instance_id : option string) : string :=
  "[" +:+ task_text instance_id +:+ "] Agent team created successfully".

Definition running_text (instance_id : option string) : string :=
  "[" +:+ task_text instance_id +:+ "] Running agent...".

Definition completed_text (instance_id : option string) : string :=
  "[bold green][" +:+ task_text instance_id
    +:+ "] ✅ Agent completed successfully[/bold green]".

(** The two texts of the [except] clause: the type of the exception and
    its message. *)
Definition error_texts (instance_id : option string) (e : PyExc) : list string :=
  [ "[bold red][" +:+ task_text instance_id +:+ "] ❌ ERROR: " +:+ e.(exc_type)
      +:+ "[/bold red]";
    "[bold red]Error details: " +:+ e.(exc_str) +:+ "[/bold red]" ].

Definition cleaning_text (instance_id : option string) : string :=
  "[" +:+ task_text instance_id +:+ "] Cleaning up resources...".

Definition close_warning_text (e : PyExc) : string :=
  "[yellow]Warning: Error closing log file: " +:+ e.(exc_str) +:+ "[/yellow]".

Definition saved_text (output_dir : string) (instance_id : option string) : string :=
  "[bold green]✅ Results saved to: " +:+ output_file output_dir instance_id
    +:+ "[/bold green]".

Definition not_saved_text : string :=
  "[yellow]⚠️  Task failed or error occurred, not saving result file[/yellow]".

Definition answer_text (rt : PyRuntime) (output : pyval) : string :=
  "[bold]Answer:[/bold] " +:+ py_str rt output.

(** *** The call *)

(** [console.print(text)] *)
Definition print (env : Env) (text : string) : result unit :=
  match env.(console_print) text with
  | Some e => Raise e
  | None => Ok tt
  end.

Fixpoint print_all (env : Env) (texts : list string) : result unit :=
  match texts with
  | [] => Ok tt
  | text :: rest => print env text;; print_all env rest
  end.

(** The body of the [try] that creates the models. *)
Definition create_models (env : Env) (ids : ModelIds) (instance_id : option string)
  : result unit :=
  print_all env (model_texts env ids instance_id);;
  match env.(create_model_instances) with Some e => Raise e | None => Ok tt end;;
  print env (models_created_text instance_id).

(** [run_inference] up to the start of the agent: it raises, it returns
    None early ([Ok None]), or it goes on with the call governor of the
    team, if one was made ([Ok (Some counter)]). An [except Exception]
    clause catches what derives from [Exception], also the exception of
    a [console.print] inside its [try], and prints before it returns
    None; nothing catches what its own print raises. *)
Definition setup (env : Env) (question : string) (ids : ModelIds)
    (instance_id : option string)
  : result (option (option GlobalManagedAgentCounter.t)) :=
  print_all env (opening_texts question instance_id);;
  if negb (given env.(api_key)) then
    print env (no_key_text env);; Ok None
  else
    match create_models env ids instance_id with
    | Raise e =>
        if e.(exc_is_Exception) then print env (models_error_text e);; Ok None
        else Raise e
    | Ok _ =>
        match env.(clear_database_tables) with Some e => Raise e | None => Ok tt end;;
        print_all env (team_texts env instance_id);;
        match env.(create_agent_team) with
        | Raise e =>
            if e.(exc_is_Exception) then
              print env (team_error_text instance_id e);; Ok None
            else Raise e
        | Ok global_managed_agent_counter =>
            print env (team_created_text instance_id);;
            Ok (Some global_managed_agent_counter)
        end
    end.

(** The body of the [try] around [agent.run]: the value of [output] when
    it ends (None until [agent.run] has returned) and the exception it
    raised, if any. *)
Definition try_body (env : Env) (question : string) (instance_id : option string)
  : pyval * option PyExc :=
  match print env (running_text instance_id) with
  | Raise e => (PNone, Some e)
  | Ok _ =>
      match env.(agent_run) (augmented_question question) with
      | Raise e => (PNone, Some e)
      | Ok output =>
          match print env (completed_text instance_id) with
          | Raise e => (output, Some e)
          | Ok _ => (output, None)
          end
      end
  end.

(** The [except Exception as e] clause: two prints, then the new value
    of [output]. *)
Definition handler (env : Env) (instance_id : option string) (e : PyExc)
  : result pyval :=
  print_all env (error_texts instance_id e);;
  Ok (PStr ("Error: " +:+ e.(exc_str))).

(** The value of [output] when the [finally] clause starts, and the
    exception then in flight: what the agent returned; the error text
    when an [Exception] was caught and reported; the value it had, with
    the exception, when the exception was not an [Exception] or when a
    print of the [except] clause raised. *)
Definition output_of (env : Env) (question : string) (instance_id : option string)
  : pyval * option PyExc :=
  match try_body env question instance_id with
  | (output, None) => (output, None)
  | (output, Some e) =>
      if e.(exc_is_Exception) then
        match handler env instance_id e with
        | Ok output' => (output', None)
        | Raise e' => (output, Some e')
        end
      else (output, Some e)
  end.

(** The [finally] clause up to the result record. *)
Definition cleanup (env : Env) (instance_id : option string) : result unit :=
  print env (cleaning_text instance_id);;
  match env.(task_logger_close) with
  | Some e => if e.(exc_is_Exception) then print env (close_warning_text e) else Raise e
  | None => Ok tt
  end.

(** The last two prints of the [finally] clause. *)
Definition report (rt : PyRuntime) (env : Env) (output_dir : string)
    (instance_id : option string) (output : pyval) : result unit :=
  print env (if saves rt output then saved_text output_dir instance_id
             else not_saved_text);;
  print env (answer_text rt output).

(** The writing of the result file in the [finally] clause: the file
    system after it. *)
Definition written (rt : PyRuntime) (env : Env) (fs : gmap string Entry)
    (question : string) (ids : ModelIds) (output_dir : string)
    (instance_id : option string)
    (global_managed_agent_counter : option GlobalManagedAgentCounter.t)
    (output : pyval) : gmap string Entry :=
  if saves rt output then
    <[output_file output_dir instance_id :=
        File (rt.(json_dumps)
                (result_record rt env question ids instance_id output
                   global_managed_agent_counter))]> fs
  else fs.

(** The [finally] clause: its [return output] ends the call and discards
    an exception in flight; an exception raised in the clause itself
    leaves the call instead, after the result file was written if it was
    raised by one of the last two prints. *)
Definition finish (rt : PyRuntime) (env : Env) (fs : gmap string Entry)
    (question : string) (ids : ModelIds) (output_dir : string)
    (instance_id : option string)
    (global_managed_agent_counter : option GlobalManagedAgentCounter.t)
    (output : pyval) : result pyval * gmap string Entry :=
  match cleanup env instance_id with
  | Raise e => (Raise e, fs)
  | Ok _ =>
      let fs := written rt env fs question ids output_dir instance_id
                  global_managed_agent_counter output in
      match report rt env output_dir instance_id output with
      | Raise e => (Raise e, fs)
      | Ok _ => (Ok output, fs)
      end
  end.

(** [run_inference]: what it returns, or the exception it lets through,
    and the file system it leaves. *)
Definition run_inference (rt : PyRuntime) (env : Env) (fs : gmap string Entry)
    (question : string) (ids : ModelIds) (output_dir : string)
    (instance_id : option string) : result pyval * gmap string Entry :=
  match setup env question ids instance_id with
  | Raise e => (Raise e, fs)
  | Ok None => (Ok PNone, fs)
  | Ok (Some global_managed_agent_counter) =>
      let '(output, _) := output_of env question instance_id in
      finish rt env fs question ids output_dir instance_id
        global_managed_agent_counter output
  end.

(** *** Conditions on the console *)

(** [console.print(text)] returns. *)
Definition accepts (env : Env) (text : string) : Prop :=
  env.(console_print) text = None.

(** The texts that the [finally] clause prints on [output]. *)
Definition closing_texts (rt : PyRuntime) (env : Env) (output_dir : string)
    (instance_id : option string) (output : pyval) : list string :=
  cleaning_text instance_id
  :: match env.(task_logger_close) with
     | Some e => [close_warning_text e]
     | None => []
     end
  ++ [ if saves rt output then saved_text output_dir instance_id else not_saved_text;
       answer_text rt output ].

(** Nothing raises in the [finally] clause on [output]: closing the log
    raises at most an [Exception], and the console accepts the texts of
    the clause. *)
Definition finally_quiet (rt : PyRuntime) (env : Env) (output_dir : string)
    (instance_id : option string) (output : pyval) : Prop :=
  (forall e, env.(task_logger_close) = Some e -> e.(exc_is_Exception) = true) /\
  Forall (accepts env) (closing_texts rt env output_dir instance_id output).
End Inference.

(* ===================================================================== *)
(** * 9. Sample inputs                                                    *)
(* ===================================================================== *)

Module Sample.
Definition runtime : PyRuntime :=
  {| json_loads := fun text =>
       if String.eqb text "good" then
         Ok (PDict [("answer", PStr "| a | b |")]%string)
       else if String.eqb text "interrupted" then
         Ok (PDict [("answer", PStr "Action: search")]%string)
       else if String.eqb text "fenced" then
         Ok (PDict [("answer", PStr ("```" +:+ nbsp +:+ "{ }"))]%string)
       else Raise (MkExc "JSONDecodeError" true "Expecting value");
     repr := fun _ => "<object>"%string;
     json_dumps := fun _ => "good"%string;
     isoformat := fun t => str_int t;
     seconds_repr := fun t => str_int t;
     seconds_1f := fun t => str_int t |}.

Definition ids : ModelIds :=
  {| main_model_id := "main"; tabular_model_id := "tabular"; deep_model_id := "deep" |}.

Definition example : Example :=
  {| instance_id := "ws_001"; task_id := None; query := "list the moons of Mars" |}.


Definition MarkupError : PyExc :=
  {| exc_type := "MarkupError"; exc_is_Exception := true;
     exc_str := "closing tag '[/x]' doesn't match any open tag" |}.

(** A console that raises on the texts with the closing tag [/x]. *)
Definition console (text : string) : option PyExc :=
  if Text.contains "[/x]" text then Some MarkupError else None.

(** A run with an API key, models and an agent team, whose agent ends
    as given. *)
Definition run_with (outcome : result pyval) : Inference.Env :=
  {| Inference.use_out_key := false;
     Inference.use_summary_tool := false;
     Inference.api_key := Some "sk-test"%string;
     Inference.console_print := console;
     Inference.create_model_instances := None;
     Inference.clear_database_tables := None;
     Inference.create_agent_team := Ok None;
     Inference.agent_run := fun _ => outcome;
     Inference.task_logger_close := None;
     Inference.start_time := 0;
     Inference.end_time := 1000000 |}.


(** A run whose agent fails with a connection error. *)
Definition failing_run : Inference.Env :=
  run_with (Raise (MkExc "ConnectionError" true "reset by peer")).

(** A run whose agent fails with a message that the console rejects. *)
Definition unprintable_failure : Inference.Env :=
  run_with (Raise (MkExc "ValueError" true "bad [/x] tag")).


(** A run whose agent team cannot be made, with a message that the
    console rejects. *)
Definition unprintable_setup : Inference.Env :=
  {| Inference.use_out_key := false;
     Inference.use_summary_tool := false;
     Inference.api_key := Some "sk-test"%string;
     Inference.console_print := console;
     Inference.create_model_instances := None;
     Inference.clear_database_tables := None;
     Inference.create_agent_team := Raise (MkExc "ValueError" true "bad [/x] tag");
     Inference.agent_run := fun _ => Ok (PStr "| a | b |");
     Inference.task_logger_close := None;
     Inference.start_time := 0;
     Inference.end_time := 1000000 |}.

(** A run without an API key. *)
Definition no_key : Inference.Env :=
  {| Inference.use_out_key := false;
     Inference.use_summary_tool := false;
     Inference.api_key := None;
     Inference.console_print := console;
     Inference.create_model_instances := None;
     Inference.clear_database_tables := None;
     Inference.create_agent_team := Ok None;
     Inference.agent_run := fun _ => Ok (PStr "| a | b |");
     Inference.task_logger_close := None;
     Inference.start_time := 0;
     Inference.end_time := 1000000 |}.

(** A run whose models cannot be made. *)
Definition no_models : Inference.Env :=
  {| Inference.use_out_key := false;
     Inference.use_summary_tool := false;
     Inference.api_key := Some "sk-test"%string;
     Inference.console_print := console;
     Inference.create_model_instances := Some (MkExc "ValueError" true "unknown model");
     Inference.clear_database_tables := None;
     Inference.create_agent_team := Ok None;
     Inference.agent_run := fun _ => Ok (PStr "| a | b |");
     Inference.task_logger_close := None;
     Inference.start_time := 0;
     Inference.end_time := 1000000 |}.

(** A summarisation service that always answers with status 500. *)
Definition failing_api : SummaryEnv :=
  {| request_api_detail := Some (fun _ _ _ => ApiReturns PNone 500);
     str_format := fun _ task history => Ok (task +:+ nl +:+ history) |}.

(** An agent with three steps on its log, the last measured at 90000
    input tokens. *)
Definition agent : ContextSummarizationMixin.t :=
  {| ContextSummarizationMixin.context_token_threshold := 80000;
     ContextSummarizationMixin.summary_model_name := "qwen3-next-80b-a3b-instruct";
     ContextSummarizationMixin.summary_system_prompt := "system";
     ContextSummarizationMixin.summary_user_template := "{task} {history}";
     ContextSummarizationMixin.min_steps_before_summary := 2;
     ContextSummarizationMixin.summary_max_retries := 5;
     ContextSummarizationMixin.task := "find the moons";
     ContextSummarizationMixin.memory :=
       {| mem_system_prompt := "you are an agent";
          steps :=
            [ TaskStep "find the moons";
              ActionStep 1 (Some "thinking") None (Some "seen") None
                (Some (MkTokenUsage 50000 10));
              ActionStep 2 (Some "more") None (Some "seen more") None
                (Some (MkTokenUsage 90000 12)) ] |};
     ContextSummarizationMixin._summarization_count := 0;
     ContextSummarizationMixin._total_tokens_saved := 0;
     ContextSummarizationMixin.events := [] |}.

(** The same agent, set to compact from its first step on. *)
Definition eager_agent : ContextSummarizationMixin.t :=
  {| ContextSummarizationMixin.context_token_threshold := 80000;
     ContextSummarizationMixin.summary_model_name := "qwen3-next-80b-a3b-instruct";
     ContextSummarizationMixin.summary_system_prompt := "system";
     ContextSummarizationMixin.summary_user_template := "{task} {history}";
     ContextSummarizationMixin.min_steps_before_summary := 1;
     ContextSummarizationMixin.summary_max_retries := 5;
     ContextSummarizationMixin.task := "find the moons";
     ContextSummarizationMixin.memory := agent.(ContextSummarizationMixin.memory);
     ContextSummarizationMixin._summarization_count := 0;
     ContextSummarizationMixin._total_tokens_saved := 0;
     ContextSummarizationMixin.events := [] |}.

(** A coordinator with one managed agent, whose template lives at
    location 0 with its memory at 1 and its state at 2. *)
Definition template : Agent.t :=
  {| Agent.class := "ContextSummarizationMemoryManagedToolCallingAgent";
     Agent.tools := [("google_search", 10%nat); ("visit_webpage", 11%nat)]%string;
     Agent.model := 12%nat;
     Agent.prompt_templates := 13%nat;
     Agent.max_steps := 40;
     Agent.planning_interval := None;
     Agent.name := Some "tabular_search_agent"%string;
     Agent.description := Some "searches and fills tables"%string;
     Agent.provide_run_summary := false;
     Agent.logger := 14%nat;
     Agent.managed_agents := Some [];
     Agent.system_prompt := "you are a tabular search agent";
     Agent.optional_attrs := {[ "max_tool_threads"%string := PInt 4 ]};
     Agent.memory := 1%nat;
     Agent.step_number := 7;
     Agent.state := 2%nat;
     Agent.inputs := None;
     Agent.output_type := Some (PStr "string") |}.

Definition old_memory : AgentMemory :=
  {| mem_system_prompt := "you are a tabular search agent";
     steps := [TaskStep "an earlier task"; OtherStep] |}.

Definition world : World :=
  {| heap := {[ 0%nat := OAgent template; 1%nat := OMemory old_memory;
                2%nat := ODict [("seen", PBool true)]%string ]};
     self_managed_agents := [("tabular_search_agent", 0%nat)]%string;
     self_managed_agent_counter := None |}.



(** Two calls of the same managed agent in one step of the coordinator. *)
Definition call : Dispatch.Call :=
  {| Dispatch.tool_name := "tabular_search_agent";
     Dispatch.arguments := PDict [];
     Dispatch.now := "2025-01-01T00:00:00" |}.


(** A task that is still running after its timeout and after the request
    to terminate. *)
Definition stuck_task : Batch.TaskWorld :=
  {| Batch.alive_after_timeout := true;
     Batch.alive_after_terminate := true;
     Batch.queue := Batch.QueueEmpty;
     Batch.files := ∅;
     Batch.start_time := 0;
     Batch.end_time := 3615000000 |}.
End Sample.

(* ===================================================================== *)
(** * 10. Further notions used in the properties                          *)
(* ===================================================================== *)

(** The times of the calls for [agent_name] that were let through: [calls]
    are the calls in order, [results] what [try_increment] returned for
    each. *)
Definition granted_times (agent_name : string) (calls : list (string * string))
    (results : list bool) : list string :=
  omap (fun '((name, now), ok) =>
          if (ok : bool) && String.eqb name agent_name then Some now else None)
       (zip calls results).

(** No name outside the limits [m] has a count or a history. *)
Definition only_governed (m : list (string * Z)) (g : GlobalManagedAgentCounter.t)
  : Prop :=
  forall agent_name, assoc agent_name m = None ->
    assoc agent_name g.(GlobalManagedAgentCounter.counts) = None /\
    assoc agent_name g.(GlobalManagedAgentCounter.call_history) = None.

(* ===================================================================== *)
(** * 11. More of the compactor (tools/context_summary_toolcalling_agent.py) *)
(* ===================================================================== *)

(** A [ChatMessage]: its role and its content parts. *)
Record ChatMessage : Type := MkChatMessage {
  msg_role : string;
  msg_content : list pyval
}.

Module SummaryStepMethods.
(** The text of the message of a summary step. *)
Definition message_text (original_task summary : string)
    (summarized_steps_count : Z) : string :=
  "[上下文摘要 - 已压缩 " +:+ str_int summarized_steps_count +:+ " 个历史步骤]"
    +:+ nl +:+ nl
    +:+ "**原始任务:** " +:+ original_task +:+ nl +:+ nl
    +:+ "**之前工作的摘要:**" +:+ nl
    +:+ summary +:+ nl +:+ nl
    +:+ "---" +:+ nl
    +:+ "请基于以上摘要继续完成任务。如果摘要中的信息不完整，你可能需要重新搜索或验证相关信息。"
    +:+ nl.

(** [SummaryStep.to_messages]; [None] on a step of another class. The
    argument [summary_mode] is not read. *)
Definition to_messages (s : Step) (summary_mode : bool) : option (list ChatMessage) :=
  match s with
  | SummaryStep original_task summary summarized_steps_count _ =>
      Some [ {| msg_role := "user";
                msg_content :=
                  [PDict [ ("type", PStr "text");
                           ("text", PStr (message_text original_task summary
                                            summarized_steps_count)) ]%string] |} ]
  | _ => None
  end.

(** [SummaryStep.dict] *)
Definition dict (s : Step) : option pyval :=
  match s with
  | SummaryStep original_task summary summarized_steps_count tokens_before_summary =>
      Some (PDict [ ("original_task", PStr original_task);
                    ("summary", PStr summary);
                    ("summarized_steps_count", PInt summarized_steps_count);
                    ("tokens_before_summary", PInt tokens_before_summary) ]%string)
  | _ => None
  end.
End SummaryStepMethods.

(** [ContextSummarizationMixin.get_summarization_stats] *)
Definition get_summarization_stats (self : ContextSummarizationMixin.t) : pyval :=
  PDict
    [ ("summarization_count", PInt self.(ContextSummarizationMixin._summarization_count));
      ("total_tokens_saved", PInt self.(ContextSummarizationMixin._total_tokens_saved));
      ("current_steps",
       PInt (Z.of_nat (length self.(ContextSummarizationMixin.memory).(steps))));
      ("context_token_threshold",
       PInt self.(ContextSummarizationMixin.context_token_threshold));
      ("summary_model_name", PStr self.(ContextSummarizationMixin.summary_model_name)) ]%string.

(** The separator between the steps in [_history_to_text]. *)
Definition history_separator : string := nl +:+ nl +:+ "---" +:+ nl +:+ nl.

(** The events of a run of the retry loop in which the first [failed]
    attempts fail and the next one succeeds. *)
Definition attempts_until_success (system_prompt user_prompt : string)
    (max_retries : Z) (failed : nat) : list Event :=
  ContextSummarizationMixin.failed_attempt_events system_prompt user_prompt
    max_retries 1 failed
  ++ [ApiCall system_prompt user_prompt].

Module SampleApi.
(** A response with the given content and the given usage entry. *)
Definition response (content : string) (usage : pyval) : pyval :=
  PDict [ ("choices",
           PList [PDict [("message", PDict [("content", PStr content)]%string)]%string]);
          ("usage", usage) ]%string.

(** A service whose answers carry a null token count. *)
Definition null_tokens : SummaryEnv :=
  {| request_api_detail :=
       Some (fun _ _ _ =>
               ApiReturns (response "the moons are Phobos and Deimos"
                             (PDict [("completion_tokens", PNone)]%string)) 200);
     str_format := fun _ task history => Ok (task +:+ nl +:+ history) |}.

(** A service that fails twice and then answers. *)
Definition third_time_lucky : SummaryEnv :=
  {| request_api_detail :=
       Some (fun n _ _ =>
               if (n <? 2)%nat then ApiReturns PNone 503
               else ApiReturns (response "  the moons are Phobos and Deimos  "
                                  (PDict [("completion_tokens", PInt 9)]%string)) 200);
     str_format := fun _ task history => Ok (task +:+ nl +:+ history) |}.

(** No summarisation service: the import of my_utils failed. *)
Definition unavailable : SummaryEnv :=
  {| request_api_detail := None;
     str_format := fun _ task history => Ok (task +:+ nl +:+ history) |}.
End SampleApi.

(* ===================================================================== *)
(** * 13. Results after a task (run_widesearch_batch_inference.py)        *)
(* ===================================================================== *)

(** A collection of the database, as [get_tables_for_task] meets it: its
    name; its schema document, if it has one, with the value of "columns"
    if that key is there (a list of strings, as [create_table] stores it);
    its records other than the schema document; whether reading it
    raises. *)
Record Collection : Type := MkCollection {
  coll_name : string;
  schema_columns : option (option (list string));
  coll_records : list (list (string * pyval));
  coll_raises : bool
}.

(** The database: whether connecting or listing the collections raises,
    and the collections in the order in which they are listed. *)
Record Database : Type := MkDatabase {
  connect_raises : bool;
  collections : list Collection
}.

(** One entry of the dictionary that [get_tables_for_task] returns. *)
Record Table : Type := MkTable {
  full_name : string;
  columns : list string;
  records : list (list (string * pyval));
  record_count : Z
}.

Module Recovery.
(** The loop of [get_tables_for_task] over the collection names; an
    exception ends it and the tables found so far are returned. *)
Fixpoint collect_tables (prefix : string) (cs : list Collection)
    (tables : list (string * Table)) : list (string * Table) :=
  match cs with
  | [] => tables
  | c :: cs' =>
      if String.prefix "system." c.(coll_name) || String.eqb c.(coll_name) "_metadata"
      then collect_tables prefix cs' tables
      else if negb (String.prefix prefix c.(coll_name))
      then collect_tables prefix cs' tables
      else if c.(coll_raises) then tables
      else
        match c.(schema_columns) with
        | None => collect_tables prefix cs' tables
        | Some cols =>
            let columns := default [] cols in
            let records := c.(coll_records) in
            let table_name_without_prefix := Text.after_prefix prefix c.(coll_name) in
            collect_tables prefix cs'
              (PyDict.set tables table_name_without_prefix
                 {| full_name := c.(coll_name);
                    columns := columns;
                    records := records;
                    record_count := Z.of_nat (length records) |})
        end
  end.

Definition get_tables_for_task (db : Database) (instance_id : string)
  : list (string * Table) :=
  if db.(connect_raises) then []
  else collect_tables (instance_id +:+ "_") db.(collections) [].

(** One cell of a row. *)
Definition cell (rt : PyRuntime) (record : list (string * pyval)) (col : string)
  : string :=
  let value := default (PStr "") (PyDict.get record col) in
  let str_value := match value with PNone => ""%string | _ => py_str rt value end in
  let str_value :=
    Text.replace_char (ascii_of_nat 13) ""
      (Text.replace_char (ascii_of_nat 10) " "
         (Text.replace_char "|"%char (String (ascii_of_nat 92) "|") str_value)) in
  if (200 <? Text.len str_value)%nat then Text.take 197 str_value +:+ "..."
  else str_value.

Definition table_lines (rt : PyRuntime) (table_data : Table) : list string :=
  let columns := table_data.(columns) in
  let records := table_data.(records) in
  let header := "| " +:+ join " | " columns +:+ " |" in
  let separator := "| " +:+ join " | " (map (fun _ => "---"%string) columns) +:+ " |" in
  [header; separator]
  ++ map (fun record => "| " +:+ join " | " (map (cell rt record) columns) +:+ " |")
         records
  ++ [""%string].

Definition tables_to_markdown (rt : PyRuntime) (tables : list (string * Table))
  : string :=
  match tables with
  | [] => "No tables found for this task."
  | _ => join nl (flat_map (fun '(_, table_data) => table_lines rt table_data) tables)
  end.

Definition api_error_patterns : list string :=
  [ "Error while generating output:"; "Connection aborted."; "ConnectionResetError";
    "Connection reset by peer"; "APIConnectionError"; "APITimeoutError";
    "RateLimitError"; "ServiceUnavailableError"; "InternalServerError";
    "BadRequestError"; "AuthenticationError"; "RemoteDisconnected";
    "ConnectionRefusedError"; "TimeoutError"; "SSLError" ]%string.

Definition log_path (output_dir instance_id : string) : string :=
  output_dir +:+ "/work/" +:+ instance_id +:+ "/agent_log.txt".

(** [has_api_error_in_log]: the last 5000 bytes of the log are decoded
    and searched; a log that is missing, cannot be opened or does not
    decode gives False. *)
Definition has_api_error_in_log (fs : gmap string Entry)
    (output_dir instance_id : string) : bool :=
  match fs !! log_path output_dir instance_id with
  | None => false
  | Some Unreadable => false
  | Some (File bytes) =>
      let content := Text.last_bytes 5000 bytes in
      if Text.utf8_valid content then
        existsb (fun pattern => Text.contains pattern content) api_error_patterns
      else false
  end.

(** [d.get(key)] *)
Definition get (d : list (string * pyval)) (key : string) : pyval :=
  default PNone (PyDict.get d key).

Definition is_result_valid (rt : PyRuntime) (task_result : list (string * pyval))
  : bool :=
  if truthy (get task_result "error") then false
  else if truthy (get task_result "timeout") then false
  else
    let answer := if truthy (get task_result "answer") then get task_result "answer"
                  else get task_result "response" in
    if negb (truthy answer) then false
    else
      let answer_str := py_str rt answer in
      if String.prefix "Error:" answer_str then false
      else if Batch.contains_tool_tags rt (PStr answer_str) then false
      else true.

(** The name that the file paths are built from; a value that is not a
    string cannot be joined to a path. *)
Definition path_part (v : pyval) : result string :=
  match v with
  | PStr s => Ok s
  | _ => Raise (TypeError "unsupported operand type(s) for /")
  end.

(** [postprocess_result]: the result it returns and the file system it
    leaves. Writing the result file is taken to succeed. *)
Definition postprocess_result (rt : PyRuntime) (db : Database)
    (fs : gmap string Entry) (task_result : list (string * pyval)) (output_dir : string)
  : result (list (string * pyval)) * gmap string Entry :=
  let instance_id := get task_result "instance_id" in
  if negb (truthy instance_id) then (Ok task_result, fs)
  else if is_result_valid rt task_result then (Ok task_result, fs)
  else
    match path_part instance_id with
    | Raise e => (Raise e, fs)
    | Ok name =>
        if has_api_error_in_log fs output_dir name then
          let r := PyDict.set task_result "answer" (PStr "") in
          let r := PyDict.set r "response" (PStr "") in
          let r := PyDict.set r "api_error" (PBool true) in
          let r := PyDict.set r "skip_recovery" (PBool true) in
          let result_file := Batch.result_path output_dir (py_str rt instance_id) in
          (Ok r, <[result_file := File (rt.(json_dumps) (PDict r))]> fs)
        else
          let tables := get_tables_for_task db (py_str rt instance_id) in
          match tables with
          | [] => (Ok task_result, fs)
          | _ =>
              let markdown_result := tables_to_markdown rt tables in
              let final_result :=
                "```markdown" +:+ nl +:+ markdown_result +:+ nl +:+ "```" in
              let r := PyDict.set task_result "answer" (PStr final_result) in
              let r := PyDict.set r "response" (PStr final_result) in
              let r := PyDict.set r "recovered_from_tables" (PBool true) in
              let r := PyDict.set r "recovered_tables_count"
                         (PInt (Z.of_nat (length tables))) in
              let r := PyDict.set r "original_error" (get r "error") in
              let r := PyDict.set r "error" PNone in
              let result_file := Batch.result_path output_dir (py_str rt instance_id) in
              (Ok r, <[result_file := File (rt.(json_dumps) (PDict r))]> fs)
          end
    end.

(** [_run_single_task_in_process]: what the child puts into the queue
    (or the exception that ends the child before it does) and the file
    system it leaves. *)
Definition _run_single_task_in_process (rt : PyRuntime) (env : Inference.Env)
    (fs : gmap string Entry) (example : Example) (ids : ModelIds)
    (output_dir : string) : result pyval * gmap string Entry :=
  let instance_id := example.(instance_id) in
  let task_id := default instance_id example.(task_id) in
  let query := example.(query) in
  let '(outcome, fs) :=
    Inference.run_inference rt env fs query ids output_dir (Some instance_id) in
  match outcome with
  | Raise e =>
      if e.(exc_is_Exception) then
        (* [except Exception as e]: [error = str(e)] *)
        (Ok (PDict
               [ ("instance_id", PStr instance_id); ("task_id", PStr task_id);
                 ("query", PStr query); ("question", PStr query);
                 ("answer", PNone); ("response", PNone);
                 ("error", PStr e.(exc_str)); ("timeout", PBool false);
                 ("start_time", PStr (rt.(isoformat) env.(Inference.start_time)));
                 ("end_time", PStr (rt.(isoformat) env.(Inference.end_time)));
                 ("duration_seconds",
                  total_seconds rt env.(Inference.start_time) env.(Inference.end_time));
                 ("main_model_id", PStr ids.(main_model_id));
                 ("tabular_model_id", PStr ids.(tabular_model_id));
                 ("deep_model_id", PStr ids.(deep_model_id)) ]%string), fs)
      else (Raise e, fs)
  | Ok output =>
      let result_file := Batch.result_path output_dir instance_id in
      let run_inference_result :=
        match fs !! result_file with
        | Some (File content) =>
            match rt.(json_loads) content with
            | Ok v => v
            | Raise _ => PNone
            end
        | _ => PNone
        end in
      if truthy run_inference_result then
        match run_inference_result with
        | PDict d =>
            let r := PyDict.set d "query" (PStr query) in
            let r := PyDict.set r "error" PNone in
            let r := PyDict.set r "timeout" (PBool false) in
            (Ok (PDict r), fs)
        | PList _ => (Raise (TypeError "list indices must be integers or slices, not str"), fs)
        | _ => (Raise (AttributeError "object has no attribute 'copy'"), fs)
        end
      else
        (Ok (PDict
               [ ("instance_id", PStr instance_id); ("task_id", PStr task_id);
                 ("query", PStr query); ("question", PStr query);
                 ("answer", if truthy output then PStr (py_str rt output) else PNone);
                 ("response", if truthy output then PStr (py_str rt output) else PNone);
                 ("error", PNone); ("timeout", PBool false);
                 ("start_time", PStr (rt.(isoformat) env.(Inference.start_time)));
                 ("end_time", PStr (rt.(isoformat) env.(Inference.end_time)));
                 ("duration_seconds",
                  total_seconds rt env.(Inference.start_time) env.(Inference.end_time));
                 ("main_model_id", PStr ids.(main_model_id));
                 ("tabular_model_id", PStr ids.(tabular_model_id));
                 ("deep_model_id", PStr ids.(deep_model_id)) ]%string), fs)
  end.

(** The three counts that [run_widesearch_batch] reports. *)
Definition completed_count (results : list (list (string * pyval))) : nat :=
  length (List.filter
            (fun r => truthy (if truthy (get r "response") then get r "response"
                              else get r "answer")
                      && negb (truthy (get r "error")))
            results).

Definition timeout_count (results : list (list (string * pyval))) : nat :=
  length (List.filter (fun r => truthy (get r "timeout")) results).

Definition error_count (results : list (list (string * pyval))) : nat :=
  length (List.filter
            (fun r => truthy (get r "error") && negb (truthy (get r "timeout")))
            results).
End Recovery.

(** The answer that the checks of a result look at,
    [result.get("answer") or result.get("response")], and what they ask of
    it: to be truthy, not to start with "Error:", and to hold none of the
    tool patterns. *)
Definition checked_answer (d : list (string * pyval)) : pyval :=
  if truthy (Recovery.get d "answer") then Recovery.get d "answer"
  else Recovery.get d "response".

Definition acceptable_answer (rt : PyRuntime) (answer : pyval) : bool :=
  truthy answer
  && negb (String.prefix "Error:" (py_str rt answer))
  && negb (Batch.contains_tool_tags rt answer).

Module SampleRun.
(** A run whose agent answers with a table. *)
Definition succeeding_run : Inference.Env :=
  Sample.run_with (Ok (PStr "| Phobos | Deimos |")).

(** The record that this run writes. *)
Definition saved_record : pyval :=
  Inference.result_record Sample.runtime succeeding_run Sample.example.(query)
    Sample.ids (Some Sample.example.(instance_id)) (PStr "| Phobos | Deimos |") None.

(** A runtime whose JSON reader gives back a record. *)
Definition runtime_for (record : pyval) : PyRuntime :=
  {| json_loads := fun _ => Ok record;
     repr := Sample.runtime.(repr);
     json_dumps := fun _ => "saved"%string;
     isoformat := Sample.runtime.(isoformat);
     seconds_repr := Sample.runtime.(seconds_repr);
     seconds_1f := Sample.runtime.(seconds_1f) |}.

Definition runtime : PyRuntime := runtime_for saved_record.

End SampleRun.

Module SampleRecovery.
(** The result of a task whose agent failed. *)
Definition failed_result : list (string * pyval) :=
  [ ("instance_id", PStr "ws_001"); ("answer", PNone); ("response", PNone);
    ("error", PStr "reset by peer"); ("timeout", PBool false) ]%string.

(** A file system with the log of that task, which ends in an API error. *)
Definition log_with_api_error : gmap string Entry :=
  {[ "out/work/ws_001/agent_log.txt"%string :=
       File "step 1: search. APIConnectionError: Connection error." ]}.

(** The result once answer and response are emptied. *)
Definition blanked_result : list (string * pyval) :=
  PyDict.set (PyDict.set (PyDict.set (PyDict.set failed_result
    "answer" (PStr "")) "response" (PStr ""))
    "api_error" (PBool true)) "skip_recovery" (PBool true).

(** A runtime whose JSON reader gives back that result. *)
Definition runtime : PyRuntime :=
  {| json_loads := fun _ => Ok (PDict blanked_result);
     repr := Sample.runtime.(repr);
     json_dumps := fun _ => "blanked"%string;
     isoformat := Sample.runtime.(isoformat);
     seconds_repr := Sample.runtime.(seconds_repr);
     seconds_1f := Sample.runtime.(seconds_1f) |}.

(** The table that the task wrote before it failed, beside a system
    collection and the table of another task. *)
Definition moons : Collection :=
  {| coll_name := "ws_001_moons";
     schema_columns := Some (Some ["name"; "radius"]%string);
     coll_records :=
       [ [("name", PStr "Phobos"); ("radius", PStr "11 km")];
         [("name", PStr "Deimos"); ("radius", PNone)] ]%string;
     coll_raises := false |}.

Definition database : Database :=
  {| connect_raises := false;
     collections :=
       [ {| coll_name := "system.indexes"; schema_columns := None;
            coll_records := []; coll_raises := false |};
         {| coll_name := "ws_002_planets";
            schema_columns := Some (Some ["name"]%string);
            coll_records := [[("name", PStr "Mars")]%string]; coll_raises := false |};
         moons ] |}.
End SampleRecovery.

(* ===================================================================== *)
(** * 14. Further notions used in the properties                          *)
(* ===================================================================== *)

(** [c in s] for one byte [c]. *)
Fixpoint has_char (c : ascii) (s : string) : bool :=
  match s with
  | EmptyString => false
  | String a s' => Ascii.eqb a c || has_char c s'
  end.

(** The number of "|" in [s] that do not come right after a backslash;
    [after_backslash] tells whether the character before [s] is one. *)
Fixpoint unescaped_pipes_from (after_backslash : bool) (s : string) : nat :=
  match s with
  | EmptyString => O
  | String a s' =>
      ((if Ascii.eqb a "|" && negb after_backslash then 1 else 0)
       + unescaped_pipes_from (Ascii.eqb a (ascii_of_nat 92)) s')%nat
  end.

Definition unescaped_pipes (s : string) : nat := unescaped_pipes_from false s.

(** A collection that [get_tables_for_task] reads for the prefix. *)
Definition read_for (prefix : string) (c : Collection) : bool :=
  negb (String.prefix "system." c.(coll_name) || String.eqb c.(coll_name) "_metadata")
  && String.prefix prefix c.(coll_name).

(** Every byte of [s] is an ASCII character. *)
Fixpoint all_ascii (s : string) : bool :=
  match s with
  | EmptyString => true
  | String c s' => (nat_of_ascii c <? 128)%nat && all_ascii s'
  end.

(** The patterns of [contains_tool_tags] that are plain words. *)
Definition tool_markers : list string :=
  [ "```json"; "Action:"; "Thought:"; "Calling tools" ]%string.

(** What an entry of the result of [get_tables_for_task] says about the
    database. *)
Definition from_collection (prefix : string) (cs : list Collection)
    (name : string) (t : Table) : Prop :=
  exists c cols,
    c ∈ cs /\ read_for prefix c = true /\
    c.(coll_name) = prefix +:+ name /\ c.(coll_raises) = false /\
    c.(schema_columns) = Some cols /\
    t = {| full_name := c.(coll_name); columns := default [] cols;
           records := c.(coll_records);
           record_count := Z.of_nat (length c.(coll_records)) |}.

(** The entry of [get_all_status] for one agent of a governor with the
    limits [m]. *)
Definition status_of (m : list (string * Z)) (g : GlobalManagedAgentCounter.t)
    (name : string) : string * AgentStatus :=
  (name,
   {| status_count := default 0 (assoc name g.(GlobalManagedAgentCounter.counts));
      status_limit := default 0 (assoc name m);
      status_remaining :=
        Z.max 0 (default 0 (assoc name m)
                 - default 0 (assoc name g.(GlobalManagedAgentCounter.counts))) |}).

(* ===================================================================== *)
(** * 15. The tools behind the resource governors                         *)
(* ===================================================================== *)

(** [s[:n]] of a text and of a list, for any integer [n]: a negative [n]
    counts from the end. *)
Definition slice_to (n : Z) (s : string) : string :=
  if 0 <=? n then Text.take (Z.to_nat n) s
  else Text.take (Text.len s - Z.to_nat (- n)) s.

Definition list_slice_to {A : Type} (n : Z) (l : list A) : list A :=
  if 0 <=? n then take (Z.to_nat n) l
  else take (length l - Z.to_nat (- n)) l.

(** ** The webpage tool (tools/jina_visit.py) *)
Module JinaBackedVisitWebpageTool.
(** The attributes of the tool that [forward] reads. The counter is the
    object shared with the other tools of the task. *)
Record t : Type := Mk {
  max_output_length : Z;
  jina_keys : list string;
  work_dir : option string;
  global_visit_counter : option Counter
}.

(** A response of [requests.get] that passed [raise_for_status]: its
    Content-Type header in lower case (the empty text when it has none),
    and what the conversion gives or raises: [markdownify(response.text)]
    stripped, with every run of three or more line feeds replaced by
    two. *)
Record Response : Type := MkResponse {
  content_type : string;
  markdown : result string
}.

(** The outside of the tool: the direct request with its status check;
    whether an exception is a [requests] [Timeout] or [RequestException];
    the request to the Jina reader with one key, which gives the status
    code and the stripped text of the response; and [_save_markdown] on a
    tool with a work directory, which gives the path of the file, None
    when writing failed, or the exception raised while the file name is
    built. *)
Record Web : Type := MkWeb {
  direct_get : string -> result Response;
  is_request_exception : PyExc -> bool;
  jina_get : string -> string -> result (Z * string);
  save_markdown : string -> string -> result (option string)
}.

(** What the tool does to the outside, in order. *)
Inductive Request : Type :=
| DirectGet (url : string)
| JinaGet (key url : string)
| SaveMarkdown (content url : string).

Definition BINARY_MIME_TYPES : list (string * string) :=
  [ ("application/pdf", "PDF document");
    ("image/png", "PNG image");
    ("image/jpeg", "JPEG image");
    ("image/jpg", "JPEG image");
    ("image/gif", "GIF image");
    ("image/webp", "WebP image");
    ("image/svg+xml", "SVG image");
    ("application/zip", "ZIP archive");
    ("application/x-zip-compressed", "ZIP archive");
    ("application/octet-stream", "binary file");
    ("video/mp4", "MP4 video");
    ("video/mpeg", "MPEG video");
    ("audio/mpeg", "MP3 audio");
    ("audio/wav", "WAV audio") ]%string.

Definition _check_mime_type (response : Response) : option string :=
  match List.find (fun '(mime_type, _) => Text.contains mime_type response.(content_type))
                  BINARY_MIME_TYPES with
  | Some (_, description) => Some description
  | None => None
  end.

Definition _truncate_content (content : string) (max_length : Z) : string :=
  if Z.of_nat (Text.len content) <=? max_length then content
  else
    slice_to max_length content
    +:+ nl +:+ "..._This content has been truncated to stay below "
    +:+ str_int max_length +:+ " characters_..." +:+ nl.

(** The loop of [_fetch_with_jina] over the keys. *)
Fixpoint fetch_keys (web : Web) (url : string) (keys : list string)
  : result (option string) * list Request :=
  match keys with
  | [] => (Ok None, [])
  | key :: keys' =>
      match web.(jina_get) key url with
      | Ok (status_code, text) =>
          if status_code =? 200 then (Ok (Some text), [JinaGet key url])
          else
            let '(r, requests) := fetch_keys web url keys' in
            (r, JinaGet key url :: requests)
      | Raise e =>
          if e.(exc_is_Exception) then
            let '(r, requests) := fetch_keys web url keys' in
            (r, JinaGet key url :: requests)
          else (Raise e, [JinaGet key url])
      end
  end.

Definition _fetch_with_jina (web : Web) (self : t) (url : string)
  : result (option string) * list Request :=
  match self.(jina_keys) with
  | [] => (Ok None, [])
  | keys => fetch_keys web url keys
  end.

Definition limit_message (current limit remaining : Z) : string :=
  "Error: Global webpage visit limit reached. "
  +:+ "[Current: " +:+ str_int current +:+ "/" +:+ str_int limit
  +:+ ", Remaining: " +:+ str_int remaining +:+ "] "
  +:+ "You have exhausted the maximum number of webpage visits allowed for this task. "
  +:+ "IMPORTANT: You MUST immediately write all the information you have collected so far into the table using the `add_records` or `update_records` tool. "
  +:+ "Do NOT attempt to visit any more webpages. "
  +:+ "First, consolidate and record your findings in the table using the `add_records` or `update_records` tool, then proceed to complete your task based on the information already gathered.".

Definition budget_info (current limit remaining : Z) : string :=
  "[Current Webpage Visit Budget: " +:+ str_int current +:+ "/" +:+ str_int limit
  +:+ ", Remaining Webpage Visit Budget: " +:+ str_int remaining +:+ "]".

Definition binary_message (binary_type : string) : string :=
  "This URL points to a " +:+ binary_type +:+ ". "
  +:+ "Please use an appropriate tool to access this type of content "
  +:+ "(e.g., PDF reader for PDFs, image analysis tools for images).".

(** How the [try] statement of [forward] ends. *)
Inductive Tried : Type :=
| Returned (text : string)
| Content (markdown_content : option string) (used_jina : bool)
| ErrorMessage (error_message : string)
| Propagated (e : PyExc).

(** The handlers of the [try] statement. *)
Definition handle (web : Web) (self : t) (url : string) (e : PyExc)
  : Tried * list Request :=
  if web.(is_request_exception) e then
    match self.(jina_keys) with
    | _ :: _ =>
        match _fetch_with_jina web self url with
        | (Raise e', requests) => (Propagated e', requests)
        | (Ok markdown_content, requests) =>
            if truthy (match markdown_content with
                       | Some text => PStr text
                       | None => PNone
                       end)
            then (Content markdown_content true, requests)
            else (ErrorMessage
                    ("Error: Failed to fetch the webpage both directly and via Jina API. Direct error: "
                     +:+ e.(exc_str)), requests)
        end
    | [] => (ErrorMessage ("Error fetching the webpage: " +:+ e.(exc_str)), [])
    end
  else if e.(exc_is_Exception) then
    (ErrorMessage ("An unexpected error occurred: " +:+ e.(exc_str)), [])
  else (Propagated e, []).

Definition try_direct (web : Web) (self : t) (url : string) : Tried * list Request :=
  match web.(direct_get) url with
  | Ok response =>
      match _check_mime_type response with
      | Some binary_type => (Returned (binary_message binary_type), [DirectGet url])
      | None =>
          match response.(markdown) with
          | Ok markdown_content => (Content (Some markdown_content) false, [DirectGet url])
          | Raise e =>
              let '(tried, requests) := handle web self url e in
              (tried, DirectGet url :: requests)
          end
      end
  | Raise e =>
      let '(tried, requests) := handle web self url e in
      (tried, DirectGet url :: requests)
  end.

(** [_save_markdown] *)
Definition _save_markdown (web : Web) (self : t) (content url : string)
  : result (option string) * list Request :=
  match self.(work_dir) with
  | None => (Ok None, [])
  | Some _ => (web.(save_markdown) content url, [SaveMarkdown content url])
  end.

(** [forward] after the check of the budget. *)
Definition fetch (web : Web) (self : t) (url : string)
    (visit_counter_info : option string) : result string * list Request :=
  let '(tried, requests) := try_direct web self url in
  match tried with
  | Returned text => (Ok text, requests)
  | Propagated e => (Raise e, requests)
  | ErrorMessage error_message => (Ok error_message, requests)
  | Content None _ | Content (Some "") _ =>
      (Ok "Error: No content was retrieved from the webpage."%string, requests)
  | Content (Some markdown_content) used_jina =>
      let truncated_content :=
        _truncate_content markdown_content self.(max_output_length) in
      match _save_markdown web self markdown_content url with
      | (Raise e, saved) => (Raise e, requests ++ saved)
      | (Ok saved_path, saved) =>
          let result := truncated_content in
          let result :=
            match saved_path with
            | Some path =>
                if truthy (PStr path)
                then result +:+ nl +:+ nl +:+ "_[Content saved to: " +:+ path +:+ "]_"
                else result
            | None => result
            end in
          let result :=
            if used_jina
            then result +:+ nl +:+ nl +:+ "_[Content retrieved via Jina API]_"
            else result in
          let result :=
            match visit_counter_info with
            | Some info => result +:+ nl +:+ nl +:+ "_" +:+ info +:+ "_"
            | None => result
            end in
          (Ok result, requests ++ saved)
      end
  end.

(** [forward]: what it returns or raises, the counter afterwards, and
    the requests it made. The three calls on the counter follow each
    other with no call of another thread in between. *)
Definition forward (web : Web) (self : t) (url : string)
  : result string * option Counter * list Request :=
  match self.(global_visit_counter) with
  | Some counter =>
      let '(ok, counter) := GlobalVisitCounter.try_increment counter in
      let remaining := GlobalVisitCounter.get_remaining counter in
      let current := GlobalVisitCounter.get_count counter in
      let limit := counter.(limit) in
      if negb ok then (Ok (limit_message current limit remaining), Some counter, [])
      else
        let '(r, requests) :=
          fetch web self url (Some (budget_info current limit remaining)) in
        (r, Some counter, requests)
  | None =>
      let '(r, requests) := fetch web self url None in
      (r, None, requests)
  end.

Definition with_counter (self : t) (counter : option Counter) : t :=
  {| max_output_length := self.(max_output_length);
     jina_keys := self.(jina_keys);
     work_dir := self.(work_dir);
     global_visit_counter := counter |}.

(** Visits one after the other on the same tool. *)
Fixpoint forward_all (web : Web) (self : t) (urls : list string)
  : list (result string) * option Counter * list Request :=
  match urls with
  | [] => ([], self.(global_visit_counter), [])
  | url :: urls' =>
      let '(r, counter, requests) := forward web self url in
      let '(rs, counter', requests') :=
        forward_all web (with_counter self counter) urls' in
      (r :: rs, counter', requests ++ requests')
  end.

Definition is_direct_get (r : Request) : bool :=
  match r with DirectGet _ => true | _ => false end.
End JinaBackedVisitWebpageTool.

(** ** The search tool (tools/google_search_tool.py) *)
Module GoogleSearchTool.
(** The attributes of the tool that [forward] reads; [self_limit] is
    [self.limit], the number of results to show. *)
Record t : Type := Mk {
  self_limit : Z;
  max_retries : Z;
  global_search_counter : option Counter
}.

(** What [session.post], [raise_for_status] and [response.json()] give
    in [search]: the decoded JSON; a [RequestException] with its text
    and the status code of its response, if it has one; or another
    exception. *)
Inductive PostOutcome : Type :=
| PostJson (v : pyval)
| PostRequestException (message : string) (status_code : option Z)
| PostRaises (e : PyExc).

(** The outside of the tool: the [n]-th request of a call of [forward]
    (counted from 0), and the Jina search tool, whose code is not part
    of the repository files at hand: what importing it, building it and
    its [forward] give or raise. *)
Record Api : Type := MkApi {
  post : nat -> string -> PostOutcome;
  jina_forward : string -> result string
}.

Inductive Request : Type :=
| Post (query : string)
| JinaSearch (query : string).

Definition search (api : Api) (n : nat) (query : string) : result pyval :=
  match api.(post) n query with
  | PostJson v => Ok v
  | PostRequestException message status_code =>
      Ok (PDict [ ("error", PBool true);
                  ("message", PStr message);
                  ("status_code",
                   match status_code with Some z => PInt z | None => PNone end) ]%string)
  | PostRaises e => Raise e
  end.

(** The three values taken from one item of "organic". *)
Record Hit : Type := MkHit { title : pyval; url : pyval; snippet : pyval }.

Definition hit_of (item : pyval) : option Hit :=
  match item with
  | PDict d =>
      Some {| title := default (PStr "No title") (PyDict.get d "title");
              url := default (PStr "No URL") (PyDict.get d "link");
              snippet := default (PStr "No description") (PyDict.get d "snippet") |}
  | _ => None
  end.

(** All items give a hit, or one of them is no dictionary and
    [item.get] raises. *)
Fixpoint hits_of (items : list pyval) : option (list Hit) :=
  match items with
  | [] => Some []
  | item :: items' =>
      match hit_of item, hits_of items' with
      | Some h, Some hs => Some (h :: hs)
      | _, _ => None
      end
  end.

(** The results of one attempt, from what [search] returned: [None]
    when the attempt fails, with an error entry, without results, or
    with an exception (an answer that is no dictionary, an "organic"
    that is no list, an item that is no dictionary). *)
Definition results_of (self : t) (result : pyval) : option (list Hit) :=
  match result with
  | PDict d =>
      if truthy (default PNone (PyDict.get d "error")) then None
      else
        match PyDict.get d "organic" with
        | Some (PList items) =>
            match hits_of (list_slice_to self.(self_limit) items) with
            | Some (h :: hs) => Some (h :: hs)
            | _ => None
            end
        | _ => None
        end
  | _ => None
  end.

(** [format_result] on a hit, which has no "error" entry. *)
Definition format_result (rt : PyRuntime) (result : Hit) (index : nat) : string :=
  join nl
    [ nl +:+ "  [" +:+ str_int (Z.of_nat index) +:+ "] " +:+ py_str rt result.(title);
      "      链接: " +:+ py_str rt result.(url);
      "      摘要: " +:+ py_str rt result.(snippet) ].

Definition format_all (rt : PyRuntime) (results : list Hit) : string :=
  str_mul "=" 80
  +:+ join nl (imap (fun index result => format_result rt result index) results)
  +:+ nl +:+ str_mul "=" 80.

Definition limit_message (current limit remaining : Z) : string :=
  "Error: Global search limit reached. "
  +:+ "[Current: " +:+ str_int current +:+ "/" +:+ str_int limit
  +:+ ", Remaining: " +:+ str_int remaining +:+ "] "
  +:+ "You have exhausted the maximum number of searches allowed for this task. "
  +:+ "IMPORTANT: You MUST immediately write all the information you have collected so far into the table using the `add_records` or `update_records` tool. "
  +:+ "Do NOT attempt to perform any more searches. "
  +:+ "First, consolidate and record your findings in the table using the `add_records` or `update_records` tool, then proceed to complete your task based on the information already gathered.".

Definition budget_info (current limit remaining : Z) : string :=
  "[Current Google Search Budget: " +:+ str_int current +:+ "/" +:+ str_int limit
  +:+ ", Remaining Google Search Budget: " +:+ str_int remaining +:+ "]".

Definition with_info (text : string) (search_counter_info : option string) : string :=
  match search_counter_info with
  | Some info => text +:+ nl +:+ nl +:+ "_" +:+ info +:+ "_"
  | None => text
  end.

Definition fallback_failed : PyExc :=
  {| exc_type := "Exception"; exc_is_Exception := true;
     exc_str := "Google Search Failed or Return No Results. You MUST refine your search query and strategy and try again." |}.

(** The loop over the attempts: [n] requests were made before,
    [attempts_left] attempts remain. [None]: every attempt failed. The
    text kept in [last_error] is never read and is left out. *)
Fixpoint attempts (rt : PyRuntime) (api : Api) (self : t) (query : string)
    (search_counter_info : option string) (n attempts_left : nat)
  : option (result string) * list Request :=
  match attempts_left with
  | O => (None, [])
  | S attempts_left' =>
      let retry :=
        let '(r, requests) :=
          attempts rt api self query search_counter_info (S n) attempts_left' in
        (r, Post query :: requests) in
      match search api n query with
      | Raise e =>
          if e.(exc_is_Exception) then retry
          else (Some (Raise e), [Post query])
      | Ok result =>
          match results_of self result with
          | Some results =>
              (Some (Ok (with_info (format_all rt results) search_counter_info)),
               [Post query])
          | None => retry
          end
      end
  end.

(** [forward] after the check of the budget. *)
Definition run (rt : PyRuntime) (api : Api) (self : t) (query : string)
    (search_counter_info : option string) : result string * list Request :=
  match attempts rt api self query search_counter_info 0
          (Z.to_nat self.(max_retries)) with
  | (Some r, requests) => (r, requests)
  | (None, requests) =>
      match api.(jina_forward) query with
      | Ok jina_result =>
          (Ok (with_info ("[回退到 Jina Search]" +:+ nl +:+ jina_result)
                 search_counter_info),
           requests ++ [JinaSearch query])
      | Raise e =>
          if e.(exc_is_Exception)
          then (Raise fallback_failed, requests ++ [JinaSearch query])
          else (Raise e, requests ++ [JinaSearch query])
      end
  end.

(** [forward]: what it returns or raises, the counter afterwards, and
    the requests it made. The three calls on the counter follow each
    other with no call of another thread in between. *)
Definition forward (rt : PyRuntime) (api : Api) (self : t) (query : string)
  : result string * option Counter * list Request :=
  match self.(global_search_counter) with
  | Some counter =>
      let '(ok, counter) := GlobalSearchCounter.try_increment counter in
      let remaining := GlobalSearchCounter.get_remaining counter in
      let current := GlobalSearchCounter.get_count counter in
      let limit := counter.(limit) in
      if negb ok then (Ok (limit_message current limit remaining), Some counter, [])
      else
        let '(r, requests) :=
          run rt api self query (Some (budget_info current limit remaining)) in
        (r, Some counter, requests)
  | None =>
      let '(r, requests) := run rt api self query None in
      (r, None, requests)
  end.

Definition is_post (r : Request) : bool :=
  match r with Post _ => true | _ => false end.

Definition is_jina (r : Request) : bool :=
  match r with JinaSearch _ => true | _ => false end.
End GoogleSearchTool.

(* ===================================================================== *)
(** * 16. The table tool (tools/db_table_code_v2.py)                      *)
(* ===================================================================== *)

(** [str.lower] and [str.strip] of the runtime. *)
Record StrRuntime : Type := MkStrRuntime {
  str_lower : string -> string;
  str_strip : string -> string
}.

(** [s.split(sep)] for a separator of one ASCII character. *)
Fixpoint split_char (sep : ascii) (s : string) : list string :=
  match s with
  | EmptyString => [""%string]
  | String c s' =>
      if Ascii.eqb c sep then ""%string :: split_char sep s'
      else match split_char sep s' with
           | piece :: pieces => String c piece :: pieces
           | [] => [String c ""]
           end
  end.

(** The database calls of [create_table] that no handler inside it
    guards (listing the collections, inserting the schema document): the
    exception one of them raises, if any. *)
Record Mongo : Type := MkMongo {
  create_collection : string -> list string -> option PyExc
}.

Inductive DbCall : Type :=
| CreateCollection (table_name : string) (columns : list string).

(** A table name is a text or None. *)
Definition str_name (table_name : option string) : string :=
  default "None"%string table_name.

Module DBTableCodeTool.
Definition valid_chars : string :=
  "abcdefghijklmnopqrstuvwxyzABCDEFGHIJKLMNOPQRSTUVWXYZ0123456789_-.$".

Definition _validate_table_name (table_name : option string) : bool :=
  match table_name with
  | None => false
  | Some table_name =>
      if String.eqb table_name "" then false
      else if String.prefix "_" table_name || String.prefix "system." table_name
      then false
      else if negb (forallb (fun c => has_char c valid_chars)
                      (list_ascii_of_string table_name))
      then false
      else if (100 <? Text.len table_name)%nat then false
      else true
  end.

Definition readonly_allowed : list string :=
  [ "filter_records"; "count_records"; "get_table_info"; "add_records" ]%string.

Definition _check_permission (mode operation : string) : bool :=
  if String.eqb mode "full" then true
  else existsb (String.eqb operation) readonly_allowed.

Definition _handle_mongo_error (sr : StrRuntime) (e : PyExc)
    (operation table_name : string) : string :=
  let error_msg :=
    "Error during " +:+ operation +:+ " on table '" +:+ table_name +:+ "': "
    +:+ e.(exc_str) in
  if Text.contains "not found" e.(exc_str) || Text.contains "does not exist" e.(exc_str)
  then "Table '" +:+ table_name +:+ "' does not exist. Use create_table() first."
  else if Text.contains "duplicate key" e.(exc_str)
  then "Duplicate key error in table '" +:+ table_name
       +:+ "'. Check your data for uniqueness conflicts."
  else if Text.contains "connection" (sr.(str_lower) e.(exc_str))
          || Text.contains "timeout" (sr.(str_lower) e.(exc_str))
  then "Database connection error: " +:+ e.(exc_str)
  else if Text.contains "unauthorized" (sr.(str_lower) e.(exc_str))
          || Text.contains "authentication" (sr.(str_lower) e.(exc_str))
  then "Database authentication error. Check your credentials."
  else error_msg.

(** The name of the collection, the first statement of [create_table]. *)
Definition prefixed_table_name (task_id : string) (table_name : option string)
  : option string :=
  if truthy (PStr task_id) then Some (task_id +:+ "_" +:+ str_name table_name)
  else table_name.

Definition invalid_name_message (table_name : option string) : string :=
  "Invalid table name: '" +:+ str_name table_name
  +:+ "'. Use only alphanumeric characters, underscores, hyphens, dots, and dollar signs. Cannot start with '_' or 'system.'".

(** [create_table] with a list of texts as columns. *)
Definition create_table (sr : StrRuntime) (mongo : Mongo) (mode : string)
    (table_name : option string) (columns : list string) (task_id : string)
  : result string * list DbCall :=
  let table_name := prefixed_table_name task_id table_name in
  if negb (_check_permission mode "create_table") then
    (Ok ("Operation 'create_table' is not allowed in " +:+ mode
         +:+ " mode. Only read operations and adding records are permitted."), [])
  else if negb (_validate_table_name table_name) then
    (Ok (invalid_name_message table_name), [])
  else
    match columns, table_name with
    | [], _ => (Ok "Columns must be a non-empty list of strings."%string, [])
    | _, None => (Ok (invalid_name_message table_name), [])
    | _, Some name =>
        match mongo.(create_collection) name columns with
        | None =>
            (Ok ("Successfully created table '" +:+ name +:+ "' with "
                 +:+ str_int (Z.of_nat (length columns)) +:+ " columns: "
                 +:+ join ", " columns),
             [CreateCollection name columns])
        | Some e =>
            if e.(exc_is_Exception)
            then (Ok (_handle_mongo_error sr e "create_table" name),
                  [CreateCollection name columns])
            else (Raise e, [CreateCollection name columns])
        end
    end.
End DBTableCodeTool.

Module DBTableCodeToolInterface.
(** The attributes of the tool that the "create_table" operation and
    the naming of the collections read; [mode] is that of the
    [DBTableCodeTool] inside. *)
Record t : Type := Mk {
  mode : string;
  task_id : string;
  create_table_counter : option Counter
}.

Definition _get_collection_name (self : t) (table_name : option string)
  : option string :=
  match table_name with
  | None => None
  | Some name =>
      if String.eqb name "" then table_name
      else if truthy (PStr self.(task_id))
              && String.prefix (self.(task_id) +:+ "_") name
      then table_name
      else if truthy (PStr self.(task_id))
      then Some (self.(task_id) +:+ "_" +:+ name)
      else table_name
  end.

Definition not_allowed_message (limit count : Z) : string :=
  "Error: create_table operation is not allowed. "
  +:+ "The create_table tool can only be called " +:+ str_int limit
  +:+ " time(s) during the entire task. "
  +:+ "You have already called create_table " +:+ str_int count +:+ " time(s). "
  +:+ "Please use the existing table instead of creating a new one. "
  +:+ "If you need to modify the table structure, use update_record or update_records operations.".

Definition parse_columns (sr : StrRuntime) (column_names : option string)
  : list string :=
  match column_names with
  | Some names =>
      if truthy (PStr names) then map sr.(str_strip) (split_char "," names) else []
  | None => []
  end.

(** [forward] with the operation "create_table": what it returns or
    raises, the counter afterwards, and the database calls it made. *)
Definition forward_create_table (sr : StrRuntime) (mongo : Mongo) (self : t)
    (table_name column_names : option string)
  : result string * option Counter * list DbCall :=
  let create counter :=
    let columns := parse_columns sr column_names in
    let '(r, calls) :=
      DBTableCodeTool.create_table sr mongo self.(mode) table_name columns
        self.(task_id) in
    (r, counter, calls) in
  match self.(create_table_counter) with
  | Some counter =>
      let '(ok, counter) := GlobalCreateTableCounter.try_increment counter in
      if negb ok then
        (Ok (not_allowed_message counter.(limit)
               (GlobalCreateTableCounter.get_count counter)),
         Some counter, [])
      else create (Some counter)
  | None => create None
  end.

Definition with_counter (self : t) (counter : option Counter) : t :=
  {| mode := self.(mode); task_id := self.(task_id);
     create_table_counter := counter |}.
End DBTableCodeToolInterface.

(* ===================================================================== *)
(** * 17. Sample tools and states                                         *)
(* ===================================================================== *)

Module SampleTools.
(** The sample coordinator with a call governor that allows two
    delegations to the tabular search agent. *)
Definition governed_world : World :=
  {| heap := Sample.world.(heap);
     self_managed_agents := Sample.world.(self_managed_agents);
     self_managed_agent_counter :=
       Some (GlobalManagedAgentCounter.__init__
               (Some [("tabular_search_agent", 2)]%string)) |}.

(** A library whose agent classes reject the keyword arguments. *)
Definition strict_library : Library :=
  {| constructor_raises := fun _ _ =>
       Some (TypeError "__init__() got an unexpected keyword argument");
     super_execute_tool_call := fun w _ _ => (Ok (PStr "done"), w) |}.

Definition ConnectionError : PyExc :=
  {| exc_type := "ConnectionError"; exc_is_Exception := true;
     exc_str := "connection refused" |}.

(** A web in which the direct request fails, the first Jina key is
    refused and the second one works. *)
Definition web : JinaBackedVisitWebpageTool.Web :=
  {| JinaBackedVisitWebpageTool.direct_get := fun _ => Raise ConnectionError;
     JinaBackedVisitWebpageTool.is_request_exception := fun e =>
       String.eqb e.(exc_type) "ConnectionError";
     JinaBackedVisitWebpageTool.jina_get := fun key _ =>
       if String.eqb key "key-2" then Ok (200, "# Mars"%string)
       else Ok (401, "unauthorized"%string);
     JinaBackedVisitWebpageTool.save_markdown := fun _ _ => Ok None |}.

(** A webpage tool with three keys and a budget of two visits. *)
Definition visit_tool : JinaBackedVisitWebpageTool.t :=
  {| JinaBackedVisitWebpageTool.max_output_length := 40000;
     JinaBackedVisitWebpageTool.jina_keys := ["key-1"; "key-2"; "key-3"]%string;
     JinaBackedVisitWebpageTool.work_dir := None;
     JinaBackedVisitWebpageTool.global_visit_counter :=
       Some (GlobalVisitCounter.__init__ 2) |}.

(** A search service that is unavailable twice and then answers. *)
Definition api : GoogleSearchTool.Api :=
  {| GoogleSearchTool.post := fun n _ =>
       if (n <? 2)%nat
       then GoogleSearchTool.PostRequestException "503 Server Error" (Some 503)
       else GoogleSearchTool.PostJson
              (PDict [("organic",
                       PList [PDict [("title", PStr "Moons of Mars");
                                     ("link", PStr "https://example.org/mars");
                                     ("snippet", PStr "Phobos and Deimos")]%string])]%string);
     GoogleSearchTool.jina_forward := fun _ => Raise ConnectionError |}.

(** A search tool with three attempts and a budget of one search. *)
Definition search_tool : GoogleSearchTool.t :=
  {| GoogleSearchTool.self_limit := 10;
     GoogleSearchTool.max_retries := 3;
     GoogleSearchTool.global_search_counter :=
       Some (GlobalSearchCounter.__init__ 1) |}.

Definition str_runtime : StrRuntime :=
  {| str_lower := Text.lower; str_strip := fun s => Py.rstrip (Py.lstrip s) |}.

Definition mongo : Mongo := {| create_collection := fun _ _ => None |}.

(** A table tool for the sample task with the default budget of one
    [create_table]. *)
Definition table_tool : DBTableCodeToolInterface.t :=
  {| DBTableCodeToolInterface.mode := "full";
     DBTableCodeToolInterface.task_id := "ws_001";
     DBTableCodeToolInterface.create_table_counter :=
       Some (GlobalCreateTableCounter.__init__
               GlobalCreateTableCounter.default_limit) |}.
End SampleTools.

(* ===================================================================== *)
(** * Properties                                                          *)
(* ===================================================================== *)

Section ResourceGovernorFacts.
Import ResourceGovernor.

Lemma try_increment_unfold k g :
  try_increment k g =
    if g.(count) >=? g.(limit) then (false, g)
    else (true, {| limit := g.(limit); count := g.(count) + 1 |}).
Proof. destruct k; reflexivity. Qed.

Lemma call_limit k o g : limit (call k o g).2 = limit g.
Proof.
  destruct o; simpl; try (destruct k; reflexivity).
  rewrite try_increment_unfold. destruct (count g >=? limit g); reflexivity.
Qed.

Lemma call_bounds k o g :
  0 <= count g <= limit g -> 0 <= count (call k o g).2 <= limit (call k o g).2.
Proof.
  intros H. destruct o; simpl; try (destruct k; simpl; lia).
  rewrite try_increment_unfold.
  destruct (Z.geb_spec (count g) (limit g)); simpl; lia.
Qed.

Lemma run_invariant k ops : forall g,
  0 <= count g <= limit g ->
  0 <= count (run k ops g).2 <= limit (run k ops g).2 /\
  limit (run k ops g).2 = limit g.
Proof.
  induction ops as [|o ops IH]; intros g Hg; simpl; [lia|].
  pose proof (call_bounds k o g Hg) as Hb.
  pose proof (call_limit k o g) as Hl.
  destruct (call k o g) as [r g']; simpl in *.
  specialize (IH g' Hb).
  destruct (run k ops g') as [rs g'']; simpl in *. lia.
Qed.

Lemma try_many_full k n : forall g,
  limit g <= count g ->
  try_many k n g = (replicate n false, g).
Proof.
  induction n as [|n IH]; intros g Hg; simpl; [reflexivity|].
  rewrite try_increment_unfold.
  destruct (Z.geb_spec (count g) (limit g)); [|lia].
  rewrite IH by assumption. reflexivity.
Qed.

Lemma try_many_room k n : forall g m,
  count g + Z.of_nat n <= limit g ->
  try_many k (n + m) g =
    let '(bs, g') :=
      try_many k m {| limit := limit g; count := count g + Z.of_nat n |} in
    (replicate n true ++ bs, g').
Proof.
  induction n as [|n IH]; intros g m Hg.
  - cbn [Nat.add replicate app]. rewrite Z.add_0_r.
    destruct g as [l c]; cbn [limit count].
    destruct (try_many k m _); reflexivity.
  - cbn [Nat.add try_many]. rewrite try_increment_unfold.
    destruct (Z.geb_spec (count g) (limit g)); [lia|].
    rewrite IH by (cbn [limit count]; lia). cbn [limit count].
    replace (count g + 1 + Z.of_nat n) with (count g + Z.of_nat (S n)) by lia.
    destruct (try_many k m _); reflexivity.
Qed.

Lemma successes_app a b : successes (a ++ b) = successes a + successes b.
Proof. unfold successes. rewrite filter_app, length_app. lia. Qed.

Lemma successes_true n : successes (replicate n true) = Z.of_nat n.
Proof.
  unfold successes. induction n as [|n IH]; [reflexivity|].
  cbn [replicate]. rewrite filter_cons_True by reflexivity.
  cbn [length]. lia.
Qed.

Lemma successes_false n : successes (replicate n false) = 0.
Proof.
  unfold successes. induction n as [|n IH]; [reflexivity|].
  cbn [replicate]. rewrite filter_cons_False by discriminate. exact IH.
Qed.
End ResourceGovernorFacts.

(** C1. A governor of any of the three kinds, built with limit [L >= 0]:
    [try_increment] returns true and adds exactly one to [count] when
    [count < L], and returns false and leaves the state as it is when
    [count >= L]; after every sequence of try_increment / get_count /
    get_remaining / reset calls [0 <= count <= L]; and of [2L] consecutive
    [try_increment] calls on the fresh governor exactly [L] return true (the
    first [L]), after which [count = L]. *)
Theorem C1_resource_governor (k : GovernorKind) (L : Z) (HL : 0 <= L) :
  let fresh := ResourceGovernor.__init__ k L in
  (fresh = {| limit := L; count := 0 |}) /\
  (forall g, limit g = L ->
     (count g < L ->
        ResourceGovernor.try_increment k g =
          (true, {| limit := L; count := count g + 1 |})) /\
     (count g >= L -> ResourceGovernor.try_increment k g = (false, g))) /\
  (forall ops,
     let g := (ResourceGovernor.run k ops fresh).2 in
     0 <= count g <= L /\ limit g = L) /\
  (let '(bs, g) := ResourceGovernor.try_many k (Z.to_nat (2 * L)) fresh in
   bs = replicate (Z.to_nat L) true ++ replicate (Z.to_nat L) false /\
   ResourceGovernor.successes bs = L /\
   count g = L).
Proof.
  assert (Hfresh : ResourceGovernor.__init__ k L = {| limit := L; count := 0 |})
    by (destruct k; reflexivity).
  cbv zeta. rewrite Hfresh. split; [reflexivity|]. split; [|split].
  - intros g Hlim. rewrite try_increment_unfold, Hlim. split; intros Hc.
    + destruct (Z.geb_spec (count g) L); [lia|reflexivity].
    + destruct (Z.geb_spec (count g) L); [reflexivity|lia].
  - intros ops.
    destruct (run_invariant k ops {| limit := L; count := 0 |}) as [Hb Hl];
      simpl in *; [lia|]. rewrite Hl in Hb. auto.
  - replace (Z.to_nat (2 * L)) with (Z.to_nat L + Z.to_nat L)%nat by lia.
    rewrite try_many_room by (cbn [limit count]; lia).
    cbn [limit count]. rewrite try_many_full by (cbn [limit count]; lia).
    split; [reflexivity|]. split; [|cbn [count]; lia].
    rewrite successes_app, successes_true, successes_false. lia.
Qed.

Lemma C1_resource_governor_witness :
  0 <= 1 /\
  (ResourceGovernor.try_many CreateTableGovernor 2
     (ResourceGovernor.__init__ CreateTableGovernor 1)).1 = [true; false].
Proof.
  split; [lia|].
  pose proof (C1_resource_governor CreateTableGovernor 1 ltac:(lia)) as H.
  cbv zeta in H. destruct H as (_ & _ & _ & H).
  change (Z.to_nat (2 * 1)) with 2%nat in H.
  destruct (ResourceGovernor.try_many _ _ _) as [bs g].
  destruct H as (-> & _ & _). reflexivity.
Defined.

(* --------------------------------------------------------------------- *)
(** ** Dictionaries                                                       *)
(* --------------------------------------------------------------------- *)

Section PyDictFacts.
Context {V : Type}.
Implicit Types (d : list (string * V)) (k : string) (v : V).

Lemma assoc_set_eq d k v : assoc k (PyDict.set d k v) = Some v.
Proof.
  induction d as [|[k' v'] d IH]; simpl.
  - rewrite String.eqb_refl. reflexivity.
  - destruct (String.eqb_spec k' k) as [->|Hne]; simpl.
    + rewrite String.eqb_refl. reflexivity.
    + destruct (String.eqb_spec k' k); [contradiction|exact IH].
Qed.

Lemma assoc_set_ne d k k' v : k <> k' -> assoc k' (PyDict.set d k v) = assoc k' d.
Proof.
  intros Hne. induction d as [|[k0 v0] d IH]; simpl.
  - destruct (String.eqb_spec k k'); [contradiction|reflexivity].
  - destruct (String.eqb_spec k0 k) as [->|Hk]; simpl.
    + destruct (String.eqb_spec k k'); [contradiction|reflexivity].
    + destruct (String.eqb_spec k0 k'); [reflexivity|exact IH].
Qed.

Lemma assoc_set d k k' v :
  assoc k' (PyDict.set d k v) = if decide (k = k') then Some v else assoc k' d.
Proof.
  destruct (decide (k = k')) as [->|Hne];
    [apply assoc_set_eq | apply assoc_set_ne; assumption].
Qed.

Lemma keys_set_present d k v :
  is_Some (assoc k d) -> PyDict.keys (PyDict.set d k v) = PyDict.keys d.
Proof.
  unfold PyDict.keys. induction d as [|[k0 v0] d IH]; simpl; intros [x Hx].
  - discriminate.
  - destruct (String.eqb_spec k0 k) as [->|Hk]; simpl; [reflexivity|].
    f_equal. apply IH. eauto.
Qed.

Lemma assoc_is_Some_keys d k : is_Some (assoc k d) <-> k ∈ PyDict.keys d.
Proof.
  unfold PyDict.keys. induction d as [|[k0 v0] d IH]; simpl.
  - split; [intros [? ?]; discriminate | intros H; inversion H].
  - destruct (String.eqb_spec k0 k) as [->|Hk].
    + split; [intros _; constructor | eauto].
    + rewrite IH. split; [intros H; constructor; exact H|].
      intros H. inversion H; subst; [contradiction|assumption].
Qed.

Lemma assoc_fold_set (f : string -> V) ks : forall d k,
  assoc k (fold_left (fun d k => PyDict.set d k (f k)) ks d) =
    if decide (k ∈ ks) then Some (f k) else assoc k d.
Proof.
  induction ks as [|k0 ks IH]; intros d k; simpl.
  - destruct (decide (k ∈ [])) as [H|_]; [inversion H|reflexivity].
  - rewrite IH. destruct (decide (k ∈ ks)) as [Hin|Hnin].
    + rewrite decide_True by (constructor; exact Hin). reflexivity.
    + rewrite assoc_set. destruct (decide (k0 = k)) as [->|Hne].
      * rewrite decide_True by constructor. reflexivity.
      * rewrite decide_False; [reflexivity|].
        intros H. inversion H; subst; contradiction.
Qed.

Lemma assoc_comprehension (f : string -> V) ks k :
  assoc k (PyDict.comprehension ks f) = if decide (k ∈ ks) then Some (f k) else None.
Proof. unfold PyDict.comprehension. apply assoc_fold_set. Qed.

Lemma contains_spec d k : PyDict.contains d k = true <-> is_Some (assoc k d).
Proof.
  unfold PyDict.contains, PyDict.get. destruct (assoc k d); split;
    eauto; try discriminate. intros [? ?]; discriminate.
Qed.
End PyDictFacts.

(* --------------------------------------------------------------------- *)
(** ** Call governor                                                      *)
(* --------------------------------------------------------------------- *)

Lemma mapM_ok {A B : Type} (f : A -> result B) (g : A -> B) (l : list A) :
  (forall a, a ∈ l -> f a = Ok (g a)) -> mapM f l = Ok (map g l).
Proof.
  induction l as [|a l IH]; intros H; simpl; [reflexivity|].
  rewrite H by constructor. cbn [mbind result_bind].
  rewrite IH by (intros; apply H; constructor; assumption). reflexivity.
Qed.

Section CallGovernorFacts.
Import GlobalManagedAgentCounter.
Variable m : list (string * Z).
Hypothesis m_nonneg : forall agent_name k, assoc agent_name m = Some k -> 0 <= k.

Lemma init_unfold :
  __init__ (Some m) =
    {| limits := m;
       counts := PyDict.comprehension (PyDict.keys m) (fun _ => 0);
       call_history := PyDict.comprehension (PyDict.keys m) (fun _ => []) |}.
Proof. unfold __init__. destruct m; reflexivity. Qed.

Lemma numbered_snoc h c now :
  0 <= c -> numbered h c ->
  numbered (h ++ [{| call_number := c + 1; timestamp := now |}]) (c + 1).
Proof.
  unfold numbered. intros Hc Hh.
  replace (Z.to_nat (c + 1)) with (Z.to_nat c + 1)%nat by lia.
  rewrite seq_app, !map_app, Hh. simpl. do 2 f_equal. lia.
Qed.

Lemma init_invariant : invariant m (__init__ (Some m)).
Proof.
  rewrite init_unfold. split; [reflexivity|]. intros name k Hk.
  exists 0, []. cbn [counts call_history]. rewrite !assoc_comprehension.
  assert (Hin : name ∈ PyDict.keys m) by (apply assoc_is_Some_keys; eauto).
  rewrite !decide_True by exact Hin.
  repeat split; try reflexivity. apply (m_nonneg _ _ Hk).
Qed.

(** The three outcomes of one [try_increment] on a governor in a state
    that satisfies the invariant. *)
Lemma try_increment_cases g agent_name now :
  invariant m g ->
  match assoc agent_name m with
  | None => try_increment g agent_name now = Ok (true, g)
  | Some k =>
      exists c, assoc agent_name (counts g) = Some c /\
        if c <? k then
          exists g', try_increment g agent_name now = Ok (true, g') /\
            invariant m g' /\
            assoc agent_name (counts g') = Some (c + 1) /\
            forall other, other <> agent_name ->
              assoc other (counts g') = assoc other (counts g)
        else try_increment g agent_name now = Ok (false, g)
  end.
Proof.
  intros [Hlim Hinv]. unfold try_increment, PyDict.contains, PyDict.getitem, PyDict.get.
  rewrite Hlim. destruct (assoc agent_name m) as [k|] eqn:Hk; [|reflexivity].
  destruct (Hinv _ _ Hk) as (c & h & Hc & Hck & Hh & Hnum).
  exists c. split; [exact Hc|]. cbn [negb]. rewrite Hc. cbn [mbind result_bind].
  destruct (Z.ltb_spec c k) as [Hlt|Hge].
  - destruct (Z.geb_spec c k) as [?|_]; [lia|].
    rewrite Hh. cbn [mbind result_bind]. rewrite assoc_set_eq. cbn [mbind result_bind].
    eexists. split; [reflexivity|]. split; [|split].
    + split; [reflexivity|]. intros name' k' Hk'. cbn [counts call_history].
      rewrite !assoc_set. destruct (decide (agent_name = name')) as [<-|Hne].
      * assert (k' = k) by congruence. subst k'.
        eexists _, _. repeat split; try reflexivity; try lia.
        apply numbered_snoc; [lia|exact Hnum].
      * apply (Hinv _ _ Hk').
    + cbn [counts]. apply assoc_set_eq.
    + intros other Hne. cbn [counts]. apply assoc_set_ne. congruence.
  - destruct (Z.geb_spec c k) as [_|?]; [reflexivity|lia].
Qed.

Lemma try_increment_invariant g agent_name now :
  invariant m g ->
  exists b g', try_increment g agent_name now = Ok (b, g') /\ invariant m g'.
Proof.
  intros Hg. pose proof (try_increment_cases g agent_name now Hg) as H.
  destruct (assoc agent_name m) as [k|]; [|eauto].
  destruct H as (c & Hc & H). destruct (c <? k).
  - destruct H as (g' & -> & Hg' & _). eauto.
  - eauto.
Qed.

Lemma assoc_map_zero (d : list (string * Z)) k :
  assoc k (map (fun '(k, _) => (k, 0)) d) = (fun _ => 0) <$> assoc k d.
Proof.
  induction d as [|[k0 v0] d IH]; simpl; [reflexivity|].
  destruct (String.eqb k0 k); [reflexivity|exact IH].
Qed.

Lemma reset_all_invariant g : invariant m g -> invariant m (reset_all g).
Proof.
  intros [Hlim Hinv]. split; [exact Hlim|]. intros name k Hk.
  destruct (Hinv _ _ Hk) as (c & h & Hc & Hck & Hh & Hnum).
  exists 0, []. unfold reset_all. cbn [counts call_history].
  rewrite assoc_map_zero, Hc. repeat split; try reflexivity; try lia.
  rewrite (assoc_fold_set (fun _ : string => @nil CallEntry)).
  rewrite decide_True; [reflexivity|]. apply assoc_is_Some_keys. eauto.
Qed.

Lemma reset_invariant g agent_name : invariant m g -> invariant m (reset g agent_name).
Proof.
  intros Hg. unfold reset. destruct agent_name as [name|]; [|apply reset_all_invariant, Hg].
  destruct (negb (name =? ""))%string; [|apply reset_all_invariant, Hg].
  destruct (PyDict.contains (counts g) name) eqn:Hc; [|exact Hg].
  destruct Hg as [Hlim Hinv]. split; [exact Hlim|]. intros name' k Hk.
  cbn [counts call_history]. rewrite !assoc_set.
  destruct (decide (name = name')) as [<-|Hne]; [|apply (Hinv _ _ Hk)].
  exists 0, []. repeat split; try reflexivity; try lia. apply (m_nonneg _ _ Hk).
Qed.

Lemma get_remaining_ok g agent_name :
  invariant m g -> exists b, get_remaining g agent_name = Ok b.
Proof.
  intros [Hlim Hinv]. unfold get_remaining, PyDict.contains, PyDict.getitem, PyDict.get.
  rewrite Hlim. destruct (assoc agent_name m) as [k|] eqn:Hk; cbn [negb]; [|eauto].
  destruct (Hinv _ _ Hk) as (c & h & Hc & _). rewrite Hc.
  cbn [mbind result_bind]. eauto.
Qed.

(** [get_all_status] lists every governed name with its count, limit and
    remaining budget. *)
Lemma get_all_status_ok g :
  invariant m g ->
  exists st, get_all_status g = Ok st /\
    forall agent_name k c,
      assoc agent_name m = Some k -> assoc agent_name (counts g) = Some c ->
      (agent_name, {| status_count := c; status_limit := k;
                      status_remaining := Z.max 0 (k - c) |}) ∈ st.
Proof.
  intros [Hlim Hinv]. unfold get_all_status. rewrite Hlim.
  set (status := fun name : string =>
         (name, {| status_count := default 0 (assoc name (counts g));
                   status_limit := default 0 (assoc name m);
                   status_remaining :=
                     Z.max 0 (default 0 (assoc name m)
                              - default 0 (assoc name (counts g))) |})).
  exists (map status (PyDict.keys m)). split.
  - apply mapM_ok. intros name Hin.
    apply assoc_is_Some_keys in Hin. destruct Hin as [k Hk].
    destruct (Hinv _ _ Hk) as (c & h & Hc & _).
    unfold PyDict.getitem, PyDict.get, status. rewrite Hk, Hc. reflexivity.
  - intros name k c Hk Hc.
    assert (Hin : name ∈ PyDict.keys m) by (apply assoc_is_Some_keys; eauto).
    apply (list_elem_of_fmap_2 status) in Hin.
    unfold status in Hin at 1. rewrite Hk, Hc in Hin. exact Hin.
Qed.

Lemma call_invariant o g :
  invariant m g -> exists g', call o g = Ok g' /\ invariant m g'.
Proof.
  intros Hg. destruct o as [name now|name|name|name|name|]; simpl.
  - destruct (try_increment_invariant g name now Hg) as (b & g' & -> & Hg'). eauto.
  - eauto using reset_invariant.
  - eauto.
  - eauto.
  - destruct (get_remaining_ok g name Hg) as [b ->]. eauto.
  - destruct (get_all_status_ok g Hg) as (st & -> & _). eauto.
Qed.

Lemma run_invariant_call ops : forall g,
  invariant m g -> exists g', run ops g = Ok g' /\ invariant m g'.
Proof.
  induction ops as [|o ops IH]; intros g Hg; simpl; [eauto|].
  destruct (call_invariant o g Hg) as (g1 & -> & Hg1).
  cbn [mbind result_bind]. apply IH, Hg1.
Qed.

Lemma earlier_calls_0 calls name : earlier_calls calls 0 name = 0.
Proof. reflexivity. Qed.

Lemma earlier_calls_S n0 now0 calls i name :
  earlier_calls ((n0, now0) :: calls) (S i) name =
    (if decide (n0 = name) then 1 else 0) + earlier_calls calls i name.
Proof.
  unfold earlier_calls. cbn [take]. rewrite filter_cons. cbn [fst].
  destruct (decide (n0 = name)); cbn [length]; lia.
Qed.

(** Sequential calls, from a state in which each governed name has the
    count [min k (prior name)]: the call at position [i] is admitted
    exactly when fewer than [k] calls for its name came before it. *)
Lemma try_seq_spec calls : forall g (prior : string -> Z),
  invariant m g ->
  (forall name, 0 <= prior name) ->
  (forall name k, assoc name m = Some k ->
     assoc name (counts g) = Some (Z.min k (prior name))) ->
  exists bs g', try_seq g calls = Ok (bs, g') /\ invariant m g' /\
    forall i name now, calls !! i = Some (name, now) ->
      bs !! i = Some match assoc name m with
                     | None => true
                     | Some k => bool_decide (prior name + earlier_calls calls i name < k)
                     end.
Proof.
  induction calls as [|[n0 now0] calls IH]; intros g prior Hg Hprior Hcounts.
  - exists [], g. split; [reflexivity|]. split; [exact Hg|].
    intros i name now H. destruct i; discriminate.
  - cbn [try_seq].
    pose proof (try_increment_cases g n0 now0 Hg) as Hcase.
    set (prior' := fun name => prior name + if decide (n0 = name) then 1 else 0).
    assert (Hprior' : forall name, 0 <= prior' name).
    { intros name. unfold prior'. specialize (Hprior name).
      destruct (decide (n0 = name)); lia. }
    assert (Hstep : exists g1,
               try_increment g n0 now0 =
                 Ok (match assoc n0 m with
                     | None => true
                     | Some k => bool_decide (prior n0 < k)
                     end, g1) /\
               invariant m g1 /\
               forall name k, assoc name m = Some k ->
                 assoc name (counts g1) = Some (Z.min k (prior' name))).
    { destruct (assoc n0 m) as [k0|] eqn:Hk0.
      - destruct Hcase as (c & Hc & Hcase).
        pose proof (Hcounts _ _ Hk0) as Hc'. rewrite Hc in Hc'.
        injection Hc' as ->. pose proof (m_nonneg _ _ Hk0) as Hnn.
        pose proof (Hprior n0) as Hp0.
        destruct (Z.ltb_spec (Z.min k0 (prior n0)) k0) as [Hlt|Hge].
        + destruct Hcase as (g1 & Hg1 & Hinv1 & Hc1 & Hother).
          exists g1. rewrite bool_decide_true by lia.
          split; [exact Hg1|]. split; [exact Hinv1|].
          intros name k Hk. unfold prior'.
          destruct (decide (n0 = name)) as [<-|Hne].
          * rewrite Hc1. f_equal. assert (k = k0) by congruence. lia.
          * rewrite Hother by congruence. rewrite (Hcounts _ _ Hk). f_equal. lia.
        + exists g. rewrite bool_decide_false by lia.
          split; [exact Hcase|]. split; [exact Hg|].
          intros name k Hk. unfold prior'. rewrite (Hcounts _ _ Hk). f_equal.
          destruct (decide (n0 = name)) as [<-|Hne]; [|lia].
          assert (k = k0) by congruence. lia.
      - exists g. split; [exact Hcase|]. split; [exact Hg|].
        intros name k Hk. unfold prior'. rewrite (Hcounts _ _ Hk). f_equal.
        destruct (decide (n0 = name)) as [<-|Hne]; [congruence|lia]. }
    destruct Hstep as (g1 & -> & Hinv1 & Hcounts1).
    cbn [mbind result_bind].
    destruct (IH g1 prior' Hinv1 Hprior' Hcounts1) as (bs & g' & -> & Hinv' & Hbs).
    cbn [mbind result_bind]. eexists _, g'. split; [reflexivity|].
    split; [exact Hinv'|]. intros [|i] name now Hi.
    + rewrite lookup_cons in Hi. injection Hi as -> ->. rewrite lookup_cons.
      rewrite earlier_calls_0, Z.add_0_r. reflexivity.
    + rewrite lookup_cons in Hi. rewrite lookup_cons, (Hbs _ _ _ Hi).
      f_equal. destruct (assoc name m); [|reflexivity].
      rewrite earlier_calls_S. unfold prior'.
      apply bool_decide_ext. lia.
Qed.
End CallGovernorFacts.

(* --------------------------------------------------------------------- *)
(** ** Text                                                               *)
(* --------------------------------------------------------------------- *)

Lemma append_nil_r (s : string) : s +:+ "" = s.
Proof.
  induction s as [|a s IH]; [reflexivity|].
  change (String a (s +:+ "") = String a s). rewrite IH. reflexivity.
Qed.

Lemma append_assoc (a b c : string) : (a +:+ b) +:+ c = a +:+ (b +:+ c).
Proof.
  induction a as [|x a IH]; [reflexivity|].
  change (String x ((a +:+ b) +:+ c) = String x (a +:+ (b +:+ c))).
  rewrite IH. reflexivity.
Qed.

Lemma occurs_in_refl (s : string) : occurs_in s s.
Proof. exists ""%string, ""%string. simpl. symmetry. apply append_nil_r. Qed.

Lemma occurs_in_app_l (sub a b : string) : occurs_in sub a -> occurs_in sub (a +:+ b).
Proof.
  intros (pre & post & ->). exists pre, (post +:+ b).
  rewrite !append_assoc. reflexivity.
Qed.

Lemma occurs_in_app_r (sub a b : string) : occurs_in sub b -> occurs_in sub (a +:+ b).
Proof.
  intros (pre & post & ->). exists (a +:+ pre), post.
  rewrite !append_assoc. reflexivity.
Qed.

Lemma occurs_in_prefix (sub rest : string) : occurs_in sub (sub +:+ rest).
Proof. apply occurs_in_app_l, occurs_in_refl. Qed.

Lemma occurs_in_join (sep p : string) (parts : list string) :
  p ∈ parts -> occurs_in p (join sep parts).
Proof.
  induction parts as [|q parts IH]; intros Hin; [inversion Hin|].
  destruct parts as [|q' parts].
  - inversion Hin; subst; [apply occurs_in_refl|]. match goal with H : _ ∈ [] |- _ => inversion H end.
  - change (join sep (q :: q' :: parts)) with (q +:+ sep +:+ join sep (q' :: parts)).
    inversion Hin; subst.
    + apply occurs_in_prefix.
    + apply occurs_in_app_r, occurs_in_app_r, IH. assumption.
Qed.

(** Search for an occurrence through the pieces of a concatenation. *)
Ltac find_occurrence :=
  first
    [ eassumption
    | apply occurs_in_refl
    | apply occurs_in_prefix
    | apply occurs_in_app_r; find_occurrence
    | apply occurs_in_app_l; find_occurrence ].

Section DenialMessage.
Import MemoryManagedToolCallingAgent.

Lemma message_status_line tool_name limit all_status agent_name st :
  (agent_name, st) ∈ all_status ->
  occurs_in (status_line agent_name st.(status_count) st.(status_limit)
               st.(status_remaining))
    (limit_reached_message tool_name limit all_status).
Proof.
  intros Hin. unfold limit_reached_message.
  set (line := fun '(agent_name, status) => _).
  assert (Hl : occurs_in (status_line agent_name st.(status_count) st.(status_limit)
                            st.(status_remaining))
                 (join (String (ascii_of_nat 10) "") (map line all_status))).
  { apply occurs_in_join. apply (list_elem_of_fmap_2 line) in Hin. exact Hin. }
  destruct (map fst _); apply occurs_in_app_l, occurs_in_app_l; find_occurrence.
Qed.

Lemma message_instruction tool_name limit all_status :
  let msg := limit_reached_message tool_name limit all_status in
  occurs_in ("Error: Managed agent '" +:+ tool_name +:+ "' call limit reached.") msg /\
  occurs_in "IMPORTANT: You must now complete the task using:" msg /\
  occurs_in "1. The information you have already collected" msg /\
  occurs_in "Please proceed to synthesize the information and provide a final answer." msg.
Proof.
  cbv zeta. unfold limit_reached_message.
  destruct (map fst _); repeat split.
  1, 5: apply occurs_in_app_l, occurs_in_app_l;
        eexists ""%string, _; change (""%string +:+ ?x) with x;
        rewrite !append_assoc; reflexivity.
  all: apply occurs_in_app_r; find_occurrence.
Qed.
End DenialMessage.

(* --------------------------------------------------------------------- *)
(** ** Denied delegation                                                  *)
(* --------------------------------------------------------------------- *)

Section DeniedDelegation.
Import MemoryManagedToolCallingAgent.
Variable m : list (string * Z).
Hypothesis m_nonneg : forall agent_name k, assoc agent_name m = Some k -> 0 <= k.

Lemma denied_state g g' agent_name now :
  GlobalManagedAgentCounter.invariant m g ->
  GlobalManagedAgentCounter.try_increment g agent_name now = Ok (false, g') ->
  g' = g /\
  exists k, assoc agent_name m = Some k /\
            assoc agent_name (GlobalManagedAgentCounter.counts g) = Some k.
Proof.
  intros Hg Hden.
  pose proof (try_increment_cases m g agent_name now Hg) as H.
  destruct (assoc agent_name m) as [k|] eqn:Hk; [|congruence].
  destruct H as (c & Hc & H). destruct (Z.ltb_spec c k) as [Hlt|Hge].
  - destruct H as (g1 & Hg1 & _). congruence.
  - split; [congruence|]. exists k. split; [reflexivity|].
    destruct Hg as [_ Hinv]. destruct (Hinv _ _ Hk) as (c' & h & Hc' & Hb & _).
    rewrite Hc in Hc'. injection Hc' as <-. rewrite Hc. f_equal. lia.
Qed.

Lemma execute_tool_call_denied lib w tool_name arguments now g g' :
  GlobalManagedAgentCounter.invariant m g ->
  w.(self_managed_agent_counter) = Some g ->
  PyDict.contains w.(self_managed_agents) tool_name = true ->
  GlobalManagedAgentCounter.try_increment g tool_name now = Ok (false, g') ->
  exists msg,
    execute_tool_call lib w tool_name arguments now = (Ok (PStr msg), w) /\
    (forall agent_name k c,
       assoc agent_name m = Some k ->
       assoc agent_name (GlobalManagedAgentCounter.counts g) = Some c ->
       occurs_in (status_line agent_name c k (Z.max 0 (k - c))) msg) /\
    occurs_in ("Error: Managed agent '" +:+ tool_name +:+ "' call limit reached.") msg /\
    occurs_in "IMPORTANT: You must now complete the task using:" msg /\
    occurs_in "1. The information you have already collected" msg /\
    occurs_in "Please proceed to synthesize the information and provide a final answer." msg.
Proof.
  intros Hg Hcounter Hin Hden.
  destruct (denied_state _ _ _ _ Hg Hden) as [-> _].
  destruct (get_remaining_ok m g tool_name Hg) as [rem Hrem].
  destruct (get_all_status_ok m g Hg) as (st & Hst & Hall).
  exists (limit_reached_message tool_name
            (GlobalManagedAgentCounter.get_limit g tool_name) st).
  split; [|split].
  - unfold execute_tool_call, check_call_limit.
    rewrite Hin, Hcounter, Hden. cbn [mbind result_bind negb].
    rewrite Hrem. cbn [mbind result_bind]. rewrite Hst. reflexivity.
  - intros name k c Hk Hc.
    apply (message_status_line tool_name _ st name
             {| status_count := c; status_limit := k;
                status_remaining := Z.max 0 (k - c) |}).
    apply Hall; assumption.
  - apply message_instruction.
Qed.
End DeniedDelegation.

(** C5, as stated, fails: nothing keeps a limit from being negative (the
    command line takes any integer for --tabular-agent-limit). The governor
    made from the limits {"A": -1} starts with the count 0 for "A", which
    is above the limit -1: counts[name] <= limits[name] does not hold, and
    no call for "A" is ever let through. *)
Lemma C5_negative_limit :
  let g := GlobalManagedAgentCounter.__init__ (Some [("A", -1)]%string) in
  assoc "A" g.(GlobalManagedAgentCounter.limits) = Some (-1) /\
  assoc "A" g.(GlobalManagedAgentCounter.counts) = Some 0 /\
  ~ (forall c k,
       assoc "A" g.(GlobalManagedAgentCounter.counts) = Some c ->
       assoc "A" g.(GlobalManagedAgentCounter.limits) = Some k -> c <= k) /\
  forall now, GlobalManagedAgentCounter.try_increment g "A" now = Ok (false, g).
Proof.
  cbv zeta. split; [reflexivity|]. split; [reflexivity|]. split.
  - intros H. specialize (H 0 (-1) eq_refl eq_refl). lia.
  - intros now. reflexivity.
Qed.

(** C5, amended. The call governor built from the limits [m], every limit
    non-negative. (1) A name absent from the limits is admitted and
    nothing changes. (2) In any sequence of calls, the call at position [i]
    for a name with limit [k] is admitted exactly when fewer than [k] calls
    for that name came before it: the first [k] calls for a name succeed and
    every later one is denied. (3) After any sequence of governor calls the
    limits are still [m] and every governed count lies between 0 and its
    limit. (4) With limits {"A": 2} three calls for "A" give true, true,
    false. (5) A denied delegation makes [execute_tool_call] return, as an
    ordinary value and with the state unchanged, a message that has one
    line "name: used/limit calls used, remaining remaining" per governed
    agent and tells the coordinator to complete the task with the
    information already collected. *)
Theorem C5_call_governor (m : list (string * Z))
    (Hm : forall agent_name k, assoc agent_name m = Some k -> 0 <= k) :
  let fresh := GlobalManagedAgentCounter.__init__ (Some m) in
  (forall g agent_name now,
     assoc agent_name g.(GlobalManagedAgentCounter.limits) = None ->
     GlobalManagedAgentCounter.try_increment g agent_name now = Ok (true, g)) /\
  (forall calls, exists bs g,
     GlobalManagedAgentCounter.try_seq fresh calls = Ok (bs, g) /\
     forall i agent_name now, calls !! i = Some (agent_name, now) ->
       bs !! i =
         Some match assoc agent_name m with
              | None => true
              | Some k =>
                  bool_decide
                    (GlobalManagedAgentCounter.earlier_calls calls i agent_name < k)
              end) /\
  (forall ops, exists g,
     GlobalManagedAgentCounter.run ops fresh = Ok g /\
     g.(GlobalManagedAgentCounter.limits) = m /\
     forall agent_name k, assoc agent_name m = Some k ->
       exists c, assoc agent_name g.(GlobalManagedAgentCounter.counts) = Some c /\
                 0 <= c <= k) /\
  (forall t1 t2 t3, exists g,
     GlobalManagedAgentCounter.try_seq
       (GlobalManagedAgentCounter.__init__ (Some [("A", 2)]%string))
       [("A", t1); ("A", t2); ("A", t3)]%string = Ok ([true; true; false], g)) /\
  (forall lib ops g g' w tool_name arguments now,
     GlobalManagedAgentCounter.run ops fresh = Ok g ->
     w.(self_managed_agent_counter) = Some g ->
     PyDict.contains w.(self_managed_agents) tool_name = true ->
     GlobalManagedAgentCounter.try_increment g tool_name now = Ok (false, g') ->
     exists msg,
       MemoryManagedToolCallingAgent.execute_tool_call lib w tool_name arguments now
         = (Ok (PStr msg), w) /\
       (forall agent_name k c,
          assoc agent_name m = Some k ->
          assoc agent_name g.(GlobalManagedAgentCounter.counts) = Some c ->
          occurs_in
            (MemoryManagedToolCallingAgent.status_line agent_name c k (Z.max 0 (k - c)))
            msg) /\
       occurs_in "IMPORTANT: You must now complete the task using:" msg /\
       occurs_in "1. The information you have already collected" msg /\
       occurs_in "Please proceed to synthesize the information and provide a final answer." msg).
Proof.
  cbv zeta. pose proof (init_invariant m Hm) as Hinit.
  split; [|split; [|split; [|split]]].
  - intros g name now Hnone.
    unfold GlobalManagedAgentCounter.try_increment, PyDict.contains, PyDict.get.
    rewrite Hnone. reflexivity.
  - intros calls.
    assert (Hzero : forall name k, assoc name m = Some k ->
              assoc name (GlobalManagedAgentCounter.counts
                            (GlobalManagedAgentCounter.__init__ (Some m)))
                = Some (Z.min k 0)).
    { intros name k Hk. rewrite (init_unfold m Hm). cbn [GlobalManagedAgentCounter.counts].
      rewrite assoc_comprehension, decide_True by (apply assoc_is_Some_keys; eauto).
      f_equal. pose proof (Hm _ _ Hk). lia. }
    destruct (try_seq_spec m Hm calls _ (fun _ => 0) Hinit
                ltac:(intros; lia) Hzero) as (bs & g & Hrun & _ & Hbs).
    exists bs, g. split; [exact Hrun|]. intros i name now Hi.
    rewrite (Hbs _ _ _ Hi). destruct (assoc name m); reflexivity.
  - intros ops. destruct (run_invariant_call m Hm ops _ Hinit) as (g & Hrun & Hlim & Hinv).
    exists g. repeat split; try assumption.
    intros name k Hk. destruct (Hinv _ _ Hk) as (c & h & Hc & Hb & _). eauto.
  - intros t1 t2 t3. eexists. reflexivity.
  - intros lib ops g g' w tool_name arguments now Hrun Hcounter Hin Hden.
    destruct (run_invariant_call m Hm ops _ Hinit) as (g0 & Hrun0 & Hg0).
    assert (g0 = g) by congruence. subst g0.
    destruct (execute_tool_call_denied m lib w tool_name arguments now g g'
                Hg0 Hcounter Hin Hden) as (msg & Hexec & Hlines & _ & Himp & Hinfo & Hfin).
    exists msg. auto.
Qed.

Lemma C5_call_governor_witness :
  (forall agent_name k, assoc agent_name [("A", 2)]%string = Some k -> 0 <= k) /\
  exists bs g,
    GlobalManagedAgentCounter.try_seq
      (GlobalManagedAgentCounter.__init__ (Some [("A", 2)]%string))
      [("A", "t1"); ("B", "t2"); ("A", "t3"); ("A", "t4")]%string = Ok (bs, g) /\
    bs !! 3%nat = Some false.
Proof.
  assert (H : forall agent_name k,
             assoc agent_name [("A", 2)]%string = Some k -> 0 <= k).
  { intros name k Hk. cbn [assoc] in Hk.
    destruct (String.eqb "A" name); inversion Hk; lia. }
  split; [exact H|].
  destruct (C5_call_governor [("A", 2)]%string H) as (_ & Hseq & _).
  destruct (Hseq [("A", "t1"); ("B", "t2"); ("A", "t3"); ("A", "t4")]%string)
    as (bs & g & Hrun & Hbs).
  exists bs, g. split; [exact Hrun|].
  rewrite (Hbs 3%nat "A"%string "t4"%string eq_refl). reflexivity.
Defined.

(* --------------------------------------------------------------------- *)
(** ** Isolated invocation of managed agents                              *)
(* --------------------------------------------------------------------- *)

Section IsolatedInvocation.
Import MemoryManagedToolCallingAgent.





End IsolatedInvocation.




(* --------------------------------------------------------------------- *)
(** ** What a resource governor records                                   *)
(* --------------------------------------------------------------------- *)

Section GovernorRecord.
Import ResourceGovernor.

Lemma granted_cons r rs :
  granted (r :: rs) = (if is_granted r then 1 else 0) + granted rs.
Proof.
  unfold granted. rewrite filter_cons.
  destruct (is_granted r).
  - rewrite decide_True by reflexivity. cbn [length]. lia.
  - rewrite decide_False by discriminate. lia.
Qed.

(** Without a reset in between, [count] grows by the number of granted
    calls. *)
Lemma run_counts k ops : forall g,
  Reset ∉ ops ->
  count (run k ops g).2 = count g + granted (run k ops g).1.
Proof.
  induction ops as [|o ops IH]; intros g Hno; cbn [run].
  - cbn. unfold granted. cbn. lia.
  - assert (Hno' : Reset ∉ ops) by (intros H; apply Hno; constructor; exact H).
    assert (Ho : o <> Reset) by (intros ->; apply Hno; constructor).
    specialize (IH (call k o g).2 Hno').
    destruct (call k o g) as [r g'] eqn:Hcall. cbn [snd] in IH.
    destruct (run k ops g') as [rs g''] eqn:Hrun. cbn [fst snd] in *.
    rewrite granted_cons, IH.
    destruct o; cbn [call] in Hcall; try congruence.
    + rewrite try_increment_unfold in Hcall.
      destruct (count g >=? limit g); injection Hcall as <- <-;
        cbn [is_granted count]; lia.
    + injection Hcall as <- <-. cbn [is_granted]. lia.
    + injection Hcall as <- <-. cbn [is_granted]. lia.
Qed.
End GovernorRecord.

(** C9, as stated, fails: after one successful [try_increment] on a fresh
    search governor with limit 1 the object has no [history] attribute, so
    there is no history of length 1. *)
Lemma C9_no_history_attribute :
  let '(ok, g) :=
    ResourceGovernor.try_increment SearchGovernor
      (ResourceGovernor.__init__ SearchGovernor 1) in
  ok = true /\
  Counter_getattr g "history" = None /\
  ~ (exists h, Counter_getattr g "history" = Some (AList h) /\ length h = 1%nat).
Proof.
  cbn. split; [reflexivity|]. split; [reflexivity|].
  intros (h & H & _). discriminate H.
Qed.

(** C9, amended. A resource governor of any kind has the instance
    attributes [limit], [count] and [_lock] and no other, after every
    sequence of calls: it keeps no history. What a successful
    [try_increment] records is one more unit of [count]: after a run without
    reset, [count] is the number of calls that returned true. *)
Theorem C9_governor_records_count_only (k : GovernorKind) (L : Z)
    (ops : list ResourceGovernor.Op) :
  let run := ResourceGovernor.run k ops (ResourceGovernor.__init__ k L) in
  map fst (Counter_vars run.2) = ["limit"; "count"; "_lock"]%string /\
  Counter_getattr run.2 "history" = None /\
  (ResourceGovernor.Reset ∉ ops -> count run.2 = ResourceGovernor.granted run.1).
Proof.
  cbv zeta. split; [reflexivity|]. split; [reflexivity|].
  intros Hno. rewrite run_counts by exact Hno.
  destruct k; cbn; lia.
Qed.

Lemma C9_governor_records_count_only_witness :
  let ops := [ResourceGovernor.TryIncrement; ResourceGovernor.GetCount;
              ResourceGovernor.TryIncrement; ResourceGovernor.TryIncrement] in
  let run := ResourceGovernor.run VisitGovernor ops
               (ResourceGovernor.__init__ VisitGovernor 2) in
  (ResourceGovernor.Reset ∉ ops) /\
  count run.2 = 2 /\ ResourceGovernor.granted run.1 = 2.
Proof.
  cbv zeta.
  assert (Hno : ResourceGovernor.Reset ∉
                [ResourceGovernor.TryIncrement; ResourceGovernor.GetCount;
                 ResourceGovernor.TryIncrement; ResourceGovernor.TryIncrement]).
  { rewrite list_elem_of_In. cbn. intros [H|[H|[H|[H|[]]]]]; discriminate H. }
  destruct (C9_governor_records_count_only VisitGovernor 2
              [ResourceGovernor.TryIncrement; ResourceGovernor.GetCount;
               ResourceGovernor.TryIncrement; ResourceGovernor.TryIncrement])
    as (_ & _ & H).
  split; [exact Hno|]. split; [reflexivity|].
  rewrite <- (H Hno). reflexivity.
Defined.

(* --------------------------------------------------------------------- *)
(** ** Context compaction                                                 *)
(* --------------------------------------------------------------------- *)

Section CompactorFacts.
Import ContextSummarizationMixin.

Lemma scan_back_app_none newer rest :
  Forall (fun s => measured s = None) newer ->
  scan_back (newer ++ rest) = scan_back rest.
Proof.
  induction 1 as [|s newer Hs _ IH]; [reflexivity|].
  cbn [app scan_back]. rewrite Hs. exact IH.
Qed.

Lemma scan_back_last steps n :
  last_measured steps n -> scan_back (rev steps) = n.
Proof.
  intros (older & s & newer & -> & Hs & Hnone).
  rewrite rev_app_distr. cbn [rev]. rewrite <- app_assoc.
  rewrite scan_back_app_none by (apply Forall_rev; exact Hnone).
  cbn [app scan_back]. rewrite Hs. reflexivity.
Qed.

Lemma scan_back_none steps :
  Forall (fun s => measured s = None) steps -> scan_back (rev steps) = 0.
Proof.
  intros H. rewrite <- (app_nil_r (rev steps)).
  rewrite scan_back_app_none by (apply Forall_rev; exact H). reflexivity.
Qed.

(** Every step log has a most recent measured step or none at all. *)
Lemma measured_dichotomy steps :
  (exists n, last_measured steps n) \/ Forall (fun s => measured s = None) steps.
Proof.
  induction steps as [|s steps IH]; [right; constructor|].
  destruct IH as [(n & older & s0 & newer & -> & Hs0 & Hnone)|Hnone].
  - left. exists n, (s :: older), s0, newer. auto.
  - destruct (measured s) as [n|] eqn:Hs.
    + left. exists n, [], s, steps. auto.
    + right. constructor; assumption.
Qed.

Lemma count_fold steps : forall acc,
  fold_left (fun n s => if is_action_step s then n + 1 else n) steps acc =
    acc + Z.of_nat (length (List.filter is_action_step steps)).
Proof.
  induction steps as [|s steps IH]; intros acc; cbn [fold_left List.filter].
  - cbn. lia.
  - rewrite IH. destruct (is_action_step s); cbn [length]; lia.
Qed.

Lemma count_action_steps_spec self :
  _count_action_steps self =
    Z.of_nat (length (List.filter is_action_step self.(memory).(steps))).
Proof. unfold _count_action_steps. rewrite count_fold. lia. Qed.

(** *** One attempt *)

Lemma same_but_events_refl a : same_but_events a a.
Proof. repeat split. Qed.

Lemma same_but_events_trans a b c :
  same_but_events a b -> same_but_events b c -> same_but_events a c.
Proof.
  unfold same_but_events. intros H1 H2.
  repeat match goal with H : _ /\ _ |- _ => destruct H end.
  repeat split; congruence.
Qed.

Lemma same_but_events_with a ev : same_but_events (with_events a ev) a.
Proof. repeat split. Qed.

Lemma call_once_events env self prompt r self' :
  _call_summary_api_once env self prompt = (r, self') ->
  same_but_events self' self /\
  (requests self'.(events) <= S (requests self.(events)))%nat.
Proof.
  unfold _call_summary_api_once.
  destruct (request_api_detail env) as [api|].
  - assert (Hreq : requests (self.(events) ++ [ApiCall self.(summary_system_prompt) prompt])
                   = S (requests self.(events))).
    { unfold requests. rewrite List.filter_app, length_app. cbn. lia. }
    destruct (api _ _ _) as [e|response status_code].
    + destruct (exc_is_Exception e); intros [= <- <-]; cbn [events with_events];
        (split; [apply same_but_events_with|lia]).
    + destruct (_ || _).
      * intros [= <- <-]; cbn [events with_events];
          (split; [apply same_but_events_with|lia]).
      * destruct (_extract_api_response response) as [[c|] usage];
          intros [= <- <-]; cbn [events with_events];
          (split; [apply same_but_events_with|lia]).
  - intros [= <- <-]. split; [apply same_but_events_refl|lia].
Qed.

Lemma call_once_fails env api self prompt :
  request_api_detail env = Some api ->
  attempt_fails (api (requests self.(events)) self.(summary_system_prompt) prompt) ->
  exists msg,
    _call_summary_api_once env self prompt =
      (Ok (None, Some msg, None),
       with_events self (self.(events) ++ [ApiCall self.(summary_system_prompt) prompt])).
Proof.
  intros Hapi Hfail. unfold _call_summary_api_once. rewrite Hapi.
  destruct (api _ _ _) as [e|response status_code]; cbn [attempt_fails] in Hfail.
  - rewrite Hfail. eauto.
  - destruct (Z.eqb_spec status_code 200) as [->|Hne]; cbn [negb orb]; [|eauto].
    destruct Hfail as [Hs|[->|Hnone]]; [contradiction|eauto|].
    destruct response; eauto;
      destruct (_extract_api_response _) as [[c|] usage]; cbn in Hnone;
      try discriminate; eauto.
Qed.

(** *** The retry loop *)

(** The loop sends at most one request per iteration, whatever the
    answers, and changes nothing of the agent but the events. *)
Lemma retry_loop_requests env prompt remaining : forall self attempt r self',
  retry_loop env self prompt attempt remaining = (r, self') ->
  (requests self'.(events) <= requests self.(events) + remaining)%nat /\
  same_but_events self' self.
Proof.
  induction remaining as [|remaining IH]; intros self attempt r self'; cbn [retry_loop].
  - intros [= <- <-]. split; [lia|apply same_but_events_refl].
  - destruct (_call_summary_api_once env self prompt) as [r1 self1] eqn:Hcall.
    destruct (call_once_events _ _ _ _ _ Hcall) as [Hself1 Hreq].
    destruct r1 as [[[summary_text error_msg] usage]|e].
    + destruct (nonempty summary_text).
      * intros [= <- <-]. split; [lia|exact Hself1].
      * intros Hloop. apply IH in Hloop. destruct Hloop as (Hle & Hsame).
        assert (Hsl : forall ev, requests (ev ++ [Sleep (Z.min (5 * attempt) 30)])
                                 = requests ev).
        { intros ev. unfold requests. rewrite List.filter_app, length_app. cbn. lia. }
        destruct (attempt <? summary_max_retries self1).
        -- cbn [with_events events] in Hle. rewrite Hsl in Hle. split; [lia|].
           eapply same_but_events_trans; [exact Hsame|].
           eapply same_but_events_trans; [apply same_but_events_with|exact Hself1].
        -- split; [lia|]. eapply same_but_events_trans; eassumption.
    + intros [= <- <-]. split; [lia|exact Hself1].
Qed.

Lemma failed_attempt_events_S sp up max first count :
  failed_attempt_events sp up max first (S count) =
    (ApiCall sp up :: if first <? max then [Sleep (Z.min (5 * first) 30)] else [])
    ++ failed_attempt_events sp up max (first + 1) count.
Proof.
  unfold failed_attempt_events. cbn [seq flat_map]. rewrite Z.add_0_r.
  f_equal. rewrite <- seq_shift, flat_map_concat_map, map_map,
    <- flat_map_concat_map.
  apply flat_map_ext. intros i.
  replace (first + 1 + Z.of_nat i) with (first + Z.of_nat (S i)) by lia. reflexivity.
Qed.

(** When every attempt fails the loop makes all its attempts, pauses
    after each but the last, and returns no summary. *)
Lemma retry_loop_all_fail env api prompt remaining : forall self attempt,
  request_api_detail env = Some api ->
  (forall n, attempt_fails (api n self.(summary_system_prompt) prompt)) ->
  exists self',
    retry_loop env self prompt attempt remaining = (Ok (None, None), self') /\
    self' = with_events self
              (self.(events) ++
               failed_attempt_events self.(summary_system_prompt) prompt
                 self.(summary_max_retries) attempt remaining).
Proof.
  induction remaining as [|remaining IH]; intros self attempt Hapi Hfail;
    cbn [retry_loop].
  - eexists. split; [reflexivity|]. unfold failed_attempt_events. cbn.
    rewrite app_nil_r. destruct self; reflexivity.
  - destruct (call_once_fails env api self prompt Hapi (Hfail _)) as [msg ->].
    cbn [nonempty]. rewrite failed_attempt_events_S.
    cbn [with_events summary_max_retries events].
    match goal with |- context [retry_loop env ?s prompt _ remaining] =>
      destruct (IH s (attempt + 1) Hapi) as (self' & -> & ->)
    end.
    { destruct (attempt <? _); exact Hfail. }
    eexists. split; [reflexivity|].
    destruct (attempt <? summary_max_retries self);
      cbn [with_events summary_max_retries summary_system_prompt events];
      rewrite <- ?app_assoc; reflexivity.
Qed.

(** *** Summary generation and the reset *)

Lemma generate_frame env self r self' :
  _generate_context_summary env self = (r, self') ->
  same_but_events self' self /\
  (requests self'.(events) <=
     requests self.(events) + Z.to_nat self.(summary_max_retries))%nat.
Proof.
  unfold _generate_context_summary, _call_summary_api_with_retry.
  destruct (request_api_detail env).
  - destruct (str_format env _ _ _) as [user_prompt|e].
    + destruct (retry_loop env self user_prompt 1 _) as [r1 self1] eqn:Hloop.
      apply retry_loop_requests in Hloop. destruct Hloop as (Hle & Hsame).
      destruct r1 as [[[text|] usage]|e]; intros [= <- <-]; auto.
    + intros [= <- <-]. split; [apply same_but_events_refl|lia].
  - intros [= <- <-]. split; [apply same_but_events_refl|lia].
Qed.

(** The two outcomes of a compaction: the step log is replaced by the
    summary step and a task step, or an exception ended the compaction
    before the reset and the memory is as it was. *)
Lemma perform_cases env self :
  let out := _perform_context_summarization env self in
  (exists summary usage self1,
     _generate_context_summary env self = (Ok (summary, usage), self1) /\
     out.2.(memory).(steps) =
       [SummaryStep self.(task) summary
          (Z.of_nat (length self.(memory).(steps))) (_get_last_input_tokens self);
        TaskStep self.(task)] /\
     out.2.(task) = self.(task) /\
     out.2.(_summarization_count) = self.(_summarization_count) + 1 /\
     out.2.(_total_tokens_saved) =
       self.(_total_tokens_saved) + _get_last_input_tokens self) \/
  (exists e, out.1 = Raise e /\ out.2.(memory) = self.(memory)).
Proof.
  cbv zeta. unfold _perform_context_summarization.
  destruct (_generate_context_summary env self) as [r self1] eqn:Hgen.
  destruct (generate_frame _ _ _ _ Hgen)
    as ((_ & _ & _ & _ & _ & Htask & Hmem & Hcnt & Hsaved) & _).
  destruct r as [[summary usage]|e]; [|right; eauto].
  destruct (Py.get_or usage "completion_tokens" (PInt 0)) as [c|e]; [|right; eauto].
  destruct (Py.get_or usage "prompt_tokens" (PInt 0)) as [p|e]; [|right; eauto].
  destruct (Py.get_or usage "total_tokens" (PInt 0)) as [t|e]; [|right; eauto].
  left. exists summary, usage, self1. split; [reflexivity|].
  cbn [snd with_stats with_memory memory task steps Memory.append Memory.reset
         _summarization_count _total_tokens_saved app].
  rewrite Htask, Hcnt, Hsaved. auto.
Qed.
End CompactorFacts.

Section CompactorOutcomes.
Import ContextSummarizationMixin.

Lemma extract_usage_dict response c usage :
  _extract_api_response response = (Some c, usage) -> usage_ok usage.
Proof.
  unfold _extract_api_response, extract_body.
  destruct (Py.contains "choices" response) as [has_choices|e];
    cbn [mbind result_bind]; [|discriminate].
  match goal with |- context [mbind _ ?x] => destruct x as [content|e] end;
    cbn [mbind result_bind]; [|discriminate].
  destruct (Py.contains "usage" response) as [[|]|e];
    cbn [mbind result_bind]; try discriminate.
  - destruct (Py.getitem response "usage") as [u|e];
      cbn [mbind result_bind]; [|discriminate].
    destruct u; cbn [Py.require_dict mbind result_bind]; try discriminate.
    destruct (nonempty content); intros [= _ <-]. right. eauto.
  - destruct (nonempty content); intros [= _ <-]. left. reflexivity.
Qed.

Lemma get_or_ok usage key default :
  usage_ok usage -> exists v, Py.get_or usage key default = Ok v.
Proof.
  intros [->|[d ->]]; cbn [Py.get_or]; [eauto|].
  destruct (truthy (PDict d)); eauto.
Qed.

Lemma call_once_usage env self prompt c err usage self' :
  _call_summary_api_once env self prompt = (Ok (Some c, err, usage), self') ->
  usage_ok usage.
Proof.
  unfold _call_summary_api_once. destruct (request_api_detail env) as [api|];
    [|discriminate].
  destruct (api _ _ _) as [e|response status_code].
  - destruct (exc_is_Exception e); discriminate.
  - destruct (_ || _); [discriminate|].
    destruct (_extract_api_response response) as [[c'|] usage'] eqn:Hx;
      [|discriminate].
    intros [= _ _ <-]. eapply extract_usage_dict; eassumption.
Qed.

Lemma retry_loop_usage env prompt remaining : forall self attempt text usage self',
  retry_loop env self prompt attempt remaining = (Ok (Some text, usage), self') ->
  usage_ok usage.
Proof.
  induction remaining as [|remaining IH]; intros self attempt text usage self';
    cbn [retry_loop]; [discriminate|].
  destruct (_call_summary_api_once env self prompt) as [[[[s err] u]|e] self1] eqn:Hcall;
    [|discriminate].
  destruct s as [s|]; cbn [nonempty].
  - destruct (String.eqb s "").
    + apply IH.
    + intros [= _ <- _]. eapply call_once_usage; eassumption.
  - apply IH.
Qed.

Lemma generate_usage env self summary usage self' :
  _generate_context_summary env self = (Ok (summary, usage), self') ->
  usage_ok usage.
Proof.
  unfold _generate_context_summary, _call_summary_api_with_retry.
  destruct (request_api_detail env); [|intros [= _ <- _]; left; reflexivity].
  destruct (str_format env _ _ _) as [user_prompt|e]; [|discriminate].
  destruct (retry_loop env self user_prompt 1 _) as [[[[text|] u]|e] self1] eqn:Hloop;
    try discriminate.
  - intros [= _ <- _]. eapply retry_loop_usage; eassumption.
  - intros [= _ <- _]. left. reflexivity.
Qed.

(** The loop hands on an exception only if a request raised one that is
    not an [Exception]. *)
Lemma call_once_no_raise env self prompt :
  (forall api n sp up e, request_api_detail env = Some api ->
     api n sp up = ApiRaises e -> exc_is_Exception e = true) ->
  exists v self', _call_summary_api_once env self prompt = (Ok v, self').
Proof.
  intros Hexc. unfold _call_summary_api_once.
  destruct (request_api_detail env) as [api|] eqn:Hapi; [|eauto].
  destruct (api _ _ _) as [e|response status_code] eqn:Hout.
  - rewrite (Hexc _ _ _ _ _ eq_refl Hout). eauto.
  - destruct (_ || _); [eauto|].
    destruct (_extract_api_response response) as [[c|] usage]; eauto.
Qed.

Lemma retry_loop_no_raise env prompt remaining : forall self attempt,
  (forall api n sp up e, request_api_detail env = Some api ->
     api n sp up = ApiRaises e -> exc_is_Exception e = true) ->
  exists v self', retry_loop env self prompt attempt remaining = (Ok v, self').
Proof.
  induction remaining as [|remaining IH]; intros self attempt Hexc; cbn [retry_loop];
    [eauto|].
  destruct (call_once_no_raise env self prompt Hexc) as ([[s err] u] & self1 & ->).
  destruct (nonempty s); [eauto|]. apply IH, Hexc.
Qed.

Lemma generate_returns env self :
  (forall task history, exists p,
     str_format env self.(summary_user_template) task history = Ok p) ->
  (forall api n sp up e, request_api_detail env = Some api ->
     api n sp up = ApiRaises e -> exc_is_Exception e = true) ->
  exists summary usage self1,
    _generate_context_summary env self = (Ok (summary, usage), self1).
Proof.
  intros Hfmt Hexc.
  pose proof (fun p => retry_loop_no_raise env p
                (Z.to_nat self.(summary_max_retries)) self 1 Hexc) as Hloop.
  unfold _generate_context_summary, _call_summary_api_with_retry.
  destruct (request_api_detail env) eqn:Hapi; [|eauto].
  destruct (Hfmt (if String.eqb self.(task) "" then "未知任务"%string else self.(task))
              (_history_to_text self)) as [p ->].
  destruct (Hloop p) as ([[text|] u] & self1 & ->); eauto.
Qed.

(** A compaction whose summary generation returns replaces the step log;
    one whose summary generation raises leaves the memory as it is. *)
Lemma perform_replaces env self summary usage self1 :
  _generate_context_summary env self = (Ok (summary, usage), self1) ->
  let out := _perform_context_summarization env self in
  out.2.(memory).(steps) =
    [SummaryStep self.(task) summary
       (Z.of_nat (length self.(memory).(steps))) (_get_last_input_tokens self);
     TaskStep self.(task)] /\
  out.2.(memory).(mem_system_prompt) = self.(memory).(mem_system_prompt) /\
  out.2.(task) = self.(task) /\
  out.2.(_summarization_count) = self.(_summarization_count) + 1 /\
  out.2.(_total_tokens_saved) = self.(_total_tokens_saved) + _get_last_input_tokens self.
Proof.
  intros Hgen. cbv zeta. unfold _perform_context_summarization. rewrite Hgen.
  destruct (generate_frame _ _ _ _ Hgen)
    as ((_ & _ & _ & _ & _ & Htask & Hmem & Hcnt & Hsaved) & _).
  pose proof (generate_usage _ _ _ _ _ Hgen) as Hu.
  destruct (get_or_ok usage "completion_tokens" (PInt 0) Hu) as [c ->].
  destruct (get_or_ok usage "prompt_tokens" (PInt 0) Hu) as [p ->].
  destruct (get_or_ok usage "total_tokens" (PInt 0) Hu) as [t ->].
  cbn [snd with_stats with_memory memory task steps mem_system_prompt
         Memory.append Memory.reset _summarization_count _total_tokens_saved app].
  rewrite Htask, Hmem, Hcnt, Hsaved. auto.
Qed.

Lemma perform_aborted env self e self1 :
  _generate_context_summary env self = (Raise e, self1) ->
  _perform_context_summarization env self = (Raise e, self1) /\
  self1.(memory) = self.(memory).
Proof.
  intros Hgen. unfold _perform_context_summarization. rewrite Hgen.
  split; [reflexivity|]. apply (generate_frame _ _ _ _ Hgen).
Qed.

(** With an absent usage the closing log line formats and the compaction
    returns normally. *)
Lemma perform_returns_without_usage env self summary self1 :
  _generate_context_summary env self = (Ok (summary, None), self1) ->
  (_perform_context_summarization env self).1 = Ok tt.
Proof.
  intros Hgen. unfold _perform_context_summarization. rewrite Hgen. reflexivity.
Qed.
End CompactorOutcomes.

(** C3. Compaction of an execution context. When summary generation
    returns a summary, the step log after [_perform_context_summarization]
    is exactly the summary step (the task text before compaction as
    original task, the generated summary, the number of steps before
    compaction, the last recorded input tokens) followed by a task step with
    the same task text, and nothing else. Summary generation returns
    whenever the prompt template can be formatted and no request raises an
    exception outside [Exception]; the only other outcome is that summary
    generation raises, and then the compaction raises the same exception
    with the memory unchanged. *)
Theorem C3_compaction_resets_step_log (env : SummaryEnv)
    (self : ContextSummarizationMixin.t) :
  let out := ContextSummarizationMixin._perform_context_summarization env self in
  let task := self.(ContextSummarizationMixin.task) in
  let old_steps := self.(ContextSummarizationMixin.memory).(steps) in
  (forall summary usage self1,
     ContextSummarizationMixin._generate_context_summary env self
       = (Ok (summary, usage), self1) ->
     out.2.(ContextSummarizationMixin.memory).(steps) =
       [SummaryStep task summary (Z.of_nat (length old_steps))
          (ContextSummarizationMixin._get_last_input_tokens self);
        TaskStep task] /\
     out.2.(ContextSummarizationMixin.task) = task) /\
  (forall e self1,
     ContextSummarizationMixin._generate_context_summary env self = (Raise e, self1) ->
     out = (Raise e, self1) /\
     self1.(ContextSummarizationMixin.memory) = self.(ContextSummarizationMixin.memory)) /\
  ((forall task history, exists p,
      str_format env self.(ContextSummarizationMixin.summary_user_template) task history
        = Ok p) ->
   (forall api n sp up e, request_api_detail env = Some api ->
      api n sp up = ApiRaises e -> exc_is_Exception e = true) ->
   exists summary,
     out.2.(ContextSummarizationMixin.memory).(steps) =
       [SummaryStep task summary (Z.of_nat (length old_steps))
          (ContextSummarizationMixin._get_last_input_tokens self);
        TaskStep task]).
Proof.
  cbv zeta. split; [|split].
  - intros summary usage self1 Hgen.
    destruct (perform_replaces env self summary usage self1 Hgen) as (H1 & _ & H2 & _).
    auto.
  - intros e self1 Hgen. apply perform_aborted, Hgen.
  - intros Hfmt Hexc.
    destruct (generate_returns env self Hfmt Hexc) as (summary & usage & self1 & Hgen).
    exists summary. apply (perform_replaces env self summary usage self1 Hgen).
Qed.

Lemma C3_compaction_resets_step_log_witness :
  exists summary,
    (ContextSummarizationMixin._perform_context_summarization
       Sample.failing_api Sample.agent).2
      .(ContextSummarizationMixin.memory).(steps) =
    [SummaryStep "find the moons" summary 3 90000; TaskStep "find the moons"].
Proof.
  destruct (C3_compaction_resets_step_log Sample.failing_api Sample.agent) as (_ & _ & H).
  apply H.
  - intros task history. eexists. reflexivity.
  - intros api n sp up e [= <-] He. discriminate He.
Defined.

(** C4. The trigger, checked before each step. With [n] the input tokens of
    the most recent action or planning step that has a token usage,
    [_should_summarize] holds exactly when [n] is greater than the threshold
    and the number of action steps is at least [min_steps_before_summary];
    a log without such a step never triggers while the threshold is not
    negative; every log is in one of these two cases. [_step_stream] runs
    the compaction first exactly when the trigger holds, and otherwise goes
    straight to the step of the parent class with the agent untouched. *)
Theorem C4_compaction_trigger (env : SummaryEnv)
    (super_step_stream : ContextSummarizationMixin.t ->
                         result pyval * ContextSummarizationMixin.t)
    (self : ContextSummarizationMixin.t) :
  let log := self.(ContextSummarizationMixin.memory).(steps) in
  let action_steps :=
    Z.of_nat (length (List.filter ContextSummarizationMixin.is_action_step log)) in
  (forall n, ContextSummarizationMixin.last_measured log n ->
     (ContextSummarizationMixin._should_summarize self = true <->
      n > self.(ContextSummarizationMixin.context_token_threshold) /\
      action_steps >= self.(ContextSummarizationMixin.min_steps_before_summary))) /\
  (Forall (fun s => ContextSummarizationMixin.measured s = None) log ->
   0 <= self.(ContextSummarizationMixin.context_token_threshold) ->
   ContextSummarizationMixin._should_summarize self = false) /\
  ((exists n, ContextSummarizationMixin.last_measured log n) \/
   Forall (fun s => ContextSummarizationMixin.measured s = None) log) /\
  (ContextSummarizationMixin._should_summarize self = false ->
   ContextSummarizationMixin._step_stream env super_step_stream self
     = super_step_stream self) /\
  (ContextSummarizationMixin._should_summarize self = true ->
   ContextSummarizationMixin._step_stream env super_step_stream self =
     match ContextSummarizationMixin._perform_context_summarization env self with
     | (Raise e, self') => (Raise e, self')
     | (Ok _, self') => super_step_stream self'
     end).
Proof.
  cbv zeta. split; [|split; [|split; [|split]]].
  - intros n Hn. unfold ContextSummarizationMixin._should_summarize,
      ContextSummarizationMixin._get_last_input_tokens.
    rewrite (scan_back_last _ _ Hn), count_action_steps_spec, andb_true_iff.
    rewrite Z.ltb_lt, Z.geb_le. lia.
  - intros Hnone Hthr. unfold ContextSummarizationMixin._should_summarize,
      ContextSummarizationMixin._get_last_input_tokens.
    rewrite (scan_back_none _ Hnone). apply andb_false_intro1. apply Z.ltb_ge. lia.
  - apply measured_dichotomy.
  - intros H. unfold ContextSummarizationMixin._step_stream. rewrite H. reflexivity.
  - intros H. unfold ContextSummarizationMixin._step_stream. rewrite H.
    destruct (ContextSummarizationMixin._perform_context_summarization env self)
      as [[u|e] self']; reflexivity.
Qed.

Lemma C4_compaction_trigger_witness :
  let super_step_stream := fun self : ContextSummarizationMixin.t => (Ok PNone, self) in
  ContextSummarizationMixin.last_measured
    Sample.agent.(ContextSummarizationMixin.memory).(steps) 90000 /\
  ContextSummarizationMixin._should_summarize Sample.agent = true /\
  ContextSummarizationMixin._step_stream Sample.failing_api super_step_stream Sample.agent =
    match ContextSummarizationMixin._perform_context_summarization
            Sample.failing_api Sample.agent with
    | (Raise e, self') => (Raise e, self')
    | (Ok _, self') => super_step_stream self'
    end.
Proof.
  cbv zeta.
  destruct (C4_compaction_trigger Sample.failing_api (fun self => (Ok PNone, self))
              Sample.agent) as (Hiff & _ & _ & _ & Hrun).
  assert (Hlast : ContextSummarizationMixin.last_measured
                    Sample.agent.(ContextSummarizationMixin.memory).(steps) 90000).
  { eexists [_; _], _, []. split; [reflexivity|]. split; [reflexivity|constructor]. }
  assert (Htrigger : ContextSummarizationMixin._should_summarize Sample.agent = true).
  { apply (Hiff 90000 Hlast). cbn. lia. }
  split; [exact Hlast|]. split; [exact Htrigger|]. exact (Hrun Htrigger).
Defined.

Section RetryFacts.
Import ContextSummarizationMixin.

Lemma extract_none_fails response status_code :
  (_extract_api_response response).1 = None ->
  attempt_fails (ApiReturns response status_code).
Proof. intros H. cbn. auto. Qed.

(** A response without ["choices"] carries no content. *)
Lemma extract_no_choices d :
  PyDict.get d "choices" = None ->
  (_extract_api_response (PDict d)).1 = None.
Proof.
  intros H. unfold _extract_api_response, extract_body.
  cbn [Py.contains]. unfold PyDict.contains. rewrite H. cbn [mbind result_bind].
  match goal with |- context [mbind _ ?r] => destruct r end; reflexivity.
Qed.

(** A response whose first choice has a message without ["content"]
    carries no content. *)
Lemma extract_no_content d choice rest message :
  PyDict.get d "choices" = Some (PList (PDict choice :: rest)) ->
  PyDict.get choice "message" = Some (PDict message) ->
  PyDict.get message "content" = None ->
  (_extract_api_response (PDict d)).1 = None.
Proof.
  intros Hc Hm Hn. unfold _extract_api_response, extract_body.
  cbn [Py.contains Py.getitem]. unfold PyDict.contains, PyDict.getitem.
  rewrite Hc. cbn [mbind result_bind Py.len Py.first Py.contains Py.getitem].
  unfold PyDict.contains, PyDict.getitem. rewrite Hm.
  cbn [mbind result_bind length Py.contains]. unfold PyDict.contains. rewrite Hn.
  replace (0 <? Z.of_nat (S (length rest))) with true by (symmetry; apply Z.ltb_lt; lia).
  cbn [mbind result_bind].
  match goal with |- context [mbind _ ?r] => destruct r end; reflexivity.
Qed.

Lemma degraded_summary_keeps_task self :
  occurs_in self.(task) (degraded_summary self) /\
  occurs_in "摘要生成失败" (degraded_summary self) /\
  occurs_in ("原始任务: " +:+ self.(task)) (degraded_summary self).
Proof.
  unfold degraded_summary. repeat split.
  - do 9 apply occurs_in_app_r. apply occurs_in_refl.
  - apply occurs_in_app_l. exists "["%string, ": 经过 "%string. reflexivity.
  - do 8 apply occurs_in_app_r. apply occurs_in_refl.
Qed.

Lemma generate_all_fail env api self prompt :
  request_api_detail env = Some api ->
  (forall n sp up, attempt_fails (api n sp up)) ->
  str_format env self.(summary_user_template)
    (if String.eqb self.(task) "" then "未知任务" else self.(task))
    (_history_to_text self) = Ok prompt ->
  _generate_context_summary env self =
    (Ok (degraded_summary self, None),
     with_events self
       (self.(events) ++
        failed_attempt_events self.(summary_system_prompt) prompt
          self.(summary_max_retries) 1 (Z.to_nat self.(summary_max_retries)))).
Proof.
  intros Hapi Hfail Hfmt. unfold _generate_context_summary, _call_summary_api_with_retry.
  rewrite Hapi, Hfmt.
  destruct (retry_loop_all_fail env api prompt (Z.to_nat self.(summary_max_retries))
              self 1 Hapi (fun n => Hfail n _ _)) as (self' & -> & ->).
  reflexivity.
Qed.
End RetryFacts.

(** C7. Summary generation with retries. The default of
    [summary_max_retries] is 5. (1) Whatever the answers, one run of the
    retry loop sends at most [summary_max_retries] requests. (2) An attempt
    fails when the call raises an exception, when the status is not 200,
    and when the response has no content (no choices, or a message without
    content). (3) When every attempt fails, the loop makes all its attempts,
    pausing [min(5 * attempt, 30)] after each attempt but the last, and
    returns no summary; summary generation then returns the degraded
    summary, which contains the task text and says that summary generation
    failed, and the compaction completes normally with the step log reset
    to the summary step (holding the degraded summary) and the task step. *)
Theorem C7_summary_retry (env : SummaryEnv) (self : ContextSummarizationMixin.t) :
  let max_retries := self.(ContextSummarizationMixin.summary_max_retries) in
  let task := self.(ContextSummarizationMixin.task) in
  let degraded := ContextSummarizationMixin.degraded_summary self in
  ContextSummarizationMixin.default_summary_max_retries = 5 /\
  (forall prompt r self',
     ContextSummarizationMixin._call_summary_api_with_retry env self prompt = (r, self') ->
     (ContextSummarizationMixin.requests self'.(ContextSummarizationMixin.events)
      <= ContextSummarizationMixin.requests self.(ContextSummarizationMixin.events)
         + Z.to_nat max_retries)%nat) /\
  (forall e, exc_is_Exception e = true ->
     ContextSummarizationMixin.attempt_fails (ApiRaises e)) /\
  (forall response status_code, status_code <> 200 ->
     ContextSummarizationMixin.attempt_fails (ApiReturns response status_code)) /\
  (forall d status_code, PyDict.get d "choices" = None ->
     ContextSummarizationMixin.attempt_fails (ApiReturns (PDict d) status_code)) /\
  (forall d choice rest message status_code,
     PyDict.get d "choices" = Some (PList (PDict choice :: rest)) ->
     PyDict.get choice "message" = Some (PDict message) ->
     PyDict.get message "content" = None ->
     ContextSummarizationMixin.attempt_fails (ApiReturns (PDict d) status_code)) /\
  (forall api,
     request_api_detail env = Some api ->
     (forall n sp up, ContextSummarizationMixin.attempt_fails (api n sp up)) ->
     (forall prompt,
        ContextSummarizationMixin._call_summary_api_with_retry env self prompt =
          (Ok (None, None),
           ContextSummarizationMixin.with_events self
             (self.(ContextSummarizationMixin.events) ++
              ContextSummarizationMixin.failed_attempt_events
                self.(ContextSummarizationMixin.summary_system_prompt) prompt
                max_retries 1 (Z.to_nat max_retries)))) /\
     (forall prompt,
        str_format env self.(ContextSummarizationMixin.summary_user_template)
          (if String.eqb task "" then "未知任务" else task)
          (ContextSummarizationMixin._history_to_text self) = Ok prompt ->
        let out := ContextSummarizationMixin._perform_context_summarization env self in
        (ContextSummarizationMixin._generate_context_summary env self).1
          = Ok (degraded, None) /\
        out.1 = Ok tt /\
        out.2.(ContextSummarizationMixin.memory).(steps) =
          [SummaryStep task degraded
             (Z.of_nat (length self.(ContextSummarizationMixin.memory).(steps)))
             (ContextSummarizationMixin._get_last_input_tokens self);
           TaskStep task])) /\
  occurs_in task degraded /\
  occurs_in "摘要生成失败" degraded.
Proof.
  cbv zeta. split; [reflexivity|].
  split. { intros prompt r self' H. apply retry_loop_requests in H. apply H. }
  split. { intros e He. exact He. }
  split. { intros response status_code Hs. cbn. auto. }
  split. { intros d status_code H. apply extract_none_fails, extract_no_choices, H. }
  split. { intros d choice rest message status_code Hc Hm Hn.
           eapply extract_none_fails, extract_no_content; eassumption. }
  split.
  - intros api Hapi Hfail. split.
    + intros prompt. unfold ContextSummarizationMixin._call_summary_api_with_retry.
      destruct (retry_loop_all_fail env api prompt
                  (Z.to_nat self.(ContextSummarizationMixin.summary_max_retries))
                  self 1 Hapi (fun n => Hfail n _ _)) as (self' & -> & ->).
      reflexivity.
    + intros prompt Hfmt. cbv zeta.
      pose proof (generate_all_fail env api self prompt Hapi Hfail Hfmt) as Hgen.
      rewrite Hgen. split; [reflexivity|]. split.
      * eapply perform_returns_without_usage, Hgen.
      * eapply perform_replaces, Hgen.
  - pose proof (degraded_summary_keeps_task self) as (H1 & H2 & _). auto.
Qed.

Lemma C7_summary_retry_witness :
  let out := ContextSummarizationMixin._perform_context_summarization
               Sample.failing_api Sample.agent in
  ContextSummarizationMixin.attempt_fails (ApiReturns PNone 500) /\
  out.1 = Ok tt /\
  out.2.(ContextSummarizationMixin.memory).(steps) =
    [SummaryStep "find the moons"
       (ContextSummarizationMixin.degraded_summary Sample.agent) 3 90000;
     TaskStep "find the moons"] /\
  ContextSummarizationMixin.requests out.2.(ContextSummarizationMixin.events) = 5%nat.
Proof.
  cbv zeta.
  assert (Hfail : ContextSummarizationMixin.attempt_fails (ApiReturns PNone 500)).
  { left. lia. }
  destruct (C7_summary_retry Sample.failing_api Sample.agent)
    as (_ & _ & _ & _ & _ & _ & H & _).
  destruct (H _ eq_refl (fun _ _ _ => Hfail)) as [_ H2].
  destruct (H2 _ eq_refl) as (_ & Hok & Hsteps).
  split; [exact Hfail|]. split; [exact Hok|]. split; [exact Hsteps|].
  reflexivity.
Defined.

(* --------------------------------------------------------------------- *)
(** ** The matcher finds exactly the matches                              *)
(* --------------------------------------------------------------------- *)

Section RegexFacts.
Import Re.

Lemma append_nil_inv (a b : string) : a +:+ b = ""%string -> a = ""%string /\ b = ""%string.
Proof. destruct a; [auto|discriminate]. Qed.

Lemma nullable_matches r : nullable r = true <-> matches r "".
Proof.
  split.
  - induction r; cbn [nullable]; intros H; try discriminate.
    + constructor.
    + constructor.
    + apply andb_true_iff in H as [H1 H2].
      change ""%string with (""%string +:+ ""%string). constructor; auto.
    + apply orb_true_iff in H as [H|H]; [apply MAltL|apply MAltR]; auto.
  - intros H. remember ""%string as s eqn:Hs.
    induction H; cbn [nullable]; try discriminate; try reflexivity.
    + apply append_nil_inv in Hs as [-> ->]. rewrite IHmatches1, IHmatches2; auto.
    + rewrite IHmatches by assumption. reflexivity.
    + rewrite IHmatches by assumption. apply orb_true_r.
Qed.

(** A match of [r*] that starts with [c] starts with a match of [r] that
    starts with [c]. *)
Lemma star_cons r c s :
  matches (RStar r) (String c s) ->
  exists s1 s2, s = s1 +:+ s2 /\ matches r (String c s1) /\ matches (RStar r) s2.
Proof.
  intros H. remember (RStar r) as r' eqn:Hr. remember (String c s) as t eqn:Ht.
  revert c s Ht. induction H; intros c0 s0 Ht; try discriminate.
  injection Hr as ->. destruct s1 as [|c1 s1].
  - cbn in Ht. apply IHmatches2; auto.
  - cbn in Ht. injection Ht as -> <-. eauto.
Qed.

Lemma seq_inv r1 r2 s :
  matches (RSeq r1 r2) s ->
  exists s1 s2, s = s1 +:+ s2 /\ matches r1 s1 /\ matches r2 s2.
Proof. intros H. inversion H; subst. eauto. Qed.

Lemma deriv_matches r : forall c s, matches (deriv c r) s <-> matches r (String c s).
Proof.
  induction r; intros c0 s; cbn [deriv].
  - split; intros H; inversion H.
  - split; intros H; inversion H.
  - destruct (char_matches (RChar c) c0) eqn:Hc; split; intros H; inversion H; subst.
    + constructor. exact Hc.
    + constructor.
    + congruence.
  - destruct (char_matches RSpace c0) eqn:Hc; split; intros H; inversion H; subst.
    + constructor. exact Hc.
    + constructor.
    + congruence.
  - destruct (char_matches (RNot c) c0) eqn:Hc; split; intros H; inversion H; subst.
    + constructor. exact Hc.
    + constructor.
    + congruence.
  - split; intros H.
    + inversion H; subst.
      match goal with H' : matches (deriv _ _) _ |- _ => apply IHr in H' end.
      match goal with |- matches _ (String c0 (?a +:+ ?b)) =>
        change (String c0 (a +:+ b)) with (String c0 a +:+ b) end.
      constructor; auto.
    + apply star_cons in H as (s1 & s2 & -> & H1 & H2).
      constructor; [apply IHr|]; auto.
  - assert (Hseq : matches (RSeq (deriv c0 r1) r2) s <->
                   exists s1 s2, s = s1 +:+ s2 /\ matches r1 (String c0 s1)
                                 /\ matches r2 s2).
    { split.
      - intros H. inversion H; subst.
        match goal with H' : matches (deriv _ _) _ |- _ => apply IHr1 in H' end.
        eauto.
      - intros (s1 & s2 & -> & H1 & H2). constructor; [apply IHr1|]; auto. }
    assert (Hsplit : matches (RSeq r1 r2) (String c0 s) <->
              (exists s1 s2, s = s1 +:+ s2 /\ matches r1 (String c0 s1)
                             /\ matches r2 s2) \/
              (matches r1 "" /\ matches r2 (String c0 s))).
    { split.
      - intros H. apply seq_inv in H as (s1 & s2 & Heq & H1 & H2).
        destruct s1 as [|c1 s1].
        + change (String c0 s = s2) in Heq. subst s2. right. auto.
        + change (String c0 s = String c1 (s1 +:+ s2)) in Heq.
          injection Heq as -> ->. left. eauto.
      - intros [(s1 & s2 & -> & H1 & H2)|[H1 H2]].
        + change (String c0 (s1 +:+ s2)) with (String c0 s1 +:+ s2). constructor; auto.
        + change (String c0 s) with (""%string +:+ String c0 s). constructor; auto. }
    rewrite Hsplit. destruct (nullable r1) eqn:Hn.
    + split.
      * intros H. inversion H; subst.
        -- left. apply Hseq. assumption.
        -- right. split; [apply nullable_matches, Hn|apply IHr2; assumption].
      * intros [H|[_ H]]; [apply MAltL, Hseq, H|apply MAltR, IHr2, H].
    + rewrite Hseq. split; [auto|].
      intros [H|[H _]]; [exact H|].
      apply nullable_matches in H. congruence.
  - split; intros H; inversion H; subst.
    + apply MAltL, IHr1. assumption.
    + apply MAltR, IHr2. assumption.
    + apply MAltL, IHr1. assumption.
    + apply MAltR, IHr2. assumption.
Qed.

Lemma match_prefix_spec text : forall r,
  match_prefix r text = true <-> exists m post, text = m +:+ post /\ matches r m.
Proof.
  induction text as [|c text IH]; intros r; cbn [match_prefix].
  - rewrite orb_false_r, nullable_matches. split.
    + intros H. exists ""%string, ""%string. auto.
    + intros (m & post & Heq & H). symmetry in Heq.
      apply append_nil_inv in Heq as [-> _]. exact H.
  - rewrite orb_true_iff, nullable_matches, IH. split.
    + intros [H|(m & post & -> & H)].
      * exists ""%string, (String c text). auto.
      * exists (String c m), post. split; [reflexivity|]. apply deriv_matches, H.
    + intros (m & post & Heq & H). destruct m as [|c' m].
      * left. exact H.
      * cbn in Heq. injection Heq as <- ->. right.
        exists m, post. split; [reflexivity|]. apply deriv_matches, H.
Qed.

(** [search] decides [found]. *)
Lemma search_spec text : forall r, search r text = true <-> found r text.
Proof.
  unfold found. induction text as [|c text IH]; intros r; cbn [search].
  - rewrite orb_false_r, match_prefix_spec. split.
    + intros (m & post & Heq & H). exists ""%string, m, post. auto.
    + intros (pre & m & post & Heq & H). symmetry in Heq.
      apply append_nil_inv in Heq as [-> Heq].
      exists m, post. auto.
  - rewrite orb_true_iff, match_prefix_spec, IH. split.
    + intros [(m & post & Heq & H)|(pre & m & post & -> & H)].
      * exists ""%string, m, post. auto.
      * exists (String c pre), m, post. auto.
    + intros (pre & m & post & Heq & H). destruct pre as [|c' pre].
      * left. exists m, post. auto.
      * cbn in Heq. injection Heq as <- ->. right. eauto.
Qed.

Lemma search_false_spec r text : search r text = false <-> ~ found r text.
Proof.
  rewrite <- search_spec. destruct (search r text); split; intros H;
    try reflexivity; try discriminate; try (intros ?; discriminate).
  exfalso. apply H. reflexivity.
Qed.
End RegexFacts.

(* --------------------------------------------------------------------- *)
(** ** Batch scheduler                                                    *)
(* --------------------------------------------------------------------- *)

Section SchedulerFacts.
Import Batch.

Lemma prefix_spec (p s : string) :
  String.prefix p s = true <-> exists rest, s = p +:+ rest.
Proof.
  revert s. induction p as [|a p IH]; intros s.
  - split; [intros _; exists s; reflexivity|intros _; destruct s; reflexivity].
  - destruct s as [|b s]; cbn [String.prefix].
    + split; [discriminate|intros [rest H]; discriminate].
    + destruct (ascii_dec a b) as [->|Hne].
      * rewrite IH. split; intros [rest H]; exists rest.
        -- rewrite H. reflexivity.
        -- change (String b s = String b (p +:+ rest)) in H. congruence.
      * split; [discriminate|].
        intros [rest H]. change (String b s = String a (p +:+ rest)) in H. congruence.
Qed.

Lemma contains_tool_tags_false rt text :
  truthy text = true ->
  (contains_tool_tags rt text = false <->
   forall p, p ∈ tool_patterns -> ~ Re.found p (py_str rt text)).
Proof.
  intros Ht. unfold contains_tool_tags. rewrite Ht. cbn [negb].
  generalize tool_patterns as ps. intros ps.
  induction ps as [|p ps IH]; cbn [existsb].
  - split; [intros _ p Hp; inversion Hp|reflexivity].
  - rewrite orb_false_iff, IH, search_false_spec. split.
    + intros [Hp Hps] q Hq. inversion Hq; subst; auto.
    + intros H. split; [apply H; constructor|].
      intros q Hq. apply H. constructor. exact Hq.
Qed.

(** The answer that the check looks at: the [answer] of the dictionary
    when it is truthy, its [response] otherwise. *)
Lemma answer_of_spec loaded answer :
  answer_of loaded = Ok answer <->
  exists d, loaded = PDict d /\
    let a := default PNone (PyDict.get d "answer") in
    let r := default PNone (PyDict.get d "response") in
    answer = if truthy a then a else r.
Proof.
  unfold answer_of, dict_get. split.
  - destruct loaded; cbn [mbind result_bind]; try discriminate.
    intros H. exists items. split; [reflexivity|]. cbv zeta.
    destruct (PyDict.get items "answer") as [a|]; cbv [default from_option id] in *.
    + destruct (truthy a); [congruence|].
      destruct (PyDict.get items "response"); cbv [default from_option id] in *; congruence.
    + cbn [truthy] in *.
      destruct (PyDict.get items "response"); cbv [default from_option id] in *; congruence.
  - intros (d & -> & H). cbv zeta in H. cbn [mbind result_bind].
    destruct (PyDict.get d "answer") as [a|]; cbv [default from_option id] in *.
    + destruct (truthy a); [congruence|].
      destruct (PyDict.get d "response"); cbv [default from_option id] in *; congruence.
    + cbn [truthy] in *.
      destruct (PyDict.get d "response"); cbv [default from_option id] in *; congruence.
Qed.
End SchedulerFacts.

(** C8. The completed-task check returns true exactly when the result file
    of the task exists and can be read, its text parses as JSON into a
    dictionary, the answer taken from it (the value of "answer" when truthy,
    of "response" otherwise) is non-empty, its text does not start with
    "Error:" and no part of its text matches one of the tool-call patterns.
    With skip-completed on, the tasks that are run are exactly those for
    which the check returns false; with it off, all are run. *)
Theorem C8_completed_check (rt : PyRuntime) (fs : gmap string Entry)
    (task output_dir : string) :
  (Batch.is_task_completed rt fs task output_dir = true <->
   exists content d answer,
     fs !! Batch.result_path output_dir task = Some (File content) /\
     rt.(json_loads) content = Ok (PDict d) /\
     answer = (let a := default PNone (PyDict.get d "answer") in
               let r := default PNone (PyDict.get d "response") in
               if truthy a then a else r) /\
     truthy answer = true /\
     ~ (exists rest, py_str rt answer = "Error:" +:+ rest) /\
     forall p, p ∈ Batch.tool_patterns -> ~ Re.found p (py_str rt answer)) /\
  (forall skip_completed examples ex,
     ex ∈ Batch.tasks_to_run rt fs output_dir skip_completed examples <->
     ex ∈ examples /\
     (skip_completed = true ->
      Batch.is_task_completed rt fs ex.(instance_id) output_dir = false)).
Proof.
  split.
  - unfold Batch.is_task_completed, Batch.completed_body, Batch.load_json.
    destruct (fs !! Batch.result_path output_dir task) as [[content|]|] eqn:Hfs.
    + destruct (json_loads rt content) as [loaded|e] eqn:Hload; cbn [mbind result_bind].
      * destruct (Batch.answer_of loaded) as [answer|e] eqn:Hans; cbn [mbind result_bind].
        -- apply answer_of_spec in Hans as (d & -> & Hans). cbv zeta in Hans.
           assert (Hrhs : forall c' d' a',
                     Some (File content) = Some (File c') ->
                     json_loads rt c' = Ok (PDict d') ->
                     a' = (let a := default PNone (PyDict.get d' "answer") in
                           let r := default PNone (PyDict.get d' "response") in
                           if truthy a then a else r) ->
                     a' = answer).
           { intros c' d' a' [= <-] Hl ->. rewrite Hload in Hl. injection Hl as <-.
             cbv zeta. symmetry. exact Hans. }
           destruct (truthy answer) eqn:Ht.
           ++ destruct (String.prefix "Error:" (py_str rt answer)) eqn:Hp.
              ** split; [discriminate|].
                 intros (c' & d' & a' & Hc & Hl & Ha & _ & Hnp & _).
                 rewrite (Hrhs c' d' a' Hc Hl Ha) in Hnp.
                 exfalso. apply Hnp. apply prefix_spec. exact Hp.
              ** destruct (Batch.contains_tool_tags rt answer) eqn:Htags.
                 --- split; [discriminate|].
                     intros (c' & d' & a' & Hc & Hl & Ha & _ & _ & Hnf).
                     rewrite (Hrhs c' d' a' Hc Hl Ha) in Hnf.
                     apply (contains_tool_tags_false rt answer Ht) in Hnf. congruence.
                 --- split; [intros _|reflexivity].
                     exists content, d, answer. repeat split; try assumption.
                     +++ intros Hpre. apply prefix_spec in Hpre. congruence.
                     +++ apply (contains_tool_tags_false rt answer Ht). exact Htags.
           ++ split; [discriminate|].
              intros (c' & d' & a' & Hc & Hl & Ha & Ht' & _).
              rewrite (Hrhs c' d' a' Hc Hl Ha) in Ht'. congruence.
        -- split; [discriminate|].
           intros (c' & d' & a' & [= <-] & Hl & _).
           rewrite Hload in Hl. injection Hl as ->.
           cbn in Hans. destruct (truthy _); discriminate.
      * split; [discriminate|].
        intros (c' & d' & a' & [= <-] & Hl & _). congruence.
    + cbn [mbind result_bind]. split; [discriminate|].
      intros (c' & d' & a' & H & _). discriminate.
    + split; [discriminate|]. intros (c' & d' & a' & H & _). discriminate.
  - intros skip examples ex. unfold Batch.tasks_to_run. destruct skip.
    + rewrite list_elem_of_In, filter_In, <- list_elem_of_In, negb_true_iff.
      split; intros [H1 H2]; auto.
    + split; [intros H; split; [exact H|discriminate]|intros [H _]; exact H].
Qed.

Lemma C8_completed_check_witness :
  let fs : gmap string Entry :=
    {[ "out/ws_001.json"%string := File "good";
       "out/ws_002.json"%string := File "interrupted";
       "out/ws_003.json"%string := File "fenced" ]} in
  let second := {| instance_id := "ws_002"; task_id := None; query := "another" |} in
  Batch.is_task_completed Sample.runtime fs "ws_001" "out" = true /\
  (exists content d,
     fs !! Batch.result_path "out" "ws_001" = Some (File content) /\
     Sample.runtime.(json_loads) content = Ok (PDict d) /\
     PyDict.get d "answer" = Some (PStr "| a | b |")) /\
  Batch.is_task_completed Sample.runtime fs "ws_002" "out" = false /\
  second ∈ Batch.tasks_to_run Sample.runtime fs "out" true [Sample.example; second] /\
  Batch.is_task_completed Sample.runtime fs "ws_003" "out" = false /\
  exists p, p ∈ Batch.tool_patterns /\ Re.found p ("```" +:+ nbsp +:+ "{ }").
Proof.
  cbv zeta.
  match goal with |- context [Batch.is_task_completed _ ?m _ _] => set (fs := m) end.
  destruct (C8_completed_check Sample.runtime fs "ws_001" "out") as [Hiff Hrun].
  destruct (C8_completed_check Sample.runtime fs "ws_003" "out") as [Hiff3 _].
  assert (Hdone : Batch.is_task_completed Sample.runtime fs "ws_001" "out" = true)
    by (vm_compute; reflexivity).
  assert (Hnot : Batch.is_task_completed Sample.runtime fs "ws_002" "out" = false)
    by (vm_compute; reflexivity).
  assert (Hfenced : Batch.is_task_completed Sample.runtime fs "ws_003" "out" = false)
    by (vm_compute; reflexivity).
  split; [exact Hdone|]. split.
  - destruct (proj1 Hiff Hdone) as (content & d & answer & Hfs & Hload & _).
    assert (Hc : content = "good"%string).
    { assert (Hl : fs !! Batch.result_path "out" "ws_001" = Some (File "good"))
        by (vm_compute; reflexivity).
      rewrite Hl in Hfs. injection Hfs as <-. reflexivity. }
    subst content. exists "good"%string, d. split; [vm_compute; reflexivity|].
    split; [exact Hload|]. injection Hload as <-. reflexivity.
  - split; [exact Hnot|]. split.
    + apply Hrun. split.
      * apply list_elem_of_further, list_elem_of_here.
      * intros _. exact Hnot.
    + split; [exact Hfenced|].
      exists (Re.seq [Re.lit "```"; Batch.ws; Re.lit "{"]).
      split; [apply list_elem_of_further, list_elem_of_here|].
      apply search_spec. vm_compute. reflexivity.
Defined.

(** C6. A task whose process is still alive when the timeout has elapsed:
    the scheduler terminates it, waits up to 10 seconds, kills it if it is
    still alive then (and waits up to 5 seconds), and returns the record
    with [timeout] true, [answer] and [response] None and an error that
    names the timeout. A task whose process has exited with nothing in the
    queue and nothing to recover from its result file gets the record whose
    error says that the process returned no result and whose [timeout] is
    false; a result recovered from the file has [timeout] false as well. The
    two records differ. *)
Theorem C6_timeout_escalation (rt : PyRuntime) (w : Batch.TaskWorld)
    (ex : Example) (ids : ModelIds) (output_dir : string) (timeout_seconds : Z) :
  let out := Batch.run_single_task_with_timeout rt w ex ids output_dir timeout_seconds in
  let timeout_error :=
    Batch.timeout_error rt timeout_seconds w.(Batch.start_time) w.(Batch.end_time) in
  (w.(Batch.alive_after_timeout) = true ->
   out.2 = [Batch.ProcStart; Batch.ProcJoin timeout_seconds;
            Batch.ProcTerminate; Batch.ProcJoin 10]
           ++ (if w.(Batch.alive_after_terminate)
               then [Batch.ProcKill; Batch.ProcJoin 5] else []) /\
   exists d, out.1 = Ok (PDict d) /\
     PyDict.get d "timeout" = Some (PBool true) /\
     PyDict.get d "answer" = Some PNone /\
     PyDict.get d "response" = Some PNone /\
     PyDict.get d "error" = Some (PStr timeout_error) /\
     occurs_in ("Task timeout after " +:+ str_int timeout_seconds +:+ " seconds")
       timeout_error) /\
  (w.(Batch.alive_after_timeout) = false ->
   w.(Batch.queue) = Batch.QueueEmpty ->
   out.2 = [Batch.ProcStart; Batch.ProcJoin timeout_seconds] /\
   match Batch.result_from_file rt w.(Batch.files) output_dir ex with
   | None =>
       exists d, out.1 = Ok (PDict d) /\
         PyDict.get d "timeout" = Some (PBool false) /\
         PyDict.get d "answer" = Some PNone /\
         PyDict.get d "response" = Some PNone /\
         PyDict.get d "error" = Some (PStr "Process completed but returned no result")
   | Some recovered =>
       out.1 = Ok recovered /\
       exists d, recovered = PDict d /\ PyDict.get d "timeout" = Some (PBool false)
   end) /\
  (forall s1 e1 s2 e2,
     Batch.task_record rt ex ids
       (PStr (Batch.timeout_error rt timeout_seconds s1 e1)) true s1 e1
     <> Batch.task_record rt ex ids
          (PStr "Process completed but returned no result") false s2 e2).
Proof.
  cbv zeta. split; [|split].
  - intros Halive. unfold Batch.run_single_task_with_timeout. rewrite Halive.
    split.
    + destruct (Batch.alive_after_terminate w); reflexivity.
    + eexists. split; [reflexivity|]. repeat split.
      unfold Batch.timeout_error. exists ""%string. eexists.
      change (""%string +:+ ?x) with x. rewrite !append_assoc. reflexivity.
  - intros Halive Hqueue. unfold Batch.run_single_task_with_timeout.
    rewrite Halive, Hqueue. split; [destruct (Batch.result_from_file _ _ _ _); reflexivity|].
    destruct (Batch.result_from_file rt (Batch.files w) output_dir ex) as [recovered|] eqn:Hrec.
    + split; [reflexivity|]. unfold Batch.result_from_file in Hrec.
      destruct (Batch.files w !! _); [|discriminate].
      destruct (Batch.load_json _ _ _) as [[]|]; try discriminate.
      injection Hrec as <-. eexists. split; [reflexivity|]. apply assoc_set_eq.
    + eexists. split; [reflexivity|]. repeat split.
  - intros s1 e1 s2 e2 H. unfold Batch.task_record in H. congruence.
Qed.

Lemma C6_timeout_escalation_witness :
  let out := Batch.run_single_task_with_timeout Sample.runtime Sample.stuck_task
               Sample.example Sample.ids "out" 3600 in
  Sample.stuck_task.(Batch.alive_after_timeout) = true /\
  out.2 = [Batch.ProcStart; Batch.ProcJoin 3600; Batch.ProcTerminate; Batch.ProcJoin 10;
           Batch.ProcKill; Batch.ProcJoin 5] /\
  exists d, out.1 = Ok (PDict d) /\ PyDict.get d "timeout" = Some (PBool true).
Proof.
  cbv zeta.
  destruct (C6_timeout_escalation Sample.runtime Sample.stuck_task Sample.example
              Sample.ids "out" 3600) as (Htimeout & _ & _).
  destruct (Htimeout eq_refl) as (Hops & d & Hout & Hflag & _).
  split; [reflexivity|]. split; [exact Hops|].
  exists d. split; [exact Hout|exact Hflag].
Defined.

(* --------------------------------------------------------------------- *)
(** ** One inference run                                                  *)
(* --------------------------------------------------------------------- *)

Section InferenceFacts.
Import Inference.


(** Neither None nor an error text is saved. *)
Lemma saves_None rt : saves rt PNone = false.
Proof. reflexivity. Qed.

Lemma saves_error rt message : saves rt (PStr ("Error: " +:+ message)) = false.
Proof. reflexivity. Qed.

Lemma print_accepts env text : accepts env text -> print env text = Ok tt.
Proof. unfold accepts, print. intros ->. reflexivity. Qed.

Lemma print_ok env text : print env text = Ok tt <-> accepts env text.
Proof.
  unfold accepts, print. destruct (console_print env text);
    split; intros H; try discriminate; reflexivity.
Qed.

Lemma print_raise env text e :
  print env text = Raise e <-> env.(console_print) text = Some e.
Proof.
  unfold print. destruct (console_print env text);
    split; intros H; try discriminate; congruence.
Qed.

Lemma print_all_ok env texts :
  print_all env texts = Ok tt <-> Forall (accepts env) texts.
Proof.
  induction texts as [|text texts IH]; cbn [print_all].
  - split; [constructor|reflexivity].
  - rewrite Forall_cons, <- IH, <- print_ok.
    destruct (print env text) as [[]|e]; cbn [mbind result_bind]; split;
      try (intros [H _]; discriminate H); try discriminate; auto.
    intros [_ H]. exact H.
Qed.

Lemma print_all_raise env texts e :
  print_all env texts = Raise e ->
  exists text, text ∈ texts /\ env.(console_print) text = Some e.
Proof.
  induction texts as [|text texts IH]; cbn [print_all]; [discriminate|].
  destruct (print env text) as [[]|e'] eqn:Hp; cbn [mbind result_bind].
  - intros H. destruct (IH H) as (t & Hin & Ht).
    exists t. split; [apply list_elem_of_further, Hin|exact Ht].
  - intros [= ->]. exists text. split; [apply list_elem_of_here|].
    apply print_raise, Hp.
Qed.

Lemma cleanup_ok env instance_id :
  cleanup env instance_id = Ok tt <->
  (forall e, env.(task_logger_close) = Some e -> e.(exc_is_Exception) = true) /\
  Forall (accepts env)
    (cleaning_text instance_id
     :: match env.(task_logger_close) with
        | Some e => [close_warning_text e]
        | None => []
        end).
Proof.
  unfold cleanup. rewrite Forall_cons, <- print_ok.
  destruct (print env (cleaning_text instance_id)) as [[]|e0];
    cbn [mbind result_bind].
  - destruct (task_logger_close env) as [e|].
    + destruct (exc_is_Exception e) eqn:He.
      * rewrite print_ok, Forall_cons. split.
        -- intros H. split; [intros e' [= <-]; exact He|].
           split; [reflexivity|]. split; [exact H|constructor].
        -- intros (_ & _ & H & _). exact H.
      * split; [discriminate|]. intros [H _]. specialize (H e eq_refl). congruence.
    + split; [|reflexivity]. intros _. split; [discriminate|].
      split; [reflexivity|constructor].
  - split; [discriminate|]. intros (_ & H & _). discriminate H.
Qed.

Lemma cleanup_raise env instance_id e :
  cleanup env instance_id = Raise e ->
  (exists text,
     text ∈ cleaning_text instance_id
            :: match env.(task_logger_close) with
               | Some e => [close_warning_text e]
               | None => []
               end /\
     env.(console_print) text = Some e) \/
  (env.(task_logger_close) = Some e /\ e.(exc_is_Exception) = false).
Proof.
  unfold cleanup.
  destruct (print env (cleaning_text instance_id)) as [[]|e0] eqn:Hp;
    cbn [mbind result_bind].
  - destruct (task_logger_close env) as [e1|]; [|discriminate].
    destruct (exc_is_Exception e1) eqn:He.
    + intros H. left. exists (close_warning_text e1).
      split; [apply list_elem_of_further, list_elem_of_here|apply print_raise, H].
    + intros [= ->]. right. split; [reflexivity|exact He].
  - intros [= ->]. left. exists (cleaning_text instance_id).
    split; [apply list_elem_of_here|apply print_raise, Hp].
Qed.

Lemma report_ok rt env output_dir instance_id output :
  report rt env output_dir instance_id output = Ok tt <->
  Forall (accepts env)
    [ if saves rt output then saved_text output_dir instance_id else not_saved_text;
      answer_text rt output ].
Proof.
  rewrite <- print_all_ok. unfold report. cbn [print_all].
  destruct (print env (if saves rt output then _ else _)) as [[]|];
    cbn [mbind result_bind]; [|reflexivity].
  destruct (print env (answer_text rt output)) as [[]|]; reflexivity.
Qed.

Lemma report_raise rt env output_dir instance_id output e :
  report rt env output_dir instance_id output = Raise e ->
  exists text,
    text ∈ [ if saves rt output then saved_text output_dir instance_id
             else not_saved_text;
             answer_text rt output ] /\
    env.(console_print) text = Some e.
Proof.
  intros H. apply print_all_raise. rewrite <- H. unfold report. cbn [print_all].
  destruct (print env (if saves rt output then _ else _)) as [[]|];
    cbn [mbind result_bind]; [|reflexivity].
  destruct (print env (answer_text rt output)) as [[]|]; reflexivity.
Qed.

Lemma finally_quiet_spec rt env output_dir instance_id output :
  finally_quiet rt env output_dir instance_id output <->
  cleanup env instance_id = Ok tt /\
  report rt env output_dir instance_id output = Ok tt.
Proof.
  unfold finally_quiet, closing_texts. rewrite cleanup_ok, report_ok.
  rewrite app_comm_cons, Forall_app. tauto.
Qed.

(** The [finally] clause when nothing raises in it. *)
Lemma finish_quiet rt env fs question ids output_dir instance_id counter output :
  finally_quiet rt env output_dir instance_id output ->
  finish rt env fs question ids output_dir instance_id counter output =
  (Ok output, written rt env fs question ids output_dir instance_id counter output).
Proof.
  intros H. apply finally_quiet_spec in H as [Hc Hr].
  unfold finish. rewrite Hc. cbv zeta. rewrite Hr. reflexivity.
Qed.

(** The [finally] clause returns [output], or lets through an exception
    of its own. *)
Lemma finish_cases rt env fs question ids output_dir instance_id counter output :
  let out := finish rt env fs question ids output_dir instance_id counter output in
  (finally_quiet rt env output_dir instance_id output /\
   out = (Ok output,
          written rt env fs question ids output_dir instance_id counter output)) \/
  (~ finally_quiet rt env output_dir instance_id output /\
   exists e,
     out.1 = Raise e /\
     (out.2 = fs \/
      out.2 = written rt env fs question ids output_dir instance_id counter output) /\
     ((exists text,
         text ∈ closing_texts rt env output_dir instance_id output /\
         env.(console_print) text = Some e) \/
      (env.(task_logger_close) = Some e /\ e.(exc_is_Exception) = false))).
Proof.
  cbv zeta. rewrite finally_quiet_spec. unfold finish.
  destruct (cleanup env instance_id) as [[]|e] eqn:Hc.
  - cbv zeta.
    destruct (report rt env output_dir instance_id output) as [[]|e] eqn:Hr.
    + left. auto.
    + right. split; [intros [_ H]; discriminate H|].
      exists e. split; [reflexivity|]. split; [right; reflexivity|].
      left. destruct (report_raise _ _ _ _ _ _ Hr) as (text & Hin & Ht).
      exists text. split; [|exact Ht]. unfold closing_texts.
      rewrite app_comm_cons. apply elem_of_app. right. exact Hin.
  - right. split; [intros [H _]; discriminate H|].
    exists e. split; [reflexivity|]. split; [left; reflexivity|].
    destruct (cleanup_raise _ _ _ Hc) as [(text & Hin & Ht)|H]; [left|right; exact H].
    exists text. split; [|exact Ht]. unfold closing_texts.
    rewrite app_comm_cons. apply elem_of_app. left. exact Hin.
Qed.


(** Once the team exists, the call is the [finally] clause on the value
    of [output]. *)
Lemma run_inference_unfold rt env fs question ids output_dir instance_id counter :
  setup env question ids instance_id = Ok (Some counter) ->
  run_inference rt env fs question ids output_dir instance_id =
  finish rt env fs question ids output_dir instance_id counter
    (output_of env question instance_id).1.
Proof.
  intros Hsetup. unfold run_inference. rewrite Hsetup.
  destruct (output_of env question instance_id). reflexivity.
Qed.


Lemma output_of_reported env question instance_id e :
  accepts env (running_text instance_id) ->
  env.(agent_run) (augmented_question question) = Raise e ->
  e.(exc_is_Exception) = true ->
  Forall (accepts env) (error_texts instance_id e) ->
  output_of env question instance_id = (PStr ("Error: " +:+ e.(exc_str)), None).
Proof.
  intros Hr Hv He Ht. unfold output_of, try_body, handler.
  rewrite (print_accepts _ _ Hr), Hv, He.
  apply print_all_ok in Ht. rewrite Ht. reflexivity.
Qed.

Lemma output_of_unreported env question instance_id e :
  accepts env (running_text instance_id) ->
  env.(agent_run) (augmented_question question) = Raise e ->
  e.(exc_is_Exception) = true ->
  ~ Forall (accepts env) (error_texts instance_id e) ->
  (output_of env question instance_id).1 = PNone.
Proof.
  intros Hr Hv He Ht. unfold output_of, try_body, handler.
  rewrite (print_accepts _ _ Hr), Hv, He. rewrite <- print_all_ok in Ht.
  destruct (print_all env (error_texts instance_id e)) as [[]|e'];
    [contradiction Ht; reflexivity|reflexivity].
Qed.


(** Whatever the console does, a run whose agent raises has nothing to
    save. *)
Lemma output_of_raise_not_saved rt env question instance_id e :
  env.(agent_run) (augmented_question question) = Raise e ->
  saves rt (output_of env question instance_id).1 = false.
Proof.
  intros Hv. unfold output_of, try_body, handler. rewrite Hv.
  destruct (print env (running_text instance_id)) as [[]|e0].
  - destruct (exc_is_Exception e); [|reflexivity].
    destruct (print_all env (error_texts instance_id e)); reflexivity.
  - destruct (exc_is_Exception e0); [|reflexivity].
    destruct (print_all env (error_texts instance_id e0)); reflexivity.
Qed.
End InferenceFacts.




(* ===================================================================== *)
(** * Further properties                                                  *)
(* ===================================================================== *)

(* --------------------------------------------------------------------- *)
(** ** Resource governors: remaining budget and reset                     *)
(* --------------------------------------------------------------------- *)

Section GovernorBudget.
Import ResourceGovernor.

Lemma get_remaining_unfold k g : get_remaining k g = Z.max 0 (limit g - count g).
Proof. destruct k; reflexivity. Qed.

Lemma get_count_unfold k g : get_count k g = count g.
Proof. destruct k; reflexivity. Qed.

Lemma reset_unfold k g : reset k g = {| limit := limit g; count := 0 |}.
Proof. destruct k; reflexivity. Qed.

Lemma resource_init_unfold k L : __init__ k L = {| limit := L; count := 0 |}.
Proof. destruct k; reflexivity. Qed.

Lemma run_limit k ops : forall g, limit (run k ops g).2 = limit g.
Proof.
  induction ops as [|o ops IH]; intros g; cbn [run]; [reflexivity|].
  pose proof (call_limit k o g) as Hl.
  destruct (call k o g) as [r g']. cbn [snd] in Hl.
  specialize (IH g'). destruct (run k ops g') as [rs g'']. cbn [snd] in *.
  congruence.
Qed.

Lemma run_app_reset k ops : forall g,
  (run k (ops ++ [Reset]) g).2 = reset k (run k ops g).2.
Proof.
  induction ops as [|o ops IH]; intros g.
  - reflexivity.
  - cbn [app run]. destruct (call k o g) as [r g1]. specialize (IH g1).
    destruct (run k (ops ++ [Reset]) g1), (run k ops g1). exact IH.
Qed.
End GovernorBudget.

(** X1. [get_remaining] is the number of calls that will still be let
    through: of [n] consecutive [try_increment] calls on a governor of any
    kind in any state, the first [min(n, get_remaining())] return true and
    all later ones false, and count and remaining budget move by that
    number. In particular a governor whose limit is zero or negative lets
    nothing through. *)
Theorem X1_remaining_predicts_grants (k : GovernorKind) (g : Counter) (n : nat) :
  let r := ResourceGovernor.get_remaining k g in
  let let_through := Z.min (Z.of_nat n) r in
  let out := ResourceGovernor.try_many k n g in
  0 <= r /\
  out.1 = replicate (Z.to_nat let_through) true
          ++ replicate (n - Z.to_nat let_through) false /\
  ResourceGovernor.successes out.1 = let_through /\
  ResourceGovernor.get_count k out.2 = ResourceGovernor.get_count k g + let_through /\
  ResourceGovernor.get_remaining k out.2 = r - let_through /\
  (limit g <= 0 -> count g = 0 -> out.1 = replicate n false).
Proof.
  cbv zeta. rewrite get_remaining_unfold.
  assert (Hcases :
    ResourceGovernor.try_many k n g =
      (replicate (Z.to_nat (Z.min (Z.of_nat n) (Z.max 0 (limit g - count g)))) true
       ++ replicate (n - Z.to_nat (Z.min (Z.of_nat n) (Z.max 0 (limit g - count g)))) false,
       {| limit := limit g;
          count := count g + Z.min (Z.of_nat n) (Z.max 0 (limit g - count g)) |})).
  { destruct (Z.le_gt_cases (limit g) (count g)) as [Hfull|Hroom].
    - rewrite try_many_full by exact Hfull.
      replace (Z.max 0 (limit g - count g)) with 0 by lia.
      replace (Z.min (Z.of_nat n) 0) with 0 by lia.
      cbn [Z.to_nat replicate app]. rewrite Nat.sub_0_r, Z.add_0_r.
      destruct g; reflexivity.
    - replace (Z.max 0 (limit g - count g)) with (limit g - count g) by lia.
      set (j := Z.to_nat (Z.min (Z.of_nat n) (limit g - count g))).
      assert (Hj : Z.of_nat j = Z.min (Z.of_nat n) (limit g - count g)) by lia.
      rewrite <- Hj.
      replace n with (j + (n - j))%nat at 1 by lia.
      rewrite try_many_room by lia.
      destruct (Nat.eq_dec (n - j)%nat 0%nat) as [Hz|Hnz].
      + rewrite Hz. reflexivity.
      + rewrite try_many_full by (cbn [limit count]; lia). reflexivity. }
  rewrite Hcases. cbn [fst snd].
  rewrite successes_app, successes_true, successes_false.
  rewrite !get_count_unfold, get_remaining_unfold. cbn [limit count].
  repeat split; try lia.
  intros Hneg Hzero. replace (Z.min (Z.of_nat n) (Z.max 0 (limit g - count g))) with 0 by lia.
  cbn [Z.to_nat replicate app]. rewrite Nat.sub_0_r. reflexivity.
Qed.

Lemma X1_remaining_predicts_grants_witness :
  let g := ResourceGovernor.__init__ CreateTableGovernor (-3) in
  limit g <= 0 /\ count g = 0 /\
  (ResourceGovernor.try_many CreateTableGovernor 4 g).1 = [false; false; false; false].
Proof.
  cbv zeta.
  destruct (X1_remaining_predicts_grants CreateTableGovernor
              (ResourceGovernor.__init__ CreateTableGovernor (-3)) 4)
    as (_ & _ & _ & _ & _ & H).
  assert (H1 : limit (ResourceGovernor.__init__ CreateTableGovernor (-3)) <= 0)
    by (cbn; lia).
  split; [exact H1|]. split; [reflexivity|]. exact (H H1 eq_refl).
Defined.

(** X2. [reset] gives back the whole budget whatever happened before: after
    any sequence of calls on a governor built with limit [L], [reset]
    leaves the governor as it was when it was built, with count 0 and
    [max(0, L)] calls remaining; no call ever changes the limit. *)
Theorem X2_reset_restores_budget (k : GovernorKind) (L : Z)
    (ops : list ResourceGovernor.Op) :
  let g := (ResourceGovernor.run k ops (ResourceGovernor.__init__ k L)).2 in
  limit g = L /\
  ResourceGovernor.reset k g = ResourceGovernor.__init__ k L /\
  ResourceGovernor.get_count k (ResourceGovernor.reset k g) = 0 /\
  ResourceGovernor.get_remaining k (ResourceGovernor.reset k g) = Z.max 0 L /\
  (ResourceGovernor.run k (ops ++ [ResourceGovernor.Reset])
     (ResourceGovernor.__init__ k L)).2 = ResourceGovernor.__init__ k L.
Proof.
  cbv zeta.
  assert (Hl : limit (ResourceGovernor.run k ops (ResourceGovernor.__init__ k L)).2 = L).
  { rewrite run_limit, resource_init_unfold. reflexivity. }
  assert (Hr : ResourceGovernor.reset k
                 (ResourceGovernor.run k ops (ResourceGovernor.__init__ k L)).2
               = ResourceGovernor.__init__ k L).
  { rewrite reset_unfold, Hl, resource_init_unfold. reflexivity. }
  split; [exact Hl|]. split; [exact Hr|].
  split. { rewrite Hr, get_count_unfold, resource_init_unfold. reflexivity. }
  split. { rewrite Hr, get_remaining_unfold, resource_init_unfold.
           cbn [limit count]. f_equal; lia. }
  rewrite run_app_reset. exact Hr.
Qed.

(* --------------------------------------------------------------------- *)
(** ** Call governor: remaining budget, reset and history                 *)
(* --------------------------------------------------------------------- *)

Section CallGovernorMore.
Import GlobalManagedAgentCounter.
Variable m : list (string * Z).
Hypothesis m_nonneg : forall agent_name k, assoc agent_name m = Some k -> 0 <= k.

Lemma reachable_invariant ops g :
  run ops (__init__ (Some m)) = Ok g -> invariant m g.
Proof.
  intros Hrun.
  destruct (run_invariant_call m m_nonneg ops _ (init_invariant m m_nonneg))
    as (g' & Hg' & Hinv).
  congruence.
Qed.

Lemma init_only_governed : only_governed m (__init__ (Some m)).
Proof.
  rewrite (init_unfold m m_nonneg). intros name Hname. cbn [counts call_history].
  rewrite !assoc_comprehension.
  assert (Hnot : ~ name ∈ PyDict.keys m).
  { intros Hin. apply assoc_is_Some_keys in Hin. destruct Hin as [? ?]. congruence. }
  rewrite !decide_False by exact Hnot. split; reflexivity.
Qed.

Lemma try_increment_only_governed g agent_name now b g' :
  limits g = m -> only_governed m g ->
  try_increment g agent_name now = Ok (b, g') -> only_governed m g'.
Proof.
  intros Hlim Hclosed. unfold try_increment, PyDict.contains, PyDict.getitem, PyDict.get.
  rewrite Hlim. destruct (assoc agent_name m) as [k|] eqn:Hk; cbn [negb];
    [|intros [= <- <-]; exact Hclosed].
  destruct (assoc agent_name (counts g)) as [c|]; cbn [mbind result_bind];
    [|discriminate].
  destruct (c >=? k); [intros [= <- <-]; exact Hclosed|].
  destruct (assoc agent_name (call_history g)) as [h|]; cbn [mbind result_bind];
    [|discriminate].
  rewrite assoc_set_eq. cbn [mbind result_bind]. intros [= <- <-].
  intros name Hname. cbn [counts call_history].
  rewrite !assoc_set_ne by congruence. apply Hclosed, Hname.
Qed.

Lemma reset_only_governed g agent_name :
  only_governed m g -> only_governed m (reset g agent_name).
Proof.
  intros Hclosed.
  assert (Hall : only_governed m (reset_all g)).
  { intros name Hname. destruct (Hclosed name Hname) as [Hc Hh].
    unfold reset_all. cbn [counts call_history].
    rewrite assoc_map_zero, Hc. split; [reflexivity|].
    rewrite (assoc_fold_set (fun _ : string => @nil CallEntry)).
    rewrite decide_False; [exact Hh|].
    intros Hin. apply assoc_is_Some_keys in Hin. destruct Hin as [? ?]. congruence. }
  unfold reset. destruct agent_name as [name|]; [|exact Hall].
  destruct (negb (name =? ""))%string; [|exact Hall].
  destruct (PyDict.contains (counts g) name) eqn:Hc; [|exact Hclosed].
  intros name' Hname'. cbn [counts call_history].
  apply contains_spec in Hc. destruct Hc as [c Hc].
  assert (name <> name').
  { intros <-. destruct (Hclosed name Hname') as [Hn _]. congruence. }
  rewrite !assoc_set_ne by assumption. apply Hclosed, Hname'.
Qed.

Lemma run_only_governed ops : forall g g',
  invariant m g -> only_governed m g -> run ops g = Ok g' -> only_governed m g'.
Proof.
  induction ops as [|o ops IH]; intros g g' Hinv Hclosed; cbn [run].
  - intros [= <-]. exact Hclosed.
  - destruct (call_invariant m m_nonneg o g Hinv) as (g1 & Hcall & Hinv1).
    rewrite Hcall. cbn [mbind result_bind]. apply IH; [exact Hinv1|].
    destruct o as [name now|name|name|name|name|]; cbn [call] in Hcall.
    + destruct (try_increment g name now) as [[b g2]|e] eqn:Htry;
        cbn [mbind result_bind] in Hcall; [|discriminate].
      injection Hcall as <-.
      eapply try_increment_only_governed; [apply Hinv|exact Hclosed|exact Htry].
    + injection Hcall as <-. apply reset_only_governed, Hclosed.
    + injection Hcall as <-. exact Hclosed.
    + injection Hcall as <-. exact Hclosed.
    + destruct (get_remaining g name); cbn [mbind result_bind] in Hcall;
        [|discriminate].
      injection Hcall as <-. exact Hclosed.
    + destruct (get_all_status g); cbn [mbind result_bind] in Hcall; [|discriminate].
      injection Hcall as <-. exact Hclosed.
Qed.

Lemma reachable_only_governed ops g :
  run ops (__init__ (Some m)) = Ok g -> only_governed m g.
Proof.
  apply run_only_governed; [apply init_invariant, m_nonneg|apply init_only_governed].
Qed.

(** What the queries return in a state that satisfies the invariant. *)
Lemma queries_governed g agent_name k :
  invariant m g -> assoc agent_name m = Some k ->
  exists c, assoc agent_name (counts g) = Some c /\ 0 <= c <= k /\
    get_count g agent_name = c /\
    get_limit g agent_name = Finite k /\
    get_remaining g agent_name = Ok (Finite (k - c)).
Proof.
  intros [Hlim Hinv] Hk. destruct (Hinv _ _ Hk) as (c & h & Hc & Hck & _).
  exists c. split; [exact Hc|]. split; [exact Hck|].
  unfold get_count, get_limit, get_remaining, PyDict.contains, PyDict.getitem, PyDict.get.
  rewrite Hlim, Hk, Hc. cbn [negb mbind result_bind default from_option id].
  repeat split. do 2 f_equal. lia.
Qed.

(** The time stamps in the history of a governed name after one
    [try_increment]. *)
Lemma try_increment_history g called now b g' agent_name k :
  invariant m g -> assoc agent_name m = Some k ->
  try_increment g called now = Ok (b, g') ->
  exists h h',
    assoc agent_name (call_history g) = Some h /\
    assoc agent_name (call_history g') = Some h' /\
    map timestamp h' =
      map timestamp h ++ (if b && String.eqb called agent_name then [now] else []).
Proof.
  intros [Hlim Hinv] Hk.
  destruct (Hinv _ _ Hk) as (c & h & Hc & _ & Hh & _).
  unfold try_increment, PyDict.contains, PyDict.getitem, PyDict.get.
  rewrite Hlim. destruct (assoc called m) as [k0|] eqn:Hk0; cbn [negb].
  - destruct (Hinv _ _ Hk0) as (c0 & h0 & Hc0 & _ & Hh0 & _).
    rewrite Hc0. cbn [mbind result_bind].
    destruct (c0 >=? k0).
    + intros [= <- <-]. exists h, h. rewrite app_nil_r. auto.
    + rewrite Hh0. cbn [mbind result_bind]. rewrite assoc_set_eq.
      cbn [mbind result_bind]. intros [= <- <-]. cbn [call_history andb].
      rewrite assoc_set. destruct (decide (called = agent_name)) as [->|Hne].
      * rewrite String.eqb_refl. assert (h0 = h) by congruence. subst h0.
        exists h, (h ++ [{| call_number := c0 + 1; timestamp := now |}]).
        rewrite map_app. auto.
      * destruct (String.eqb_spec called agent_name); [contradiction|].
        exists h, h. rewrite app_nil_r. auto.
  - intros [= <- <-]. cbn [andb].
    destruct (String.eqb_spec called agent_name) as [->|_]; [congruence|].
    exists h, h. rewrite app_nil_r. auto.
Qed.

Lemma granted_times_cons agent_name called now calls b bs :
  granted_times agent_name ((called, now) :: calls) (b :: bs) =
    (if b && String.eqb called agent_name then [now] else [])
    ++ granted_times agent_name calls bs.
Proof.
  unfold granted_times. destruct b; cbn -[String.eqb];
    destruct (String.eqb called agent_name); reflexivity.
Qed.

Lemma try_seq_history calls : forall g bs g' agent_name k,
  invariant m g -> assoc agent_name m = Some k ->
  try_seq g calls = Ok (bs, g') ->
  invariant m g' /\
  exists h h',
    assoc agent_name (call_history g) = Some h /\
    assoc agent_name (call_history g') = Some h' /\
    map timestamp h' = map timestamp h ++ granted_times agent_name calls bs.
Proof.
  induction calls as [|[called now] calls IH]; intros g bs g' name k Hinv Hk;
    cbn [try_seq].
  - intros [= <- <-]. split; [exact Hinv|].
    destruct Hinv as [_ Hinv]. destruct (Hinv _ _ Hk) as (c & h & _ & _ & Hh & _).
    exists h, h. rewrite app_nil_r. auto.
  - destruct (try_increment_invariant m g called now Hinv) as (b & g1 & Htry & Hinv1).
    rewrite Htry. cbn [mbind result_bind].
    destruct (try_seq g1 calls) as [[bs1 g2]|e] eqn:Hseq; cbn [mbind result_bind];
      [|discriminate].
    intros [= <- <-].
    destruct (IH _ _ _ name k Hinv1 Hk Hseq) as (Hinv2 & h1 & h2 & Hh1 & Hh2 & Ht2).
    split; [exact Hinv2|].
    destruct (try_increment_history _ _ _ _ _ name k Hinv Hk Htry)
      as (h & h1' & Hh & Hh1' & Ht1).
    assert (h1' = h1) by congruence. subst h1'.
    exists h, h2. split; [exact Hh|]. split; [exact Hh2|].
    rewrite Ht2, Ht1, granted_times_cons, app_assoc. reflexivity.
Qed.
End CallGovernorMore.

(** X3. On a call governor whose limits are all non-negative, reached from
    its construction by any calls, the queries agree with [try_increment].
    For a governed name with limit [k] and count [c]: [c] lies between 0
    and [k], [get_count] is [c], [get_limit] is [k], [get_remaining], which
    is the larger of 0 and [k - c], is [k - c], and [try_increment] is let
    through exactly when [get_remaining] is positive, after which one call
    less remains.
    For a name outside the limits [get_count] is 0, limit and remaining are
    infinite and [try_increment] is let through without any change. *)
Theorem X3_queries_agree_with_try_increment (m : list (string * Z))
    (Hm : forall agent_name k, assoc agent_name m = Some k -> 0 <= k)
    (ops : list GlobalManagedAgentCounter.Op) (g : GlobalManagedAgentCounter.t)
    (agent_name now : string)
    (Hrun : GlobalManagedAgentCounter.run ops (GlobalManagedAgentCounter.__init__ (Some m))
            = Ok g) :
  match assoc agent_name m with
  | Some k =>
      exists c,
        0 <= c <= k /\
        GlobalManagedAgentCounter.get_count g agent_name = c /\
        GlobalManagedAgentCounter.get_limit g agent_name = Finite k /\
        GlobalManagedAgentCounter.get_remaining g agent_name = Ok (Finite (k - c)) /\
        if 0 <? k - c then
          exists g',
            GlobalManagedAgentCounter.try_increment g agent_name now = Ok (true, g') /\
            GlobalManagedAgentCounter.get_count g' agent_name = c + 1 /\
            GlobalManagedAgentCounter.get_remaining g' agent_name
              = Ok (Finite (k - c - 1))
        else
          GlobalManagedAgentCounter.try_increment g agent_name now = Ok (false, g)
  | None =>
      GlobalManagedAgentCounter.get_count g agent_name = 0 /\
      GlobalManagedAgentCounter.get_limit g agent_name = Infinity /\
      GlobalManagedAgentCounter.get_remaining g agent_name = Ok Infinity /\
      GlobalManagedAgentCounter.try_increment g agent_name now = Ok (true, g)
  end.
Proof.
  pose proof (reachable_invariant m Hm ops g Hrun) as Hinv.
  pose proof (reachable_only_governed m Hm ops g Hrun) as Hclosed.
  pose proof (try_increment_cases m g agent_name now Hinv) as Hcase.
  destruct (assoc agent_name m) as [k|] eqn:Hk.
  - destruct (queries_governed m g agent_name k Hinv Hk)
      as (c & Hc & Hck & Hcount & Hlimit & Hrem).
    destruct Hcase as (c' & Hc' & Hcase).
    assert (Hcc : c' = c) by congruence. rewrite Hcc in Hcase. clear Hcc Hc' c'.
    exists c. repeat (split; [assumption|]).
    destruct (Z.ltb_spec 0 (k - c)) as [Hpos|Hzero].
    + destruct (Z.ltb_spec c k) as [_|?]; [|lia].
      destruct Hcase as (g' & Htry & Hinv' & Hc1 & _).
      exists g'. split; [exact Htry|].
      destruct (queries_governed m g' agent_name k Hinv' Hk)
        as (c1 & Hc1' & _ & Hcount1 & _ & Hrem1).
      assert (Hc1eq : c1 = c + 1) by congruence.
      rewrite Hcount1, Hrem1, Hc1eq. split; [reflexivity|]. do 2 f_equal. lia.
    + destruct (Z.ltb_spec c k) as [?|_]; [lia|]. exact Hcase.
  - destruct (Hclosed agent_name Hk) as [Hc _].
    destruct Hinv as [Hlim _].
    unfold GlobalManagedAgentCounter.get_count, GlobalManagedAgentCounter.get_limit,
      GlobalManagedAgentCounter.get_remaining, PyDict.contains, PyDict.get.
    rewrite Hlim, Hk, Hc. repeat split. exact Hcase.
Qed.

Lemma X3_queries_agree_with_try_increment_witness :
  let m := [("tabular_search_agent", 2); ("deep_search_agent", 0)]%string in
  let ops := [GlobalManagedAgentCounter.TryIncrement "tabular_search_agent" "t1";
              GlobalManagedAgentCounter.TryIncrement "deep_search_agent" "t2"]%string in
  exists g,
    GlobalManagedAgentCounter.run ops (GlobalManagedAgentCounter.__init__ (Some m)) = Ok g /\
    GlobalManagedAgentCounter.get_remaining g "tabular_search_agent" = Ok (Finite 1) /\
    GlobalManagedAgentCounter.get_remaining g "deep_search_agent" = Ok (Finite 0) /\
    GlobalManagedAgentCounter.try_increment g "deep_search_agent" "t3" = Ok (false, g).
Proof.
  cbv zeta. eexists. split; [reflexivity|].
  split; [reflexivity|]. split; [reflexivity|].
  match goal with |- GlobalManagedAgentCounter.try_increment ?g _ _ = _ =>
    pose proof (X3_queries_agree_with_try_increment
                  [("tabular_search_agent", 2); ("deep_search_agent", 0)]%string
                  ltac:(intros name k H; cbn in H;
                        repeat match type of H with
                               | (if ?b then _ else _) = _ => destruct b
                               end; inversion H; lia)
                  [GlobalManagedAgentCounter.TryIncrement "tabular_search_agent" "t1";
                   GlobalManagedAgentCounter.TryIncrement "deep_search_agent" "t2"]%string
                  g "deep_search_agent" "t3" eq_refl) as H
  end.
  cbn [assoc String.eqb Ascii.eqb Bool.eqb] in H.
  destruct H as (c & _ & Hcount & _ & _ & H). cbn in Hcount. subst c.
  exact H.
Defined.

(** X4. [reset] of a call governor reached by any calls. With a name,
    [reset] gives that agent its whole budget back (count 0, empty history,
    [k] calls remaining) and leaves the count and the history of every
    other agent as they were; for a name outside the limits it changes
    nothing. Without a name, or with the empty name, it does so for every
    governed agent. The limits are never changed. *)
Theorem X4_reset_restores_budget (m : list (string * Z))
    (Hm : forall agent_name k, assoc agent_name m = Some k -> 0 <= k)
    (ops : list GlobalManagedAgentCounter.Op) (g : GlobalManagedAgentCounter.t)
    (Hrun : GlobalManagedAgentCounter.run ops (GlobalManagedAgentCounter.__init__ (Some m))
            = Ok g) :
  (forall agent_name, agent_name <> ""%string ->
     let g' := GlobalManagedAgentCounter.reset g (Some agent_name) in
     g'.(GlobalManagedAgentCounter.limits) = m /\
     (forall k, assoc agent_name m = Some k ->
        GlobalManagedAgentCounter.get_count g' agent_name = 0 /\
        assoc agent_name g'.(GlobalManagedAgentCounter.call_history) = Some [] /\
        GlobalManagedAgentCounter.get_remaining g' agent_name = Ok (Finite k)) /\
     (assoc agent_name m = None -> g' = g) /\
     (forall other, other <> agent_name ->
        assoc other g'.(GlobalManagedAgentCounter.counts)
          = assoc other g.(GlobalManagedAgentCounter.counts) /\
        assoc other g'.(GlobalManagedAgentCounter.call_history)
          = assoc other g.(GlobalManagedAgentCounter.call_history))) /\
  (let g0 := GlobalManagedAgentCounter.reset g None in
   GlobalManagedAgentCounter.reset g (Some ""%string) = g0 /\
   g0.(GlobalManagedAgentCounter.limits) = m /\
   forall agent_name k, assoc agent_name m = Some k ->
     GlobalManagedAgentCounter.get_count g0 agent_name = 0 /\
     assoc agent_name g0.(GlobalManagedAgentCounter.call_history) = Some [] /\
     GlobalManagedAgentCounter.get_remaining g0 agent_name = Ok (Finite k)).
Proof.
  pose proof (reachable_invariant m Hm ops g Hrun) as Hinv.
  pose proof (reachable_only_governed m Hm ops g Hrun) as Hclosed.
  assert (Hfresh : forall g1 name k,
            GlobalManagedAgentCounter.invariant m g1 -> assoc name m = Some k ->
            assoc name g1.(GlobalManagedAgentCounter.counts) = Some 0 ->
            GlobalManagedAgentCounter.get_count g1 name = 0 /\
            GlobalManagedAgentCounter.get_remaining g1 name = Ok (Finite k)).
  { intros g1 name k Hinv1 Hk Hc0.
    destruct (queries_governed m g1 name k Hinv1 Hk) as (c & Hc & _ & Hcount & _ & Hrem).
    assert (Hz : c = 0) by congruence.
    rewrite Hcount, Hrem, Hz. split; [reflexivity|]. do 2 f_equal. lia. }
  split.
  - intros name Hname. cbv zeta.
    pose proof (reset_invariant m Hm g (Some name) Hinv) as Hinv'.
    unfold GlobalManagedAgentCounter.reset in *.
    destruct (String.eqb_spec name "") as [?|_]; [contradiction|]. cbn [negb] in *.
    destruct (PyDict.contains (GlobalManagedAgentCounter.counts g) name) eqn:Hc.
    + split; [apply Hinv|]. split; [|split].
      * intros k Hk.
        destruct (Hfresh _ name k Hinv' Hk) as [H1 H2];
          [cbn [GlobalManagedAgentCounter.counts]; apply assoc_set_eq|].
        split; [exact H1|]. split; [|exact H2].
        cbn [GlobalManagedAgentCounter.call_history]. apply assoc_set_eq.
      * intros Hnone. destruct (Hclosed name Hnone) as [Hn _].
        apply contains_spec in Hc. destruct Hc as [? ?]. congruence.
      * intros other Hne.
        cbn [GlobalManagedAgentCounter.counts GlobalManagedAgentCounter.call_history].
        rewrite !assoc_set_ne by congruence. auto.
    + split; [apply Hinv|]. split; [|split; [reflexivity|auto]].
      intros k Hk. destruct Hinv as [_ Hinv].
      destruct (Hinv _ _ Hk) as (c & h & Hc' & _).
      unfold PyDict.contains, PyDict.get in Hc. rewrite Hc' in Hc. discriminate.
  - cbv zeta. split; [reflexivity|].
    pose proof (reset_all_invariant m g Hinv) as Hinv0.
    cbn [GlobalManagedAgentCounter.reset].
    split; [apply Hinv0|]. intros name k Hk.
    destruct Hinv as [_ Hinv]. destruct (Hinv _ _ Hk) as (c & h & Hc & _).
    assert (Hc0 : assoc name (GlobalManagedAgentCounter.counts
                                (GlobalManagedAgentCounter.reset_all g)) = Some 0).
    { unfold GlobalManagedAgentCounter.reset_all. cbn [GlobalManagedAgentCounter.counts].
      rewrite assoc_map_zero, Hc. reflexivity. }
    destruct (Hfresh _ name k Hinv0 Hk Hc0) as [H1 H2].
    split; [exact H1|]. split; [|exact H2].
    unfold GlobalManagedAgentCounter.reset_all.
    cbn [GlobalManagedAgentCounter.call_history].
    rewrite (assoc_fold_set (fun _ : string => @nil CallEntry)).
    rewrite decide_True; [reflexivity|]. apply assoc_is_Some_keys. eauto.
Qed.

Lemma X4_reset_restores_budget_witness :
  let m := [("tabular_search_agent", 1); ("deep_search_agent", 1)]%string in
  let ops := [GlobalManagedAgentCounter.TryIncrement "tabular_search_agent" "t1";
              GlobalManagedAgentCounter.TryIncrement "deep_search_agent" "t2"]%string in
  exists g,
    GlobalManagedAgentCounter.run ops (GlobalManagedAgentCounter.__init__ (Some m)) = Ok g /\
    let g' := GlobalManagedAgentCounter.reset g (Some "deep_search_agent"%string) in
    GlobalManagedAgentCounter.get_remaining g' "deep_search_agent" = Ok (Finite 1) /\
    assoc "tabular_search_agent" g'.(GlobalManagedAgentCounter.counts) = Some 1.
Proof.
  cbv zeta. eexists. split; [reflexivity|].
  match goal with |- context [GlobalManagedAgentCounter.reset ?g _] =>
    destruct (X4_reset_restores_budget
                [("tabular_search_agent", 1); ("deep_search_agent", 1)]%string
                ltac:(intros name k H; cbn in H;
                      repeat match type of H with
                             | (if ?b then _ else _) = _ => destruct b
                             end; inversion H; lia)
                [GlobalManagedAgentCounter.TryIncrement "tabular_search_agent" "t1";
                 GlobalManagedAgentCounter.TryIncrement "deep_search_agent" "t2"]%string
                g eq_refl) as [Hone _]
  end.
  destruct (Hone "deep_search_agent"%string ltac:(discriminate)) as (_ & Hk & _ & Hother).
  destruct (Hk 1 eq_refl) as (_ & _ & Hrem).
  split; [exact Hrem|].
  destruct (Hother "tabular_search_agent"%string ltac:(discriminate)) as [Hc _].
  rewrite Hc. reflexivity.
Defined.

(** X5. The call history holds exactly the calls that were let through.
    After any sequence of [try_increment] calls on a new call governor, the
    history of a governed agent has one entry per call for that agent that
    returned true, in the order of the calls, each with the time of its
    call; the entries are numbered 1, 2, ... and [get_count] is their
    number. Denied calls leave no entry. *)
Theorem X5_history_records_granted_calls (m : list (string * Z))
    (Hm : forall agent_name k, assoc agent_name m = Some k -> 0 <= k)
    (calls : list (string * string)) (results : list bool)
    (g : GlobalManagedAgentCounter.t) (agent_name : string) (k : Z)
    (Hseq : GlobalManagedAgentCounter.try_seq
              (GlobalManagedAgentCounter.__init__ (Some m)) calls = Ok (results, g))
    (Hk : assoc agent_name m = Some k) :
  exists h,
    assoc agent_name g.(GlobalManagedAgentCounter.call_history) = Some h /\
    map timestamp h = granted_times agent_name calls results /\
    map call_number h = map Z.of_nat (seq 1 (length h)) /\
    GlobalManagedAgentCounter.get_count g agent_name = Z.of_nat (length h) /\
    (length h <= Z.to_nat k)%nat.
Proof.
  pose proof (init_invariant m Hm) as Hinit.
  destruct (try_seq_history m calls _ _ _ agent_name k Hinit Hk Hseq)
    as (Hinv & h0 & h & Hh0 & Hh & Ht).
  assert (h0 = []).
  { rewrite (init_unfold m Hm) in Hh0.
    cbn [GlobalManagedAgentCounter.call_history] in Hh0.
    rewrite assoc_comprehension in Hh0.
    destruct (decide (agent_name ∈ PyDict.keys m)); congruence. }
  subst h0. cbn [map app] in Ht.
  exists h. split; [exact Hh|]. split; [exact Ht|].
  destruct (queries_governed m g agent_name k Hinv Hk) as (c & Hc & Hck & Hcount & _).
  destruct Hinv as [_ Hinv]. destruct (Hinv _ _ Hk) as (c' & h' & Hc' & _ & Hh' & Hnum).
  assert (Hcc : c' = c) by congruence. assert (Hhh : h' = h) by congruence.
  rewrite Hcc, Hhh in Hnum. clear Hcc Hhh Hc' Hh'.
  unfold GlobalManagedAgentCounter.numbered in Hnum.
  assert (Hlen : length h = Z.to_nat c).
  { rewrite <- (length_map call_number h), Hnum, length_map, length_seq. reflexivity. }
  rewrite Hlen, Hcount. split; [exact Hnum|]. split; lia.
Qed.

Lemma X5_history_records_granted_calls_witness :
  let m := [("tabular_search_agent", 2)]%string in
  let calls := [("tabular_search_agent", "09:00"); ("deep_search_agent", "09:01");
                ("tabular_search_agent", "09:02"); ("tabular_search_agent", "09:03")]%string in
  exists results g h,
    GlobalManagedAgentCounter.try_seq (GlobalManagedAgentCounter.__init__ (Some m)) calls
      = Ok (results, g) /\
    results = [true; true; true; false] /\
    assoc "tabular_search_agent" g.(GlobalManagedAgentCounter.call_history) = Some h /\
    map timestamp h = ["09:00"; "09:02"]%string.
Proof.
  cbv zeta. eexists _, _.
  match goal with |- exists h, ?seq = Ok (?r, ?g) /\ _ =>
    assert (Hseq : GlobalManagedAgentCounter.try_seq
                     (GlobalManagedAgentCounter.__init__
                        (Some [("tabular_search_agent", 2)]%string))
                     [("tabular_search_agent", "09:00"); ("deep_search_agent", "09:01");
                      ("tabular_search_agent", "09:02");
                      ("tabular_search_agent", "09:03")]%string
                   = Ok (r, g)) by reflexivity
  end.
  destruct (X5_history_records_granted_calls
              [("tabular_search_agent", 2)]%string
              ltac:(intros name k H; cbn in H;
                    repeat match type of H with
                           | (if ?b then _ else _) = _ => destruct b
                           end; inversion H; lia)
              _ _ _ "tabular_search_agent"%string 2 Hseq eq_refl)
    as (h & Hh & Ht & _).
  exists h. split; [exact Hseq|]. split; [reflexivity|]. split; [exact Hh|]. exact Ht.
Defined.

(* --------------------------------------------------------------------- *)
(** ** Compaction: what is left afterwards                                *)
(* --------------------------------------------------------------------- *)

Section CompactorMore.
Import ContextSummarizationMixin.

(** The state after a compaction whose summary generation returned:
    whether or not the closing log line can be formatted. *)
Lemma perform_state env self summary usage self1 :
  _generate_context_summary env self = (Ok (summary, usage), self1) ->
  (_perform_context_summarization env self).2 =
    with_stats
      (with_memory self1
         {| mem_system_prompt := self1.(memory).(mem_system_prompt);
            steps := [SummaryStep self.(task) summary
                        (Z.of_nat (length self.(memory).(steps)))
                        (_get_last_input_tokens self);
                      TaskStep self1.(task)] |})
      (self1.(_summarization_count) + 1)
      (self1.(_total_tokens_saved) + _get_last_input_tokens self).
Proof.
  intros Hgen. unfold _perform_context_summarization. rewrite Hgen.
  pose proof (generate_usage _ _ _ _ _ Hgen) as Hu.
  destruct (get_or_ok usage "completion_tokens" (PInt 0) Hu) as [c ->].
  destruct (get_or_ok usage "prompt_tokens" (PInt 0) Hu) as [p ->].
  destruct (get_or_ok usage "total_tokens" (PInt 0) Hu) as [t ->].
  reflexivity.
Qed.

Lemma count_action_steps_two self a b :
  self.(memory).(steps) = [a; b] ->
  is_action_step a = false -> is_action_step b = false ->
  _count_action_steps self = 0.
Proof.
  intros Hs Ha Hb. unfold _count_action_steps. rewrite Hs. cbn [fold_left].
  rewrite Ha, Hb. reflexivity.
Qed.

(** A summary comes from a response with content: it is not empty. *)
Lemma extract_content_nonempty response c usage :
  _extract_api_response response = (Some c, usage) -> nonempty (Some c) = Some c.
Proof.
  unfold _extract_api_response.
  destruct (extract_body response) as [[content u]|e]; [|discriminate].
  destruct content as [s|]; cbn [nonempty]; [|discriminate].
  destruct (String.eqb s "") eqn:Hs; [discriminate|].
  intros [= <- _]. cbn [nonempty]. rewrite Hs. reflexivity.
Qed.

Lemma call_once_succeeds env api self prompt response c usage :
  request_api_detail env = Some api ->
  api (requests self.(events)) self.(summary_system_prompt) prompt
    = ApiReturns response 200 ->
  response <> PNone ->
  _extract_api_response response = (Some c, usage) ->
  _call_summary_api_once env self prompt =
    (Ok (Some c, None, usage),
     with_events self (self.(events) ++ [ApiCall self.(summary_system_prompt) prompt])).
Proof.
  intros Hapi Hout Hresp Hx. unfold _call_summary_api_once.
  rewrite Hapi, Hout. cbn [Z.eqb Pos.eqb negb orb].
  destruct response; try contradiction; rewrite Hx; reflexivity.
Qed.

Lemma requests_snoc_call ev sp up : requests (ev ++ [ApiCall sp up]) = S (requests ev).
Proof. unfold requests. rewrite List.filter_app, length_app. cbn. lia. Qed.

Lemma requests_snoc_sleep ev s : requests (ev ++ [Sleep s]) = requests ev.
Proof. unfold requests. rewrite List.filter_app, length_app. cbn. lia. Qed.

(** The loop stops at the first attempt that succeeds. *)
Lemma retry_loop_first_success env api prompt response c usage failed :
  forall self attempt remaining,
  request_api_detail env = Some api ->
  (failed < remaining)%nat ->
  (forall i, (i < failed)%nat ->
     attempt_fails (api (requests self.(events) + i)%nat
                        self.(summary_system_prompt) prompt)) ->
  api (requests self.(events) + failed)%nat self.(summary_system_prompt) prompt
    = ApiReturns response 200 ->
  response <> PNone ->
  _extract_api_response response = (Some c, usage) ->
  retry_loop env self prompt attempt remaining =
    (Ok (Some c, usage),
     with_events self
       (self.(events)
        ++ failed_attempt_events self.(summary_system_prompt) prompt
             self.(summary_max_retries) attempt failed
        ++ [ApiCall self.(summary_system_prompt) prompt])).
Proof.
  induction failed as [|failed IH];
    intros self attempt remaining Hapi Hlt Hfail Hok Hresp Hx;
    (destruct remaining as [|remaining]; [lia|]); cbn [retry_loop].
  - rewrite Nat.add_0_r in Hok.
    rewrite (call_once_succeeds env api self prompt response c usage Hapi Hok Hresp Hx).
    rewrite (extract_content_nonempty _ _ _ Hx). reflexivity.
  - pose proof (Hfail 0%nat ltac:(lia)) as Hfirst. rewrite Nat.add_0_r in Hfirst.
    destruct (call_once_fails env api self prompt Hapi Hfirst) as [msg ->].
    cbn [nonempty]. rewrite failed_attempt_events_S.
    cbn [with_events summary_max_retries events].
    match goal with |- context [retry_loop env ?s prompt _ remaining] =>
      rewrite (IH s (attempt + 1) remaining Hapi ltac:(lia))
    end.
    + destruct (attempt <? summary_max_retries self);
        cbn [with_events summary_max_retries summary_system_prompt events];
        rewrite <- ?app_assoc; reflexivity.
    + intros i Hi.
      destruct (attempt <? summary_max_retries self);
        cbn [with_events summary_system_prompt events];
        rewrite ?requests_snoc_sleep, requests_snoc_call;
        replace (S (requests (events self)) + i)%nat
          with (requests (events self) + S i)%nat by lia;
        apply Hfail; lia.
    + destruct (attempt <? summary_max_retries self);
        cbn [with_events summary_system_prompt events];
        rewrite ?requests_snoc_sleep, requests_snoc_call;
        replace (S (requests (events self)) + failed)%nat
          with (requests (events self) + S failed)%nat by lia;
        exact Hok.
    + exact Hresp.
    + exact Hx.
Qed.

Lemma occurs_in_middle (a s b : string) : occurs_in s (a +:+ s +:+ b).
Proof. exists a, b. reflexivity. Qed.
End CompactorMore.

Section AfterCompaction.
Import ContextSummarizationMixin.

Lemma count_actions_from (l : list Step) : forall a,
  fold_left (fun n s => if is_action_step s then n + 1 else n) l a
  = a + Z.of_nat (length (List.filter is_action_step l)).
Proof.
  induction l as [|s l IH]; intros a; cbn [fold_left List.filter].
  - cbn. lia.
  - rewrite IH. destruct (is_action_step s); cbn [length]; lia.
Qed.

Lemma scan_back_unmeasured (l l' : list Step) :
  Forall (fun s => measured s = None) l -> scan_back (l ++ l') = scan_back l'.
Proof.
  induction 1 as [|s l Hs _ IH]; [reflexivity|].
  cbn [app scan_back]. rewrite Hs. exact IH.
Qed.
End AfterCompaction.

(** X6. When a compaction can be repeated. After a compaction whose
    summary generation returned, the step log holds the summary step and
    the task step only: the last input tokens read 0 and the action-step
    count is 0. The parent step then goes on with this log. For the steps
    [more] appended to it by the time of a later check, the action-step
    count is the number of action steps among [more]. The trigger is false
    while that number is below [min_steps_before_summary], and also while
    no appended step has recorded a token usage (for a threshold that is
    not negative). When the last appended step recorded [tokens] input
    tokens, the trigger is true exactly when [tokens] is above the
    threshold and at least [min_steps_before_summary] action steps were
    appended; so with [min_steps_before_summary] at most 1 a single action
    step measured above the threshold brings the next compaction at the
    very next step. The statistics after the compaction count one more
    compaction, with the input tokens before it added to the tokens saved,
    and two current steps. *)
Theorem X6_compaction_not_repeated (env : SummaryEnv)
    (self self1 : ContextSummarizationMixin.t) (summary : string)
    (usage : option pyval)
    (Hgen : ContextSummarizationMixin._generate_context_summary env self
            = (Ok (summary, usage), self1)) :
  let after := (ContextSummarizationMixin._perform_context_summarization env self).2 in
  let later (more : list Step) :=
    ContextSummarizationMixin.with_memory after
      {| mem_system_prompt :=
           after.(ContextSummarizationMixin.memory).(mem_system_prompt);
         steps := after.(ContextSummarizationMixin.memory).(steps) ++ more |} in
  let actions (more : list Step) :=
    Z.of_nat (length (List.filter ContextSummarizationMixin.is_action_step more)) in
  let threshold := self.(ContextSummarizationMixin.context_token_threshold) in
  let min_steps := self.(ContextSummarizationMixin.min_steps_before_summary) in
  ContextSummarizationMixin._get_last_input_tokens after = 0 /\
  ContextSummarizationMixin._count_action_steps after = 0 /\
  (forall more,
     ContextSummarizationMixin._count_action_steps (later more) = actions more /\
     (actions more < min_steps ->
      ContextSummarizationMixin._should_summarize (later more) = false) /\
     (Forall (fun s => ContextSummarizationMixin.measured s = None) more ->
      0 <= threshold ->
      ContextSummarizationMixin._should_summarize (later more) = false) /\
     (forall older s tokens,
        more = older ++ [s] ->
        ContextSummarizationMixin.measured s = Some tokens ->
        ContextSummarizationMixin._should_summarize (later more)
        = (threshold <? tokens) && (actions more >=? min_steps))) /\
  (forall n model_output tool_calls observations error tokens out,
     min_steps <= 1 -> threshold < tokens ->
     ContextSummarizationMixin._should_summarize
       (later [ActionStep n model_output tool_calls observations error
                 (Some (MkTokenUsage tokens out))]) = true) /\
  exists stats,
    get_summarization_stats after = PDict stats /\
    PyDict.get stats "summarization_count"
      = Some (PInt (self.(ContextSummarizationMixin._summarization_count) + 1)) /\
    PyDict.get stats "total_tokens_saved"
      = Some (PInt (self.(ContextSummarizationMixin._total_tokens_saved)
                    + ContextSummarizationMixin._get_last_input_tokens self)) /\
    PyDict.get stats "current_steps" = Some (PInt 2).
Proof.
  cbv zeta. rewrite (perform_state env self summary usage self1 Hgen).
  destruct (generate_frame _ _ _ _ Hgen)
    as ((Hthr & _ & _ & Hmin & _ & Htask & Hmem & Hcnt & Hsaved) & _).
  cbn [ContextSummarizationMixin.with_stats ContextSummarizationMixin.with_memory
         ContextSummarizationMixin.memory steps mem_system_prompt].
  assert (Hcount : forall more a b,
            ContextSummarizationMixin._count_action_steps
              (ContextSummarizationMixin.with_memory
                 (ContextSummarizationMixin.with_stats
                    (ContextSummarizationMixin.with_memory self1
                       {| mem_system_prompt :=
                            self1.(ContextSummarizationMixin.memory).(mem_system_prompt);
                          steps :=
                            [SummaryStep self.(ContextSummarizationMixin.task) summary
                               (Z.of_nat (length
                                  self.(ContextSummarizationMixin.memory).(steps)))
                               (ContextSummarizationMixin._get_last_input_tokens self);
                             TaskStep self1.(ContextSummarizationMixin.task)] |})
                    a b)
                 {| mem_system_prompt :=
                      self1.(ContextSummarizationMixin.memory).(mem_system_prompt);
                    steps :=
                      [SummaryStep self.(ContextSummarizationMixin.task) summary
                         (Z.of_nat (length
                            self.(ContextSummarizationMixin.memory).(steps)))
                         (ContextSummarizationMixin._get_last_input_tokens self);
                       TaskStep self1.(ContextSummarizationMixin.task)] ++ more |})
            = Z.of_nat
                (length (List.filter ContextSummarizationMixin.is_action_step more))).
  { intros more a b. unfold ContextSummarizationMixin._count_action_steps.
    cbn [ContextSummarizationMixin.with_stats ContextSummarizationMixin.with_memory
           ContextSummarizationMixin.memory steps app fold_left
           ContextSummarizationMixin.is_action_step].
    rewrite count_actions_from. lia. }
  assert (Hshould : forall more a b,
            ContextSummarizationMixin._should_summarize
              (ContextSummarizationMixin.with_memory
                 (ContextSummarizationMixin.with_stats
                    (ContextSummarizationMixin.with_memory self1
                       {| mem_system_prompt :=
                            self1.(ContextSummarizationMixin.memory).(mem_system_prompt);
                          steps :=
                            [SummaryStep self.(ContextSummarizationMixin.task) summary
                               (Z.of_nat (length
                                  self.(ContextSummarizationMixin.memory).(steps)))
                               (ContextSummarizationMixin._get_last_input_tokens self);
                             TaskStep self1.(ContextSummarizationMixin.task)] |})
                    a b)
                 {| mem_system_prompt :=
                      self1.(ContextSummarizationMixin.memory).(mem_system_prompt);
                    steps :=
                      [SummaryStep self.(ContextSummarizationMixin.task) summary
                         (Z.of_nat (length
                            self.(ContextSummarizationMixin.memory).(steps)))
                         (ContextSummarizationMixin._get_last_input_tokens self);
                       TaskStep self1.(ContextSummarizationMixin.task)] ++ more |})
            = (self.(ContextSummarizationMixin.context_token_threshold)
               <? ContextSummarizationMixin.scan_back
                    (rev more
                     ++ [TaskStep self1.(ContextSummarizationMixin.task);
                         SummaryStep self.(ContextSummarizationMixin.task) summary
                           (Z.of_nat (length
                              self.(ContextSummarizationMixin.memory).(steps)))
                           (ContextSummarizationMixin._get_last_input_tokens self)]))
              && (Z.of_nat
                    (length (List.filter ContextSummarizationMixin.is_action_step more))
                  >=? self.(ContextSummarizationMixin.min_steps_before_summary))).
  { intros more a b. unfold ContextSummarizationMixin._should_summarize.
    rewrite Hcount. unfold ContextSummarizationMixin._get_last_input_tokens.
    cbn [ContextSummarizationMixin.with_stats ContextSummarizationMixin.with_memory
           ContextSummarizationMixin.memory steps
           ContextSummarizationMixin.context_token_threshold
           ContextSummarizationMixin.min_steps_before_summary app rev].
    rewrite Hthr, Hmin, <- !app_assoc. reflexivity. }
  split; [reflexivity|]. split; [reflexivity|]. split; [|split].
  - intros more. split; [apply Hcount|]. rewrite Hshould. split; [|split].
    + intros Hfew. apply andb_false_iff. right.
      destruct (Z.geb_spec
                  (Z.of_nat (length (List.filter
                                       ContextSummarizationMixin.is_action_step more)))
                  (ContextSummarizationMixin.min_steps_before_summary self));
        [lia|reflexivity].
    + intros Hnone Hthreshold. apply andb_false_iff. left.
      rewrite scan_back_unmeasured by (apply Forall_rev, Hnone).
      cbn [ContextSummarizationMixin.scan_back ContextSummarizationMixin.measured].
      apply Z.ltb_ge. exact Hthreshold.
    + intros older s tokens -> Hs. rewrite rev_app_distr.
      cbn [rev app ContextSummarizationMixin.scan_back]. rewrite Hs. reflexivity.
  - intros n mo tc ob er tokens out Hmin1 Htokens. rewrite Hshould.
    cbn [rev app ContextSummarizationMixin.scan_back ContextSummarizationMixin.measured
           input_tokens List.filter ContextSummarizationMixin.is_action_step length].
    apply andb_true_iff. split; [apply Z.ltb_lt, Htokens|].
    apply Z.geb_le. lia.
  - eexists. split; [reflexivity|].
    cbn [ContextSummarizationMixin.with_stats ContextSummarizationMixin.with_memory
           ContextSummarizationMixin._summarization_count
           ContextSummarizationMixin._total_tokens_saved
           ContextSummarizationMixin.memory steps length].
    rewrite Hcnt, Hsaved. repeat split.
Qed.

Lemma X6_compaction_not_repeated_witness :
  let after agent :=
    (ContextSummarizationMixin._perform_context_summarization
       Sample.failing_api agent).2 in
  let later agent more :=
    ContextSummarizationMixin.with_memory (after agent)
      {| mem_system_prompt :=
           (after agent).(ContextSummarizationMixin.memory).(mem_system_prompt);
         steps := (after agent).(ContextSummarizationMixin.memory).(steps) ++ more |} in
  let next := ActionStep 1 (Some "thinking") None (Some "seen") None
                (Some (MkTokenUsage 90000 10)) in
  ContextSummarizationMixin._should_summarize Sample.agent = true /\
  ContextSummarizationMixin._get_last_input_tokens (after Sample.agent) = 0 /\
  ContextSummarizationMixin._should_summarize (later Sample.agent [next]) = false /\
  ContextSummarizationMixin._should_summarize (later Sample.eager_agent [next]) = true.
Proof.
  cbv zeta.
  destruct (ContextSummarizationMixin._generate_context_summary
              Sample.failing_api Sample.agent) as [[[summary usage]|e] self1] eqn:Hgen;
    [|vm_compute in Hgen; discriminate Hgen].
  destruct (ContextSummarizationMixin._generate_context_summary
              Sample.failing_api Sample.eager_agent)
    as [[[summary' usage']|e] self1'] eqn:Hgen';
    [|vm_compute in Hgen'; discriminate Hgen'].
  destruct (X6_compaction_not_repeated Sample.failing_api Sample.agent self1 summary usage
              Hgen) as (Hzero & _ & Hmore & _).
  destruct (X6_compaction_not_repeated Sample.failing_api Sample.eager_agent self1'
              summary' usage' Hgen') as (_ & _ & _ & Heager & _).
  split; [reflexivity|]. split; [exact Hzero|]. split.
  - destruct (Hmore [ActionStep 1 (Some "thinking") None (Some "seen") None
                       (Some (MkTokenUsage 90000 10))]) as (_ & Hfew & _).
    apply Hfew. cbn. lia.
  - apply Heager; cbn; lia.
Defined.

(** X7. The task and the summary stay in front of the model after a
    compaction. The summary step that now heads the step log turns into one
    user message whose text contains the task text, the generated summary
    and the number of steps that were compressed; and the history text that
    a later compaction would summarise is "[之前的摘要] <summary>", the
    separator, "[任务] <task>", so the earlier summary is carried over
    verbatim. *)
Theorem X7_summary_carried_forward (env : SummaryEnv)
    (self self1 : ContextSummarizationMixin.t) (summary : string)
    (usage : option pyval)
    (Hgen : ContextSummarizationMixin._generate_context_summary env self
            = (Ok (summary, usage), self1)) :
  let after := (ContextSummarizationMixin._perform_context_summarization env self).2 in
  let task := self.(ContextSummarizationMixin.task) in
  let count := Z.of_nat (length self.(ContextSummarizationMixin.memory).(steps)) in
  (exists first text,
     after.(ContextSummarizationMixin.memory).(steps) = [first; TaskStep task] /\
     SummaryStepMethods.to_messages first false
       = Some [ {| msg_role := "user";
                   msg_content := [PDict [("type", PStr "text");
                                          ("text", PStr text)]%string] |} ] /\
     SummaryStepMethods.to_messages first true
       = SummaryStepMethods.to_messages first false /\
     occurs_in ("**原始任务:** " +:+ task) text /\
     occurs_in summary text /\
     occurs_in ("已压缩 " +:+ str_int count) text) /\
  ContextSummarizationMixin._history_to_text after
    = "[之前的摘要] " +:+ summary +:+ history_separator +:+ "[任务] " +:+ task.
Proof.
  cbv zeta. rewrite (perform_state env self summary usage self1 Hgen).
  destruct (generate_frame _ _ _ _ Hgen)
    as ((_ & _ & _ & _ & _ & Htask & _) & _).
  cbn [ContextSummarizationMixin.with_stats ContextSummarizationMixin.with_memory
         ContextSummarizationMixin.memory steps].
  rewrite Htask. split.
  - eexists _, _. split; [reflexivity|]. split; [reflexivity|].
    split; [reflexivity|]. unfold SummaryStepMethods.message_text.
    split; [|split].
    + do 5 apply occurs_in_app_r.
      rewrite <- (append_assoc "**原始任务:** " (ContextSummarizationMixin.task self)).
      apply occurs_in_prefix.
    + do 11 apply occurs_in_app_r. apply occurs_in_prefix.
    + match goal with |- occurs_in ?sub (_ +:+ (?s +:+ ?rest)) =>
        change (occurs_in sub ("[上下文摘要 - " +:+ (("已压缩 " +:+ s) +:+ rest)))
      end.
      apply occurs_in_app_r, occurs_in_prefix.
  - unfold ContextSummarizationMixin._history_to_text.
    cbn [ContextSummarizationMixin.with_stats ContextSummarizationMixin.with_memory
           ContextSummarizationMixin.memory steps omap list_omap
           ContextSummarizationMixin.render_step join].
    unfold history_separator. rewrite !append_assoc. reflexivity.
Qed.

Lemma X7_summary_carried_forward_witness :
  let after := (ContextSummarizationMixin._perform_context_summarization
                  Sample.failing_api Sample.agent).2 in
  exists summary,
    ContextSummarizationMixin._history_to_text after
      = "[之前的摘要] " +:+ summary +:+ history_separator +:+ "[任务] find the moons".
Proof.
  cbv zeta.
  destruct (ContextSummarizationMixin._generate_context_summary
              Sample.failing_api Sample.agent) as [[[summary usage]|e] self1] eqn:Hgen;
    [|vm_compute in Hgen; discriminate Hgen].
  destruct (X7_summary_carried_forward Sample.failing_api Sample.agent self1 summary usage
              Hgen) as [_ H].
  exists summary. exact H.
Defined.

(** X8. A token count that is not a number makes the compaction fail after
    the reset. When the summary comes with a usage dictionary in which
    "completion_tokens" holds a value that the [:,] format refuses (a
    string, or null), [_perform_context_summarization] raises from its
    closing log line; by then the step log has been replaced by the summary
    step and the task step, and [_step_stream] hands the exception on
    without running the step. *)
Theorem X8_unformattable_usage_raises_after_reset (env : SummaryEnv)
    (self self1 : ContextSummarizationMixin.t) (summary : string)
    (usage : list (string * pyval)) (tokens : pyval) (e : PyExc)
    (super_step_stream : ContextSummarizationMixin.t ->
                         result pyval * ContextSummarizationMixin.t)
    (Hgen : ContextSummarizationMixin._generate_context_summary env self
            = (Ok (summary, Some (PDict usage)), self1))
    (Htokens : PyDict.get usage "completion_tokens" = Some tokens)
    (Hformat : Py.format_thousands tokens = Raise e) :
  let out := ContextSummarizationMixin._perform_context_summarization env self in
  out.1 = Raise e /\
  out.2.(ContextSummarizationMixin.memory).(steps) =
    [SummaryStep self.(ContextSummarizationMixin.task) summary
       (Z.of_nat (length self.(ContextSummarizationMixin.memory).(steps)))
       (ContextSummarizationMixin._get_last_input_tokens self);
     TaskStep self.(ContextSummarizationMixin.task)] /\
  (ContextSummarizationMixin._should_summarize self = true ->
   ContextSummarizationMixin._step_stream env super_step_stream self = (Raise e, out.2)).
Proof.
  cbv zeta.
  assert (Hout : (ContextSummarizationMixin._perform_context_summarization env self).1
                 = Raise e).
  { unfold ContextSummarizationMixin._perform_context_summarization. rewrite Hgen.
    assert (Hne : truthy (PDict usage) = true).
    { destruct usage; [discriminate Htokens|reflexivity]. }
    cbn [Py.get_or]. rewrite Hne, Htokens.
    destruct (PyDict.get usage "prompt_tokens"), (PyDict.get usage "total_tokens");
      cbn [fst mbind result_bind]; rewrite Hformat; reflexivity. }
  split; [exact Hout|]. split.
  - destruct (perform_replaces env self summary _ self1 Hgen) as (H & _). exact H.
  - intros Htrigger. unfold ContextSummarizationMixin._step_stream. rewrite Htrigger.
    destruct (ContextSummarizationMixin._perform_context_summarization env self)
      as [[u|e'] self'] eqn:Hp; cbn [fst snd] in *; [discriminate|].
    injection Hout as ->. reflexivity.
Qed.

Lemma X8_unformattable_usage_raises_after_reset_witness :
  let out := ContextSummarizationMixin._perform_context_summarization
               SampleApi.null_tokens Sample.agent in
  (exists e, out.1 = Raise e /\ exc_type e = "TypeError"%string) /\
  length out.2.(ContextSummarizationMixin.memory).(steps) = 2%nat.
Proof.
  cbv zeta.
  assert (Hgen : ContextSummarizationMixin._generate_context_summary
                   SampleApi.null_tokens Sample.agent
                 = (Ok ("the moons are Phobos and Deimos"%string,
                        Some (PDict [("completion_tokens", PNone)]%string)),
                    (ContextSummarizationMixin._generate_context_summary
                       SampleApi.null_tokens Sample.agent).2))
    by (vm_compute; reflexivity).
  destruct (X8_unformattable_usage_raises_after_reset SampleApi.null_tokens Sample.agent
              _ _ _ PNone (TypeError "unsupported format string")
              (fun self => (Ok PNone, self)) Hgen eq_refl eq_refl)
    as (Hout & Hsteps & _).
  split; [eexists; split; [exact Hout|reflexivity]|].
  rewrite Hsteps. reflexivity.
Defined.

(* --------------------------------------------------------------------- *)
(** ** Reading the answer of the summarisation service                    *)
(* --------------------------------------------------------------------- *)

(** X9. [_extract_api_response] on a response dictionary. (1) With a first
    choice whose message has a text content that is not blank, and a usage
    that is absent or a dictionary, it returns the content with the white
    space at both ends removed (that of [str.strip], also outside ASCII)
    and the usage as it is. (2) A usage that is
    present and not a dictionary (null, say) makes it return (None, None)
    although the content is there. (3) It never returns a usage without a
    content, and a content it returns is never empty. *)
Theorem X9_extract_api_response (d choice message : list (string * pyval))
    (rest : list pyval) (content : string)
    (Hchoices : PyDict.get d "choices" = Some (PList (PDict choice :: rest)))
    (Hmessage : PyDict.get choice "message" = Some (PDict message))
    (Hcontent : PyDict.get message "content" = Some (PStr content)) :
  let stripped := Py.rstrip (Py.lstrip content) in
  (stripped <> ""%string ->
   (PyDict.get d "usage" = None ->
    ContextSummarizationMixin._extract_api_response (PDict d) = (Some stripped, None)) /\
   (forall u, PyDict.get d "usage" = Some (PDict u) ->
    ContextSummarizationMixin._extract_api_response (PDict d)
      = (Some stripped, Some (PDict u)))) /\
  (stripped = ""%string ->
   ContextSummarizationMixin._extract_api_response (PDict d) = (None, None)) /\
  (forall v, PyDict.get d "usage" = Some v -> (forall u, v <> PDict u) ->
   ContextSummarizationMixin._extract_api_response (PDict d) = (None, None)) /\
  (forall response,
     (ContextSummarizationMixin._extract_api_response response).1 = None ->
     (ContextSummarizationMixin._extract_api_response response).2 = None) /\
  (forall response c usage,
     ContextSummarizationMixin._extract_api_response response = (Some c, usage) ->
     c <> ""%string).
Proof.
  cbv zeta.
  assert (Hbody : forall usage_part,
            (has_usage ← Py.contains "usage" (PDict d);
             if (has_usage : bool) then
               usage ← Py.getitem (PDict d) "usage";
               Py.require_dict usage;; Ok (Some usage)
             else Ok None) = usage_part ->
            ContextSummarizationMixin.extract_body (PDict d) =
              (usage ← usage_part; Ok (Some (Py.rstrip (Py.lstrip content)), usage))).
  { intros usage_part <-. unfold ContextSummarizationMixin.extract_body.
    cbn [Py.contains Py.getitem]. unfold PyDict.contains, PyDict.getitem.
    rewrite Hchoices. cbn [mbind result_bind Py.len Py.first Py.contains Py.getitem].
    unfold PyDict.contains, PyDict.getitem. rewrite Hmessage.
    cbn [mbind result_bind length Py.contains Py.getitem].
    unfold PyDict.contains, PyDict.getitem. rewrite Hcontent.
    replace (0 <? Z.of_nat (S (length rest))) with true by (symmetry; apply Z.ltb_lt; lia).
    cbn [mbind result_bind Py.strip].
    destruct (PyDict.get d "usage") as [v|]; cbn [mbind result_bind]; [|reflexivity].
    destruct (Py.require_dict v); reflexivity. }
  split; [|split; [|split; [|split]]].
  - intros Hne. split.
    + intros Hu. unfold ContextSummarizationMixin._extract_api_response.
      rewrite (Hbody (Ok None)).
      * cbn [mbind result_bind ContextSummarizationMixin.nonempty].
        destruct (String.eqb_spec (Py.rstrip (Py.lstrip content)) ""); [contradiction|].
        reflexivity.
      * cbn [Py.contains]. unfold PyDict.contains. rewrite Hu. reflexivity.
    + intros u Hu. unfold ContextSummarizationMixin._extract_api_response.
      rewrite (Hbody (Ok (Some (PDict u)))).
      * cbn [mbind result_bind ContextSummarizationMixin.nonempty].
        destruct (String.eqb_spec (Py.rstrip (Py.lstrip content)) ""); [contradiction|].
        reflexivity.
      * cbn [Py.contains Py.getitem]. unfold PyDict.contains, PyDict.getitem.
        rewrite Hu. reflexivity.
  - intros Hempty. unfold ContextSummarizationMixin._extract_api_response.
    rewrite (Hbody _ eq_refl), Hempty.
    match goal with |- context [mbind _ ?r] => destruct r as [[u|]|e] end; reflexivity.
  - intros v Hv Hnot. unfold ContextSummarizationMixin._extract_api_response.
    rewrite (Hbody (Raise (AttributeError "object has no attribute 'get'"))); [reflexivity|].
    cbn [Py.contains Py.getitem]. unfold PyDict.contains, PyDict.getitem.
    rewrite Hv. cbn [mbind result_bind].
    destruct v; try reflexivity. exfalso. eapply Hnot. reflexivity.
  - intros response. unfold ContextSummarizationMixin._extract_api_response.
    destruct (ContextSummarizationMixin.extract_body response) as [[c u]|e];
      [|reflexivity].
    destruct (ContextSummarizationMixin.nonempty c); [discriminate|reflexivity].
  - intros response c usage Hx Hc. subst c.
    apply extract_content_nonempty in Hx. discriminate Hx.
Qed.

Lemma X9_extract_api_response_witness :
  ContextSummarizationMixin._extract_api_response
    (SampleApi.response "  the moons are Phobos and Deimos  "
       (PDict [("completion_tokens", PInt 9)]%string))
  = (Some "the moons are Phobos and Deimos"%string,
     Some (PDict [("completion_tokens", PInt 9)]%string)) /\
  ContextSummarizationMixin._extract_api_response
    (SampleApi.response "the moons are Phobos and Deimos" PNone) = (None, None) /\
  ContextSummarizationMixin._extract_api_response
    (SampleApi.response (ideographic_space +:+ "Phobos and Deimos" +:+ nbsp)
       (PDict [("completion_tokens", PInt 9)]%string))
  = (Some "Phobos and Deimos"%string,
     Some (PDict [("completion_tokens", PInt 9)]%string)).
Proof.
  split; [|split].
  - destruct (X9_extract_api_response _ _ _ [] "  the moons are Phobos and Deimos  "
                (eq_refl : PyDict.get
                   [("choices", PList [PDict [("message",
                       PDict [("content", PStr "  the moons are Phobos and Deimos  ")]%string)]%string]);
                    ("usage", PDict [("completion_tokens", PInt 9)]%string)]%string
                   "choices" = _)
                eq_refl eq_refl) as (Hok & _).
    destruct (Hok ltac:(discriminate)) as [_ Hu]. exact (Hu _ eq_refl).
  - destruct (X9_extract_api_response _ _ _ [] "the moons are Phobos and Deimos"
                (eq_refl : PyDict.get
                   [("choices", PList [PDict [("message",
                       PDict [("content", PStr "the moons are Phobos and Deimos")]%string)]%string]);
                    ("usage", PNone)]%string
                   "choices" = _)
                eq_refl eq_refl) as (_ & _ & Hbad & _).
    apply (Hbad PNone eq_refl). intros u. discriminate.
  - destruct (X9_extract_api_response _ _ _ []
                (ideographic_space +:+ "Phobos and Deimos" +:+ nbsp)
                (eq_refl : PyDict.get
                   [("choices", PList [PDict [("message",
                       PDict [("content",
                               PStr (ideographic_space +:+ "Phobos and Deimos"
                                       +:+ nbsp))]%string)]%string]);
                    ("usage", PDict [("completion_tokens", PInt 9)]%string)]%string
                   "choices" = _)
                eq_refl eq_refl) as (Hok & _).
    destruct (Hok ltac:(vm_compute; discriminate)) as [_ Hu]. exact (Hu _ eq_refl).
Defined.

(* --------------------------------------------------------------------- *)
(** ** The retry loop stops at the first success                          *)
(* --------------------------------------------------------------------- *)

(** X10. When the first [failed] attempts of a summary generation fail and
    the next one is answered with status 200 and a content ([failed] less
    than [summary_max_retries]), the retry loop sends exactly [failed + 1]
    requests, pauses [min(5 * attempt, 30)] after each failed attempt,
    makes no further attempt, and returns that content with its usage;
    [_generate_context_summary] returns it as the summary. *)
Theorem X10_retry_stops_at_first_success (env : SummaryEnv)
    (api : nat -> string -> string -> ApiOutcome)
    (self : ContextSummarizationMixin.t) (prompt : string)
    (response : pyval) (c : string) (usage : option pyval) (failed : nat)
    (Hapi : request_api_detail env = Some api)
    (Hfailed : (failed < Z.to_nat self.(ContextSummarizationMixin.summary_max_retries))%nat)
    (Hfail : forall i, (i < failed)%nat ->
       ContextSummarizationMixin.attempt_fails
         (api (ContextSummarizationMixin.requests self.(ContextSummarizationMixin.events) + i)%nat
              self.(ContextSummarizationMixin.summary_system_prompt) prompt))
    (Hok : api (ContextSummarizationMixin.requests self.(ContextSummarizationMixin.events)
                + failed)%nat
               self.(ContextSummarizationMixin.summary_system_prompt) prompt
           = ApiReturns response 200)
    (Hresp : response <> PNone)
    (Hx : ContextSummarizationMixin._extract_api_response response = (Some c, usage)) :
  let sp := self.(ContextSummarizationMixin.summary_system_prompt) in
  let out := ContextSummarizationMixin._call_summary_api_with_retry env self prompt in
  out.1 = Ok (Some c, usage) /\
  out.2.(ContextSummarizationMixin.events) =
    self.(ContextSummarizationMixin.events)
    ++ attempts_until_success sp prompt
         self.(ContextSummarizationMixin.summary_max_retries) failed /\
  ContextSummarizationMixin.requests out.2.(ContextSummarizationMixin.events) =
    (ContextSummarizationMixin.requests self.(ContextSummarizationMixin.events)
     + failed + 1)%nat /\
  (forall i, (i < failed)%nat ->
     attempts_until_success sp prompt
       self.(ContextSummarizationMixin.summary_max_retries) failed !! (2 * i + 1)%nat
     = Some (Sleep (Z.min (5 * (Z.of_nat i + 1)) 30))) /\
  (str_format env self.(ContextSummarizationMixin.summary_user_template)
     (if String.eqb self.(ContextSummarizationMixin.task) ""
      then "未知任务" else self.(ContextSummarizationMixin.task))
     (ContextSummarizationMixin._history_to_text self) = Ok prompt ->
   (ContextSummarizationMixin._generate_context_summary env self).1 = Ok (c, usage)).
Proof.
  cbv zeta.
  pose proof (retry_loop_first_success env api prompt response c usage failed self 1
                (Z.to_nat self.(ContextSummarizationMixin.summary_max_retries))
                Hapi Hfailed Hfail Hok Hresp Hx) as Hloop.
  unfold ContextSummarizationMixin._call_summary_api_with_retry. rewrite Hloop.
  cbn [fst snd ContextSummarizationMixin.with_events ContextSummarizationMixin.events].
  split; [reflexivity|]. split; [reflexivity|].
  assert (Hshape : forall first count,
            (Z.of_nat count + first <= self.(ContextSummarizationMixin.summary_max_retries)) ->
            ContextSummarizationMixin.failed_attempt_events
              self.(ContextSummarizationMixin.summary_system_prompt) prompt
              self.(ContextSummarizationMixin.summary_max_retries) first count =
            flat_map (fun i : nat =>
                        [ApiCall self.(ContextSummarizationMixin.summary_system_prompt) prompt;
                         Sleep (Z.min (5 * (first + Z.of_nat i)) 30)])
                     (seq 0 count)).
  { intros first count Hle. unfold ContextSummarizationMixin.failed_attempt_events.
    rewrite !flat_map_concat_map. f_equal. apply List.map_ext_in.
    intros i Hi. apply in_seq in Hi.
    destruct (Z.ltb_spec (first + Z.of_nat i)
                (ContextSummarizationMixin.summary_max_retries self)); [reflexivity|lia]. }
  split; [|split].
  - unfold attempts_until_success. rewrite !app_assoc, requests_snoc_call.
    rewrite Hshape by lia.
    assert (Hreq : forall ev count first,
              ContextSummarizationMixin.requests
                (ev ++ flat_map (fun i : nat =>
                        [ApiCall self.(ContextSummarizationMixin.summary_system_prompt) prompt;
                         Sleep (Z.min (5 * (first + Z.of_nat i)) 30)])
                     (seq 0 count))
              = (ContextSummarizationMixin.requests ev + count)%nat).
    { intros ev count first. unfold ContextSummarizationMixin.requests.
      rewrite List.filter_app, length_app. f_equal.
      generalize 0%nat as start. induction count as [|count IH]; intros start;
        [reflexivity|].
      cbn [seq flat_map app List.filter ContextSummarizationMixin.is_api_call length].
      rewrite IH. reflexivity. }
    rewrite Hreq. lia.
  - intros i Hi. unfold attempts_until_success. rewrite Hshape by lia.
    rewrite lookup_app_l.
    + revert i Hi.
      assert (Hgen : forall n start i, (i < n)%nat ->
                flat_map (fun j : nat =>
                   [ApiCall self.(ContextSummarizationMixin.summary_system_prompt) prompt;
                    Sleep (Z.min (5 * (1 + Z.of_nat j)) 30)])
                  (seq start n) !! (2 * i + 1)%nat
                = Some (Sleep (Z.min (5 * (1 + Z.of_nat (start + i))) 30))).
      { intros n. induction n as [|n IH]; intros start i Hi; [lia|].
        cbn [seq flat_map app]. destruct i as [|i].
        - rewrite Nat.add_0_r. reflexivity.
        - replace (2 * S i + 1)%nat with (S (S (2 * i + 1))) by lia.
          cbn [lookup list_lookup]. rewrite IH by lia. do 3 f_equal. lia. }
      intros i Hi. rewrite (Hgen failed 0%nat i Hi). do 3 f_equal. lia.
    + assert (Hlen : forall n start,
                length (flat_map (fun j : nat =>
                   [ApiCall self.(ContextSummarizationMixin.summary_system_prompt) prompt;
                    Sleep (Z.min (5 * (1 + Z.of_nat j)) 30)])
                  (seq start n)) = (2 * n)%nat).
      { intros n. induction n as [|n IH]; intros start; [reflexivity|].
        cbn [seq flat_map app length]. rewrite IH. lia. }
      rewrite Hlen. lia.
  - intros Hfmt. unfold ContextSummarizationMixin._generate_context_summary,
      ContextSummarizationMixin._call_summary_api_with_retry.
    rewrite Hapi, Hfmt, Hloop. reflexivity.
Qed.

Lemma X10_retry_stops_at_first_success_witness :
  let out := ContextSummarizationMixin._generate_context_summary
               SampleApi.third_time_lucky Sample.agent in
  out.1 = Ok ("the moons are Phobos and Deimos"%string,
              Some (PDict [("completion_tokens", PInt 9)]%string)) /\
  ContextSummarizationMixin.requests out.2.(ContextSummarizationMixin.events) = 3%nat.
Proof.
  cbv zeta.
  pose (answer := SampleApi.response "  the moons are Phobos and Deimos  "
                    (PDict [("completion_tokens", PInt 9)]%string)).
  pose (api := fun (n : nat) (_ _ : string) =>
                 if (n <? 2)%nat then ApiReturns PNone 503 else ApiReturns answer 200).
  pose (prompt := ContextSummarizationMixin.task Sample.agent +:+ nl
                  +:+ ContextSummarizationMixin._history_to_text Sample.agent).
  assert (Hfail : forall i, (i < 2)%nat ->
            ContextSummarizationMixin.attempt_fails (api (0 + i)%nat "system"%string prompt)).
  { intros i Hi. unfold api. destruct (Nat.ltb_spec (0 + i) 2); [|lia]. left. lia. }
  destruct (X10_retry_stops_at_first_success SampleApi.third_time_lucky api Sample.agent
              prompt answer "the moons are Phobos and Deimos"%string
              (Some (PDict [("completion_tokens", PInt 9)]%string)) 2%nat
              eq_refl ltac:(cbn; lia) Hfail eq_refl ltac:(discriminate)
              ltac:(vm_compute; reflexivity)) as (_ & _ & _ & _ & Hgen).
  split; [exact (Hgen eq_refl)|vm_compute; reflexivity].
Defined.

(* --------------------------------------------------------------------- *)
(** ** Compaction without a summarisation service                         *)
(* --------------------------------------------------------------------- *)

(** X11. When [request_api_detail] could not be imported, a compaction
    sends no request and makes no pause, and still replaces the whole step
    log: what is left is a summary step whose text says that summary
    generation failed and repeats the task text, followed by the task step.
    The earlier steps are gone although nothing was summarised. *)
Theorem X11_compaction_without_service (env : SummaryEnv)
    (self : ContextSummarizationMixin.t)
    (Hnone : request_api_detail env = None) :
  let out := ContextSummarizationMixin._perform_context_summarization env self in
  let notice := ContextSummarizationMixin.unavailable_summary self in
  out.1 = Ok tt /\
  out.2.(ContextSummarizationMixin.events) = self.(ContextSummarizationMixin.events) /\
  out.2.(ContextSummarizationMixin.memory).(steps) =
    [SummaryStep self.(ContextSummarizationMixin.task) notice
       (Z.of_nat (length self.(ContextSummarizationMixin.memory).(steps)))
       (ContextSummarizationMixin._get_last_input_tokens self);
     TaskStep self.(ContextSummarizationMixin.task)] /\
  occurs_in "摘要生成失败" notice /\
  occurs_in ("原始任务: " +:+ self.(ContextSummarizationMixin.task)) notice /\
  (forall s, s ∈ self.(ContextSummarizationMixin.memory).(steps) ->
     is_Some (ContextSummarizationMixin.measured s) ->
     s ∉ out.2.(ContextSummarizationMixin.memory).(steps)).
Proof.
  cbv zeta.
  assert (Hgen : ContextSummarizationMixin._generate_context_summary env self
                 = (Ok (ContextSummarizationMixin.unavailable_summary self, None), self)).
  { unfold ContextSummarizationMixin._generate_context_summary. rewrite Hnone. reflexivity. }
  assert (Hsteps := perform_replaces env self _ _ _ Hgen). cbv zeta in Hsteps.
  destruct Hsteps as (Hsteps & _).
  split; [apply (perform_returns_without_usage env self _ _ Hgen)|].
  split; [rewrite (perform_state env self _ _ _ Hgen); reflexivity|].
  split; [exact Hsteps|].
  unfold ContextSummarizationMixin.unavailable_summary.
  split; [|split].
  - apply occurs_in_app_l. exists "["%string, ": request_api_detail 不可用]"%string.
    reflexivity.
  - do 6 apply occurs_in_app_r. apply occurs_in_refl.
  - intros s _ [n Hn] Hin. rewrite Hsteps in Hin.
    apply list_elem_of_In in Hin. cbn [In] in Hin.
    destruct Hin as [<-|[<-|[]]]; discriminate Hn.
Qed.

Lemma X11_compaction_without_service_witness :
  let out := ContextSummarizationMixin._perform_context_summarization
               SampleApi.unavailable Sample.agent in
  out.1 = Ok tt /\ length out.2.(ContextSummarizationMixin.memory).(steps) = 2%nat /\
  out.2.(ContextSummarizationMixin.events) = [].
Proof.
  cbv zeta.
  destruct (X11_compaction_without_service SampleApi.unavailable Sample.agent eq_refl)
    as (Hok & Hev & Hsteps & _).
  split; [exact Hok|]. split; [rewrite Hsteps; reflexivity|exact Hev].
Defined.

(* --------------------------------------------------------------------- *)
(** ** From a run to its stored result and back                           *)
(* --------------------------------------------------------------------- *)

Section PipelineFacts.
Import Batch.

Lemma get_set_eq (d : list (string * pyval)) k v :
  Recovery.get (PyDict.set d k v) k = v.
Proof. unfold Recovery.get, PyDict.get. rewrite assoc_set_eq. reflexivity. Qed.

Lemma get_set_ne (d : list (string * pyval)) k k' v :
  k <> k' -> Recovery.get (PyDict.set d k v) k' = Recovery.get d k'.
Proof.
  intros Hne. unfold Recovery.get, PyDict.get. rewrite assoc_set_ne by exact Hne.
  reflexivity.
Qed.

(** No tool pattern matches the empty text. *)
Lemma no_pattern_matches_empty :
  existsb (fun pattern => Re.search pattern "") tool_patterns = false.
Proof. vm_compute. reflexivity. Qed.

(** On a truthy answer the check for tool tags sees the text of the
    answer only. *)
Lemma contains_tool_tags_str rt answer :
  truthy answer = true ->
  contains_tool_tags rt (PStr (py_str rt answer)) = contains_tool_tags rt answer.
Proof.
  intros Ht. unfold contains_tool_tags. rewrite Ht. cbn [negb truthy py_str].
  destruct (String.eqb_spec (py_str rt answer) "") as [->|_]; cbn [negb];
    [symmetry; apply no_pattern_matches_empty|reflexivity].
Qed.

(** The completed-task check on a result file that holds the
    dictionary [d]. *)
Lemma is_task_completed_loaded rt fs task output_dir content d :
  fs !! result_path output_dir task = Some (File content) ->
  rt.(json_loads) content = Ok (PDict d) ->
  is_task_completed rt fs task output_dir = acceptable_answer rt (checked_answer d).
Proof.
  intros Hfs Hload. unfold is_task_completed, completed_body, load_json.
  rewrite Hfs, Hload. cbn [mbind result_bind].
  unfold answer_of, dict_get, acceptable_answer, checked_answer, Recovery.get.
  cbn [mbind result_bind].
  destruct (PyDict.get d "answer") as [a|]; cbv [default from_option id].
  - destruct (truthy a) eqn:Ha; cbn [mbind result_bind].
    + rewrite Ha. cbn [andb].
      destruct (String.prefix "Error:" (py_str rt a)); [reflexivity|].
      destruct (contains_tool_tags rt a); reflexivity.
    + destruct (PyDict.get d "response") as [r|]; cbv [default from_option id];
        cbn [mbind result_bind truthy andb]; [|reflexivity].
      destruct (truthy r); cbn [andb]; [|reflexivity].
      destruct (String.prefix "Error:" (py_str rt r)); [reflexivity|].
      destruct (contains_tool_tags rt r); reflexivity.
  - cbn [truthy]. destruct (PyDict.get d "response") as [r|];
      cbv [default from_option id]; cbn [mbind result_bind truthy andb]; [|reflexivity].
    destruct (truthy r); cbn [andb]; [|reflexivity].
    destruct (String.prefix "Error:" (py_str rt r)); [reflexivity|].
    destruct (contains_tool_tags rt r); reflexivity.
Qed.

Lemma is_result_valid_spec rt d :
  Recovery.is_result_valid rt d =
    negb (truthy (Recovery.get d "error"))
    && negb (truthy (Recovery.get d "timeout"))
    && acceptable_answer rt (checked_answer d).
Proof.
  unfold Recovery.is_result_valid, acceptable_answer. fold (checked_answer d).
  destruct (truthy (Recovery.get d "error")); [reflexivity|].
  destruct (truthy (Recovery.get d "timeout")); [reflexivity|]. cbn [negb andb].
  destruct (truthy (checked_answer d)) eqn:Ht; cbn [negb andb]; [|reflexivity].
  rewrite (contains_tool_tags_str rt _ Ht).
  destruct (String.prefix "Error:" (py_str rt (checked_answer d))); [reflexivity|].
  destruct (contains_tool_tags rt (checked_answer d)); reflexivity.
Qed.



(** What the child reports when [run_inference] raised. *)
Lemma child_of_raise rt env fs fs' example ids output_dir e :
  Inference.run_inference rt env fs example.(query) ids output_dir
    (Some example.(instance_id)) = (Raise e, fs') ->
  let out := Recovery._run_single_task_in_process rt env fs example ids output_dir in
  (e.(exc_is_Exception) = false -> out = (Raise e, fs')) /\
  (e.(exc_is_Exception) = true ->
   out.2 = fs' /\
   exists d,
     out.1 = Ok (PDict d) /\
     Recovery.get d "instance_id" = PStr example.(instance_id) /\
     Recovery.get d "answer" = PNone /\
     Recovery.get d "response" = PNone /\
     Recovery.get d "error" = PStr e.(exc_str) /\
     Recovery.get d "timeout" = PBool false /\
     Recovery.is_result_valid rt d = false).
Proof.
  intros Hrun. cbv zeta. unfold Recovery._run_single_task_in_process. rewrite Hrun.
  split; intros He; rewrite He; [reflexivity|].
  cbn [fst snd]. split; [reflexivity|].
  eexists. split; [reflexivity|]. repeat split.
  rewrite is_result_valid_spec. apply andb_false_r.
Qed.

(** What the child reports when [run_inference] returned None and the
    task has no result file. *)
Lemma child_of_None rt env fs example ids output_dir :
  Inference.run_inference rt env fs example.(query) ids output_dir
    (Some example.(instance_id)) = (Ok PNone, fs) ->
  fs !! result_path output_dir example.(instance_id) = None ->
  let out := Recovery._run_single_task_in_process rt env fs example ids output_dir in
  out.2 = fs /\
  exists d,
    out.1 = Ok (PDict d) /\
    Recovery.get d "instance_id" = PStr example.(instance_id) /\
    Recovery.get d "answer" = PNone /\
    Recovery.get d "response" = PNone /\
    Recovery.get d "error" = PNone /\
    Recovery.get d "timeout" = PBool false /\
    Recovery.is_result_valid rt d = false.
Proof.
  intros Hrun Hnofile. cbv zeta. unfold Recovery._run_single_task_in_process.
  rewrite Hrun, Hnofile. cbn [truthy fst snd]. split; [reflexivity|].
  eexists. split; [reflexivity|]. repeat split.
Qed.
End PipelineFacts.

(** X12. A task that never started. With the opening lines accepted by
    the console, the set-up of [run_inference] ends as follows. Without an
    API key it prints that the key is missing and returns None. When
    creating the models or the agent team raises an exception that does not
    derive from [Exception], that exception leaves the call. When it
    raises an [Exception], the call prints a line with the message of the
    exception and returns None; if the console rejects that line, the
    exception of [console.print] leaves the call instead. In each case the
    agent is not run and nothing is written. When the set-up returned None
    and the task has no result file, the child process reports a record
    whose answer, response and error are all None and whose timeout flag
    is false, and the record is not a valid result. When an exception left
    the set-up, the child ends before it reports anything if the exception
    does not derive from [Exception]; otherwise it reports a record with
    the message of the exception as error and None as answer and
    response, which is not a valid result either. *)
Theorem X12_setup_failure_record (rt : PyRuntime) (env : Inference.Env)
    (fs : gmap string Entry) (example : Example) (ids : ModelIds)
    (output_dir : string)
    (Hnofile : fs !! Batch.result_path output_dir example.(instance_id) = None) :
  let id := Some example.(instance_id) in
  let stage := Inference.setup env example.(query) ids id in
  let run := Inference.run_inference rt env fs example.(query) ids output_dir id in
  let out := Recovery._run_single_task_in_process rt env fs example ids output_dir in
  let after_report (text : string) :=
    match env.(Inference.console_print) text with
    | Some e' => Raise e'
    | None => Ok None
    end in
  (Forall (Inference.accepts env) (Inference.opening_texts example.(query) id) ->
   (Inference.given env.(Inference.api_key) = false ->
    stage = after_report (Inference.no_key_text env)) /\
   (Inference.given env.(Inference.api_key) = true ->
    Forall (Inference.accepts env) (Inference.model_texts env ids id) ->
    (forall e, env.(Inference.create_model_instances) = Some e ->
       stage = if e.(exc_is_Exception)
               then after_report (Inference.models_error_text e)
               else Raise e) /\
    (env.(Inference.create_model_instances) = None ->
     Inference.accepts env (Inference.models_created_text id) ->
     env.(Inference.clear_database_tables) = None ->
     Forall (Inference.accepts env) (Inference.team_texts env id) ->
     forall e, env.(Inference.create_agent_team) = Raise e ->
       stage = if e.(exc_is_Exception)
               then after_report (Inference.team_error_text id e)
               else Raise e))) /\
  (stage = Ok None ->
   run = (Ok PNone, fs) /\
   out.2 = fs /\
   exists d,
     out.1 = Ok (PDict d) /\
     Recovery.get d "instance_id" = PStr example.(instance_id) /\
     Recovery.get d "answer" = PNone /\
     Recovery.get d "response" = PNone /\
     Recovery.get d "error" = PNone /\
     Recovery.get d "timeout" = PBool false /\
     Recovery.is_result_valid rt d = false) /\
  (forall e, stage = Raise e ->
     run = (Raise e, fs) /\
     (e.(exc_is_Exception) = false -> out = (Raise e, fs)) /\
     (e.(exc_is_Exception) = true ->
      out.2 = fs /\
      exists d,
        out.1 = Ok (PDict d) /\
        Recovery.get d "instance_id" = PStr example.(instance_id) /\
        Recovery.get d "answer" = PNone /\
        Recovery.get d "response" = PNone /\
        Recovery.get d "error" = PStr e.(exc_str) /\
        Recovery.get d "timeout" = PBool false /\
        Recovery.is_result_valid rt d = false)).
Proof.
  cbv zeta. split; [|split].
  - intros Hopen. apply print_all_ok in Hopen. unfold Inference.setup.
    rewrite Hopen. cbn [mbind result_bind]. split.
    + intros ->. cbn [negb]. unfold Inference.print.
      destruct (Inference.console_print env _); reflexivity.
    + intros -> Hmodels. cbn [negb]. apply print_all_ok in Hmodels.
      unfold Inference.create_models. rewrite Hmodels. cbn [mbind result_bind].
      split.
      * intros e ->. cbn [mbind result_bind].
        destruct (exc_is_Exception e); [|reflexivity]. unfold Inference.print.
        destruct (Inference.console_print env _); reflexivity.
      * intros -> Hcreated -> Hteam e ->. cbn [mbind result_bind].
        rewrite (print_accepts _ _ Hcreated). apply print_all_ok in Hteam.
        rewrite Hteam. cbn [mbind result_bind].
        destruct (exc_is_Exception e); [|reflexivity]. unfold Inference.print.
        destruct (Inference.console_print env _); reflexivity.
  - intros Hstage.
    assert (Hrun : Inference.run_inference rt env fs example.(query) ids output_dir
                     (Some example.(instance_id)) = (Ok PNone, fs))
      by (unfold Inference.run_inference; rewrite Hstage; reflexivity).
    split; [exact Hrun|].
    apply (child_of_None rt env fs example ids output_dir Hrun Hnofile).
  - intros e Hstage.
    assert (Hrun : Inference.run_inference rt env fs example.(query) ids output_dir
                     (Some example.(instance_id)) = (Raise e, fs))
      by (unfold Inference.run_inference; rewrite Hstage; reflexivity).
    split; [exact Hrun|].
    apply (child_of_raise rt env fs fs example ids output_dir e Hrun).
Qed.

Lemma X12_setup_failure_record_witness :
  let child env :=
    (Recovery._run_single_task_in_process Sample.runtime env ∅ Sample.example
       Sample.ids "out").1 in
  (exists d, child Sample.no_key = Ok (PDict d) /\
     Recovery.get d "answer" = PNone /\ Recovery.get d "error" = PNone) /\
  (exists d, child Sample.no_models = Ok (PDict d) /\
     Recovery.get d "answer" = PNone /\ Recovery.get d "error" = PNone) /\
  (exists d, child Sample.unprintable_setup = Ok (PDict d) /\
     Recovery.get d "answer" = PNone /\
     Recovery.get d "error" = PStr Sample.MarkupError.(exc_str)).
Proof.
  cbv zeta.
  assert (Hopen : forall env, Inference.console_print env = Sample.console ->
            Forall (Inference.accepts env)
              (Inference.opening_texts Sample.example.(query)
                 (Some Sample.example.(instance_id)))).
  { intros env Hc. unfold Inference.accepts. rewrite Hc. repeat constructor. }
  split; [|split].
  - destruct (X12_setup_failure_record Sample.runtime Sample.no_key ∅ Sample.example
                Sample.ids "out" (lookup_empty _)) as (Hstage & Hnone & _).
    destruct (Hstage (Hopen Sample.no_key eq_refl)) as [Hkey _].
    destruct (Hnone (Hkey eq_refl)) as (_ & _ & d & Hd & _ & Hanswer & _ & Herror & _).
    exists d. auto.
  - destruct (X12_setup_failure_record Sample.runtime Sample.no_models ∅ Sample.example
                Sample.ids "out" (lookup_empty _)) as (Hstage & Hnone & _).
    destruct (Hstage (Hopen Sample.no_models eq_refl)) as [_ Hkey].
    destruct (Hkey eq_refl ltac:(repeat constructor)) as [Hmodels _].
    destruct (Hnone (Hmodels _ eq_refl))
      as (_ & _ & d & Hd & _ & Hanswer & _ & Herror & _).
    exists d. auto.
  - destruct (X12_setup_failure_record Sample.runtime Sample.unprintable_setup ∅
                Sample.example Sample.ids "out" (lookup_empty _))
      as (Hstage & _ & Hraise).
    destruct (Hstage (Hopen Sample.unprintable_setup eq_refl)) as [_ Hkey].
    destruct (Hkey eq_refl ltac:(repeat constructor)) as [_ Hteam].
    destruct (Hraise Sample.MarkupError
                (Hteam eq_refl eq_refl eq_refl ltac:(repeat constructor) _ eq_refl))
      as (_ & _ & Hexc).
    destruct (Hexc eq_refl) as (_ & d & Hd & _ & Hanswer & _ & Herror & _).
    exists d. auto.
Defined.

(** X13. A failed agent run is reported in the answer, not in the error
    field. The agent team exists, the console accepts the "Running agent"
    line, the agent raises an [Exception] with message [msg] and the task
    has no result file. No file is written. When the console accepts the
    two lines that report the exception and nothing raises in the
    [finally] clause, [run_inference] returns "Error: msg" and the record
    that the child process reports has "Error: msg" as its answer and as
    its response, error None and timeout false. When the console rejects
    one of the two lines (the second holds [msg]) and nothing raises in
    the [finally] clause, [run_inference] returns None and the record has
    None as answer, response and error. When an exception leaves
    [run_inference], the child ends before it reports if the exception
    does not derive from [Exception], and otherwise reports a record with
    the message of that exception as error and None as answer and
    response. None of these records is a valid result. *)
Theorem X13_agent_failure_record (rt : PyRuntime) (env : Inference.Env)
    (fs : gmap string Entry) (example : Example) (ids : ModelIds)
    (output_dir : string) (counter : option GlobalManagedAgentCounter.t) (e : PyExc)
    (Hsetup : Inference.setup env example.(query) ids (Some example.(instance_id))
              = Ok (Some counter))
    (Hrunning : Inference.accepts env
                  (Inference.running_text (Some example.(instance_id))))
    (Hraise : env.(Inference.agent_run) (Inference.augmented_question example.(query))
              = Raise e)
    (He : e.(exc_is_Exception) = true)
    (Hnofile : fs !! Batch.result_path output_dir example.(instance_id) = None) :
  let id := Some example.(instance_id) in
  let run := Inference.run_inference rt env fs example.(query) ids output_dir id in
  let out := Recovery._run_single_task_in_process rt env fs example ids output_dir in
  let reports (answer error : pyval) :=
    out.2 = fs /\
    exists d,
      out.1 = Ok (PDict d) /\
      Recovery.get d "answer" = answer /\
      Recovery.get d "response" = answer /\
      Recovery.get d "error" = error /\
      Recovery.get d "timeout" = PBool false /\
      Recovery.is_result_valid rt d = false in
  run.2 = fs /\
  (Forall (Inference.accepts env) (Inference.error_texts id e) ->
   Inference.finally_quiet rt env output_dir id (PStr ("Error: " +:+ e.(exc_str))) ->
   run.1 = Ok (PStr ("Error: " +:+ e.(exc_str))) /\
   reports (PStr ("Error: " +:+ e.(exc_str))) PNone) /\
  (~ Forall (Inference.accepts env) (Inference.error_texts id e) ->
   Inference.finally_quiet rt env output_dir id PNone ->
   run.1 = Ok PNone /\ reports PNone PNone) /\
  (forall e', run.1 = Raise e' ->
     if e'.(exc_is_Exception) then reports PNone (PStr e'.(exc_str))
     else out = (Raise e', fs)).
Proof.
  cbv zeta.
  set (id := Some example.(instance_id)) in *.
  assert (Hrun := run_inference_unfold rt env fs example.(query) ids output_dir id
                    counter Hsetup).
  pose proof (finish_cases rt env fs example.(query) ids output_dir id counter
                (Inference.output_of env example.(query) id).1) as Hfinish.
  cbv zeta in Hfinish. rewrite <- Hrun in Hfinish.
  unfold Inference.written in Hfinish.
  rewrite (output_of_raise_not_saved rt env _ id e Hraise) in Hfinish.
  assert (Hfs : (Inference.run_inference rt env fs example.(query) ids output_dir id).2
                = fs).
  { destruct Hfinish as [[_ ->]|(_ & e' & _ & [H|H] & _)];
      [reflexivity|exact H|exact H]. }
  assert (Hreturned : forall output,
            (Inference.output_of env example.(query) id).1 = output ->
            Inference.finally_quiet rt env output_dir id output ->
            Inference.run_inference rt env fs example.(query) ids output_dir id
            = (Ok output, fs)).
  { intros output Ho Hq. rewrite Ho in Hfinish.
    destruct Hfinish as [[_ H]|[Hn _]]; [exact H|contradiction]. }
  split; [exact Hfs|]. split; [|split].
  - intros Hrep Hq.
    assert (Hout := Hreturned _
              (f_equal fst (output_of_reported env _ id e Hrunning Hraise He Hrep)) Hq).
    split; [rewrite Hout; reflexivity|].
    unfold Recovery._run_single_task_in_process. fold id.
    rewrite Hout, Hnofile. cbn [truthy fst snd]. split; [reflexivity|].
    eexists. split; [reflexivity|]. repeat split.
  - intros Hrep Hq.
    assert (Hout := Hreturned _
              (output_of_unreported env _ id e Hrunning Hraise He Hrep) Hq).
    split; [rewrite Hout; reflexivity|].
    destruct (child_of_None rt env fs example ids output_dir Hout Hnofile)
      as (H2 & d & Hd & _ & Hrest).
    split; [exact H2|]. exists d. split; [exact Hd|exact Hrest].
  - intros e' He'.
    assert (Hout : Inference.run_inference rt env fs example.(query) ids output_dir id
                   = (Raise e', fs)).
    { destruct (Inference.run_inference rt env fs _ ids output_dir id) as [r fs'].
      cbn [fst snd] in He', Hfs. subst. reflexivity. }
    destruct (child_of_raise rt env fs fs example ids output_dir e' Hout) as [Hn Hy].
    destruct (exc_is_Exception e'); [|apply Hn; reflexivity].
    destruct (Hy eq_refl) as (H2 & d & Hd & _ & Hrest).
    split; [exact H2|]. exists d. split; [exact Hd|exact Hrest].
Qed.

Lemma X13_agent_failure_record_witness :
  let child env :=
    (Recovery._run_single_task_in_process Sample.runtime env ∅ Sample.example
       Sample.ids "out").1 in
  (exists d, child Sample.failing_run = Ok (PDict d) /\
     Recovery.get d "answer" = PStr "Error: reset by peer" /\
     Recovery.get d "error" = PNone) /\
  (exists d, child Sample.unprintable_failure = Ok (PDict d) /\
     Recovery.get d "answer" = PNone /\
     Recovery.get d "error" = PNone).
Proof.
  cbv zeta.
  assert (Hsetup : forall outcome,
            Inference.setup (Sample.run_with outcome) Sample.example.(query)
              Sample.ids (Some Sample.example.(instance_id)) = Ok (Some None))
    by (intros outcome; vm_compute; reflexivity).
  split.
  - destruct (X13_agent_failure_record Sample.runtime Sample.failing_run ∅
                Sample.example Sample.ids "out" None
                (MkExc "ConnectionError" true "reset by peer")
                (Hsetup _) eq_refl eq_refl eq_refl (lookup_empty _))
      as (_ & Hreported & _).
    destruct (Hreported ltac:(repeat constructor)
                ltac:(split; [intros e He; discriminate He|repeat constructor]))
      as (_ & _ & d & Hd & Hanswer & _ & Herror & _).
    exists d. auto.
  - destruct (X13_agent_failure_record Sample.runtime Sample.unprintable_failure ∅
                Sample.example Sample.ids "out" None
                (MkExc "ValueError" true "bad [/x] tag")
                (Hsetup _) eq_refl eq_refl eq_refl (lookup_empty _))
      as (_ & _ & Hunreported & _).
    assert (Hnot : ~ Forall (Inference.accepts Sample.unprintable_failure)
                     (Inference.error_texts (Some Sample.example.(instance_id))
                        (MkExc "ValueError" true "bad [/x] tag"))).
    { intros Hall. apply Forall_cons in Hall as [_ Hall].
      apply Forall_cons in Hall as [Hall _]. discriminate Hall. }
    destruct (Hunreported Hnot
                ltac:(split; [intros e He; discriminate He|repeat constructor]))
      as (_ & _ & d & Hd & Hanswer & _ & Herror & _).
    exists d. auto.
Defined.

(** X14. An older result file hides a run that saved nothing. When
    [run_inference] returns without writing (the agent failed, or its
    output was empty or an error text) and the result file of the task
    already holds a non-empty dictionary, the child process reports that
    older dictionary, with query, error (None) and timeout (false) set and
    every other entry as in the file: the answer reported is the old one,
    not the outcome of this run. *)
Theorem X14_stale_result_file (rt : PyRuntime) (env : Inference.Env)
    (fs : gmap string Entry) (example : Example) (ids : ModelIds)
    (output_dir : string) (output : pyval) (content : string)
    (old : list (string * pyval))
    (Hrun : Inference.run_inference rt env fs example.(query) ids output_dir
              (Some example.(instance_id)) = (Ok output, fs))
    (Hfile : fs !! Batch.result_path output_dir example.(instance_id)
             = Some (File content))
    (Hload : rt.(json_loads) content = Ok (PDict old))
    (Hold : old <> []) :
  let out := Recovery._run_single_task_in_process rt env fs example ids output_dir in
  out.2 = fs /\
  exists d,
    out.1 = Ok (PDict d) /\
    Recovery.get d "query" = PStr example.(query) /\
    Recovery.get d "error" = PNone /\
    Recovery.get d "timeout" = PBool false /\
    (forall key, key <> "query"%string -> key <> "error"%string ->
       key <> "timeout"%string -> Recovery.get d key = Recovery.get old key) /\
    checked_answer d = checked_answer old.
Proof.
  cbv zeta. unfold Recovery._run_single_task_in_process. rewrite Hrun, Hfile, Hload.
  assert (Ht : truthy (PDict old) = true) by (destruct old; [contradiction|reflexivity]).
  rewrite Ht. cbn [fst snd]. split; [reflexivity|].
  eexists. split; [reflexivity|].
  assert (Hkeep : forall key, key <> "query"%string -> key <> "error"%string ->
            key <> "timeout"%string ->
            Recovery.get
              (PyDict.set (PyDict.set (PyDict.set old "query" (PStr example.(query)))
                             "error" PNone) "timeout" (PBool false)) key
            = Recovery.get old key).
  { intros key H1 H2 H3. rewrite !get_set_ne by congruence. reflexivity. }
  split; [rewrite !get_set_ne by discriminate; apply get_set_eq|].
  split; [rewrite get_set_ne by discriminate; apply get_set_eq|].
  split; [apply get_set_eq|]. split; [exact Hkeep|].
  unfold checked_answer. rewrite !Hkeep by discriminate. reflexivity.
Qed.

Lemma X14_stale_result_file_witness :
  let fs : gmap string Entry := {[ "out/ws_001.json"%string := File "interrupted" ]} in
  let out := Recovery._run_single_task_in_process Sample.runtime Sample.failing_run fs
               Sample.example Sample.ids "out" in
  exists d, out.1 = Ok (PDict d) /\ checked_answer d = PStr "Action: search".
Proof.
  cbv zeta.
  destruct (X14_stale_result_file Sample.runtime Sample.failing_run
              {[ "out/ws_001.json"%string := File "interrupted" ]}
              Sample.example Sample.ids "out" (PStr "Error: reset by peer")
              "interrupted" [("answer", PStr "Action: search")]%string
              ltac:(reflexivity) ltac:(reflexivity) eq_refl ltac:(discriminate))
    as (_ & d & Hout & _ & _ & _ & _ & Hanswer).
  exists d. split; [exact Hout|]. rewrite Hanswer. reflexivity.
Defined.



(* --------------------------------------------------------------------- *)
(** ** Validity of a result and post-processing                           *)
(* --------------------------------------------------------------------- *)

(** X16. A result is valid exactly when it carries no error, no timeout,
    and would count as completed once stored: for a result file that holds
    the dictionary [d], [is_result_valid] of [d] is the conjunction of "error
    is falsy", "timeout is falsy" and the completed-task check on the file.
    So every valid result is skipped by the next batch, and a stored result
    can count as completed without being valid only if it records an error
    or a timeout. *)
Theorem X16_valid_result_is_complete (rt : PyRuntime) (fs : gmap string Entry)
    (task output_dir content : string) (d : list (string * pyval))
    (Hfile : fs !! Batch.result_path output_dir task = Some (File content))
    (Hload : rt.(json_loads) content = Ok (PDict d)) :
  let completed := Batch.is_task_completed rt fs task output_dir in
  Recovery.is_result_valid rt d =
    negb (truthy (Recovery.get d "error"))
    && negb (truthy (Recovery.get d "timeout"))
    && completed /\
  (Recovery.is_result_valid rt d = true -> completed = true) /\
  (completed = true -> Recovery.is_result_valid rt d = false ->
   truthy (Recovery.get d "error") = true \/ truthy (Recovery.get d "timeout") = true).
Proof.
  cbv zeta.
  rewrite (is_task_completed_loaded rt fs task output_dir content d Hfile Hload).
  rewrite is_result_valid_spec. split; [reflexivity|]. split.
  - intros H. apply andb_true_iff in H as [_ H]. exact H.
  - intros Hc. rewrite Hc, andb_true_r.
    destruct (truthy (Recovery.get d "error")); [auto|].
    destruct (truthy (Recovery.get d "timeout")); [auto|discriminate].
Qed.

Lemma X16_valid_result_is_complete_witness :
  let fs : gmap string Entry := {[ "out/ws_001.json"%string := File "good" ]} in
  Recovery.is_result_valid Sample.runtime [("answer", PStr "| a | b |")]%string = true /\
  Batch.is_task_completed Sample.runtime fs "ws_001" "out" = true.
Proof.
  cbv zeta.
  assert (Hfile : ({[ "out/ws_001.json"%string := File "good" ]} : gmap string Entry)
                    !! Batch.result_path "out" "ws_001" = Some (File "good"))
    by (vm_compute; reflexivity).
  destruct (X16_valid_result_is_complete Sample.runtime _ "ws_001" "out" "good"
              [("answer", PStr "| a | b |")]%string Hfile eq_refl) as (_ & Himp & _).
  assert (Hvalid : Recovery.is_result_valid Sample.runtime
                     [("answer", PStr "| a | b |")]%string = true)
    by (vm_compute; reflexivity).
  split; [exact Hvalid|exact (Himp Hvalid)].
Defined.

Section PostprocessFacts.
Import Recovery.

Lemma postprocess_unfold rt db fs r output_dir name :
  get r "instance_id" = PStr name -> name <> ""%string ->
  is_result_valid rt r = false ->
  postprocess_result rt db fs r output_dir =
    if has_api_error_in_log fs output_dir name then
      let r' := PyDict.set (PyDict.set (PyDict.set (PyDict.set r
                  "answer" (PStr "")) "response" (PStr ""))
                  "api_error" (PBool true)) "skip_recovery" (PBool true) in
      (Ok r', <[Batch.result_path output_dir name :=
                  File (rt.(json_dumps) (PDict r'))]> fs)
    else
      match get_tables_for_task db name with
      | [] => (Ok r, fs)
      | tables =>
          let final_result :=
            "```markdown" +:+ nl +:+ tables_to_markdown rt tables +:+ nl +:+ "```" in
          let r' := PyDict.set (PyDict.set (PyDict.set (PyDict.set (PyDict.set
                      (PyDict.set r "answer" (PStr final_result))
                      "response" (PStr final_result))
                      "recovered_from_tables" (PBool true))
                      "recovered_tables_count" (PInt (Z.of_nat (length tables))))
                      "original_error" (get r "error"))
                      "error" PNone in
          (Ok r', <[Batch.result_path output_dir name :=
                      File (rt.(json_dumps) (PDict r'))]> fs)
      end.
Proof.
  intros Hid Hname Hinvalid. unfold postprocess_result.
  rewrite Hid, Hinvalid. cbn [truthy path_part py_str].
  destruct (String.eqb_spec name "") as [?|_]; [contradiction|]. cbn [negb].
  destruct (has_api_error_in_log fs output_dir name); [reflexivity|].
  destruct (get_tables_for_task db name) as [|t tables]; [reflexivity|].
  cbv zeta. rewrite !get_set_ne by discriminate. reflexivity.
Qed.
End PostprocessFacts.

(** X17. What [postprocess_result] leaves alone. A result without an
    instance id, and a valid result, are returned as they are and nothing is
    written. For any result, the task's own result file is the only path
    that can change. An invalid result whose log shows no API error and for
    which the database gives no table (none with the task's prefix, or the
    connection fails) is returned as it is as well. *)
Theorem X17_postprocess_leaves_alone (rt : PyRuntime) (db : Database)
    (fs : gmap string Entry) (r : list (string * pyval)) (output_dir : string) :
  let out := Recovery.postprocess_result rt db fs r output_dir in
  (truthy (Recovery.get r "instance_id") = false \/ Recovery.is_result_valid rt r = true ->
   out = (Ok r, fs)) /\
  (forall path,
     path <> Batch.result_path output_dir (py_str rt (Recovery.get r "instance_id")) ->
     out.2 !! path = fs !! path) /\
  (forall name,
     Recovery.get r "instance_id" = PStr name ->
     Recovery.has_api_error_in_log fs output_dir name = false ->
     Recovery.get_tables_for_task db name = [] ->
     out = (Ok r, fs)) /\
  (forall name,
     Recovery.get r "instance_id" = PStr name ->
     Recovery.has_api_error_in_log fs output_dir name = false ->
     db.(connect_raises) = true ->
     out = (Ok r, fs)).
Proof.
  cbv zeta.
  assert (Hnotab : forall name,
            Recovery.get r "instance_id" = PStr name ->
            Recovery.has_api_error_in_log fs output_dir name = false ->
            Recovery.get_tables_for_task db name = [] ->
            Recovery.postprocess_result rt db fs r output_dir = (Ok r, fs)).
  { intros name Hid Hlog Htab. unfold Recovery.postprocess_result. rewrite Hid.
    destruct (negb (truthy (PStr name))); [reflexivity|].
    destruct (Recovery.is_result_valid rt r); [reflexivity|].
    cbn [Recovery.path_part py_str]. rewrite Hlog, Htab. reflexivity. }
  split; [|split; [|split]].
  - intros [Hno|Hvalid]; unfold Recovery.postprocess_result.
    + rewrite Hno. reflexivity.
    + rewrite Hvalid. destruct (negb _); reflexivity.
  - intros path Hpath. unfold Recovery.postprocess_result.
    destruct (negb (truthy (Recovery.get r "instance_id"))); [reflexivity|].
    destruct (Recovery.is_result_valid rt r); [reflexivity|].
    destruct (Recovery.path_part (Recovery.get r "instance_id")) as [name|e];
      [|reflexivity].
    destruct (Recovery.has_api_error_in_log fs output_dir name).
    + cbn [snd]. apply lookup_insert_ne. congruence.
    + destruct (Recovery.get_tables_for_task db _); [reflexivity|].
      cbn [snd]. apply lookup_insert_ne. congruence.
  - exact Hnotab.
  - intros name Hid Hlog Hconn. apply (Hnotab name Hid Hlog).
    unfold Recovery.get_tables_for_task. rewrite Hconn. reflexivity.
Qed.

Lemma X17_postprocess_leaves_alone_witness :
  let db := {| connect_raises := true; collections := [] |} in
  let r := [("instance_id", PStr "ws_001"); ("answer", PStr "| a | b |")]%string in
  Recovery.postprocess_result Sample.runtime db ∅ r "out" = (Ok r, ∅).
Proof.
  cbv zeta.
  destruct (X17_postprocess_leaves_alone Sample.runtime
              {| connect_raises := true; collections := [] |} ∅
              [("instance_id", PStr "ws_001"); ("answer", PStr "| a | b |")]%string "out")
    as (H & _).
  apply H. right. vm_compute. reflexivity.
Defined.

(** X18. A task that failed on an API error is left empty and run again.
    For an invalid result whose instance id is the name of the task and
    whose log shows one of the API error patterns, [postprocess_result]
    does not look at the database: it sets answer and response to the empty
    text and the flags api_error and skip_recovery, keeps every other entry,
    and writes that dictionary to the task's result file. If the JSON text
    written reads back as that dictionary, the completed-task check on the
    file is false, so a later batch with skip-completed runs the task
    again. *)
Theorem X18_api_error_is_left_empty (rt : PyRuntime) (db : Database)
    (fs : gmap string Entry) (r : list (string * pyval)) (output_dir name : string)
    (Hid : Recovery.get r "instance_id" = PStr name)
    (Hname : name <> ""%string)
    (Hinvalid : Recovery.is_result_valid rt r = false)
    (Hlog : Recovery.has_api_error_in_log fs output_dir name = true) :
  let out := Recovery.postprocess_result rt db fs r output_dir in
  exists r',
    out = (Ok r', <[Batch.result_path output_dir name :=
                      File (rt.(json_dumps) (PDict r'))]> fs) /\
    Recovery.get r' "answer" = PStr "" /\
    Recovery.get r' "response" = PStr "" /\
    Recovery.get r' "api_error" = PBool true /\
    Recovery.get r' "skip_recovery" = PBool true /\
    (forall key, key <> "answer"%string -> key <> "response"%string ->
       key <> "api_error"%string -> key <> "skip_recovery"%string ->
       Recovery.get r' key = Recovery.get r key) /\
    (forall db', Recovery.postprocess_result rt db' fs r output_dir = out) /\
    (rt.(json_loads) (rt.(json_dumps) (PDict r')) = Ok (PDict r') ->
     Batch.is_task_completed rt out.2 name output_dir = false /\
     forall examples ex, ex ∈ examples -> ex.(instance_id) = name ->
       ex ∈ Batch.tasks_to_run rt out.2 output_dir true examples).
Proof.
  cbv zeta.
  pose proof (fun db0 => postprocess_unfold rt db0 fs r output_dir name Hid Hname Hinvalid)
    as Hun.
  rewrite (Hun db), Hlog. cbv zeta. eexists. split; [reflexivity|].
  split; [rewrite !get_set_ne by discriminate; apply get_set_eq|].
  split; [rewrite !get_set_ne by discriminate; apply get_set_eq|].
  split; [rewrite !get_set_ne by discriminate; apply get_set_eq|].
  split; [apply get_set_eq|].
  split; [intros key H1 H2 H3 H4; rewrite !get_set_ne by congruence; reflexivity|].
  split; [intros db'; rewrite (Hun db'), Hlog; reflexivity|].
  intros Hjson. cbn [snd].
  match goal with |- context [<[?p := File ?c]> fs] =>
    assert (Hfile : <[p := File c]> fs !! p = Some (File c)) by apply lookup_insert_eq
  end.
  match goal with |- Batch.is_task_completed rt ?fs' _ _ = false /\ _ =>
    assert (Hc : Batch.is_task_completed rt fs' name output_dir = false)
  end.
  { rewrite (is_task_completed_loaded rt _ _ _ _ _ Hfile Hjson).
    unfold acceptable_answer, checked_answer.
    rewrite !(get_set_ne _ "skip_recovery"), !(get_set_ne _ "api_error") by discriminate.
    rewrite get_set_eq, (get_set_ne _ "response" "answer"), get_set_eq by discriminate.
    reflexivity. }
  split; [exact Hc|]. intros examples ex Hin Hex. unfold Batch.tasks_to_run.
  rewrite list_elem_of_In, filter_In, <- list_elem_of_In, Hex, Hc. auto.
Qed.

Lemma X18_api_error_is_left_empty_witness :
  let out := Recovery.postprocess_result SampleRecovery.runtime SampleRecovery.database
               SampleRecovery.log_with_api_error SampleRecovery.failed_result "out" in
  out.1 = Ok SampleRecovery.blanked_result /\
  Batch.is_task_completed SampleRecovery.runtime out.2 "ws_001" "out" = false /\
  Sample.example ∈ Batch.tasks_to_run SampleRecovery.runtime out.2 "out" true [Sample.example].
Proof.
  cbv zeta.
  destruct (X18_api_error_is_left_empty SampleRecovery.runtime SampleRecovery.database
              SampleRecovery.log_with_api_error SampleRecovery.failed_result "out" "ws_001"
              eq_refl ltac:(discriminate) ltac:(vm_compute; reflexivity)
              ltac:(vm_compute; reflexivity))
    as (r' & Hout & _ & _ & _ & _ & _ & _ & Hfile).
  assert (Hr' : r' = SampleRecovery.blanked_result).
  { assert (H : (Recovery.postprocess_result SampleRecovery.runtime SampleRecovery.database
                   SampleRecovery.log_with_api_error SampleRecovery.failed_result "out").1
                = Ok SampleRecovery.blanked_result) by (vm_compute; reflexivity).
    rewrite Hout in H. cbn [fst] in H. congruence. }
  subst r'. destruct (Hfile eq_refl) as [Hc Hrun].
  split; [rewrite Hout; reflexivity|]. split; [exact Hc|].
  apply (Hrun [Sample.example] Sample.example); [apply list_elem_of_here|reflexivity].
Defined.

(** X19. Recovery from the task's tables. For an invalid result whose
    instance id is the name of the task, whose log shows no API error and
    for which the database holds at least one table of the task,
    [postprocess_result] sets answer and response to the tables' markdown
    inside a markdown fence, records that and the number of tables, moves
    the old error to original_error and clears error, keeps every other
    entry (the timeout mark included) and writes the dictionary to the
    task's result file. In the statistics of the batch the recovered result
    counts as completed and not as an error, and still as a timeout if it
    was one; it is valid exactly when it was no timeout and the recovered
    text holds none of the tool patterns. *)
Theorem X19_recovery_from_tables (rt : PyRuntime) (db : Database)
    (fs : gmap string Entry) (r : list (string * pyval)) (output_dir name : string)
    (Hid : Recovery.get r "instance_id" = PStr name)
    (Hname : name <> ""%string)
    (Hinvalid : Recovery.is_result_valid rt r = false)
    (Hlog : Recovery.has_api_error_in_log fs output_dir name = false)
    (Htables : Recovery.get_tables_for_task db name <> []) :
  let tables := Recovery.get_tables_for_task db name in
  let text := "```markdown" +:+ nl +:+ Recovery.tables_to_markdown rt tables
                +:+ nl +:+ "```" in
  let out := Recovery.postprocess_result rt db fs r output_dir in
  exists r',
    out = (Ok r', <[Batch.result_path output_dir name :=
                      File (rt.(json_dumps) (PDict r'))]> fs) /\
    Recovery.get r' "answer" = PStr text /\
    Recovery.get r' "response" = PStr text /\
    Recovery.get r' "recovered_from_tables" = PBool true /\
    Recovery.get r' "recovered_tables_count" = PInt (Z.of_nat (length tables)) /\
    Recovery.get r' "original_error" = Recovery.get r "error" /\
    Recovery.get r' "error" = PNone /\
    (forall key, key <> "answer"%string -> key <> "response"%string ->
       key <> "recovered_from_tables"%string -> key <> "recovered_tables_count"%string ->
       key <> "original_error"%string -> key <> "error"%string ->
       Recovery.get r' key = Recovery.get r key) /\
    Recovery.completed_count [r'] = 1%nat /\
    Recovery.error_count [r'] = 0%nat /\
    Recovery.timeout_count [r'] = Recovery.timeout_count [r] /\
    Recovery.is_result_valid rt r' =
      negb (truthy (Recovery.get r "timeout"))
      && negb (Batch.contains_tool_tags rt (PStr text)).
Proof.
  cbv zeta.
  rewrite (postprocess_unfold rt db fs r output_dir name Hid Hname Hinvalid), Hlog.
  destruct (Recovery.get_tables_for_task db name) as [|t tables] eqn:Htab;
    [contradiction|].
  cbv zeta. eexists. split; [reflexivity|].
  match goal with |- Recovery.get ?d _ = _ /\ _ => set (r' := d) end.
  set (text := "```markdown" +:+ nl +:+ Recovery.tables_to_markdown rt (t :: tables)
                 +:+ nl +:+ "```").
  assert (Hanswer : Recovery.get r' "answer" = PStr text).
  { subst r'. rewrite !get_set_ne by discriminate. apply get_set_eq. }
  assert (Hresponse : Recovery.get r' "response" = PStr text).
  { subst r'. rewrite !get_set_ne by discriminate. apply get_set_eq. }
  assert (Herror : Recovery.get r' "error" = PNone).
  { subst r'. apply get_set_eq. }
  assert (Hframe : forall key, key <> "answer"%string -> key <> "response"%string ->
            key <> "recovered_from_tables"%string ->
            key <> "recovered_tables_count"%string ->
            key <> "original_error"%string -> key <> "error"%string ->
            Recovery.get r' key = Recovery.get r key).
  { intros key H1 H2 H3 H4 H5 H6. subst r'. rewrite !get_set_ne by congruence.
    reflexivity. }
  assert (Htruthy : truthy (PStr text) = true) by reflexivity.
  split; [exact Hanswer|]. split; [exact Hresponse|].
  split; [subst r'; rewrite !get_set_ne by discriminate; apply get_set_eq|].
  split; [subst r'; rewrite !get_set_ne by discriminate; apply get_set_eq|].
  split; [subst r'; rewrite !get_set_ne by discriminate; apply get_set_eq|].
  split; [exact Herror|]. split; [exact Hframe|].
  split.
  { unfold Recovery.completed_count. cbn [List.filter].
    rewrite Hresponse, Htruthy, Htruthy, Herror. reflexivity. }
  split.
  { unfold Recovery.error_count. cbn [List.filter]. rewrite Herror. reflexivity. }
  split.
  { unfold Recovery.timeout_count. cbn [List.filter].
    rewrite (Hframe "timeout"%string) by discriminate.
    destruct (truthy (Recovery.get r "timeout")); reflexivity. }
  unfold Recovery.is_result_valid.
  rewrite Herror, Hanswer, Htruthy, (Hframe "timeout"%string) by discriminate.
  cbn [truthy negb py_str].
  destruct (truthy (Recovery.get r "timeout")); [reflexivity|].
  assert (Hprefix : String.prefix "Error:" text = false) by reflexivity.
  rewrite Hprefix. cbn [negb andb].
  destruct (Batch.contains_tool_tags rt (PStr text)); reflexivity.
Qed.

Lemma X19_recovery_from_tables_witness :
  let out := Recovery.postprocess_result Sample.runtime SampleRecovery.database ∅
               SampleRecovery.failed_result "out" in
  exists r',
    out.1 = Ok r' /\
    Recovery.get r' "recovered_tables_count" = PInt 1 /\
    Recovery.get r' "original_error" = PStr "reset by peer" /\
    Recovery.is_result_valid Sample.runtime r' = true.
Proof.
  cbv zeta.
  destruct (X19_recovery_from_tables Sample.runtime SampleRecovery.database ∅
              SampleRecovery.failed_result "out" "ws_001"
              eq_refl ltac:(discriminate) ltac:(vm_compute; reflexivity)
              ltac:(vm_compute; reflexivity) ltac:(vm_compute; discriminate))
    as (r' & Hout & _ & _ & _ & Hcount & Horig & _ & _ & _ & _ & _ & Hvalid).
  exists r'. split; [rewrite Hout; reflexivity|].
  split; [rewrite Hcount; vm_compute; reflexivity|].
  split; [rewrite Horig; reflexivity|].
  rewrite Hvalid. vm_compute. reflexivity.
Defined.

(* --------------------------------------------------------------------- *)
(** ** The recovered tables                                               *)
(* --------------------------------------------------------------------- *)

Section TableText.
Import Text.

Lemma has_char_app c s t : has_char c (s +:+ t) = has_char c s || has_char c t.
Proof.
  induction s as [|a s IH]; [reflexivity|].
  change (String a s +:+ t) with (String a (s +:+ t)).
  cbn [has_char]. rewrite IH, orb_assoc. reflexivity.
Qed.

Lemma has_char_replace_other c old new s :
  has_char c s = false -> has_char c new = false ->
  has_char c (replace_char old new s) = false.
Proof.
  intros Hs Hn. induction s as [|a s IH]; cbn [has_char replace_char] in *;
    [reflexivity|].
  apply orb_false_iff in Hs as [Ha Hs]. destruct (Ascii.eqb a old).
  - rewrite has_char_app, Hn, IH by exact Hs. reflexivity.
  - cbn [has_char]. rewrite Ha, IH by exact Hs. reflexivity.
Qed.

Lemma has_char_replace_same c new s :
  has_char c new = false -> has_char c (replace_char c new s) = false.
Proof.
  intros Hn. induction s as [|a s IH]; cbn [has_char replace_char]; [reflexivity|].
  destruct (Ascii.eqb a c) eqn:E.
  - rewrite has_char_app, Hn, IH. reflexivity.
  - cbn [has_char]. rewrite E, IH. reflexivity.
Qed.

Lemma has_char_take c s : forall n,
  has_char c s = false -> has_char c (take n s) = false.
Proof.
  induction s as [|a s IH]; intros n Hs; cbn [has_char take] in *; [reflexivity|].
  apply orb_false_iff in Hs as [Ha Hs]. destruct (is_continuation a).
  - cbn [has_char]. rewrite Ha, IH by exact Hs. reflexivity.
  - destruct n; [reflexivity|]. cbn [has_char]. rewrite Ha, IH by exact Hs.
    reflexivity.
Qed.

Lemma has_char_join c sep parts :
  has_char c sep = false -> (forall p, p ∈ parts -> has_char c p = false) ->
  has_char c (join sep parts) = false.
Proof.
  intros Hsep. induction parts as [|p parts IH]; intros Hparts; [reflexivity|].
  destruct parts as [|q parts]; [apply Hparts, list_elem_of_here|].
  change (join sep (p :: q :: parts)) with (p +:+ sep +:+ join sep (q :: parts)).
  rewrite !has_char_app, Hsep, (Hparts p) by apply list_elem_of_here.
  apply IH. intros p' Hp'. apply Hparts, list_elem_of_further, Hp'.
Qed.

Lemma len_app s t : len (s +:+ t) = (len s + len t)%nat.
Proof.
  induction s as [|a s IH]; [reflexivity|].
  change (String a s +:+ t) with (String a (s +:+ t)). cbn [len].
  destruct (is_continuation a); rewrite IH; reflexivity.
Qed.

Lemma len_take s : forall n, (len (take n s) <= n)%nat.
Proof.
  induction s as [|a s IH]; intros n; cbn [take len]; [lia|].
  destruct (is_continuation a) eqn:E.
  - cbn [len]. rewrite E. apply IH.
  - destruct n; cbn [len]; [lia|]. rewrite E. specialize (IH n). lia.
Qed.

Lemma pipes_weaken s :
  unescaped_pipes_from false s = O -> forall b, unescaped_pipes_from b s = O.
Proof.
  destruct s as [|a s]; cbn; intros H b; [reflexivity|].
  destruct (Ascii.eqb a "|"), b; cbn in *; lia.
Qed.

Lemma pipes_escape s : forall b,
  unescaped_pipes_from b (replace_char "|" (String (ascii_of_nat 92) "|") s) = O.
Proof.
  induction s as [|a s IH]; intros b; cbn [replace_char]; [reflexivity|].
  destruct (Ascii.eqb a "|") eqn:E.
  - cbn. apply IH.
  - cbn [unescaped_pipes_from]. rewrite E, IH. reflexivity.
Qed.

Lemma pipes_replace_newline s : forall b,
  unescaped_pipes_from b s = O ->
  unescaped_pipes_from b (replace_char (ascii_of_nat 10) " " s) = O.
Proof.
  induction s as [|a s IH]; intros b H; cbn [replace_char]; [reflexivity|].
  destruct (Ascii.eqb a (ascii_of_nat 10)) eqn:E.
  - apply Ascii.eqb_eq in E. subst a. cbn in H. cbn. apply IH. exact H.
  - cbn [unescaped_pipes_from] in *.
    apply Nat.eq_add_0 in H as [H1 H2]. rewrite H1, IH by exact H2. reflexivity.
Qed.

Lemma pipes_remove_return s : forall b,
  unescaped_pipes_from b s = O ->
  unescaped_pipes_from b (replace_char (ascii_of_nat 13) "" s) = O.
Proof.
  induction s as [|a s IH]; intros b H; cbn [replace_char]; [reflexivity|].
  destruct (Ascii.eqb a (ascii_of_nat 13)) eqn:E.
  - apply Ascii.eqb_eq in E. subst a. cbn in H. cbn. apply IH.
    apply pipes_weaken. exact H.
  - cbn [unescaped_pipes_from] in *.
    apply Nat.eq_add_0 in H as [H1 H2]. rewrite H1, IH by exact H2. reflexivity.
Qed.

Lemma pipes_take s : forall b n,
  unescaped_pipes_from b s = O -> unescaped_pipes_from b (take n s) = O.
Proof.
  induction s as [|a s IH]; intros b n H; cbn [take]; [reflexivity|].
  cbn [unescaped_pipes_from] in H. apply Nat.eq_add_0 in H as [H1 H2].
  destruct (is_continuation a).
  - cbn [unescaped_pipes_from]. rewrite H1, IH by exact H2. reflexivity.
  - destruct n; [reflexivity|].
    cbn [unescaped_pipes_from]. rewrite H1, IH by exact H2. reflexivity.
Qed.

Lemma pipes_dots s : forall b,
  unescaped_pipes_from b s = O -> unescaped_pipes_from b (s +:+ "...") = O.
Proof.
  induction s as [|a s IH]; intros b H; [reflexivity|].
  cbn [unescaped_pipes_from] in H. apply Nat.eq_add_0 in H as [H1 H2].
  change (String a s +:+ "...") with (String a (s +:+ "...")).
  cbn [unescaped_pipes_from]. rewrite H1, IH by exact H2. reflexivity.
Qed.

(** A part without a bare pipe, then a space: the count goes on in the
    rest as from the start of a text. *)
Lemma pipes_part_space c : forall b t,
  unescaped_pipes_from b c = O ->
  unescaped_pipes_from b (c +:+ String " " t) = unescaped_pipes_from false t.
Proof.
  induction c as [|a c IH]; intros b t H; [reflexivity|].
  cbn [unescaped_pipes_from] in H. apply Nat.eq_add_0 in H as [H1 H2].
  change (String a c +:+ String " " t) with (String a (c +:+ String " " t)).
  cbn [unescaped_pipes_from]. rewrite H1, IH by exact H2. reflexivity.
Qed.

Lemma pipes_space b t :
  unescaped_pipes_from b (String " " t) = unescaped_pipes_from false t.
Proof. reflexivity. Qed.

Lemma pipes_bar t :
  unescaped_pipes_from false (String "|" t) = S (unescaped_pipes_from false t).
Proof. reflexivity. Qed.

Lemma pipes_row_tail parts :
  (forall p, p ∈ parts -> unescaped_pipes_from false p = O) ->
  unescaped_pipes_from false (join " | " parts +:+ " |") = Nat.max 1 (length parts).
Proof.
  induction parts as [|p parts IH]; intros Hparts; [reflexivity|].
  destruct parts as [|q parts].
  - cbn [join length]. rewrite pipes_part_space by (apply Hparts, list_elem_of_here).
    reflexivity.
  - change (join " | " (p :: q :: parts))
      with (p +:+ " | " +:+ join " | " (q :: parts)).
    rewrite (append_assoc p), (append_assoc " | ").
    change (" | " +:+ join " | " (q :: parts) +:+ " |")
      with (String " " (String "|" (String " " (join " | " (q :: parts) +:+ " |")))).
    rewrite pipes_part_space by (apply Hparts, list_elem_of_here).
    rewrite pipes_bar, pipes_space.
    rewrite IH by (intros p' Hp'; apply Hparts, list_elem_of_further, Hp').
    cbn [length]. lia.
Qed.

Lemma pipes_row parts :
  (forall p, p ∈ parts -> unescaped_pipes_from false p = O) ->
  unescaped_pipes ("| " +:+ join " | " parts +:+ " |")
    = S (Nat.max 1 (length parts)).
Proof.
  intros Hparts. unfold unescaped_pipes.
  change ("| " +:+ join " | " parts +:+ " |")
    with (String "|" (String " " (join " | " parts +:+ " |"))).
  rewrite pipes_bar, pipes_space, pipes_row_tail by exact Hparts. reflexivity.
Qed.

Lemma cell_facts rt record col :
  let c := Recovery.cell rt record col in
  (len c <= 200)%nat /\
  has_char (ascii_of_nat 10) c = false /\
  has_char (ascii_of_nat 13) c = false /\
  forall b, unescaped_pipes_from b c = O.
Proof.
  cbv zeta. unfold Recovery.cell.
  set (value := match default (PStr "") (PyDict.get record col) with
                | PNone => ""%string
                | _ => py_str rt (default (PStr "") (PyDict.get record col))
                end).
  set (s := replace_char (ascii_of_nat 13) ""
              (replace_char (ascii_of_nat 10) " "
                 (replace_char "|" (String (ascii_of_nat 92) "|") value))).
  assert (Hnl : has_char (ascii_of_nat 10) s = false).
  { apply has_char_replace_other; [|reflexivity].
    apply has_char_replace_same. reflexivity. }
  assert (Hcr : has_char (ascii_of_nat 13) s = false).
  { apply has_char_replace_same. reflexivity. }
  assert (Hpipes : forall b, unescaped_pipes_from b s = O).
  { intros b. apply pipes_remove_return, pipes_replace_newline, pipes_escape. }
  destruct (200 <? len s)%nat eqn:Hlong.
  - split; [rewrite len_app; change (len "...") with 3%nat;
            pose proof (len_take s 197); lia|].
    split; [rewrite has_char_app, has_char_take by exact Hnl; reflexivity|].
    split; [rewrite has_char_app, has_char_take by exact Hcr; reflexivity|].
    intros b. apply pipes_dots, pipes_take, Hpipes.
  - apply Nat.ltb_ge in Hlong. auto.
Qed.
End TableText.

(** X20. The cells of a recovered table cannot break its rows. Whatever a
    record holds, the text of a cell has at most 200 characters, no line
    feed and no carriage return, and every "|" in it comes right after a
    backslash. The lines of a table are the header, the separator, one row
    for each record and an empty line; the separator and every row hold
    exactly one more "|" without a backslash before it than there are
    columns (two when there is no column), and no row holds a line break. *)
Theorem X20_cells_cannot_break_rows (rt : PyRuntime) (t : Table) :
  let n := S (Nat.max 1 (length t.(columns))) in
  (forall record col,
     let c := Recovery.cell rt record col in
     (Text.len c <= 200)%nat /\
     has_char (ascii_of_nat 10) c = false /\
     has_char (ascii_of_nat 13) c = false /\
     forall b, unescaped_pipes_from b c = O) /\
  exists header separator rows,
    Recovery.table_lines rt t = header :: separator :: rows ++ [""%string] /\
    length rows = length t.(records) /\
    unescaped_pipes separator = n /\
    forall row, row ∈ rows ->
      unescaped_pipes row = n /\
      has_char (ascii_of_nat 10) row = false /\
      has_char (ascii_of_nat 13) row = false.
Proof.
  cbv zeta. split; [intros record col; apply cell_facts|].
  unfold Recovery.table_lines. cbv zeta. cbn [app].
  eexists _, _, _. split; [reflexivity|].
  split; [apply length_map|]. split.
  - rewrite pipes_row; [rewrite length_map; reflexivity|].
    intros p Hp. apply list_elem_of_In, in_map_iff in Hp as (? & <- & _). reflexivity.
  - intros row Hrow. apply list_elem_of_In, in_map_iff in Hrow as (record & <- & _).
    assert (Hcells : forall c (p : string),
              p ∈ map (Recovery.cell rt record) t.(columns) ->
              (c = ascii_of_nat 10 \/ c = ascii_of_nat 13) -> has_char c p = false).
    { intros c p Hp Hc. apply list_elem_of_In, in_map_iff in Hp as (col & <- & _).
      destruct (cell_facts rt record col) as (_ & Hnl & Hcr & _).
      destruct Hc as [-> | ->]; assumption. }
    split; [|split].
    + rewrite pipes_row; [rewrite length_map; reflexivity|].
      intros p Hp. apply list_elem_of_In, in_map_iff in Hp as (col & <- & _).
      apply cell_facts.
    + rewrite !has_char_app, has_char_join; [reflexivity|reflexivity|].
      intros p Hp. apply (Hcells _ p Hp). left. reflexivity.
    + rewrite !has_char_app, has_char_join; [reflexivity|reflexivity|].
      intros p Hp. apply (Hcells _ p Hp). right. reflexivity.
Qed.

Lemma X20_cells_cannot_break_rows_witness :
  let record := [("note", PStr "Phobos | Deimos")]%string in
  unescaped_pipes (Recovery.cell Sample.runtime record "note") = O /\
  exists row, row ∈ drop 2 (Recovery.table_lines Sample.runtime
                             {| full_name := "ws_001_moons"; columns := ["note"]%string;
                                records := [record]; record_count := 1 |}) /\
              unescaped_pipes row = 2%nat.
Proof.
  cbv zeta.
  destruct (X20_cells_cannot_break_rows Sample.runtime
              {| full_name := "ws_001_moons"; columns := ["note"]%string;
                 records := [[("note", PStr "Phobos | Deimos")]%string];
                 record_count := 1 |})
    as (Hcell & header & separator & rows & Hlines & Hlen & _ & Hrows).
  split; [apply Hcell|].
  rewrite Hlines. cbn [drop]. destruct rows as [|row rows]; [discriminate Hlen|].
  exists row. split; [apply list_elem_of_here|].
  apply (Hrows row), list_elem_of_here.
Defined.

(* --------------------------------------------------------------------- *)
(** ** The check of the log for API errors                                *)
(* --------------------------------------------------------------------- *)

Section LogFacts.
Import Text.

Lemma text_contains_spec sub s : contains sub s = true <-> occurs_in sub s.
Proof.
  split.
  - induction s as [|a s IH]; cbn [contains]; intros H.
    + rewrite orb_false_r in H. apply prefix_spec in H as [rest ->].
      exists ""%string, rest. reflexivity.
    + apply orb_true_iff in H as [H|H].
      * apply prefix_spec in H as [rest ->]. exists ""%string, rest. reflexivity.
      * destruct (IH H) as (pre & post & ->). exists (String a pre), post. reflexivity.
  - intros (pre & post & ->). induction pre as [|a pre IH].
    + assert (H : String.prefix sub (sub +:+ post) = true)
        by (apply prefix_spec; exists post; reflexivity).
      change ("" +:+ sub +:+ post) with (sub +:+ post).
      destruct (sub +:+ post); cbn [contains]; rewrite H; reflexivity.
    + change (String a pre +:+ sub +:+ post) with (String a (pre +:+ sub +:+ post)).
      cbn [contains]. rewrite IH. apply orb_true_r.
Qed.

Lemma string_length_app (a b : string) :
  String.length (a +:+ b) = (String.length a + String.length b)%nat.
Proof.
  induction a as [|x a IH]; [reflexivity|].
  change (String x a +:+ b) with (String x (a +:+ b)). cbn [String.length].
  rewrite IH. reflexivity.
Qed.

Lemma substring_whole (s : string) : forall n,
  (String.length s <= n)%nat -> substring 0 n s = s.
Proof.
  induction s as [|x s IH]; intros n Hn; [destruct n; reflexivity|].
  cbn [String.length] in Hn. destruct n; [lia|].
  cbn [substring]. rewrite IH by lia. reflexivity.
Qed.

Lemma substring_skip (a b : string) (n : nat) :
  substring (String.length a) n (a +:+ b) = substring 0 n b.
Proof.
  induction a as [|x a IH]; [reflexivity|].
  change (String x a +:+ b) with (String x (a +:+ b)). exact IH.
Qed.

Lemma last_bytes_short (n : nat) (s : string) :
  (String.length s <= n)%nat -> last_bytes n s = s.
Proof.
  intros Hn. unfold last_bytes.
  replace (String.length s - n)%nat with O by lia. apply substring_whole, Hn.
Qed.

Lemma last_bytes_app (n : nat) (old tail : string) :
  String.length tail = n -> last_bytes n (old +:+ tail) = tail.
Proof.
  intros Hn. unfold last_bytes.
  rewrite string_length_app, Hn, Nat.add_sub, substring_skip.
  apply substring_whole. rewrite Hn. reflexivity.
Qed.

Lemma utf8_valid_ascii (s : string) : all_ascii s = true -> utf8_valid s = true.
Proof.
  induction s as [|c s IH]; [reflexivity|]. cbn [all_ascii utf8_valid]. cbv zeta.
  intros H. apply andb_true_iff in H as [Hc Hs]. rewrite Hc. apply IH, Hs.
Qed.

Lemma utf8_valid_continuation (c : ascii) (s : string) :
  is_continuation c = true -> utf8_valid (String c s) = false.
Proof.
  unfold is_continuation. cbv zeta. intros H.
  apply andb_true_iff in H as [H1 H2].
  apply Nat.leb_le in H1. apply Nat.ltb_lt in H2.
  cbn [utf8_valid]. cbv zeta. unfold in_range. cbv zeta.
  replace (nat_of_ascii c <? 128)%nat with false by (symmetry; apply Nat.ltb_ge; lia).
  replace (194 <=? nat_of_ascii c)%nat with false by (symmetry; apply Nat.leb_gt; lia).
  replace (224 <=? nat_of_ascii c)%nat with false by (symmetry; apply Nat.leb_gt; lia).
  replace (240 <=? nat_of_ascii c)%nat with false by (symmetry; apply Nat.leb_gt; lia).
  reflexivity.
Qed.

Lemma has_api_error_file fs output_dir instance_id bytes :
  fs !! Recovery.log_path output_dir instance_id = Some (File bytes) ->
  Recovery.has_api_error_in_log fs output_dir instance_id =
    utf8_valid (last_bytes 5000 bytes)
    && existsb (fun pattern => contains pattern (last_bytes 5000 bytes))
         Recovery.api_error_patterns.
Proof.
  intros Hfs. unfold Recovery.has_api_error_in_log. rewrite Hfs. cbv zeta.
  destruct (utf8_valid (last_bytes 5000 bytes)); reflexivity.
Qed.

Lemma some_pattern_occurs (content : string) :
  existsb (fun pattern => contains pattern content) Recovery.api_error_patterns = true
  <-> exists pattern, pattern ∈ Recovery.api_error_patterns /\ occurs_in pattern content.
Proof.
  rewrite existsb_exists. split; intros (p & Hin & Hp); exists p.
  - split; [apply list_elem_of_In, Hin|apply text_contains_spec, Hp].
  - split; [apply list_elem_of_In, Hin|apply text_contains_spec, Hp].
Qed.
End LogFacts.

(** X21. What [has_api_error_in_log] sees of the log. It returns True
    exactly when the log of the task is a readable file whose last 5000
    bytes decode as UTF-8 and contain one of the fifteen error patterns
    (letter case matters). So the answer depends on the last 5000 bytes
    only: an error reported earlier in a longer log is not seen. For a log
    of at most 5000 bytes of plain ASCII the answer is whether a pattern
    occurs in the log. If the first of the last 5000 bytes lies inside a
    multi-byte character the answer is False whatever the log holds. *)
Theorem X21_api_error_detection (fs : gmap string Entry)
    (output_dir instance_id : string) :
  let path := Recovery.log_path output_dir instance_id in
  let answer := Recovery.has_api_error_in_log fs output_dir instance_id in
  (answer = true <->
   exists bytes pattern,
     fs !! path = Some (File bytes) /\
     Text.utf8_valid (Text.last_bytes 5000 bytes) = true /\
     pattern ∈ Recovery.api_error_patterns /\
     occurs_in pattern (Text.last_bytes 5000 bytes)) /\
  (forall old tail,
     fs !! path = Some (File (old +:+ tail)) -> String.length tail = 5000%nat ->
     answer = Recovery.has_api_error_in_log (<[path := File tail]> fs)
                output_dir instance_id) /\
  (forall bytes,
     fs !! path = Some (File bytes) -> (String.length bytes <= 5000)%nat ->
     all_ascii bytes = true ->
     (answer = true <->
      exists pattern, pattern ∈ Recovery.api_error_patterns /\ occurs_in pattern bytes)) /\
  (forall old c tail,
     fs !! path = Some (File (old +:+ String c tail)) ->
     String.length (String c tail) = 5000%nat ->
     Text.is_continuation c = true ->
     answer = false).
Proof.
  cbv zeta. split; [|split; [|split]].
  - split.
    + intros H. unfold Recovery.has_api_error_in_log in H.
      destruct (fs !! Recovery.log_path output_dir instance_id) as [[bytes|]|] eqn:Hfs;
        try discriminate.
      cbv zeta in H. destruct (Text.utf8_valid (Text.last_bytes 5000 bytes)) eqn:Hvalid;
        [|discriminate].
      apply some_pattern_occurs in H as (p & Hin & Hp).
      exists bytes, p. auto.
    + intros (bytes & p & Hfs & Hvalid & Hin & Hp).
      rewrite (has_api_error_file _ _ _ _ Hfs), Hvalid. cbn [andb].
      apply some_pattern_occurs. exists p. auto.
  - intros old tail Hfs Hlen.
    rewrite (has_api_error_file _ _ _ _ Hfs).
    rewrite (has_api_error_file _ _ _ tail) by apply lookup_insert_eq.
    rewrite (last_bytes_app 5000 old tail Hlen).
    rewrite (last_bytes_short 5000 tail) by (rewrite Hlen; reflexivity).
    reflexivity.
  - intros bytes Hfs Hlen Hascii.
    rewrite (has_api_error_file _ _ _ _ Hfs), (last_bytes_short 5000 bytes Hlen).
    rewrite (utf8_valid_ascii bytes Hascii). cbn [andb]. apply some_pattern_occurs.
  - intros old c tail Hfs Hlen Hcont.
    rewrite (has_api_error_file _ _ _ _ Hfs), (last_bytes_app 5000 old _ Hlen).
    rewrite (utf8_valid_continuation c tail Hcont). reflexivity.
Qed.

Lemma X21_api_error_detection_witness :
  Recovery.has_api_error_in_log SampleRecovery.log_with_api_error "out" "ws_001" = true /\
  exists pattern,
    pattern ∈ Recovery.api_error_patterns /\
    occurs_in pattern "step 1: search. APIConnectionError: Connection error.".
Proof.
  destruct (X21_api_error_detection SampleRecovery.log_with_api_error "out" "ws_001")
    as (_ & _ & Hshort & _).
  assert (Hanswer : Recovery.has_api_error_in_log SampleRecovery.log_with_api_error
                      "out" "ws_001" = true) by (vm_compute; reflexivity).
  split; [exact Hanswer|].
  apply (Hshort "step 1: search. APIConnectionError: Connection error."%string);
    [vm_compute; reflexivity
    |apply Nat.leb_le; vm_compute; reflexivity
    |vm_compute; reflexivity
    |exact Hanswer].
Defined.

(* --------------------------------------------------------------------- *)
(** ** The tables of a task                                               *)
(* --------------------------------------------------------------------- *)

Section TablesOfTask.
Import Recovery.

Lemma after_prefix_spec p : forall s,
  String.prefix p s = true -> s = p +:+ Text.after_prefix p s.
Proof.
  induction p as [|a p IH]; intros s H; [destruct s; reflexivity|].
  destruct s as [|b s]; [discriminate|]. cbn [String.prefix] in H.
  destruct (Ascii.ascii_dec a b) as [->|]; [|discriminate].
  cbn [Text.after_prefix]. change (String b p +:+ Text.after_prefix p s)
    with (String b (p +:+ Text.after_prefix p s)).
  f_equal. apply IH, H.
Qed.

Lemma collect_tables_sound prefix all cs : forall acc,
  (forall c, c ∈ cs -> c ∈ all) ->
  (forall name t, assoc name acc = Some t -> from_collection prefix all name t) ->
  forall name t, assoc name (collect_tables prefix cs acc) = Some t ->
    from_collection prefix all name t.
Proof.
  induction cs as [|c cs IH]; intros acc Hsub Hacc name t; cbn [collect_tables];
    [apply Hacc|].
  assert (Hsub' : forall c', c' ∈ cs -> c' ∈ all)
    by (intros c' Hc'; apply Hsub, list_elem_of_further, Hc').
  destruct (String.prefix "system." c.(coll_name) || String.eqb c.(coll_name) "_metadata")
    eqn:Hsys; [apply IH; assumption|].
  destruct (String.prefix prefix c.(coll_name)) eqn:Hpre; cbn [negb];
    [|apply IH; assumption].
  destruct c.(coll_raises) eqn:Hraises; [apply Hacc|].
  destruct c.(schema_columns) as [cols|] eqn:Hschema; [|apply IH; assumption].
  cbv zeta. apply IH; [assumption|].
  intros name' t'. rewrite assoc_set.
  destruct (decide (Text.after_prefix prefix c.(coll_name) = name')) as [<-|_];
    [|apply Hacc].
  intros [= <-]. exists c, cols. split; [apply Hsub, list_elem_of_here|].
  split; [unfold read_for; rewrite Hsys, Hpre; reflexivity|].
  split; [apply after_prefix_spec, Hpre|]. auto.
Qed.

Lemma collect_tables_keeps prefix cs k : forall acc,
  is_Some (assoc k acc) -> is_Some (assoc k (collect_tables prefix cs acc)).
Proof.
  induction cs as [|c cs IH]; intros acc Hk; cbn [collect_tables]; [exact Hk|].
  destruct (_ || _); [apply IH, Hk|].
  destruct (negb _); [apply IH, Hk|].
  destruct c.(coll_raises); [exact Hk|].
  destruct c.(schema_columns); [|apply IH, Hk].
  cbv zeta. apply IH. rewrite assoc_set. destruct (decide _); eauto.
Qed.

Lemma collect_tables_complete prefix cs c : forall acc,
  (forall c', c' ∈ cs -> c'.(coll_raises) = false) ->
  c ∈ cs -> read_for prefix c = true -> is_Some c.(schema_columns) ->
  is_Some (assoc (Text.after_prefix prefix c.(coll_name)) (collect_tables prefix cs acc)).
Proof.
  intros acc Hquiet Hin Hread [cols Hschema]. revert acc.
  induction cs as [|c0 cs IH]; intros acc; [inversion Hin|].
  assert (Hquiet' : forall c', c' ∈ cs -> c'.(coll_raises) = false)
    by (intros c' Hc'; apply Hquiet, list_elem_of_further, Hc').
  apply elem_of_cons in Hin as [<-|Hin].
  - unfold read_for in Hread. apply andb_true_iff in Hread as [Hsys Hpre].
    apply negb_true_iff in Hsys. cbn [collect_tables].
    rewrite Hsys, Hpre, (Hquiet c) by apply list_elem_of_here. cbn [negb].
    rewrite Hschema. cbv zeta. apply collect_tables_keeps.
    rewrite assoc_set_eq. eauto.
  - cbn [collect_tables]. rewrite (Hquiet c0) by apply list_elem_of_here.
    destruct (_ || _); [apply IH; assumption|].
    destruct (negb _); [apply IH; assumption|].
    destruct c0.(schema_columns); apply IH; assumption.
Qed.

Lemma collect_tables_stops prefix c cs2 cs1 : forall acc,
  read_for prefix c = true -> c.(coll_raises) = true ->
  collect_tables prefix (cs1 ++ c :: cs2) acc = collect_tables prefix cs1 acc.
Proof.
  intros acc Hread Hraises. revert acc.
  induction cs1 as [|c0 cs1 IH]; intros acc.
  - unfold read_for in Hread. apply andb_true_iff in Hread as [Hsys Hpre].
    apply negb_true_iff in Hsys. cbn [app collect_tables].
    rewrite Hsys, Hpre, Hraises. reflexivity.
  - cbn [app collect_tables].
    destruct (_ || _); [apply IH|].
    destruct (negb _); [apply IH|].
    destruct c0.(coll_raises); [reflexivity|].
    destruct c0.(schema_columns); apply IH.
Qed.
End TablesOfTask.

(** X22. The tables that [get_tables_for_task] returns. Every entry comes
    from a collection of the database whose name is the instance id, an
    underscore and the entry's key, that is no system or metadata
    collection and has a schema document; the entry holds that
    collection's name, columns (none when the schema has no "columns"),
    records and their number. When nothing raises, every such collection
    has an entry. When connecting raises the result is empty, and when
    reading a collection of the task raises, the result is what the
    collections listed before it gave: the ones listed after it are
    lost. *)
Theorem X22_tables_of_the_task (db : Database) (instance_id : string) :
  let prefix := instance_id +:+ "_" in
  let tables := Recovery.get_tables_for_task db instance_id in
  (db.(connect_raises) = true -> tables = []) /\
  (forall name t,
     PyDict.get tables name = Some t ->
     exists c cols,
       c ∈ db.(collections) /\ read_for prefix c = true /\
       c.(coll_name) = prefix +:+ name /\ c.(coll_raises) = false /\
       c.(schema_columns) = Some cols /\
       t = {| full_name := c.(coll_name); columns := default [] cols;
              records := c.(coll_records);
              record_count := Z.of_nat (length c.(coll_records)) |}) /\
  (db.(connect_raises) = false ->
   (forall c, c ∈ db.(collections) -> c.(coll_raises) = false) ->
   forall c, c ∈ db.(collections) -> read_for prefix c = true ->
     is_Some c.(schema_columns) ->
     is_Some (PyDict.get tables (Text.after_prefix prefix c.(coll_name)))) /\
  (forall cs1 c cs2,
     db.(collections) = cs1 ++ c :: cs2 ->
     read_for prefix c = true -> c.(coll_raises) = true ->
     tables = Recovery.get_tables_for_task
                {| connect_raises := db.(connect_raises); collections := cs1 |}
                instance_id).
Proof.
  cbv zeta. unfold Recovery.get_tables_for_task, PyDict.get.
  split; [intros ->; reflexivity|]. split; [|split].
  - intros name t. destruct db.(connect_raises); [discriminate|].
    apply (collect_tables_sound _ db.(collections)); [auto|discriminate].
  - intros -> Hquiet c Hin Hread Hschema.
    apply collect_tables_complete; assumption.
  - intros cs1 c cs2 Hcs Hread Hraises. cbn [connect_raises collections].
    destruct db.(connect_raises); [reflexivity|].
    rewrite Hcs. apply collect_tables_stops; assumption.
Qed.

Lemma X22_tables_of_the_task_witness :
  exists t,
    PyDict.get (Recovery.get_tables_for_task SampleRecovery.database "ws_001") "moons"
      = Some t /\
    t.(full_name) = "ws_001_moons"%string /\ t.(record_count) = 2.
Proof.
  destruct (X22_tables_of_the_task SampleRecovery.database "ws_001")
    as (_ & Hsound & Hall & _).
  destruct (Hall eq_refl) with (c := SampleRecovery.moons) as [t Ht].
  - intros c Hc. repeat (apply elem_of_cons in Hc as [->|Hc]); try reflexivity.
    inversion Hc.
  - apply list_elem_of_further, list_elem_of_further, list_elem_of_here.
  - reflexivity.
  - eexists. reflexivity.
  - assert (Hkey : Text.after_prefix ("ws_001" +:+ "_") SampleRecovery.moons.(coll_name)
                   = "moons"%string) by reflexivity.
    rewrite Hkey in Ht. exists t. split; [exact Ht|].
    destruct (Hsound "moons"%string t Ht) as (c & cols & Hin & _ & Hname & _ & _ & ->).
    cbn [full_name record_count]. split; [exact Hname|].
    repeat (apply elem_of_cons in Hin as [->|Hin]); try discriminate Hname;
      [reflexivity|inversion Hin].
Defined.

(* --------------------------------------------------------------------- *)
(** ** Tool markers in an answer                                          *)
(* --------------------------------------------------------------------- *)

Section ToolMarkers.
Lemma lower_app_inv a : forall s b,
  Text.lower s = a +:+ b ->
  exists a' b', s = a' +:+ b' /\ Text.lower a' = a /\ Text.lower b' = b.
Proof.
  induction a as [|x a IH]; intros s b H.
  - exists ""%string, s. auto.
  - destruct s as [|c s]; [discriminate|].
    change (String x a +:+ b) with (String x (a +:+ b)) in H.
    cbn [Text.lower] in H. injection H as Hc Hs.
    destruct (IH s b Hs) as (a' & b' & -> & Ha & Hb).
    exists (String c a'), b'. cbn [Text.lower]. rewrite Hc, Ha. auto.
Qed.

Lemma char_matches_lower a c :
  Re.lower c = Re.lower a -> Re.char_matches (RChar a) c = true.
Proof. intros H. cbn [Re.char_matches]. rewrite H. apply Ascii.eqb_refl. Qed.

Lemma alt_head r rs s : Re.matches r s -> Re.matches (Re.alt (r :: rs)) s.
Proof.
  intros H. destruct rs as [|r' rs]; [exact H|].
  change (Re.alt (r :: r' :: rs)) with (RAlt r (Re.alt (r' :: rs))).
  apply Re.MAltL, H.
Qed.

Lemma letter_matches a c :
  Re.lower c = Re.lower a -> Re.matches (Re.letter a) (String c "").
Proof.
  intros H. unfold Re.letter. apply alt_head. constructor.
  apply char_matches_lower, H.
Qed.

Lemma lit_matches_lower M : forall m,
  M <> ""%string -> Text.lower m = Text.lower M -> Re.matches (Re.lit M) m.
Proof.
  induction M as [|c M IH]; intros m Hne H; [contradiction|].
  destruct m as [|c' m]; [discriminate|].
  cbn [Text.lower] in H. injection H as Hc Hm.
  destruct M as [|d M].
  - destruct m; [|discriminate]. cbn [Re.lit]. apply letter_matches, Hc.
  - change (Re.lit (String c (String d M)))
      with (RSeq (Re.letter c) (Re.lit (String d M))).
    change (String c' m) with (String c' "" +:+ m). constructor.
    + apply letter_matches, Hc.
    + apply IH; [discriminate|exact Hm].
Qed.

Lemma marker_found (M s : string) :
  M ∈ tool_markers -> occurs_in (Text.lower M) (Text.lower s) ->
  exists p, p ∈ Batch.tool_patterns /\ Re.found p s.
Proof.
  intros HM (pre & post & H).
  apply lower_app_inv in H as (pre' & rest & -> & _ & H).
  apply lower_app_inv in H as (m & post' & -> & Hm & _).
  assert (Hlit : M <> ""%string -> Re.matches (Re.lit M) m)
    by (intros Hne; apply lit_matches_lower; assumption).
  unfold tool_markers in HM.
  repeat (apply elem_of_cons in HM as [->|HM]); [| | | |inversion HM].
  - exists (Re.lit "```json"). split; [apply list_elem_of_here|].
    exists pre', m, post'. split; [reflexivity|]. apply Hlit. discriminate.
  - exists (Re.seq [Re.lit "Action:"; Batch.ws]).
    split; [do 2 apply list_elem_of_further; apply list_elem_of_here|].
    exists pre', m, post'. split; [reflexivity|].
    rewrite <- (append_nil_r m). constructor; [apply Hlit; discriminate|constructor].
  - exists (Re.seq [Re.lit "Thought:"; Batch.ws]).
    split; [do 3 apply list_elem_of_further; apply list_elem_of_here|].
    exists pre', m, post'. split; [reflexivity|].
    rewrite <- (append_nil_r m). constructor; [apply Hlit; discriminate|constructor].
  - exists (Re.lit "Calling tools").
    split; [do 8 apply list_elem_of_further; apply list_elem_of_here|].
    exists pre', m, post'. split; [reflexivity|]. apply Hlit. discriminate.
Qed.

Lemma marker_flagged rt (M s : string) :
  M ∈ tool_markers -> occurs_in (Text.lower M) (Text.lower s) ->
  Batch.contains_tool_tags rt (PStr s) = true.
Proof.
  intros HM Hocc. destruct (marker_found M s HM Hocc) as (p & Hp & Hfound).
  unfold Batch.contains_tool_tags. cbn [truthy py_str].
  destruct (String.eqb_spec s "") as [->|_].
  - exfalso. destruct Hocc as (pre & post & H).
    unfold tool_markers in HM.
    repeat (apply elem_of_cons in HM as [->|HM]); [| | | |inversion HM];
      destruct pre; discriminate H.
  - cbn [negb]. apply existsb_exists. exists p.
    split; [apply list_elem_of_In, Hp|apply search_spec, Hfound].
Qed.
End ToolMarkers.

(** X23. An answer that holds one of the words "```json", "Action:",
    "Thought:" or "Calling tools" anywhere, in any letter case and also
    inside a longer word, is taken for an interrupted run: the check for
    tool tags is true on it, a result with that answer is not valid, and a
    result file with that answer does not count as completed, so the task
    is run again. *)
Theorem X23_marker_in_answer (rt : PyRuntime) (marker s : string)
    (Hmarker : marker ∈ tool_markers)
    (Hoccurs : occurs_in (Text.lower marker) (Text.lower s)) :
  Batch.contains_tool_tags rt (PStr s) = true /\
  forall d, checked_answer d = PStr s ->
    Recovery.is_result_valid rt d = false /\
    forall fs task output_dir content,
      fs !! Batch.result_path output_dir task = Some (File content) ->
      rt.(json_loads) content = Ok (PDict d) ->
      Batch.is_task_completed rt fs task output_dir = false.
Proof.
  pose proof (marker_flagged rt marker s Hmarker Hoccurs) as Hflag.
  split; [exact Hflag|]. intros d Hd.
  assert (Hacc : acceptable_answer rt (checked_answer d) = false).
  { unfold acceptable_answer. rewrite Hd, Hflag. cbn [negb]. apply andb_false_r. }
  split.
  - rewrite is_result_valid_spec, Hacc. apply andb_false_r.
  - intros fs task output_dir content Hfs Hload.
    rewrite (is_task_completed_loaded rt fs task output_dir content d Hfs Hload).
    exact Hacc.
Qed.

Lemma X23_marker_in_answer_witness :
  Batch.contains_tool_tags Sample.runtime (PStr "| Reaction: oxidation | 2 |") = true /\
  Recovery.is_result_valid Sample.runtime
    [("answer", PStr "| Reaction: oxidation | 2 |")]%string = false.
Proof.
  destruct (X23_marker_in_answer Sample.runtime "Action:" "| Reaction: oxidation | 2 |"
              ltac:(apply list_elem_of_further, list_elem_of_here)
              ltac:(exists "| re"%string, " oxidation | 2 |"%string; reflexivity))
    as [Hflag Hd].
  split; [exact Hflag|].
  destruct (Hd [("answer", PStr "| Reaction: oxidation | 2 |")]%string eq_refl)
    as [Hvalid _].
  exact Hvalid.
Defined.

(* --------------------------------------------------------------------- *)
(** ** Call governor: the status report                                   *)
(* --------------------------------------------------------------------- *)

Section StatusReport.
Import GlobalManagedAgentCounter.
Variable m : list (string * Z).
Hypothesis m_nonneg : forall agent_name k, assoc agent_name m = Some k -> 0 <= k.

Lemma assoc_map_key {V : Type} (f : string -> V) (l : list string) (name : string) :
  name ∈ l -> assoc name (map (fun n => (n, f n)) l) = Some (f name).
Proof.
  induction l as [|n l IH]; intros Hin; [inversion Hin|]. cbn [map assoc].
  destruct (String.eqb_spec n name) as [->|Hne]; [reflexivity|].
  apply IH. apply elem_of_cons in Hin as [->|Hin]; [contradiction|exact Hin].
Qed.

Lemma get_all_status_exact g :
  invariant m g -> get_all_status g = Ok (map (status_of m g) (PyDict.keys m)).
Proof.
  intros [Hlim Hinv]. unfold get_all_status. rewrite Hlim.
  apply mapM_ok. intros name Hin.
  apply assoc_is_Some_keys in Hin. destruct Hin as [k Hk].
  destruct (Hinv _ _ Hk) as (c & h & Hc & _).
  unfold PyDict.getitem, PyDict.get, status_of. rewrite Hk, Hc. reflexivity.
Qed.
End StatusReport.

(** X24. The status report of the call governor. After any sequence of
    calls on a governor built from non-negative limits, [get_all_status]
    returns (it never raises) one entry for each governed agent, in the
    order of the limits; the entry of an agent holds what [get_count] and
    [get_remaining] return for it and its limit, and count and remaining
    add up to the limit. *)
Theorem X24_status_report (m : list (string * Z))
    (Hm : forall agent_name k, assoc agent_name m = Some k -> 0 <= k)
    (ops : list GlobalManagedAgentCounter.Op) (g : GlobalManagedAgentCounter.t)
    (Hrun : GlobalManagedAgentCounter.run ops
              (GlobalManagedAgentCounter.__init__ (Some m)) = Ok g) :
  exists status,
    GlobalManagedAgentCounter.get_all_status g = Ok status /\
    PyDict.keys status = PyDict.keys m /\
    forall agent_name k, assoc agent_name m = Some k ->
      exists s,
        PyDict.get status agent_name = Some s /\
        s.(status_count) = GlobalManagedAgentCounter.get_count g agent_name /\
        s.(status_limit) = k /\
        GlobalManagedAgentCounter.get_remaining g agent_name
          = Ok (Finite s.(status_remaining)) /\
        0 <= s.(status_remaining) /\
        s.(status_count) + s.(status_remaining) = k.
Proof.
  pose proof (reachable_invariant m Hm ops g Hrun) as Hinv.
  exists (map (status_of m g) (PyDict.keys m)).
  split; [apply get_all_status_exact, Hinv|]. split.
  - unfold PyDict.keys. generalize (map fst m). intros l.
    induction l as [|a l IH]; [reflexivity|]. cbn [map fst status_of]. f_equal. exact IH.
  - intros name k Hk.
    destruct (queries_governed m g name k Hinv Hk) as (c & Hc & Hck & Hcount & _ & Hrem).
    eexists. split.
    + unfold PyDict.get, status_of.
      apply (assoc_map_key
               (fun n => {| status_count := default 0 (assoc n (GlobalManagedAgentCounter.counts g));
                            status_limit := default 0 (assoc n m);
                            status_remaining :=
                              Z.max 0 (default 0 (assoc n m)
                                       - default 0 (assoc n (GlobalManagedAgentCounter.counts g))) |})).
      apply assoc_is_Some_keys. eauto.
    + cbn [status_count status_limit status_remaining]. rewrite Hk, Hc.
      cbn [default from_option id]. rewrite Hrem.
      unfold GlobalManagedAgentCounter.get_count, PyDict.get. rewrite Hc.
      cbn [default from_option id].
      repeat split; try lia. do 2 f_equal. lia.
Qed.

Lemma X24_status_report_witness :
  let m := [("tabular_search_agent", 5); ("deep_search_agent", 3)]%string in
  let ops := [GlobalManagedAgentCounter.TryIncrement "tabular_search_agent" "t1";
              GlobalManagedAgentCounter.TryIncrement "deep_search_agent" "t2";
              GlobalManagedAgentCounter.TryIncrement "tabular_search_agent" "t3"]%string in
  exists g,
    GlobalManagedAgentCounter.run ops (GlobalManagedAgentCounter.__init__ (Some m))
      = Ok g /\
    exists status,
      GlobalManagedAgentCounter.get_all_status g = Ok status /\
      PyDict.keys status = ["tabular_search_agent"; "deep_search_agent"]%string /\
      exists s,
        PyDict.get status "tabular_search_agent" = Some s /\
        s.(status_count) = 2 /\ s.(status_limit) = 5 /\ s.(status_remaining) = 3.
Proof.
  cbv zeta.
  assert (Hm : forall name k,
            assoc name [("tabular_search_agent", 5); ("deep_search_agent", 3)]%string
              = Some k -> 0 <= k).
  { intros name k H. cbn [assoc] in H.
    destruct (String.eqb _ name); [injection H as <-; lia|].
    destruct (String.eqb _ name); [injection H as <-; lia|discriminate]. }
  eexists. split; [reflexivity|].
  match goal with
  | |- exists status, GlobalManagedAgentCounter.get_all_status ?g = _ /\ _ =>
      destruct (X24_status_report
                  [("tabular_search_agent", 5); ("deep_search_agent", 3)]%string Hm
                  [GlobalManagedAgentCounter.TryIncrement "tabular_search_agent" "t1";
                   GlobalManagedAgentCounter.TryIncrement "deep_search_agent" "t2";
                   GlobalManagedAgentCounter.TryIncrement "tabular_search_agent" "t3"]%string
                  g eq_refl)
        as (status & Hstatus & Hkeys & Hentries)
  end.
  exists status. split; [exact Hstatus|]. split; [exact Hkeys|].
  destruct (Hentries "tabular_search_agent"%string 5 eq_refl)
    as (s & Hget & Hcount & Hlimit & _ & _ & Hsum).
  exists s. split; [exact Hget|].
  assert (Hc : status_count s = 2) by (rewrite Hcount; reflexivity).
  split; [exact Hc|]. split; [exact Hlimit|]. lia.
Defined.

(* --------------------------------------------------------------------- *)
(** ** A delegation whose copy cannot be built                            *)
(* --------------------------------------------------------------------- *)

(** X25. A delegation that fails while the copy is built is still charged.
    When the call governor lets the call through and the class of the
    template rejects the keyword arguments with an exception,
    [execute_tool_call] raises that exception without making the library
    call; the heap and the bindings of the managed agents are as before,
    but the call has been counted: for a governed agent [get_count] is one
    higher than before. *)
Theorem X25_failed_copy_is_charged (lib : Library) (w w1 : World)
    (tool_name : string) (arguments : pyval) (now : string)
    (tmpl : loc) (a : Agent.t) (e : PyExc)
    (Hbound : assoc tool_name w.(self_managed_agents) = Some tmpl)
    (Htmpl : w.(heap) !! tmpl = Some (OAgent a))
    (Hpass : MemoryManagedToolCallingAgent.check_call_limit w tool_name now
               = Ok (inr w1))
    (Hctor : lib.(constructor_raises) a.(Agent.class)
               (MemoryManagedToolCallingAgent.init_kwargs a) = Some e) :
  MemoryManagedToolCallingAgent.execute_tool_call lib w tool_name arguments now
    = (Raise e, w1) /\
  w1.(heap) = w.(heap) /\
  w1.(self_managed_agents) = w.(self_managed_agents) /\
  (forall lib',
     lib'.(constructor_raises) = lib.(constructor_raises) ->
     MemoryManagedToolCallingAgent.execute_tool_call lib' w tool_name arguments now
       = (Raise e, w1)) /\
  (forall g k,
     w.(self_managed_agent_counter) = Some g ->
     assoc tool_name g.(GlobalManagedAgentCounter.limits) = Some k ->
     exists g',
       w1.(self_managed_agent_counter) = Some g' /\
       GlobalManagedAgentCounter.get_count g' tool_name
         = GlobalManagedAgentCounter.get_count g tool_name + 1).
Proof.
  assert (Hw1 : w1.(heap) = w.(heap) /\
                w1.(self_managed_agents) = w.(self_managed_agents)).
  { unfold MemoryManagedToolCallingAgent.check_call_limit in Hpass.
    destruct w.(self_managed_agent_counter) as [counter|];
      [|injection Hpass as <-; auto].
    destruct (GlobalManagedAgentCounter.try_increment counter tool_name now)
      as [[ok counter']|e0]; cbn [mbind result_bind] in Hpass; [|discriminate].
    destruct ok; cbn [negb] in Hpass.
    - injection Hpass as <-. auto.
    - destruct (GlobalManagedAgentCounter.get_remaining counter' tool_name);
        cbn [mbind result_bind] in Hpass; [|discriminate].
      destruct (GlobalManagedAgentCounter.get_all_status counter');
        cbn [mbind result_bind] in Hpass; discriminate. }
  destruct Hw1 as [Hheap Hagents].
  assert (Hexec : forall lib',
            lib'.(constructor_raises) = lib.(constructor_raises) ->
            MemoryManagedToolCallingAgent.execute_tool_call lib' w tool_name arguments now
              = (Raise e, w1)).
  { intros lib' Hlib. unfold MemoryManagedToolCallingAgent.execute_tool_call.
    unfold PyDict.contains, PyDict.get. rewrite Hbound, Hpass.
    unfold PyDict.getitem, PyDict.get. rewrite Hagents, Hbound, Hheap, Htmpl.
    unfold MemoryManagedToolCallingAgent._create_agent_copy_for_call,
      MemoryManagedToolCallingAgent.construct.
    rewrite Hlib, Hctor. reflexivity. }
  split; [apply Hexec; reflexivity|]. split; [exact Hheap|]. split; [exact Hagents|].
  split; [exact Hexec|].
  intros g k Hg Hk.
  unfold MemoryManagedToolCallingAgent.check_call_limit in Hpass. rewrite Hg in Hpass.
  unfold GlobalManagedAgentCounter.try_increment, PyDict.contains, PyDict.getitem,
    PyDict.get in Hpass.
  rewrite Hk in Hpass. cbn [negb] in Hpass.
  destruct (assoc tool_name (GlobalManagedAgentCounter.counts g)) as [c|] eqn:Hc;
    cbn [mbind result_bind] in Hpass; [|discriminate].
  destruct (c >=? k).
  - cbn [mbind result_bind negb] in Hpass.
    destruct (GlobalManagedAgentCounter.get_remaining g tool_name);
      cbn [mbind result_bind] in Hpass; [|discriminate].
    destruct (GlobalManagedAgentCounter.get_all_status g);
      cbn [mbind result_bind] in Hpass; discriminate.
  - destruct (assoc tool_name (GlobalManagedAgentCounter.call_history g)) as [h|];
      cbn [mbind result_bind] in Hpass; [|discriminate].
    rewrite assoc_set_eq in Hpass. cbn [mbind result_bind negb] in Hpass.
    injection Hpass as <-. eexists. split; [reflexivity|].
    unfold GlobalManagedAgentCounter.get_count, PyDict.get.
    cbn [GlobalManagedAgentCounter.counts]. rewrite assoc_set_eq, Hc. reflexivity.
Qed.

Lemma X25_failed_copy_is_charged_witness :
  exists w1 e,
    MemoryManagedToolCallingAgent.execute_tool_call SampleTools.strict_library
      SampleTools.governed_world "tabular_search_agent" (PStr "find the moons") "t1"
      = (Raise e, w1) /\
    exists g',
      w1.(self_managed_agent_counter) = Some g' /\
      GlobalManagedAgentCounter.get_count g' "tabular_search_agent" = 1.
Proof.
  destruct (MemoryManagedToolCallingAgent.check_call_limit SampleTools.governed_world
              "tabular_search_agent" "t1") as [[msg|w1]|e0] eqn:Hpass;
    [vm_compute in Hpass; discriminate Hpass| |vm_compute in Hpass; discriminate Hpass].
  destruct (X25_failed_copy_is_charged SampleTools.strict_library
              SampleTools.governed_world w1 "tabular_search_agent"
              (PStr "find the moons") "t1" 0%nat Sample.template
              (TypeError "__init__() got an unexpected keyword argument")
              eq_refl ltac:(vm_compute; reflexivity) Hpass eq_refl)
    as (Hexec & _ & _ & _ & Hcount).
  exists w1, (TypeError "__init__() got an unexpected keyword argument").
  split; [exact Hexec|].
  destruct (Hcount _ 2 eq_refl eq_refl) as (g' & Hg' & Hc).
  exists g'. split; [exact Hg'|]. rewrite Hc. reflexivity.
Defined.

(* --------------------------------------------------------------------- *)
(** ** The webpage tool                                                   *)
(* --------------------------------------------------------------------- *)

Section VisitFacts.
Import JinaBackedVisitWebpageTool.
Variable web : Web.

Lemma fetch_keys_no_direct url keys :
  List.filter is_direct_get (fetch_keys web url keys).2 = [].
Proof.
  induction keys as [|key keys IH]; cbn [fetch_keys]; [reflexivity|].
  destruct (jina_get web key url) as [[status_code text]|e].
  - destruct (status_code =? 200); [reflexivity|].
    destruct (fetch_keys web url keys) as [r requests]. exact IH.
  - destruct (exc_is_Exception e); [|reflexivity].
    destruct (fetch_keys web url keys) as [r requests]. exact IH.
Qed.

Lemma fetch_with_jina_unfold self url :
  _fetch_with_jina web self url = fetch_keys web url self.(jina_keys).
Proof. unfold _fetch_with_jina. destruct (jina_keys self); reflexivity. Qed.

Lemma handle_no_direct self url e :
  List.filter is_direct_get (handle web self url e).2 = [].
Proof.
  unfold handle. destruct (is_request_exception web e).
  - destruct (jina_keys self) eqn:Hkeys; [reflexivity|].
    pose proof (fetch_keys_no_direct url (jina_keys self)) as Hno.
    rewrite fetch_with_jina_unfold.
    destruct (fetch_keys web url (jina_keys self)) as [[markdown_content|e'] requests];
      [|exact Hno].
    destruct (truthy _); exact Hno.
  - destruct (exc_is_Exception e); reflexivity.
Qed.

Lemma try_direct_requests self url :
  List.filter is_direct_get (try_direct web self url).2 = [DirectGet url].
Proof.
  unfold try_direct.
  pose proof (handle_no_direct self url) as Hno.
  destruct (direct_get web url) as [response|e].
  - destruct (_check_mime_type response); [reflexivity|].
    destruct (markdown response) as [markdown_content|e]; [reflexivity|].
    specialize (Hno e). destruct (handle web self url e) as [tried requests].
    cbn [snd List.filter is_direct_get] in *. rewrite Hno. reflexivity.
  - specialize (Hno e). destruct (handle web self url e) as [tried requests].
    cbn [snd List.filter is_direct_get] in *. rewrite Hno. reflexivity.
Qed.

Lemma fetch_requests self url info :
  List.filter is_direct_get (fetch web self url info).2 = [DirectGet url].
Proof.
  unfold fetch. pose proof (try_direct_requests self url) as Hone.
  destruct (try_direct web self url) as [tried requests]. cbn [snd] in Hone.
  destruct tried as [text|[[|c markdown_content]|] used_jina|error_message|e];
    try exact Hone.
  unfold _save_markdown. destruct (work_dir self).
  - destruct (save_markdown web _ url); cbn [snd];
      rewrite List.filter_app, Hone; reflexivity.
  - cbn [snd]. rewrite List.filter_app, Hone. reflexivity.
Qed.

Lemma forward_with_counter self url g :
  self.(global_visit_counter) = Some g ->
  forward web self url =
    if count g >=? limit g
    then (Ok (limit_message (count g) (limit g) (Z.max 0 (limit g - count g))),
          Some g, [])
    else
      ((fetch web self url
          (Some (budget_info (count g + 1) (limit g)
                   (Z.max 0 (limit g - (count g + 1)))))).1,
       Some {| limit := limit g; count := count g + 1 |},
       (fetch web self url
          (Some (budget_info (count g + 1) (limit g)
                   (Z.max 0 (limit g - (count g + 1)))))).2).
Proof.
  intros Hcounter. unfold forward. rewrite Hcounter.
  unfold GlobalVisitCounter.try_increment.
  destruct (count g >=? limit g); cbn [negb]; [reflexivity|].
  unfold GlobalVisitCounter.get_remaining, GlobalVisitCounter.get_count.
  cbn [limit count]. destruct (fetch web self url _). reflexivity.
Qed.

Lemma forward_all_budget urls : forall self g,
  self.(global_visit_counter) = Some g ->
  let visited := Nat.min (length urls) (Z.to_nat (Z.max 0 (limit g - count g))) in
  length (List.filter is_direct_get (forward_all web self urls).2) = visited /\
  (forward_all web self urls).1.2
    = Some {| limit := limit g; count := count g + Z.of_nat visited |}.
Proof.
  induction urls as [|url urls IH]; intros self g Hcounter; cbv zeta.
  - cbn [forward_all length Nat.min fst snd List.filter]. rewrite Hcounter.
    split; [reflexivity|]. rewrite Z.add_0_r. destruct g; reflexivity.
  - cbn [forward_all length]. rewrite (forward_with_counter self url g Hcounter).
    destruct (Z.geb_spec (count g) (limit g)) as [Hfull|Hroom].
    + destruct (IH (with_counter self (Some g)) g eq_refl) as [Hn Hc].
      destruct (forward_all web (with_counter self (Some g)) urls)
        as [[rs counter'] requests'].
      cbn [fst snd app] in *. rewrite Hn, Hc.
      replace (Z.to_nat (Z.max 0 (limit g - count g))) with O by lia.
      rewrite !Nat.min_0_r. auto.
    + pose proof (fetch_requests self url
                    (Some (budget_info (count g + 1) (limit g)
                             (Z.max 0 (limit g - (count g + 1)))))) as Hone.
      destruct (fetch web self url _) as [r requests]. cbn [fst snd] in *.
      destruct (IH (with_counter self
                      (Some {| limit := limit g; count := count g + 1 |}))
                   {| limit := limit g; count := count g + 1 |} eq_refl)
        as [Hn Hc].
      destruct (forward_all web _ urls) as [[rs counter'] requests'].
      cbn [fst snd limit count] in *.
      rewrite List.filter_app, Hone, Hc. cbn [app length]. rewrite Hn.
      split; [lia|]. do 2 f_equal. lia.
Qed.

Lemma fetch_keys_rotation url before key after text :
  (forall k, k ∈ before ->
     match web.(jina_get) k url with
     | Ok (status_code, _) => status_code <> 200
     | Raise e' => e'.(exc_is_Exception) = true
     end) ->
  web.(jina_get) key url = Ok (200, text) ->
  fetch_keys web url (before ++ key :: after)
    = (Ok (Some text), map (fun k => JinaGet k url) (before ++ [key])).
Proof.
  intros Hbefore Hkey. induction before as [|k before IH]; cbn [app fetch_keys map].
  - rewrite Hkey. reflexivity.
  - pose proof (Hbefore k ltac:(apply list_elem_of_here)) as Hk.
    rewrite IH by (intros k' Hk'; apply Hbefore, list_elem_of_further, Hk').
    destruct (jina_get web k url) as [[status_code t]|e'].
    + destruct (Z.eqb_spec status_code 200); [contradiction|reflexivity].
    + rewrite Hk. reflexivity.
Qed.
End VisitFacts.

(** X26. The webpage tool stays within the budget of its counter. When
    the counter is full, [forward] returns the limit message with the
    current count and a remaining budget of 0, makes no request and leaves
    the counter as it is. When there is room, the visit is counted,
    whatever the requests give, and exactly one direct request is made. So
    of any number of visits one after the other, the first
    [get_remaining()] make a direct request and the later ones make
    none. *)
Theorem X26_visits_within_budget (web : JinaBackedVisitWebpageTool.Web)
    (self : JinaBackedVisitWebpageTool.t) (g : Counter)
    (Hcounter : self.(JinaBackedVisitWebpageTool.global_visit_counter) = Some g) :
  (forall url, limit g <= count g ->
     JinaBackedVisitWebpageTool.forward web self url
       = (Ok (JinaBackedVisitWebpageTool.limit_message (count g) (limit g) 0),
          Some g, [])) /\
  (forall url, count g < limit g ->
     let out := JinaBackedVisitWebpageTool.forward web self url in
     out.1.2 = Some {| limit := limit g; count := count g + 1 |} /\
     List.filter JinaBackedVisitWebpageTool.is_direct_get out.2
       = [JinaBackedVisitWebpageTool.DirectGet url]) /\
  (forall urls,
     let out := JinaBackedVisitWebpageTool.forward_all web self urls in
     let visited :=
       Nat.min (length urls) (Z.to_nat (GlobalVisitCounter.get_remaining g)) in
     length (List.filter JinaBackedVisitWebpageTool.is_direct_get out.2) = visited /\
     out.1.2 = Some {| limit := limit g; count := count g + Z.of_nat visited |}).
Proof.
  split; [|split].
  - intros url Hfull. rewrite (forward_with_counter web self url g Hcounter).
    destruct (Z.geb_spec (count g) (limit g)); [|lia].
    replace (Z.max 0 (limit g - count g)) with 0 by lia. reflexivity.
  - intros url Hroom. cbv zeta.
    rewrite (forward_with_counter web self url g Hcounter).
    destruct (Z.geb_spec (count g) (limit g)); [lia|]. cbn [fst snd].
    split; [reflexivity|apply fetch_requests].
  - intros urls. apply (forward_all_budget web urls self g Hcounter).
Qed.

Lemma X26_visits_within_budget_witness :
  let out := JinaBackedVisitWebpageTool.forward_all SampleTools.web SampleTools.visit_tool
               ["https://a.example"; "https://b.example"; "https://c.example"]%string in
  length (List.filter JinaBackedVisitWebpageTool.is_direct_get out.2) = 2%nat /\
  out.1.2 = Some {| limit := 2; count := 2 |}.
Proof.
  cbv zeta.
  destruct (X26_visits_within_budget SampleTools.web SampleTools.visit_tool
              (GlobalVisitCounter.__init__ 2) eq_refl) as (_ & _ & Hall).
  apply (Hall ["https://a.example"; "https://b.example"; "https://c.example"]%string).
Defined.

(** X27. The rotation of the Jina keys. When the direct request fails
    with a request exception, the keys are tried in their order until the
    first answer with status 200: the keys before it (wrong status, or an
    exception) are each tried once and the keys after it never. That
    answer decides: a non-empty text is returned as the page, marked as
    retrieved via Jina (on a tool without a work directory nothing is
    saved); an empty text makes [forward] return the error about both ways
    having failed, although later keys were not tried. *)
Theorem X27_jina_key_rotation (web : JinaBackedVisitWebpageTool.Web)
    (self : JinaBackedVisitWebpageTool.t) (url : string) (e : PyExc)
    (before after : list string) (key text : string)
    (Hkeys : self.(JinaBackedVisitWebpageTool.jina_keys) = before ++ key :: after)
    (Hdir : self.(JinaBackedVisitWebpageTool.work_dir) = None)
    (Hnocounter : self.(JinaBackedVisitWebpageTool.global_visit_counter) = None)
    (Hdirect : web.(JinaBackedVisitWebpageTool.direct_get) url = Raise e)
    (Hrequest : web.(JinaBackedVisitWebpageTool.is_request_exception) e = true)
    (Hbefore : forall k, k ∈ before ->
       match web.(JinaBackedVisitWebpageTool.jina_get) k url with
       | Ok (status_code, _) => status_code <> 200
       | Raise e' => e'.(exc_is_Exception) = true
       end)
    (Hkey : web.(JinaBackedVisitWebpageTool.jina_get) key url = Ok (200, text)) :
  let out := JinaBackedVisitWebpageTool.forward web self url in
  out.2 = JinaBackedVisitWebpageTool.DirectGet url
          :: map (fun k => JinaBackedVisitWebpageTool.JinaGet k url) (before ++ [key]) /\
  (text = ""%string ->
   out.1.1 = Ok ("Error: Failed to fetch the webpage both directly and via Jina API. Direct error: "
                 +:+ e.(exc_str))) /\
  (text <> ""%string ->
   out.1.1 = Ok (JinaBackedVisitWebpageTool._truncate_content text
                   self.(JinaBackedVisitWebpageTool.max_output_length)
                 +:+ nl +:+ nl +:+ "_[Content retrieved via Jina API]_")).
Proof.
  cbv zeta. unfold JinaBackedVisitWebpageTool.forward. rewrite Hnocounter.
  unfold JinaBackedVisitWebpageTool.fetch, JinaBackedVisitWebpageTool.try_direct.
  rewrite Hdirect. unfold JinaBackedVisitWebpageTool.handle. rewrite Hrequest.
  rewrite fetch_with_jina_unfold, Hkeys.
  rewrite (fetch_keys_rotation web url before key after text Hbefore Hkey).
  assert (Hnonempty : exists k ks, before ++ key :: after = k :: ks)
    by (destruct before; cbn [app]; eauto).
  destruct Hnonempty as (k & ks & ->).
  destruct text as [|c text].
  - cbn [truthy String.eqb negb fst snd]. split; [reflexivity|].
    split; [reflexivity|]. intros H. contradiction.
  - cbn [truthy String.eqb negb].
    unfold JinaBackedVisitWebpageTool._save_markdown. rewrite Hdir. cbn [fst snd].
    rewrite app_nil_r. split; [reflexivity|]. split; [discriminate|reflexivity].
Qed.

Lemma X27_jina_key_rotation_witness :
  let tool := JinaBackedVisitWebpageTool.with_counter SampleTools.visit_tool None in
  let out := JinaBackedVisitWebpageTool.forward SampleTools.web tool "https://a.example" in
  out.2 = [ JinaBackedVisitWebpageTool.DirectGet "https://a.example";
            JinaBackedVisitWebpageTool.JinaGet "key-1" "https://a.example";
            JinaBackedVisitWebpageTool.JinaGet "key-2" "https://a.example" ].
Proof.
  cbv zeta.
  destruct (X27_jina_key_rotation SampleTools.web
              (JinaBackedVisitWebpageTool.with_counter SampleTools.visit_tool None)
              "https://a.example" SampleTools.ConnectionError
              ["key-1"%string] ["key-3"%string] "key-2" "# Mars"
              eq_refl eq_refl eq_refl eq_refl eq_refl) as (Hrequests & _).
  - intros k Hk. apply list_elem_of_singleton in Hk as ->. cbn. discriminate.
  - reflexivity.
  - exact Hrequests.
Defined.

(* --------------------------------------------------------------------- *)
(** ** The search tool                                                    *)
(* --------------------------------------------------------------------- *)

Section SearchFacts.
Import GoogleSearchTool.
Variable rt : PyRuntime.
Variable api : Api.

Lemma attempts_spec self query info : forall attempts_left n,
  let out := attempts rt api self query info n attempts_left in
  out.2 = repeat (Post query) (length out.2) /\
  (length out.2 <= attempts_left)%nat /\
  (out.1 = None -> length out.2 = attempts_left) /\
  (forall e, out.1 = Some (Raise e) -> e.(exc_is_Exception) = false).
Proof.
  induction attempts_left as [|k IH]; intros n; cbv zeta.
  - cbn [attempts fst snd length repeat]. repeat split; [lia|discriminate].
  - cbn [attempts]. cbv zeta. specialize (IH (S n)). cbv zeta in IH.
    destruct (attempts rt api self query info (S n) k) as [r requests].
    cbn [fst snd] in IH. destruct IH as (Hrep & Hlen & Hnone & Hraise).
    assert (Hretry :
      (Post query :: requests) = repeat (Post query) (length (Post query :: requests)) /\
      (length (Post query :: requests) <= S k)%nat /\
      (r = None -> length (Post query :: requests) = S k) /\
      (forall e, r = Some (Raise e) -> exc_is_Exception e = false)).
    { cbn [length repeat]. rewrite <- Hrep. repeat split; [lia| |exact Hraise].
      intros Hr. rewrite (Hnone Hr). reflexivity. }
    destruct (search api n query) as [result|e].
    + destruct (results_of self result); cbn [fst snd]; [|exact Hretry].
      cbn [length repeat]. repeat split; [lia|discriminate|discriminate].
    + destruct (exc_is_Exception e) eqn:He; cbn [fst snd]; [exact Hretry|].
      cbn [length repeat]. repeat split; [lia|discriminate|].
      intros e' [= <-]. exact He.
Qed.

Lemma run_spec self query info :
  let out := run rt api self query info in
  let tries := Z.to_nat self.(max_retries) in
  (exists posts, (posts <= tries)%nat /\
     (out.2 = repeat (Post query) posts \/
      posts = tries /\ out.2 = repeat (Post query) tries ++ [JinaSearch query])) /\
  (forall e, out.1 = Raise e -> e = fallback_failed \/ e.(exc_is_Exception) = false).
Proof.
  cbv zeta. unfold run.
  pose proof (attempts_spec self query info (Z.to_nat (max_retries self)) 0) as Hspec.
  cbv zeta in Hspec.
  destruct (attempts rt api self query info 0 (Z.to_nat (max_retries self)))
    as [[r|] requests]; cbn [fst snd] in Hspec;
    destruct Hspec as (Hrep & Hlen & Hnone & Hraise).
  - cbn [fst snd]. split; [exists (length requests); auto|].
    intros e ->. right. apply Hraise. reflexivity.
  - specialize (Hnone eq_refl). rewrite Hnone in Hrep.
    assert (Hposts : exists posts : nat,
              (posts <= Z.to_nat (max_retries self))%nat /\
              (requests ++ [JinaSearch query] = repeat (Post query) posts \/
               posts = Z.to_nat (max_retries self) /\
               requests ++ [JinaSearch query]
                 = repeat (Post query) (Z.to_nat (max_retries self))
                   ++ [JinaSearch query])).
    { exists (Z.to_nat (max_retries self)). split; [lia|]. right.
      split; [reflexivity|]. rewrite <- Hrep. reflexivity. }
    destruct (jina_forward api query) as [jina_result|e]; cbn [fst snd].
    + split; [exact Hposts|discriminate].
    + destruct (exc_is_Exception e) eqn:He; cbn [fst snd]; (split; [exact Hposts|]).
      * intros e' [= <-]. left. reflexivity.
      * intros e' [= <-]. right. exact He.
Qed.
End SearchFacts.

(** X28. The search tool: budget, attempts and fallback. A full counter
    makes [forward] return the limit message without any request; with
    room the search is counted whatever the requests give. A call makes at
    most [max_retries] requests to the search service; the Jina search is
    called at most once, after them, and only when all [max_retries]
    requests were made (at once when [max_retries] is zero or negative).
    [forward] raises only the exception that says that the search failed
    or an exception that is no [Exception]. *)
Theorem X28_search_budget_and_attempts (rt : PyRuntime) (api : GoogleSearchTool.Api)
    (self : GoogleSearchTool.t) (query : string) :
  let out := GoogleSearchTool.forward rt api self query in
  let tries := Z.to_nat self.(GoogleSearchTool.max_retries) in
  (forall g, self.(GoogleSearchTool.global_search_counter) = Some g ->
     limit g <= count g ->
     out = (Ok (GoogleSearchTool.limit_message (count g) (limit g) 0), Some g, [])) /\
  (forall g, self.(GoogleSearchTool.global_search_counter) = Some g ->
     count g < limit g ->
     out.1.2 = Some {| limit := limit g; count := count g + 1 |}) /\
  (exists posts, (posts <= tries)%nat /\
     (out.2 = repeat (GoogleSearchTool.Post query) posts \/
      posts = tries /\
      out.2 = repeat (GoogleSearchTool.Post query) tries
              ++ [GoogleSearchTool.JinaSearch query])) /\
  (forall e, out.1.1 = Raise e ->
     e = GoogleSearchTool.fallback_failed \/ e.(exc_is_Exception) = false).
Proof.
  cbv zeta. unfold GoogleSearchTool.forward.
  destruct (GoogleSearchTool.global_search_counter self) as [g0|].
  - unfold GlobalSearchCounter.try_increment.
    destruct (Z.geb_spec (count g0) (limit g0)) as [Hfull|Hroom]; cbn [negb].
    + split; [|split; [|split]].
      * intros g [= <-] _. unfold GlobalSearchCounter.get_remaining,
          GlobalSearchCounter.get_count.
        replace (Z.max 0 (limit g0 - count g0)) with 0 by lia. reflexivity.
      * intros g [= <-] Hlt. lia.
      * exists O. split; [lia|]. left. reflexivity.
      * discriminate.
    + pose proof (run_spec rt api self query
                    (Some (GoogleSearchTool.budget_info
                             (GlobalSearchCounter.get_count
                                {| limit := limit g0; count := count g0 + 1 |})
                             (limit {| limit := limit g0; count := count g0 + 1 |})
                             (GlobalSearchCounter.get_remaining
                                {| limit := limit g0; count := count g0 + 1 |}))))
        as [Hposts Hraise].
      destruct (GoogleSearchTool.run rt api self query _) as [r requests].
      cbn [fst snd] in *. split; [|split; [|split]].
      * intros g [= <-] Hle. lia.
      * intros g [= <-] _. reflexivity.
      * exact Hposts.
      * exact Hraise.
  - pose proof (run_spec rt api self query None) as [Hposts Hraise].
    destruct (GoogleSearchTool.run rt api self query None) as [r requests].
    cbn [fst snd] in *. split; [|split; [|split]].
    + discriminate.
    + discriminate.
    + exact Hposts.
    + exact Hraise.
Qed.

Lemma X28_search_budget_and_attempts_witness :
  let out := GoogleSearchTool.forward Sample.runtime SampleTools.api
               SampleTools.search_tool "moons of Mars" in
  out.1.2 = Some {| limit := 1; count := 1 |} /\
  out.2 = repeat (GoogleSearchTool.Post "moons of Mars") 3.
Proof.
  cbv zeta.
  destruct (X28_search_budget_and_attempts Sample.runtime SampleTools.api
              SampleTools.search_tool "moons of Mars") as (_ & Hroom & _ & _).
  split.
  - apply (Hroom (GlobalSearchCounter.__init__ 1)); [reflexivity|vm_compute; reflexivity].
  - vm_compute. reflexivity.
Defined.

(* --------------------------------------------------------------------- *)
(** ** The table tool                                                     *)
(* --------------------------------------------------------------------- *)

Section TableToolFacts.
Lemma after_prefix_app (p s : string) : Text.after_prefix p (p +:+ s) = s.
Proof.
  induction p as [|a p IH]; [destruct s; reflexivity|].
  change (String a p +:+ s) with (String a (p +:+ s)). exact IH.
Qed.

Lemma prefix_app (p s : string) : String.prefix p (p +:+ s) = true.
Proof. apply prefix_spec. exists s. reflexivity. Qed.

Lemma truthy_nonempty (s : string) : s <> ""%string -> truthy (PStr s) = true.
Proof.
  intros Hs. cbn [truthy]. destruct (String.eqb_spec s ""); [contradiction|reflexivity].
Qed.

Lemma create_table_counter_step sr mongo self table_name column_names g :
  self.(DBTableCodeToolInterface.create_table_counter) = Some g ->
  DBTableCodeToolInterface.forward_create_table sr mongo self table_name column_names =
    if count g >=? limit g
    then (Ok (DBTableCodeToolInterface.not_allowed_message (limit g) (count g)),
          Some g, [])
    else
      let out := DBTableCodeTool.create_table sr mongo
                   self.(DBTableCodeToolInterface.mode) table_name
                   (DBTableCodeToolInterface.parse_columns sr column_names)
                   self.(DBTableCodeToolInterface.task_id) in
      (out.1, Some {| limit := limit g; count := count g + 1 |}, out.2).
Proof.
  intros Hcounter. unfold DBTableCodeToolInterface.forward_create_table.
  rewrite Hcounter. unfold GlobalCreateTableCounter.try_increment.
  destruct (count g >=? limit g); cbn [negb]; [reflexivity|].
  cbv zeta. destruct (DBTableCodeTool.create_table _ _ _ _ _ _). reflexivity.
Qed.
End TableToolFacts.

(** X29. Every [create_table] request that reaches the governor is
    charged. On a full counter the request is refused with the message
    that names the limit and the count, and the database is not called.
    With room the request is counted before anything is checked: also a
    request that is turned down for the mode, the table name or the
    missing columns, without a database call, uses up one unit. So with
    the default limit of one, whatever became of the first request, every
    later one is refused. *)
Theorem X29_create_table_is_charged (sr : StrRuntime) (mongo : Mongo)
    (self : DBTableCodeToolInterface.t) (table_name column_names : option string)
    (g : Counter)
    (Hcounter : self.(DBTableCodeToolInterface.create_table_counter) = Some g) :
  let out := DBTableCodeToolInterface.forward_create_table sr mongo self
               table_name column_names in
  (limit g <= count g ->
   out = (Ok (DBTableCodeToolInterface.not_allowed_message (limit g) (count g)),
          Some g, [])) /\
  (count g < limit g ->
   out.1.2 = Some {| limit := limit g; count := count g + 1 |} /\
   (DBTableCodeTool._check_permission self.(DBTableCodeToolInterface.mode)
      "create_table" = false \/
    DBTableCodeTool._validate_table_name
      (DBTableCodeTool.prefixed_table_name self.(DBTableCodeToolInterface.task_id)
         table_name) = false \/
    DBTableCodeToolInterface.parse_columns sr column_names = [] ->
    out.2 = [] /\ exists message, out.1.1 = Ok message)) /\
  (g = GlobalCreateTableCounter.__init__ GlobalCreateTableCounter.default_limit ->
   forall table_name' column_names',
     DBTableCodeToolInterface.forward_create_table sr mongo
       (DBTableCodeToolInterface.with_counter self out.1.2) table_name' column_names'
     = (Ok (DBTableCodeToolInterface.not_allowed_message 1 1),
        Some {| limit := 1; count := 1 |}, [])).
Proof.
  cbv zeta. rewrite (create_table_counter_step sr mongo self _ _ g Hcounter).
  split; [|split].
  - intros Hfull. destruct (Z.geb_spec (count g) (limit g)); [reflexivity|lia].
  - intros Hroom. destruct (Z.geb_spec (count g) (limit g)); [lia|].
    cbv zeta. cbn [fst snd]. split; [reflexivity|].
    intros Hturned. unfold DBTableCodeTool.create_table. cbv zeta.
    destruct (DBTableCodeTool._check_permission _ _); cbn [negb]; [|eauto].
    destruct (DBTableCodeTool._validate_table_name _); cbn [negb]; [|eauto].
    destruct (DBTableCodeToolInterface.parse_columns sr column_names); [eauto|].
    destruct Hturned as [H1|[H2|H3]]; [discriminate H1|discriminate H2|discriminate H3].
  - intros -> table_name' column_names'.
    cbn [GlobalCreateTableCounter.__init__ GlobalCreateTableCounter.default_limit
         limit count].
    destruct (Z.geb_spec 0 1); [lia|]. cbv zeta. cbn [fst snd].
    rewrite (create_table_counter_step sr mongo _ _ _ {| limit := 1; count := 0 + 1 |})
      by reflexivity.
    reflexivity.
Qed.

Lemma X29_create_table_is_charged_witness :
  let first := DBTableCodeToolInterface.forward_create_table SampleTools.str_runtime
                 SampleTools.mongo SampleTools.table_tool
                 (Some "moons of mars"%string) (Some "name, radius"%string) in
  first.2 = [] /\
  first.1.2 = Some {| limit := 1; count := 1 |} /\
  (DBTableCodeToolInterface.forward_create_table SampleTools.str_runtime
     SampleTools.mongo
     (DBTableCodeToolInterface.with_counter SampleTools.table_tool first.1.2)
     (Some "moons"%string) (Some "name, radius"%string)).2 = [].
Proof.
  cbv zeta.
  destruct (X29_create_table_is_charged SampleTools.str_runtime SampleTools.mongo
              SampleTools.table_tool (Some "moons of mars"%string)
              (Some "name, radius"%string)
              (GlobalCreateTableCounter.__init__ GlobalCreateTableCounter.default_limit)
              eq_refl) as (_ & Hroom & Hsecond).
  destruct (Hroom ltac:(vm_compute; reflexivity)) as [Hcount Hturned].
  destruct Hturned as [Hnone _]; [right; left; vm_compute; reflexivity|].
  split; [exact Hnone|]. split; [exact Hcount|].
  rewrite (Hsecond eq_refl (Some "moons"%string) (Some "name, radius"%string)).
  reflexivity.
Defined.

(** X30. The names of the collections. For a task id and a table name
    that are not empty, [create_table] stores the table in the collection
    named task id, underscore, table name, and the record operations (by
    [_get_collection_name]) address a collection whose name starts with
    the task id and an underscore; applying [_get_collection_name] again
    changes nothing, so they accept the full name of a created table too.
    For a table name that does not itself start with the task id and an
    underscore both names are the same. For one that does, [create_table]
    adds the prefix once more while the record operations do not: they
    then address another collection than the one created. A created
    collection whose name passes [_validate_table_name] is one that
    [get_tables_for_task] reads for that task id, under the table name
    given. *)
Theorem X30_collection_names (self : DBTableCodeToolInterface.t) (name : string)
    (Htask : self.(DBTableCodeToolInterface.task_id) <> ""%string)
    (Hname : name <> ""%string) :
  let task := self.(DBTableCodeToolInterface.task_id) in
  let created := DBTableCodeTool.prefixed_table_name task (Some name) in
  let addressed := DBTableCodeToolInterface._get_collection_name self (Some name) in
  created = Some (task +:+ "_" +:+ name) /\
  (exists full,
     addressed = Some full /\ String.prefix (task +:+ "_") full = true /\
     DBTableCodeToolInterface._get_collection_name self (Some full) = Some full) /\
  DBTableCodeToolInterface._get_collection_name self (Some (task +:+ "_" +:+ name))
    = Some (task +:+ "_" +:+ name) /\
  (String.prefix (task +:+ "_") name = false -> addressed = created) /\
  (String.prefix (task +:+ "_") name = true ->
   addressed = Some name /\ addressed <> created) /\
  (DBTableCodeTool._validate_table_name created = true ->
   forall c, Some c.(coll_name) = created ->
     read_for (task +:+ "_") c = true /\
     Text.after_prefix (task +:+ "_") c.(coll_name) = name).
Proof.
  cbv zeta.
  set (task := DBTableCodeToolInterface.task_id self) in *.
  assert (Hfull : task +:+ "_" +:+ name = (task +:+ "_") +:+ name)
    by (symmetry; apply append_assoc).
  assert (Hprefixed : String.prefix (task +:+ "_") (task +:+ "_" +:+ name) = true)
    by (rewrite Hfull; apply prefix_app).
  assert (Hlong : task +:+ "_" +:+ name <> ""%string).
  { destruct task; [contradiction|discriminate]. }
  assert (Hget : forall s, s <> ""%string ->
            DBTableCodeToolInterface._get_collection_name self (Some s) =
              if String.prefix (task +:+ "_") s then Some s
              else Some (task +:+ "_" +:+ s)).
  { intros s Hs. unfold DBTableCodeToolInterface._get_collection_name. fold task.
    destruct (String.eqb_spec s ""); [contradiction|].
    rewrite (truthy_nonempty task Htask). cbn [andb].
    destruct (String.prefix (task +:+ "_") s); reflexivity. }
  assert (Hcreated : DBTableCodeTool.prefixed_table_name task (Some name)
                     = Some (task +:+ "_" +:+ name)).
  { unfold DBTableCodeTool.prefixed_table_name.
    rewrite (truthy_nonempty task Htask). reflexivity. }
  split; [exact Hcreated|]. split; [|split; [|split; [|split]]].
  - rewrite (Hget name Hname).
    destruct (String.prefix (task +:+ "_") name) eqn:Hp.
    + exists name. split; [reflexivity|]. split; [exact Hp|].
      rewrite (Hget name Hname), Hp. reflexivity.
    + exists (task +:+ "_" +:+ name). split; [reflexivity|]. split; [exact Hprefixed|].
      rewrite (Hget _ Hlong), Hprefixed. reflexivity.
  - rewrite (Hget _ Hlong), Hprefixed. reflexivity.
  - intros Hp. rewrite (Hget name Hname), Hp, Hcreated. reflexivity.
  - intros Hp. rewrite (Hget name Hname), Hp, Hcreated. split; [reflexivity|].
    intros [= Heq]. apply (f_equal String.length) in Heq.
    rewrite !string_length_app in Heq. cbn [String.length] in Heq. lia.
  - rewrite Hcreated. intros Hvalid c [= Hc]. rewrite Hc.
    unfold DBTableCodeTool._validate_table_name in Hvalid.
    destruct (String.eqb (task +:+ "_" +:+ name) ""); [discriminate|].
    destruct (String.prefix "_" (task +:+ "_" +:+ name)) eqn:Hunder;
      [discriminate|].
    destruct (String.prefix "system." (task +:+ "_" +:+ name)) eqn:Hsys;
      [discriminate|].
    split.
    + unfold read_for. rewrite Hc, Hsys, Hprefixed.
      destruct (String.eqb_spec (task +:+ "_" +:+ name) "_metadata") as [Heq|_];
        [|reflexivity].
      rewrite Heq in Hunder. discriminate Hunder.
    + rewrite Hfull. apply after_prefix_app.
Qed.

Lemma X30_collection_names_witness :
  DBTableCodeTool.prefixed_table_name "ws_001" (Some "ws_001_moons"%string)
    = Some "ws_001_ws_001_moons"%string /\
  DBTableCodeToolInterface._get_collection_name SampleTools.table_tool
    (Some "ws_001_moons"%string) = Some "ws_001_moons"%string /\
  read_for "ws_001_" SampleRecovery.moons = true.
Proof.
  destruct (X30_collection_names SampleTools.table_tool "ws_001_moons"
              ltac:(discriminate) ltac:(discriminate))
    as (Hcreated & _ & _ & _ & Hdouble & _).
  destruct (X30_collection_names SampleTools.table_tool "moons"
              ltac:(discriminate) ltac:(discriminate))
    as (_ & _ & _ & _ & _ & Hread).
  split; [exact Hcreated|].
  split; [apply Hdouble; reflexivity|].
  apply (Hread ltac:(vm_compute; reflexivity) SampleRecovery.moons). reflexivity.
Defined.
